(** * CUL/clib/rf_receive.c: pulse demodulator and frame decoders

    A shallow embedding of the receiver of [rf_receive.c]: the bucket ring,
    the bit cursor ([addbit], [delbit]), the protocol decoders, the decode
    task [RfAnalyze_Task] and the two interrupt handlers, followed by the
    properties of the receiver specification that are checked against it.

    Conventions.
    - A [uint8_t] is a [Z] in [0, 256); every C operation that can leave
      that range is followed by its wrap-around ([u8], [u16], [u32]).
    - A C array is a [list Z]; [rd] and [wr] index it with a [Z].
    - A pointer [bucket_t *b] is the index of the bucket in [bucket_array].
    - The module-level variables of the C file are the fields of [globals];
      every C function is a function on [globals]. *)

From stdpp Require Import base list.
From Stdlib Require Import ZArith Lia Bool.

Local Open Scope Z_scope.

(** ** Machine integers *)

Definition u8 (x : Z) : Z := x mod 256.
Definition u16 (x : Z) : Z := x mod 65536.
Definition u32 (x : Z) : Z := x mod 4294967296.

(** [_BV(n)] of avr-libc: [1 << n]. *)
Definition _BV (n : Z) : Z := Z.shiftl 1 n.

(** C truth value of a byte. *)
Definition nz (x : Z) : bool := negb (x =? 0).
Definition b2z (b : bool) : Z := if b then 1 else 0.

(** [parity_even_bit(val)] of avr-libc <util/parity.h>: 1 if [val] has an
    odd number of bits set, 0 otherwise. *)
Definition parity_even_bit (v : Z) : Z :=
  b2z (fold_right xorb false (map (Z.testbit v) [0; 1; 2; 3; 4; 5; 6; 7])).

(** Array read and write.  A read outside the list yields 0 and a write
    outside it is dropped; the places where the C code can index outside
    an array are treated explicitly ([data_store]). *)
Definition rd (l : list Z) (i : Z) : Z :=
  if i <? 0 then 0 else default 0 (l !! Z.to_nat i).
Definition wr (l : list Z) (i v : Z) : list Z :=
  if i <? 0 then l else <[Z.to_nat i := v]> l.

(** ** Build configuration

    [board.h], [rf_receive.h], [fht.h], [rf_router.h] and [clock.h] are not
    part of the source tree: the feature switches and constants they define
    are the fields of [board]. *)
Class board := {
  HAS_IT : bool;
  HAS_TCM97001 : bool;
  HAS_REVOLT : bool;
  HAS_ESA : bool;
  GIRA_MODE : bool;
  HAS_TX3 : bool;
  HAS_HOERMANN : bool;
  LONG_PULSE : bool;
  HAS_RF_ROUTER : bool;
  HAS_FHT_80b : bool;
  HAS_FASTRF : bool;
  HAS_LCD : bool;
  NO_RF_DEBUG : bool;
  MAXMSG : Z;
  RCV_BUCKETS : Z;
  TWRAP : Z;
  REPTIME : Z;
  TYPE_EM : Z;
  TYPE_HMS : Z;
  TYPE_FHT : Z;
  TYPE_FS20 : Z;
  TYPE_KS300 : Z;
  TYPE_HRM : Z;
  TYPE_ESA : Z;
  TYPE_TX3 : Z;
  TYPE_TCM97001 : Z;
  TYPE_REVOLT : Z;
  TYPE_IT : Z;
  REP_KNOWN : Z;
  REP_REPEATED : Z;
  REP_BITS : Z;
  REP_MONITOR : Z;
  REP_BINTIME : Z;
  REP_RSSI : Z;
  REP_FHTPROTO : Z;
  REP_LCDMON : Z;
  FHT_ACK : Z;
  FHT_ACK2 : Z;
  FHT_CAN_XMIT : Z;
  FHT_CAN_RCV : Z;
  FHT_START_XMIT : Z;
  FHT_END_XMIT : Z;
  RF_ROUTER_SYNC_RCVD : Z;
  RF_ROUTER_DATA_WAIT : Z;
  RF_ROUTER_GOT_DATA : Z
}.

(** ** Constants of rf_receive.c *)

Definition TSCALE (x : Z) : Z := x / 16.
Definition TDIFF : Z := TSCALE 200.
Definition TDIFFIT : Z := TSCALE 350.
Definition SILENCE : Z := 4000.

Definition STATE_RESET : Z := 0.
Definition STATE_INIT : Z := 1.
Definition STATE_SYNC : Z := 2.
Definition STATE_COLLECT : Z := 3.
Definition STATE_HMS : Z := 4.
Definition STATE_ESA : Z := 5.
Definition STATE_REVOLT : Z := 6.
Definition STATE_IT : Z := 7.
Definition STATE_TCM97001 : Z := 8.
Definition STATE_ITV3 : Z := 9.

(** [OCIE1A] and [OCF1A] are both bit 1 of their registers. *)
Definition OCIE1A : Z := 1.
Definition OCF1A : Z := 1.

(** ** Data model *)

Record wave_t := mk_wave { hightime : Z; lowtime : Z }.

Record bucket_t := mk_bucket {
  state : Z;
  byteidx : Z;
  sync : Z;
  bitidx : Z;
  data : list Z;
  zero : wave_t;
  one : wave_t
}.

Record packetCheckValues_t := mk_pcv {
  isrep : bool;
  isnotrep : bool;
  packageOK : bool
}.

(** What the receiver hands to its collaborators: the calls on the
    character sink of display.h ([DC], [DH2], [DH], [DU], [DNL], [DS_P]),
    [lcd_txmon] and [fht_hook]. *)
Inductive out_t :=
| DC (c : Z)
| DH2 (b : Z)
| DH (v n : Z)
| DU (v n : Z)
| DNL
| DS_P (s : list Z)
| lcd_txmon (h l : Z)
| fht_hook (buf : list Z).

(** The module-level variables.  [g_hightime] and [g_lowtime] are the
    file-scope [hightime] and [lowtime] (the names are taken by the fields
    of [wave_t]); [TCNT1], [OCR1A], [TIMSK1], [TIFR1] are the registers of
    timer 1; [fastrf_on] and [rf_router_status] belong to fastrf.c and
    rf_router.c and are written by the edge interrupt; [display] collects
    the output in the order it is produced. *)
Record globals := mk_globals {
  tx_report : Z;
  bucket_array : list bucket_t;
  bucket_in : Z;
  bucket_out : Z;
  bucket_nrused : Z;
  oby : Z;
  obuf : list Z;
  nibble : Z;
  roby : Z;
  robuf : list Z;
  reptime : Z;
  g_hightime : Z;
  g_lowtime : Z;
  packetCheckValues : packetCheckValues_t;
  TCNT1 : Z;
  OCR1A : Z;
  TIMSK1 : Z;
  TIFR1 : Z;
  fastrf_on : Z;
  rf_router_status : Z;
  display : list out_t
}.

(** What the handlers read from their collaborators at one activation. *)
Record env := mk_env {
  ticks : Z;               (* clock.h: volatile uint32_t ticks *)
  rssi_reg : Z;            (* cc1100_readReg(CC1100_RSSI) *)
  timer_count : Z;         (* TCNT1 when the edge interrupt is entered *)
  pin_high : bool;         (* bit_is_set(CC1100_IN_PORT, CC1100_IN_PIN) *)
  rf_router_myid : Z;
  rf_router_target : Z;
  fht_hc0 : Z
}.

(** *** Field updates *)

Definition set_hightime (v : Z) (w : wave_t) : wave_t := mk_wave v (lowtime w).
Definition set_lowtime (v : Z) (w : wave_t) : wave_t := mk_wave (hightime w) v.

Definition set_state (v : Z) (b : bucket_t) : bucket_t :=
  mk_bucket v (byteidx b) (sync b) (bitidx b) (data b) (zero b) (one b).
Definition set_byteidx (v : Z) (b : bucket_t) : bucket_t :=
  mk_bucket (state b) v (sync b) (bitidx b) (data b) (zero b) (one b).
Definition set_sync (v : Z) (b : bucket_t) : bucket_t :=
  mk_bucket (state b) (byteidx b) v (bitidx b) (data b) (zero b) (one b).
Definition set_bitidx (v : Z) (b : bucket_t) : bucket_t :=
  mk_bucket (state b) (byteidx b) (sync b) v (data b) (zero b) (one b).
Definition set_data (v : list Z) (b : bucket_t) : bucket_t :=
  mk_bucket (state b) (byteidx b) (sync b) (bitidx b) v (zero b) (one b).
Definition set_zero (v : wave_t) (b : bucket_t) : bucket_t :=
  mk_bucket (state b) (byteidx b) (sync b) (bitidx b) (data b) v (one b).
Definition set_one (v : wave_t) (b : bucket_t) : bucket_t :=
  mk_bucket (state b) (byteidx b) (sync b) (bitidx b) (data b) (zero b) v.

Definition set_isrep (v : bool) (p : packetCheckValues_t) := mk_pcv v (isnotrep p) (packageOK p).
Definition set_isnotrep (v : bool) (p : packetCheckValues_t) := mk_pcv (isrep p) v (packageOK p).
Definition set_packageOK (v : bool) (p : packetCheckValues_t) := mk_pcv (isrep p) (isnotrep p) v.

Definition set_tx_report (v : Z) (g : globals) : globals :=
  mk_globals
    v (bucket_array g) (bucket_in g) (bucket_out g) (bucket_nrused g) (oby g)
    (obuf g) (nibble g) (roby g) (robuf g) (reptime g) (g_hightime g)
    (g_lowtime g) (packetCheckValues g) (TCNT1 g) (OCR1A g) (TIMSK1 g)
    (TIFR1 g) (fastrf_on g) (rf_router_status g) (display g).
Definition set_bucket_array (v : list bucket_t) (g : globals) : globals :=
  mk_globals
    (tx_report g) v (bucket_in g) (bucket_out g) (bucket_nrused g) (oby g)
    (obuf g) (nibble g) (roby g) (robuf g) (reptime g) (g_hightime g)
    (g_lowtime g) (packetCheckValues g) (TCNT1 g) (OCR1A g) (TIMSK1 g)
    (TIFR1 g) (fastrf_on g) (rf_router_status g) (display g).
Definition set_bucket_in (v : Z) (g : globals) : globals :=
  mk_globals
    (tx_report g) (bucket_array g) v (bucket_out g) (bucket_nrused g) (oby g)
    (obuf g) (nibble g) (roby g) (robuf g) (reptime g) (g_hightime g)
    (g_lowtime g) (packetCheckValues g) (TCNT1 g) (OCR1A g) (TIMSK1 g)
    (TIFR1 g) (fastrf_on g) (rf_router_status g) (display g).
Definition set_bucket_out (v : Z) (g : globals) : globals :=
  mk_globals
    (tx_report g) (bucket_array g) (bucket_in g) v (bucket_nrused g) (oby g)
    (obuf g) (nibble g) (roby g) (robuf g) (reptime g) (g_hightime g)
    (g_lowtime g) (packetCheckValues g) (TCNT1 g) (OCR1A g) (TIMSK1 g)
    (TIFR1 g) (fastrf_on g) (rf_router_status g) (display g).
Definition set_bucket_nrused (v : Z) (g : globals) : globals :=
  mk_globals
    (tx_report g) (bucket_array g) (bucket_in g) (bucket_out g) v (oby g)
    (obuf g) (nibble g) (roby g) (robuf g) (reptime g) (g_hightime g)
    (g_lowtime g) (packetCheckValues g) (TCNT1 g) (OCR1A g) (TIMSK1 g)
    (TIFR1 g) (fastrf_on g) (rf_router_status g) (display g).
Definition set_oby (v : Z) (g : globals) : globals :=
  mk_globals
    (tx_report g) (bucket_array g) (bucket_in g) (bucket_out g)
    (bucket_nrused g) v (obuf g) (nibble g) (roby g) (robuf g) (reptime g)
    (g_hightime g) (g_lowtime g) (packetCheckValues g) (TCNT1 g) (OCR1A g)
    (TIMSK1 g) (TIFR1 g) (fastrf_on g) (rf_router_status g) (display g).
Definition set_obuf (v : list Z) (g : globals) : globals :=
  mk_globals
    (tx_report g) (bucket_array g) (bucket_in g) (bucket_out g)
    (bucket_nrused g) (oby g) v (nibble g) (roby g) (robuf g) (reptime g)
    (g_hightime g) (g_lowtime g) (packetCheckValues g) (TCNT1 g) (OCR1A g)
    (TIMSK1 g) (TIFR1 g) (fastrf_on g) (rf_router_status g) (display g).
Definition set_nibble (v : Z) (g : globals) : globals :=
  mk_globals
    (tx_report g) (bucket_array g) (bucket_in g) (bucket_out g)
    (bucket_nrused g) (oby g) (obuf g) v (roby g) (robuf g) (reptime g)
    (g_hightime g) (g_lowtime g) (packetCheckValues g) (TCNT1 g) (OCR1A g)
    (TIMSK1 g) (TIFR1 g) (fastrf_on g) (rf_router_status g) (display g).
Definition set_roby (v : Z) (g : globals) : globals :=
  mk_globals
    (tx_report g) (bucket_array g) (bucket_in g) (bucket_out g)
    (bucket_nrused g) (oby g) (obuf g) (nibble g) v (robuf g) (reptime g)
    (g_hightime g) (g_lowtime g) (packetCheckValues g) (TCNT1 g) (OCR1A g)
    (TIMSK1 g) (TIFR1 g) (fastrf_on g) (rf_router_status g) (display g).
Definition set_robuf (v : list Z) (g : globals) : globals :=
  mk_globals
    (tx_report g) (bucket_array g) (bucket_in g) (bucket_out g)
    (bucket_nrused g) (oby g) (obuf g) (nibble g) (roby g) v (reptime g)
    (g_hightime g) (g_lowtime g) (packetCheckValues g) (TCNT1 g) (OCR1A g)
    (TIMSK1 g) (TIFR1 g) (fastrf_on g) (rf_router_status g) (display g).
Definition set_reptime (v : Z) (g : globals) : globals :=
  mk_globals
    (tx_report g) (bucket_array g) (bucket_in g) (bucket_out g)
    (bucket_nrused g) (oby g) (obuf g) (nibble g) (roby g) (robuf g) v
    (g_hightime g) (g_lowtime g) (packetCheckValues g) (TCNT1 g) (OCR1A g)
    (TIMSK1 g) (TIFR1 g) (fastrf_on g) (rf_router_status g) (display g).
Definition set_g_hightime (v : Z) (g : globals) : globals :=
  mk_globals
    (tx_report g) (bucket_array g) (bucket_in g) (bucket_out g)
    (bucket_nrused g) (oby g) (obuf g) (nibble g) (roby g) (robuf g)
    (reptime g) v (g_lowtime g) (packetCheckValues g) (TCNT1 g) (OCR1A g)
    (TIMSK1 g) (TIFR1 g) (fastrf_on g) (rf_router_status g) (display g).
Definition set_g_lowtime (v : Z) (g : globals) : globals :=
  mk_globals
    (tx_report g) (bucket_array g) (bucket_in g) (bucket_out g)
    (bucket_nrused g) (oby g) (obuf g) (nibble g) (roby g) (robuf g)
    (reptime g) (g_hightime g) v (packetCheckValues g) (TCNT1 g) (OCR1A g)
    (TIMSK1 g) (TIFR1 g) (fastrf_on g) (rf_router_status g) (display g).
Definition set_packetCheckValues (v : packetCheckValues_t) (g : globals) : globals :=
  mk_globals
    (tx_report g) (bucket_array g) (bucket_in g) (bucket_out g)
    (bucket_nrused g) (oby g) (obuf g) (nibble g) (roby g) (robuf g)
    (reptime g) (g_hightime g) (g_lowtime g) v (TCNT1 g) (OCR1A g) (TIMSK1 g)
    (TIFR1 g) (fastrf_on g) (rf_router_status g) (display g).
Definition set_TCNT1 (v : Z) (g : globals) : globals :=
  mk_globals
    (tx_report g) (bucket_array g) (bucket_in g) (bucket_out g)
    (bucket_nrused g) (oby g) (obuf g) (nibble g) (roby g) (robuf g)
    (reptime g) (g_hightime g) (g_lowtime g) (packetCheckValues g) v (OCR1A g)
    (TIMSK1 g) (TIFR1 g) (fastrf_on g) (rf_router_status g) (display g).
Definition set_OCR1A (v : Z) (g : globals) : globals :=
  mk_globals
    (tx_report g) (bucket_array g) (bucket_in g) (bucket_out g)
    (bucket_nrused g) (oby g) (obuf g) (nibble g) (roby g) (robuf g)
    (reptime g) (g_hightime g) (g_lowtime g) (packetCheckValues g) (TCNT1 g) v
    (TIMSK1 g) (TIFR1 g) (fastrf_on g) (rf_router_status g) (display g).
Definition set_TIMSK1 (v : Z) (g : globals) : globals :=
  mk_globals
    (tx_report g) (bucket_array g) (bucket_in g) (bucket_out g)
    (bucket_nrused g) (oby g) (obuf g) (nibble g) (roby g) (robuf g)
    (reptime g) (g_hightime g) (g_lowtime g) (packetCheckValues g) (TCNT1 g)
    (OCR1A g) v (TIFR1 g) (fastrf_on g) (rf_router_status g) (display g).
Definition set_TIFR1 (v : Z) (g : globals) : globals :=
  mk_globals
    (tx_report g) (bucket_array g) (bucket_in g) (bucket_out g)
    (bucket_nrused g) (oby g) (obuf g) (nibble g) (roby g) (robuf g)
    (reptime g) (g_hightime g) (g_lowtime g) (packetCheckValues g) (TCNT1 g)
    (OCR1A g) (TIMSK1 g) v (fastrf_on g) (rf_router_status g) (display g).
Definition set_fastrf_on (v : Z) (g : globals) : globals :=
  mk_globals
    (tx_report g) (bucket_array g) (bucket_in g) (bucket_out g)
    (bucket_nrused g) (oby g) (obuf g) (nibble g) (roby g) (robuf g)
    (reptime g) (g_hightime g) (g_lowtime g) (packetCheckValues g) (TCNT1 g)
    (OCR1A g) (TIMSK1 g) (TIFR1 g) v (rf_router_status g) (display g).
Definition set_rf_router_status (v : Z) (g : globals) : globals :=
  mk_globals
    (tx_report g) (bucket_array g) (bucket_in g) (bucket_out g)
    (bucket_nrused g) (oby g) (obuf g) (nibble g) (roby g) (robuf g)
    (reptime g) (g_hightime g) (g_lowtime g) (packetCheckValues g) (TCNT1 g)
    (OCR1A g) (TIMSK1 g) (TIFR1 g) (fastrf_on g) v (display g).
Definition set_display (v : list out_t) (g : globals) : globals :=
  mk_globals
    (tx_report g) (bucket_array g) (bucket_in g) (bucket_out g)
    (bucket_nrused g) (oby g) (obuf g) (nibble g) (roby g) (robuf g)
    (reptime g) (g_hightime g) (g_lowtime g) (packetCheckValues g) (TCNT1 g)
    (OCR1A g) (TIMSK1 g) (TIFR1 g) (fastrf_on g) (rf_router_status g) v.

(** One call on the character sink. *)
Definition emit (o : out_t) (g : globals) : globals :=
  set_display (display g ++ [o]) g.

(** The all-zero bucket, as in zero-initialised static storage. *)
Definition bucket0 `{board} : bucket_t :=
  mk_bucket 0 0 0 0 (replicate (Z.to_nat MAXMSG) 0) (mk_wave 0 0) (mk_wave 0 0).

(** [bucket_array[i]] and its update. *)
Definition bucket_at `{board} (g : globals) (i : Z) : bucket_t :=
  default bucket0 (bucket_array g !! Z.to_nat i).
Definition with_bucket (i : Z) (f : bucket_t → bucket_t) (g : globals) : globals :=
  set_bucket_array (alter f (Z.to_nat i) (bucket_array g)) g.

(** ** Control flow: counted loops with early [return] *)

Inductive ctl (S : Type) : Type :=
| Continue (s : S)
| Return (v : Z) (s : S).
Arguments Continue {S} s.
Arguments Return {S} v s.

(** [n] rounds of [body]; a [Return] leaves the loop and the function. *)
Fixpoint for_loop {S : Type} (n : nat) (body : S → ctl S) (s : S) : ctl S :=
  match n with
  | O => Continue s
  | S n' =>
      match body s with
      | Continue s' => for_loop n' body s'
      | Return v s' => Return v s'
      end
  end.

Section Receiver.
Context `{B : board}.

(** ** Bit cursor *)

(** [reset_input]. *)
Definition reset_input (g : globals) : globals :=
  let g := set_TIMSK1 0 g in
  let g := with_bucket (bucket_in g) (set_state STATE_RESET) g in
  if HAS_IT || HAS_TCM97001
  then set_packetCheckValues (set_isnotrep false (packetCheckValues g)) g
  else g.

(** A store [b->data[i] = v].  [bucket_t] has only [uint8_t] members, so
    it has no padding and the byte after [data[MAXMSG-1]] is
    [zero.hightime]: that is where a store at index [MAXMSG] lands. *)
Definition data_store (i v : Z) (b : bucket_t) : bucket_t :=
  if i <? MAXMSG then set_data (wr (data b) i v) b
  else if i =? MAXMSG then set_zero (set_hightime v (zero b)) b
  else b.

(** The same store, with the index appended to a log of the indices of
    [data] that have been written. *)
Definition data_store_at (i v : Z) (bs : bucket_t * list Z) : bucket_t * list Z :=
  (data_store i v bs.1, bs.2 ++ [i]).

(** The body of [addbit] below its overflow check: the bucket after the
    call and the indices of [data] it stored to, in order. *)
Definition addbit_body (bit : Z) (b : bucket_t) : bucket_t * list Z :=
  let s1 :=
    if nz bit
    then data_store_at (byteidx b)
           (u8 (Z.lor (rd (data b) (byteidx b)) (_BV (bitidx b)))) (b, [])
    else (b, []) in
  if bitidx b =? 0
  then (* next byte *)
    let b2 := set_byteidx (u8 (byteidx b + 1)) (set_bitidx 7 s1.1) in
    data_store_at (byteidx b2) 0 (b2, s1.2)
  else (set_bitidx (bitidx b - 1) s1.1, s1.2).

(** [addbit(b, bit)], [b] being [bucket_array + i]. *)
Definition addbit (i : Z) (bit : Z) (g : globals) : globals :=
  if MAXMSG <=? byteidx (bucket_at g i)
  then reset_input g
  else with_bucket i (λ b, (addbit_body bit b).1) g.

(** The indices of [data] one call of [addbit] stores to. *)
Definition addbit_stores (bit : Z) (b : bucket_t) : list Z :=
  if MAXMSG <=? byteidx b then [] else (addbit_body bit b).2.

(** [delbit(b)]. *)
Definition delbit_body (b : bucket_t) : bucket_t :=
  if bitidx b =? 7
  then (* prev byte *)
    set_byteidx (u8 (byteidx b - 1)) (set_bitidx 0 b)
  else set_bitidx (u8 (bitidx b + 1)) b.

Definition delbit (i : Z) (g : globals) : globals :=
  with_bucket i delbit_body g.

(** ** Pulse comparison *)

(** [wave_equals(a, htime, ltime, state)]; the two times are [uint8_t]
    parameters, the differences are computed in [int16_t]. *)
Definition wave_equals (a : wave_t) (htime ltime state : Z) : Z :=
  let htime := u8 htime in
  let ltime := u8 ltime in
  let tdiffVal := if HAS_IT && (state =? STATE_IT) then TDIFFIT else TDIFF in
  let dlow := lowtime a - ltime in
  let dhigh := hightime a - htime in
  let dcomplete := (lowtime a + hightime a) - (ltime + htime) in
  if (dlow <? tdiffVal) && (- tdiffVal <? dlow) &&
     (dhigh <? tdiffVal) && (- tdiffVal <? dhigh) &&
     (dcomplete <? tdiffVal) && (- tdiffVal <? dcomplete)
  then 1 else 0.

(** [wave_equals_itV3(htime, ltime)]. *)
Definition wave_equals_itV3 (htime ltime : Z) : Z :=
  if u8 htime <? u8 ltime - TDIFF then 1 else 0.

(** [makeavg(i, j)]. *)
Definition makeavg (i j : Z) : Z :=
  let i := u8 i in
  let j := u8 j in
  u8 ((i + i + i + j) / 4).

(** [check_rf_sync(l, s)]. *)
Definition check_rf_sync (l s : Z) : Z :=
  let l := u8 l in
  let s := u8 s in
  b2z ((37 <=? l) && (l <=? 59) && (10 <=? s) && (s <=? 38) && (s <? l)).

(** ** Checksums *)

(** [cksum1(s, buf, len)]: FS20 / FHT. *)
Fixpoint cksum1_loop (len : nat) (s : Z) (buf : list Z) : Z :=
  match len with
  | O => s
  | S len' => cksum1_loop len' (u8 (s + rd buf (Z.of_nat len'))) buf
  end.
Definition cksum1 (s : Z) (buf : list Z) (len : Z) : Z :=
  cksum1_loop (Z.to_nat len) s buf.

(** [cksum2(buf, len)]: EM. *)
Fixpoint cksum2_loop (len : nat) (s : Z) (buf : list Z) : Z :=
  match len with
  | O => s
  | S len' => cksum2_loop len' (Z.lxor s (rd buf (Z.of_nat len'))) buf
  end.
Definition cksum2 (buf : list Z) (len : Z) : Z :=
  cksum2_loop (Z.to_nat len) 0 buf.

(** [cksum3(buf, len)]: KS300; reads the file-scope [nibble]. *)
Fixpoint cksum3_loop (len : nat) (nibble : Z) (buf : list Z) (xyc : Z * Z * Z) : Z * Z * Z :=
  match len with
  | O => xyc
  | S len' =>
      let '(x, y, cnt) := xyc in
      let d := rd buf (Z.of_nat len') in
      let x := Z.lxor x (Z.shiftr d 4) in
      let y := u8 (y + Z.shiftr d 4) in
      let '(x, y) :=
        if negb (nz nibble) || nz cnt
        then (Z.lxor x (Z.land d 15), u8 (y + Z.land d 15))
        else (x, y) in
      cksum3_loop len' nibble buf (x, y, u8 (cnt + 1))
  end.
Definition cksum3 (g : globals) (buf : list Z) (len : Z) : Z :=
  let '(x, y, _) := cksum3_loop (Z.to_nat len) (nibble g) buf (0, 5, 0) in
  let y := u8 (y + x) in
  u8 (Z.lor (Z.shiftl y 4) x).

(** ** The FS20 / EM / KS300 bit-stream reader *)

(** One round of the [while] loop of [analyze(b, t)].  The loop state is
    the locals [iby], [ibi], [obi] and the globals ([oby], [obuf] and
    [nibble] are file-scope). *)
Definition analyze_body (b : bucket_t) (t : Z) (s : Z * Z * Z * globals)
  : ctl (Z * Z * Z * globals) :=
  let '(iby, ibi, obi, g) := s in
  let bit := b2z (nz (Z.land (rd (data b) iby) (_BV ibi))) in     (* Input bit *)
  let '(iby, ibi) := if ibi =? 0 then (u8 (iby + 1), 7) else (iby, ibi - 1) in
  if (t =? TYPE_KS300) && (obi =? 3) && negb (nz (nibble g))
  then (* nibble check *)
    if negb (nz bit) then Return 0 (iby, ibi, obi, g)
    else Continue (iby, ibi, obi, set_nibble 1 g)
  else
    let g :=
      if (t =? TYPE_KS300) && (obi =? 3)
      then set_nibble (b2z (negb (nz (nibble g)))) g else g in
    if obi =? -1
    then (* next byte *)
      if (t =? TYPE_FS20) && negb (parity_even_bit (rd (obuf g) (oby g)) =? bit)
      then Return 0 (iby, ibi, obi, g)
      else if ((t =? TYPE_EM) || (t =? TYPE_KS300)) && negb (nz bit)
      then Return 0 (iby, ibi, obi, g)
      else
        let g := set_oby (u8 (oby g + 1)) g in
        let g := set_obuf (wr (obuf g) (oby g) 0) g in
        Continue (iby, ibi, 7, g)
    else (* Normal bits *)
      let g :=
        if nz bit then
          let g :=
            if t =? TYPE_FS20
            then set_obuf (wr (obuf g) (oby g)
                   (u8 (Z.lor (rd (obuf g) (oby g)) (_BV obi)))) g
            else g in
          if (t =? TYPE_EM) || (t =? TYPE_KS300)                 (* LSB *)
          then set_obuf (wr (obuf g) (oby g)
                 (u8 (Z.lor (rd (obuf g) (oby g)) (_BV (7 - obi))))) g
          else g
        else g in
      Continue (iby, ibi, obi - 1, g).

(** [analyze(b, t)].  [cnt] and [max] are [uint8_t]: the loop runs [max]
    rounds and leaves [cnt] at [max + 1] modulo 256. *)
Definition analyze (b : bucket_t) (t : Z) (g : globals) : Z * globals :=
  let g := set_nibble 0 g in
  let g := set_oby 0 g in
  let max := u8 (byteidx b * 8 + (7 - bitidx b)) in
  let g := set_obuf (wr (obuf g) 0 0) g in
  match for_loop (Z.to_nat max) (analyze_body b t) (0, 7, 7, g) with
  | Return v (_, _, _, g) => (v, g)
  | Continue (_, _, obi, g) =>
      let cnt := u8 (max + 1) in
      if cnt <=? max then (0, g)
      else
        let g :=
          if (t =? TYPE_EM) && (obi =? -1)        (* missing last stopbit *)
          then set_oby (u8 (oby g + 1)) g
          else if nz (nibble g)                    (* half byte msg *)
          then set_oby (u8 (oby g + 1)) g
          else g in
        if oby g =? 0 then (0, g) else (1, g)
  end.

(** ** The bit reader of the HMS, ESA and TX3 decoders *)

Record input_t := mk_input { in_data : list Z; in_byte : Z; in_bit : Z }.

(** [getbit(in)]. *)
Definition getbit (i : input_t) : Z * input_t :=
  let bit := b2z (nz (Z.land (rd (in_data i) (in_byte i)) (_BV (in_bit i)))) in
  if in_bit i =? 0
  then (bit, mk_input (in_data i) (u8 (in_byte i + 1)) 7)
  else (bit, mk_input (in_data i) (in_byte i) (in_bit i - 1)).

(** [getbits(in, nbits, msb)]: [n] rounds are left, [i] is the loop index. *)
Fixpoint getbits_loop (n : nat) (i nbits msb ret : Z) (inp : input_t) : Z * input_t :=
  match n with
  | O => (ret, inp)
  | S n' =>
      let '(bit, inp) := getbit inp in
      let ret :=
        if nz bit
        then u8 (Z.lor ret (_BV (if nz msb then nbits - i - 1 else i)))
        else ret in
      getbits_loop n' (i + 1) nbits msb ret inp
  end.
Definition getbits (inp : input_t) (nbits msb : Z) : Z * input_t :=
  getbits_loop (Z.to_nat nbits) 0 nbits msb 0 inp.

(** ** HMS *)

Definition analyze_hms_body (s : input_t * Z * globals) : ctl (input_t * Z * globals) :=
  let '(inp, crc, g) := s in
  let '(v, inp) := getbits inp 8 0 in
  let g := set_obuf (wr (obuf g) (oby g) v) g in
  let '(p, inp) := getbit inp in
  if negb (parity_even_bit (rd (obuf g) (oby g)) =? p) then Return 0 (inp, crc, g)
  else
    let '(stop, inp) := getbit inp in
    if nz stop then Return 0 (inp, crc, g)
    else
      let crc := Z.lxor crc (rd (obuf g) (oby g)) in
      Continue (inp, crc, set_oby (u8 (oby g + 1)) g).

(** [analyze_hms(b)]. *)
Definition analyze_hms (b : bucket_t) (g : globals) : Z * globals :=
  let inp := mk_input (data b) 0 7 in
  let g := set_oby 0 g in
  if byteidx b * 8 + (7 - bitidx b) <? 69 then (0, g)
  else
    match for_loop 6 analyze_hms_body (inp, 0, set_oby 0 g) with
    | Return v (_, _, g) => (v, g)
    | Continue (inp, crc, g) =>
        (* Read crc *)
        let '(CRC, inp) := getbits inp 8 0 in
        let '(p, inp) := getbit inp in
        if negb (parity_even_bit CRC =? p) then (0, g)
        else if negb (crc =? CRC) then (0, g)
        else (1, g)
    end.

(** ** ESA *)

Definition ESA_BITLEN : Z := if GIRA_MODE then 160 else 144.
Definition ESA_DATALEN : Z := if GIRA_MODE then 17 else 15.
Definition ESA_CRC : Z := if GIRA_MODE then 0xee11 else 0xf00f.

Definition analyze_esa_body (s : input_t * Z * Z * globals)
  : ctl (input_t * Z * Z * globals) :=
  let '(inp, salt, crc, g) := s in
  let '(byte, inp) := getbits inp 8 1 in
  let crc := u16 (crc + byte) in
  let g := set_obuf (wr (obuf g) (oby g) (Z.lxor byte salt)) g in
  let salt := u8 (byte + 0x24) in
  Continue (inp, salt, crc, set_oby (u8 (oby g + 1)) g).

(** [analyze_esa(b)]; [crc] is a [uint16_t]. *)
Definition analyze_esa (b : bucket_t) (g : globals) : Z * globals :=
  let inp := mk_input (data b) 0 7 in
  if negb (state b =? STATE_ESA) then (0, g)
  else if negb (byteidx b * 8 + (7 - bitidx b) =? ESA_BITLEN) then (0, g)
  else
    match for_loop (Z.to_nat ESA_DATALEN) analyze_esa_body
            (inp, 0x89, ESA_CRC, set_oby 0 g) with
    | Return v (_, _, _, g) => (v, g)
    | Continue (inp, salt, crc, g) =>
        let '(v, inp) := getbits inp 8 1 in
        let g := set_obuf (wr (obuf g) (oby g) v) g in
        let crc := u16 (crc + rd (obuf g) (oby g)) in
        let g := set_obuf (wr (obuf g) (oby g) (Z.lxor (rd (obuf g) (oby g)) 0xff)) g in
        let g := set_oby (u8 (oby g + 1)) g in
        let '(hi, inp) := getbits inp 8 1 in
        let crc := u16 (crc - Z.shiftl hi 8) in
        let '(lo, inp) := getbits inp 8 1 in
        let crc := u16 (crc - lo) in
        if nz crc then (0, g) else (1, g)
    end.

(** ** TX3 *)

Definition analyze_TX3_body (s : input_t * Z * globals) : ctl (input_t * Z * globals) :=
  let '(inp, crc, g) := s in
  let '(n, inp) :=
    if oby g =? 0
    then let '(v, inp) := getbits inp 7 1 in (Z.lor 0x80 v, inp)
    else getbits inp 8 1 in
  let crc := u8 (crc + Z.shiftr n 4 + Z.land n 0xf) in
  let g := set_obuf (wr (obuf g) (oby g) n) g in
  Continue (inp, crc, set_oby (u8 (oby g + 1)) g).

(** [analyze_TX3(b)]. *)
Definition analyze_TX3 (b : bucket_t) (g : globals) : Z * globals :=
  let inp := mk_input (data b) 0 7 in
  if negb (byteidx b =? 4) || negb (bitidx b =? 1) then (0, g)
  else
    match for_loop 4 analyze_TX3_body (inp, 0, set_oby 0 g) with
    | Return v (_, _, g) => (v, g)
    | Continue (inp, crc, g) =>
        let '(v, inp) := getbits inp 7 1 in
        let g := set_obuf (wr (obuf g) (oby g) (u8 (Z.shiftl v 1))) g in
        let crc := Z.land (u8 (crc + Z.shiftr (rd (obuf g) (oby g)) 4)) 0xF in
        let g := set_oby (u8 (oby g + 1)) g in
        if negb (Z.shiftr crc 4 =? 0) || negb (Z.shiftr (rd (obuf g) 0) 4 =? 0xA)
        then (0, g)
        else (1, g)
    end.

(** ** IT, TCM97001, Revolt: byte copies *)

(** [for (oby = 0; oby < n; oby++) obuf[oby] = b->data[oby];] *)
Definition copy_body (b : bucket_t) (g : globals) : ctl globals :=
  let g := set_obuf (wr (obuf g) (oby g) (rd (data b) (oby g))) g in
  Continue (set_oby (u8 (oby g + 1)) g).

Definition copy_data (b : bucket_t) (n : Z) (g : globals) : globals :=
  match for_loop (Z.to_nat n) (copy_body b) (set_oby 0 g) with
  | Continue g => g
  | Return _ g => g
  end.

(** [analyze_it(b)]. *)
Definition analyze_it (b : bucket_t) (g : globals) : Z * globals :=
  if (negb (state b =? STATE_IT) || negb (byteidx b =? 3) || negb (bitidx b =? 7))
     && (negb (state b =? STATE_ITV3) || negb (byteidx b =? 8) || negb (bitidx b =? 7))
  then (0, g)
  else (1, copy_data b (byteidx b) g).

(** [analyze_tcm97001(b)]. *)
Definition analyze_tcm97001 (b : bucket_t) (g : globals) : Z * globals :=
  if negb (byteidx b =? 3) || negb (bitidx b =? 7) || negb (state b =? STATE_TCM97001)
  then (0, g)
  else (1, copy_data b (byteidx b) g).

Definition analyze_revolt_body (b : bucket_t) (s : Z * globals) : ctl (Z * globals) :=
  let '(sum, g) := s in
  let sum := u8 (sum + rd (data b) (oby g)) in
  let g := set_obuf (wr (obuf g) (oby g) (rd (data b) (oby g))) g in
  Continue (sum, set_oby (u8 (oby g + 1)) g).

(** [analyze_revolt(b)]. *)
Definition analyze_revolt (b : bucket_t) (g : globals) : Z * globals :=
  if negb (byteidx b =? 12) || negb (state b =? STATE_REVOLT) || negb (bitidx b =? 0)
  then (0, g)
  else
    match for_loop 11 (analyze_revolt_body b) (0, set_oby 0 g) with
    | Return v (_, g) => (v, g)
    | Continue (sum, g) =>
        if negb (sum =? rd (data b) 11) then (0, g) else (1, g)
    end.

(** ** The decode task: ordered dispatch *)

(** Each block of the dispatch of [RfAnalyze_Task] maps the pair of the
    local [datatype] and the globals.  [i] is the bucket [b] points to.
    [!datatype && analyze_x(b)] does not call the decoder when [datatype]
    is already set. *)
Definition dstate : Type := Z * globals.

Definition try_it (i : Z) (s : dstate) : dstate :=
  let '(datatype, g) := s in
  let b := bucket_at g i in
  if (state b =? STATE_IT) || (state b =? STATE_ITV3) then
    if nz datatype then s
    else
      let '(r, g) := analyze_it b g in
      if nz r then (TYPE_IT, g) else (datatype, g)
  else s.

Definition try_tcm97001 (i : Z) (s : dstate) : dstate :=
  let '(datatype, g) := s in
  if nz datatype then s
  else
    let '(r, g) := analyze_tcm97001 (bucket_at g i) g in
    if nz r then (TYPE_TCM97001, g) else (datatype, g).

Definition try_revolt (i : Z) (s : dstate) : dstate :=
  let '(datatype, g) := s in
  if nz datatype then s
  else
    let '(r, g) := analyze_revolt (bucket_at g i) g in
    if nz r then (TYPE_REVOLT, g) else (datatype, g).

Definition try_esa (i : Z) (s : dstate) : dstate :=
  let '(datatype, g) := s in
  if nz datatype then s
  else
    let '(r, g) := analyze_esa (bucket_at g i) g in
    if nz r then (TYPE_ESA, g) else (datatype, g).

(** FS20 (also FS10) and FHT share the bit stream and differ in the
    checksum. *)
Definition try_fs20 (i : Z) (s : dstate) : dstate :=
  let '(datatype, g) := s in
  if nz datatype then s
  else
    let '(r, g) := analyze (bucket_at g i) TYPE_FS20 g in
    if nz r then
      let g := set_oby (u8 (oby g - 1)) g in      (* Separate the checksum byte *)
      let fs_csum := cksum1 6 (obuf g) (oby g) in
      if (fs_csum =? rd (obuf g) (oby g)) && (4 <=? oby g) then (TYPE_FS20, g)
      else if (fs_csum + 1 =? rd (obuf g) (oby g)) && (4 <=? oby g)    (* Repeater *)
      then (TYPE_FS20, set_obuf (wr (obuf g) (oby g) fs_csum) g)
      else if (cksum1 12 (obuf g) (oby g) =? rd (obuf g) (oby g)) && (4 <=? oby g)
      then (TYPE_FHT, g)
      else (0, g)
    else (datatype, g).

Definition try_em (i : Z) (s : dstate) : dstate :=
  let '(datatype, g) := s in
  if nz datatype then s
  else
    let '(r, g) := analyze (bucket_at g i) TYPE_EM g in
    if nz r then
      let g := set_oby (u8 (oby g - 1)) g in
      if (oby g =? 9) && (cksum2 (obuf g) (oby g) =? rd (obuf g) (oby g))
      then (TYPE_EM, g) else (datatype, g)
    else (datatype, g).

Definition try_hms (i : Z) (s : dstate) : dstate :=
  let '(datatype, g) := s in
  if nz datatype then s
  else
    let '(r, g) := analyze_hms (bucket_at g i) g in
    if nz r then (TYPE_HMS, g) else (datatype, g).

Definition try_tx3 (i : Z) (s : dstate) : dstate :=
  let '(datatype, g) := s in
  if nz datatype then s
  else
    let '(r, g) := analyze_TX3 (bucket_at g i) g in
    if nz r then (TYPE_TX3, g) else (datatype, g).

(** KS300: as there is no last rise, the last bit is added by hand, and
    taken back when the decode fails. *)
Definition try_ks300 (i : Z) (s : dstate) : dstate :=
  let '(datatype, g) := s in
  if nz datatype then s
  else
    let b := bucket_at g i in
    let g := addbit i (wave_equals (one b) (g_hightime g) (lowtime (one b)) (state b)) g in
    let '(r, g) := analyze (bucket_at g i) TYPE_KS300 g in
    let '(datatype, g) :=
      if nz r then
        let g := set_oby (u8 (oby g - 1)) g in
        if cksum3 g (obuf g) (oby g) =? rd (obuf g) (oby g - nibble g)
        then (TYPE_KS300, g) else (datatype, g)
      else (datatype, g) in
    if nz datatype then (datatype, g) else (datatype, delbit i g).

(** Hoermann: "This protocol is not yet understood. It should be last in
    the row!" *)
Definition try_hoermann (i : Z) (s : dstate) : dstate :=
  let '(datatype, g) := s in
  let b := bucket_at g i in
  if negb (nz datatype) && (byteidx b =? 4) && (bitidx b =? 4) &&
     nz (wave_equals (zero b) (TSCALE 960) (TSCALE 480) (state b))
  then
    let g := addbit i (wave_equals (one b) (g_hightime g) (TSCALE 480) (state b)) g in
    (TYPE_HRM, copy_data (bucket_at g i) 5 g)
  else s.

Definition when (c : bool) (f : dstate → dstate) (s : dstate) : dstate :=
  if c then f s else s.

(** Lines 513 to 591 of [RfAnalyze_Task]: the dispatch, from
    [datatype = 0].  Under [LONG_PULSE] the decoders from ESA on are not
    tried on a Revolt, IT or TCM97001 bucket. *)
Definition dispatch (g : globals) : dstate :=
  let i := bucket_out g in
  let s := (0, g) in
  let s := when HAS_IT (try_it i) s in
  let s := when HAS_TCM97001 (try_tcm97001 i) s in
  let s := when HAS_REVOLT (try_revolt i) s in
  let b := bucket_at s.2 i in
  if LONG_PULSE &&
     negb (negb (state b =? STATE_REVOLT) && negb (state b =? STATE_IT) &&
           negb (state b =? STATE_TCM97001))
  then s
  else
    let s := when HAS_ESA (try_esa i) s in
    let s := try_fs20 i s in
    let s := try_em i s in
    let s := try_hms i s in
    let s := when HAS_TX3 (try_tx3 i) s in
    let s := try_ks300 i s in
    let s := when HAS_HOERMANN (try_hoermann i) s in
    s.

(** ** The decode task: repeat check and output *)

(** [tx_report & bit]. *)
Definition report (g : globals) (bit : Z) : bool := nz (Z.land (tx_report g) bit).

(** The comparison loop of the repeat filter; [Return] is its [break]. *)
Definition compare_body (g : globals) : ctl globals :=
  if negb (rd (robuf g) (roby g) =? rd (obuf g) (roby g))
  then Return 0 (set_packetCheckValues (set_isnotrep false (packetCheckValues g)) g)
  else Continue (set_roby (u8 (roby g + 1)) g).

Definition compare_data (g : globals) : globals :=
  match for_loop (Z.to_nat (oby g)) compare_body (set_roby 0 g) with
  | Continue g => g
  | Return _ g => g
  end.

(** [for (roby = 0; roby < oby; roby++) robuf[roby] = obuf[roby];] *)
Definition save_body (g : globals) : ctl globals :=
  Continue (set_roby (u8 (roby g + 1))
              (set_robuf (wr (robuf g) (roby g) (rd (obuf g) (roby g))) g)).

Definition save_data (g : globals) : globals :=
  match for_loop (Z.to_nat (oby g)) save_body (set_roby 0 g) with
  | Continue g => g
  | Return _ g => g
  end.

(** Lines 595 to 616: [isrep] and [packageOK] are cleared and, unless
    [REP_REPEATED] is set, the payload is compared with the stored one and
    then stored.  [ticks - reptime] is a [uint32_t] difference. *)
Definition filter_repeated (e : env) (g : globals) : globals :=
  let g := set_packetCheckValues (set_isrep false (packetCheckValues g)) g in
  let g := set_packetCheckValues (set_packageOK false (packetCheckValues g)) g in
  if negb (report g REP_REPEATED) then       (* Filter repeated messages *)
    (* compare the data *)
    let g :=
      if roby g =? oby g then
        let g := compare_data g in
        if (roby g =? oby g) && (u32 (ticks e - reptime g) <? REPTIME)
        then set_packetCheckValues (set_isrep true (packetCheckValues g)) g
        else g
      else g in
    (* save the data *)
    let g := save_data g in
    set_reptime (ticks e) g
  else g.

(** Lines 618 to 624: the FHT protocol messages count as repeated. *)
Definition fht_protocol (datatype : Z) (g : globals) : globals :=
  if (datatype =? TYPE_FHT) && negb (report g REP_FHTPROTO) && (4 <? oby g) &&
     ((rd (obuf g) 2 =? FHT_ACK) || (rd (obuf g) 2 =? FHT_ACK2) ||
      (rd (obuf g) 2 =? FHT_CAN_XMIT) || (rd (obuf g) 2 =? FHT_CAN_RCV) ||
      (rd (obuf g) 2 =? FHT_START_XMIT) || (rd (obuf g) 2 =? FHT_END_XMIT) ||
      (Z.land (rd (obuf g) 3) 0x70 =? 0x70))
  then set_packetCheckValues (set_isrep true (packetCheckValues g)) g
  else g.

(** [checkForRepeatedPackage(&datatype, b)]: "When Package is for e.g. IT
    or TCM, than there must be received two packages with the same message.
    Otherwise the package are ignored." *)
Definition checkForRepeatedPackage (datatype : Z) (g : globals) : globals :=
  let p := packetCheckValues g in
  if (HAS_IT || HAS_TCM97001) &&
     ((datatype =? TYPE_IT) || (datatype =? TYPE_TCM97001))
  then
    if isrep p && negb (isnotrep p)
    then set_packetCheckValues (set_packageOK true (set_isnotrep true p)) g
    else if isrep p
    then set_packetCheckValues (set_packageOK false p) g
    else g
  else
    if negb (isrep p)
    then set_packetCheckValues (set_packageOK true p) g
    else g.

(** [for (uint8_t i = 0; i < n; i++) DH2(buf[i]);] *)
Fixpoint hexdump (n : nat) (i : Z) (buf : list Z) (g : globals) : globals :=
  match n with
  | O => g
  | S n' => hexdump n' (u8 (i + 1)) buf (emit (DH2 (rd buf i)) g)
  end.

(** Lines 633 to 644: the frame line. *)
Definition print_frame (e : env) (datatype : Z) (g : globals) : globals :=
  if packageOK (packetCheckValues g) then
    let g := emit (DC datatype) g in
    let g := if nz (nibble g) then set_oby (u8 (oby g - 1)) g else g in
    let g := hexdump (Z.to_nat (oby g)) 0 (obuf g) g in
    let g := if nz (nibble g) then emit (DH (Z.land (rd (obuf g) (oby g)) 0xf) 1) g else g in
    let g := if report g REP_RSSI then emit (DH2 (rssi_reg e)) g else g in
    emit DNL g
  else g.

(** Lines 593 to 646. *)
Definition report_known (e : env) (datatype : Z) (g : globals) : globals :=
  if nz datatype && report g REP_KNOWN then
    let g := filter_repeated e g in
    let g := fht_protocol datatype g in
    let g := checkForRepeatedPackage datatype g in
    let g :=
      if HAS_RF_ROUTER && HAS_FHT_80b &&
         (datatype =? TYPE_FHT) && nz (rf_router_target e) && negb (nz (fht_hc0 e))
      then set_packetCheckValues (set_packageOK false (packetCheckValues g)) g
      else g in
    print_frame e datatype g
  else g.

(** Lines 649 to 672: the [p] line of [REP_BITS]; it moves [byteidx] over
    a partly filled last byte. *)
Definition report_bits (e : env) (i : Z) (g : globals) : globals :=
  if negb NO_RF_DEBUG && report g REP_BITS then
    let b := bucket_at g i in
    let g := emit (DC 112) g in
    let g := emit (DU (state b) 2) g in
    let g := emit (DU (hightime (zero b) * 16) 5) g in
    let g := emit (DU (lowtime (zero b) * 16) 5) g in
    let g := emit (DU (hightime (one b) * 16) 5) g in
    let g := emit (DU (lowtime (one b) * 16) 5) g in
    let g := emit (DU (sync b) 3) g in
    let g := emit (DU (byteidx b) 3) g in
    let g := emit (DU (u16 (7 - bitidx b)) 2) g in
    let g := emit (DC 32) g in
    let g :=
      if report g REP_RSSI
      then emit (DC 32) (emit (DH2 (rssi_reg e)) g) else g in
    let g :=
      if negb (bitidx b =? 7)
      then with_bucket i (λ b, set_byteidx (u8 (byteidx b + 1)) b) g else g in
    let b := bucket_at g i in
    let g := hexdump (Z.to_nat (byteidx b)) 0 (data b) g in
    emit DNL g
  else g.

(** Lines 480 to 503: the per-edge trace. *)
Definition monitor (e : env) (g : globals) : globals :=
  if nz (g_lowtime g) then
    let g :=
      if negb NO_RF_DEBUG then
        let g :=
          if report g REP_LCDMON then
            if HAS_LCD then emit (lcd_txmon (g_hightime g) (g_lowtime g)) g
            else
              let rssi := u8 (rssi_reg e) in                  (* 0..256 *)
              let rssi := if 128 <=? rssi then rssi - 128 else rssi + 128 in  (* Swap *)
              let rssi :=
                if rssi <? 64 then 0                          (* Drop low and high 25% *)
                else if 192 <=? rssi then 15
                else Z.shiftr (rssi - 80) 3 in
              emit (DC (97 + rssi)) g
          else g in
        if report g REP_MONITOR then
          let g := emit (DC 114) g in
          let g := if report g REP_BINTIME then emit (DC (u8 (g_hightime g))) g else g in
          let g := emit (DC 102) g in
          if report g REP_BINTIME then emit (DC (u8 (g_lowtime g))) g else g
        else g
      else g in
    set_g_lowtime 0 g
  else g.

(** [RfAnalyze_Task()].  The LED is not modelled. *)
Definition RfAnalyze_Task (e : env) (g : globals) : globals :=
  let g := monitor e g in
  if bucket_nrused g =? 0 then g
  else
    let i := bucket_out g in
    let '(datatype, g) := dispatch g in
    let g := report_known e datatype g in
    let g := report_bits e i g in
    let g := with_bucket i (set_state STATE_RESET) g in
    let g := set_bucket_nrused (u8 (bucket_nrused g - 1)) g in
    let g := set_bucket_out (u8 (bucket_out g + 1)) g in
    let g := if bucket_out g =? RCV_BUCKETS then set_bucket_out 0 g else g in
    if HAS_FHT_80b && (datatype =? TYPE_FHT)
    then emit (fht_hook (obuf g)) g
    else g.

(** ** The interrupt handlers *)

(** [ISR(TIMER1_COMPA_vect)]: there was no edge for the silence time. *)
Definition TIMER1_COMPA_vect (g : globals) : globals :=
  let g := set_TIMSK1 0 g in                       (* Disable "us" *)
  let g :=
    if LONG_PULSE
    then
      let tmp := OCR1A g in
      set_TCNT1 tmp (set_OCR1A TWRAP g)            (* Wrap Timer *)
    else g in
  let g :=
    if negb NO_RF_DEBUG && report g REP_MONITOR then emit (DC 46) g else g in
  let b := bucket_at g (bucket_in g) in
  if (state b <? STATE_COLLECT) || (byteidx b <? 2)
  then reset_input g                               (* false alarm *)
  else if bucket_nrused g + 1 =? RCV_BUCKETS
  then (* each bucket is full: reuse the last *)
    let g :=
      if negb NO_RF_DEBUG && report g REP_BITS
      then emit (DS_P [66; 79; 86; 70; 13; 10]) g  (* "BOVF\r\n" *)
      else g in
    reset_input g
  else
    let g := set_bucket_nrused (u8 (bucket_nrused g + 1)) g in
    let g := set_bucket_in (u8 (bucket_in g + 1)) g in
    if bucket_in g =? RCV_BUCKETS then set_bucket_in 0 g else g.

(** *** The edge interrupt *)

(** The file-scope [hightime], [lowtime] and the local [c] are [uint16_t]
    under [LONG_PULSE] and [uint8_t] otherwise.  In an expression a
    [uint16_t] is an [unsigned int] of 16 bits and wraps ([tarith]); a
    [uint8_t] is promoted to [int] and does not. *)
Definition tw (x : Z) : Z := if LONG_PULSE then u16 x else u8 x.
Definition tarith (x : Z) : Z := if LONG_PULSE then u16 x else x.

Definition is_hms_esa (b : bucket_t) : bool :=
  (state b =? STATE_HMS) || (HAS_ESA && (state b =? STATE_ESA)).

(** [b->byteidx = 0; b->bitidx = 7; b->data[0] = 0;] *)
Definition clear_cursor (b : bucket_t) : bucket_t :=
  data_store 0 0 (set_bitidx 7 (set_byteidx 0 b)).

(** The code at the label [retry_sync]: the first sync bit. *)
Definition retry_sync (i : Z) (g : globals) : globals :=
  let ht := g_hightime g in
  let lt := g_lowtime g in
  if HAS_TCM97001 && (ht <? TSCALE 530) && (TSCALE 420 <? ht) &&
     (lt <? TSCALE 9000) && (TSCALE 8500 <? lt)
  then
    let g := set_OCR1A 4600 g in
    let g := set_TIMSK1 (_BV OCIE1A) g in
    with_bucket i (λ b, clear_cursor (set_state STATE_TCM97001 (set_sync 0 b))) g
  else if HAS_IT && (ht <? TSCALE 600) && (TSCALE 140 <? ht) &&
          (lt <? TSCALE 17000) && (TSCALE 2500 <? lt)
  then
    let g := set_OCR1A SILENCE g in
    let g := set_TIMSK1 (_BV OCIE1A) g in
    with_bucket i (λ b, clear_cursor (set_state STATE_IT (set_sync 0 b))) g
  else if (TSCALE 1600 <? ht) || (TSCALE 1600 <? lt) then g
  else
    with_bucket i
      (λ b, set_state STATE_SYNC (set_sync 1 (set_zero (mk_wave (u8 ht) (u8 lt)) b))) g.

(** The IT block after a rising edge; [Return] leaves the handler. *)
Definition it_sync (i : Z) (g : globals) : ctl globals :=
  let ht := g_hightime g in
  let lt := g_lowtime g in
  let b := bucket_at g i in
  if HAS_IT && ((state b =? STATE_IT) || (state b =? STATE_ITV3)) then
    if TSCALE 3000 <? lt then Return 0 (with_bucket i (set_sync 0) g)
    else if sync b =? 0 then
      if TSCALE 2400 <? lt
      then (* this sould be the start bit for IT V3 *)
        Return 0 (set_TCNT1 0 (with_bucket i (set_state STATE_ITV3) g))
      else if state b =? STATE_ITV3 then
        Continue (with_bucket i (λ b,
          let b := set_sync 1 b in
          let b :=
            if ht <? tarith (lt - 1)
            then set_zero (mk_wave (u8 ht) (u8 lt)) b
            else set_zero (mk_wave (u8 ht) (u8 (ht * 5))) b in
          set_one (mk_wave (u8 ht) (u8 ht)) b) g)
      else
        if lt <? tarith (ht * 2)
        then (* No IT, because times to near *)
          Return 0 (with_bucket i (λ b, set_state STATE_RESET (set_sync 1 b)) g)
        else
          Continue (with_bucket i (λ b,
            set_one (mk_wave (u8 (lt + 1)) (u8 ht))
              (set_zero (mk_wave (u8 ht) (u8 (lt + 1))) (set_sync 1 b))) g)
    else Continue g
  else Continue g.

(** The TCM97001 block after a rising edge. *)
Definition tcm97001_sync (i : Z) (g : globals) : globals :=
  let ht := g_hightime g in
  let lt := g_lowtime g in
  let b := bucket_at g i in
  if HAS_TCM97001 && (state b =? STATE_TCM97001) && (sync b =? 0) then
    with_bucket i (λ b,
      let b := set_sync 1 b in
      let b := set_zero (set_hightime (u8 ht) (zero b)) b in
      let b := set_one (set_hightime (u8 ht) (one b)) b in
      let b := set_zero (set_lowtime (u8 lt) (zero b)) b in
      if lt <? 187                                              (* < 3000 *)
      then set_one (set_lowtime (u8 (lowtime (zero b) * 2)) (one b)) b
      else set_one (set_lowtime (lowtime (zero b) / 2) (one b)) b) g
  else g.

(** [addbit(b, bit)] followed by the running average of the template
    [zero] (for a 0) or [one] (for a 1) with the pulse. *)
Definition addbit_avg (i : Z) (bit : Z) (g : globals) : globals :=
  let ht := g_hightime g in
  let lt := g_lowtime g in
  let g := addbit i bit g in
  if nz bit
  then with_bucket i (λ b,
         let b := set_one (set_hightime (makeavg (hightime (one b)) ht) (one b)) b in
         set_one (set_lowtime (makeavg (lowtime (one b)) lt) (one b)) b) g
  else with_bucket i (λ b,
         let b := set_zero (set_hightime (makeavg (hightime (zero b)) ht) (zero b)) b in
         set_zero (set_lowtime (makeavg (lowtime (zero b)) lt) (zero b)) b) g.

(** The end of the sync in [STATE_SYNC]: the one bit after at least four
    zeroes. *)
Definition sync_end (e : env) (i : Z) (g : globals) : globals :=
  let ht := g_hightime g in
  let lt := g_lowtime g in
  let b := bucket_at g i in
  let start (g : globals) : globals :=
    let g := with_bucket i (λ b, clear_cursor (set_one (mk_wave (u8 ht) (u8 lt)) b)) g in
    set_TIMSK1 (_BV OCIE1A) g in                   (* On timeout analyze the data *)
  let g := set_OCR1A SILENCE g in
  if (12 <=? sync b) && (TSCALE 1600 <? hightime (zero b) + lowtime (zero b))
  then start (with_bucket i (set_state STATE_HMS) g)
  else if HAS_ESA && (10 <=? sync b) &&
          (hightime (zero b) + lowtime (zero b) <? TSCALE 600)
  then start (set_OCR1A 1000 (with_bucket i (set_state STATE_ESA) g))
  else if HAS_RF_ROUTER && nz (rf_router_myid e) &&
          nz (check_rf_sync ht lt) &&
          nz (check_rf_sync (lowtime (zero b)) (hightime (zero b)))
  then reset_input (set_rf_router_status RF_ROUTER_SYNC_RCVD g)
  else start (with_bucket i (set_state STATE_COLLECT) g).

(** The state machine on a pulse: the chain of [if (b->state == ...)]. *)
Definition classify (e : env) (i : Z) (g : globals) : globals :=
  let ht := g_hightime g in
  let lt := g_lowtime g in
  let b := bucket_at g i in
  if state b =? STATE_RESET then         (* first sync bit, cannot compare yet *)
    retry_sync i g
  else if state b =? STATE_SYNC then     (* sync: lots of zeroes *)
    if nz (wave_equals (zero b) ht lt (state b)) then
      with_bucket i (λ b,
        let b := set_zero (set_hightime (makeavg (hightime (zero b)) ht) (zero b)) b in
        let b := set_zero (set_lowtime (makeavg (lowtime (zero b)) lt) (zero b)) b in
        set_sync (u8 (sync b + 1)) b) g
    else if 4 <=? sync b then            (* the one bit at the end of the 0-sync *)
      sync_end e i g
    else                                 (* too few sync bits *)
      retry_sync i (with_bucket i (set_state STATE_RESET) g)
  else if HAS_REVOLT && (state b =? STATE_REVOLT) then
    if ht <? 11 then addbit_avg i 0 g else addbit_avg i 1 g
  else if HAS_TCM97001 && (state b =? STATE_TCM97001) then
    if (110 <? lt) && (lt <? 140) then addbit_avg i 0 g
    else if (230 <? lt) && (lt <? 270) then addbit_avg i 1 g
    else g
  else if HAS_IT && (state b =? STATE_ITV3) then
    addbit i (wave_equals_itV3 ht lt) g
  else (* STATE_COLLECT , STATE_IT *)
    if nz (wave_equals (one b) ht lt (state b)) then addbit_avg i 1 g
    else if nz (wave_equals (zero b) ht lt (state b)) then addbit_avg i 0 g
    else if negb (state b =? STATE_IT) then reset_input g
    else g.

(** [ISR(CC1100_INTVECT)]: the "Edge-Detected" interrupt handler. *)
Definition CC1100_INTVECT (e : env) (g : globals) : globals :=
  if HAS_FASTRF && nz (fastrf_on g) then set_fastrf_on 2 g
  else if HAS_RF_ROUTER && (rf_router_status g =? RF_ROUTER_DATA_WAIT)
  then set_rf_router_status RF_ROUTER_GOT_DATA g
  else
    let c := tw (Z.shiftr (timer_count e) 4) in   (* catch the time and make it smaller *)
    let i := bucket_in g in                        (* where to fill in the bit *)
    let b := bucket_at g i in
    if (state b =? STATE_HMS) && (c <? TSCALE 750) then g
    else if (state b =? STATE_HMS) && (TSCALE 1250 <? c) then reset_input g
    else if HAS_ESA && (state b =? STATE_ESA) && (c <? TSCALE 375) then g
    else if HAS_ESA && (state b =? STATE_ESA) && (TSCALE 625 <? c) then reset_input g
    else if negb (pin_high e) then
      (* Falling edge *)
      let g := if is_hms_esa b then set_TCNT1 0 (addbit i 1 g) else g in
      set_g_hightime c g
    else
      let g := set_g_lowtime (tw (c - g_hightime g)) g in
      let g := set_TCNT1 0 g in                    (* restart timer *)
      match it_sync i g with
      | Return _ g => g
      | Continue g =>
          let g := tcm97001_sync i g in
          if is_hms_esa (bucket_at g i) then addbit i 0 g
          else
            let g := set_TIFR1 (_BV OCF1A) g in    (* clear Timers flags *)
            let ht := g_hightime g in
            let lt := g_lowtime g in
            if HAS_REVOLT && (TSCALE 9000 <? ht) && (ht <? TSCALE 12000) &&
               (TSCALE 150 <? lt) && (lt <? TSCALE 540)
            then
              let g := with_bucket i (λ b,
                clear_cursor (set_state STATE_REVOLT (set_sync 1
                  (set_one (mk_wave 19 14) (set_zero (mk_wave 6 14) b))))) g in
              set_TIMSK1 (_BV OCIE1A) (set_OCR1A SILENCE g)
            else classify e i g
      end.

(** [tx_init] and the zero-initialised statics: the state at start-up. *)
Definition globals0 : globals :=
  mk_globals 0 (replicate (Z.to_nat RCV_BUCKETS) bucket0) 0 0 0
    0 (replicate (Z.to_nat MAXMSG) 0) 0
    0 (replicate (Z.to_nat MAXMSG) 0) 0
    0 0 (mk_pcv false false false) 0 0 0 0 0 0 [].

(** ** The system: interrupts and task as atomic steps *)

(** [set_txreport(in)], as far as the receiver sees it: a new value of
    [tx_report]. *)
Definition set_txreport (v : Z) (g : globals) : globals := set_tx_report (u8 v) g.

Inductive event :=
| Edge (e : env)            (* ISR(CC1100_INTVECT) *)
| Silence                   (* ISR(TIMER1_COMPA_vect) *)
| Task (e : env)            (* RfAnalyze_Task() from the main loop *)
| Report (v : Z).           (* set_txreport() from the command line *)

Definition step (ev : event) (g : globals) : globals :=
  match ev with
  | Edge e => CC1100_INTVECT e g
  | Silence => TIMER1_COMPA_vect g
  | Task e => RfAnalyze_Task e g
  | Report v => set_txreport v g
  end.

Definition run (evs : list event) (g : globals) : globals :=
  fold_left (λ g ev, step ev g) evs g.

(** The states the receiver can be in: start-up, then any sequence of
    steps. *)
Inductive reachable : globals → Prop :=
| reachable_start : reachable globals0
| reachable_step ev g : reachable g → reachable (step ev g).

End Receiver.

(** ** A concrete build

    The CUL build with every decoder enabled: the values of rf_receive.h
    (type tags ['E' 'H' 'T' 'F' 'K' 'R' 'S' 't' 's' 'r' 'i'], the bits of
    [tx_report], [REPTIME 38]), of fht.h and of rf_router.h, with
    [MAXMSG 20] (ESA messages) and four buckets. *)
Definition cul : board := {|
  HAS_IT := true;
  HAS_TCM97001 := true;
  HAS_REVOLT := true;
  HAS_ESA := true;
  GIRA_MODE := false;
  HAS_TX3 := true;
  HAS_HOERMANN := true;
  LONG_PULSE := true;
  HAS_RF_ROUTER := true;
  HAS_FHT_80b := true;
  HAS_FASTRF := true;
  HAS_LCD := false;
  NO_RF_DEBUG := false;
  MAXMSG := 20;
  RCV_BUCKETS := 4;
  TWRAP := 20000;
  REPTIME := 38;
  TYPE_EM := 69;
  TYPE_HMS := 72;
  TYPE_FHT := 84;
  TYPE_FS20 := 70;
  TYPE_KS300 := 75;
  TYPE_HRM := 82;
  TYPE_ESA := 83;
  TYPE_TX3 := 116;
  TYPE_TCM97001 := 115;
  TYPE_REVOLT := 114;
  TYPE_IT := 105;
  REP_KNOWN := 1;
  REP_REPEATED := 2;
  REP_BITS := 4;
  REP_MONITOR := 8;
  REP_BINTIME := 16;
  REP_RSSI := 32;
  REP_FHTPROTO := 64;
  REP_LCDMON := 128;
  FHT_ACK := 0x4B;
  FHT_ACK2 := 0x69;
  FHT_CAN_XMIT := 0x53;
  FHT_CAN_RCV := 0x54;
  FHT_START_XMIT := 0x7D;
  FHT_END_XMIT := 0x7E;
  RF_ROUTER_SYNC_RCVD := 1;
  RF_ROUTER_DATA_WAIT := 2;
  RF_ROUTER_GOT_DATA := 3
|}.

(** ** Definitions used by the statements *)

(** The state a loop or a function ends in, however it is left. *)
Definition ctl_state {S : Type} (c : ctl S) : S :=
  match c with Continue s => s | Return _ s => s end.

(** Everything but the scratchpad of the decoders ([oby], [obuf],
    [nibble]). *)
Definition scratch_frame (g : globals) :=
  (tx_report g, bucket_array g, bucket_in g, bucket_out g, bucket_nrused g,
   roby g, robuf g, reptime g, g_hightime g, g_lowtime g,
   packetCheckValues g, (TCNT1 g, OCR1A g, TIMSK1 g, TIFR1 g),
   fastrf_on g, rf_router_status g, display g).

(** *** Pulse streams

    A pulse of high time [h] and low time [l] (scaled) reaches the
    receiver as a falling edge with the timer at [16 * h] and a rising edge
    with the timer at [16 * (h + l)]. *)
Definition quiet (t : Z) : env := mk_env t 0 0 false 0 0 0.
Definition falling (h : Z) : event := Edge (mk_env 0 0 (16 * h) false 0 0 0).
Definition rising (hl : Z) : event := Edge (mk_env 0 0 (16 * hl) true 0 0 0).
Definition pulse (p : Z * Z) : list event := [falling p.1; rising (p.1 + p.2)].
Definition pulses (ps : list (Z * Z)) : list event := concat (map pulse ps).

Section Statements.
Context `{B : board}.

(** *** KS300: the speculative last bit (C9) *)

(** The bit the KS300 attempt appends: does [one] match
    [(hightime, one.lowtime)]? *)
Definition ks300_last_bit (g : globals) (b : bucket_t) : Z :=
  wave_equals (one b) (g_hightime g) (lowtime (one b)) (state b).

(** C9 as it is stated: after a failed KS300 attempt the cursor and the
    data of the bucket are what they were before it. *)
Definition ks300_retracts_all (i : Z) (g : globals) : Prop :=
  let r := try_ks300 i (0, g) in
  r.1 = 0 →
  byteidx (bucket_at r.2 i) = byteidx (bucket_at g i) ∧
  bitidx (bucket_at r.2 i) = bitidx (bucket_at g i) ∧
  data (bucket_at r.2 i) = data (bucket_at g i).

(** The data after a bit has been appended at the cursor: the bit is or-ed
    into the current byte and, when that byte is complete, the next byte of
    the array is cleared. *)
Definition data_with_bit (bit : Z) (b : bucket_t) : list Z :=
  let d :=
    if nz bit
    then wr (data b) (byteidx b) (u8 (Z.lor (rd (data b) (byteidx b)) (_BV (bitidx b))))
    else data b in
  if (bitidx b =? 0) && (byteidx b + 1 <? MAXMSG) then wr d (byteidx b + 1) 0 else d.

(** Number of bits in a bucket. *)
Definition bitcount (b : bucket_t) : Z := byteidx b * 8 + (7 - bitidx b).

End Statements.

(** What the dispatch leaves alone: it writes the scratchpad, and through
    [addbit], [delbit] and [reset_input] the buckets, [TIMSK1] and
    [isnotrep]. *)
Definition ring_frame (g : globals) :=
  (tx_report g, bucket_in g, bucket_out g, bucket_nrused g,
   roby g, robuf g, reptime g, g_hightime g, g_lowtime g, display g,
   length (bucket_array g)).

(** The ring counters and the report mask: only [TIMER1_COMPA_vect],
    the end of [RfAnalyze_Task] and [set_txreport] write them. *)
Definition counters (g : globals) :=
  (tx_report g, bucket_in g, bucket_out g, bucket_nrused g,
   length (bucket_array g)).

Section Ring.
Context `{B : board}.

(** *** The silence interrupt (C2) and the ring (C8) *)

(** "The bucket carries at least 2 bytes and its state is past COLLECT",
    as the handler tests it: [byteidx >= 2] and [state >= STATE_COLLECT]. *)
Definition carries_frame (b : bucket_t) : bool :=
  (2 <=? byteidx b) && (STATE_COLLECT <=? state b).

(** The bucket has been handed to the decode task. *)
Definition published (g g' : globals) : Prop :=
  bucket_nrused g' = bucket_nrused g + 1 ∧
  bucket_in g' = (bucket_in g + 1) mod RCV_BUCKETS.

(** C2 as it is stated. *)
Definition silence_publishes_iff_frame (g : globals) : Prop :=
  published g (TIMER1_COMPA_vect g) ↔
  carries_frame (bucket_at g (bucket_in g)) = true.

(** C8: the bound on the ring occupancy. *)
Definition ring_bounded (g : globals) : Prop :=
  0 <= bucket_nrused g <= RCV_BUCKETS.

End Ring.

Section Repeats.
Context `{B : board}.

(** *** The repeat filter (C5) and the IT / TCM97001 rule (C4) *)

(** The payload in [obuf] has the length and the bytes of the stored
    one. *)
Definition same_payload (g : globals) : Prop :=
  roby g = oby g ∧ ∀ k, 0 <= k < oby g → rd (robuf g) k = rd (obuf g) k.

(** [(ticks - reptime) < REPTIME], in [uint32_t]. *)
Definition within_reptime (e : env) (g : globals) : Prop :=
  u32 (ticks e - reptime g) < REPTIME.

(** The frame line: the type tag, the [oby] bytes of [obuf] in hex, the
    RSSI if asked for, and the newline.  When [nibble] is nonzero the last of
    the [oby] bytes is printed as one hex digit, its low nibble; the flag is
    tested whatever the type of the frame. *)
Definition frame_line (e : env) (datatype : Z) (g : globals) : list out_t :=
  let n := if nz (nibble g) then u8 (oby g - 1) else oby g in
  [DC datatype] ++ map (λ k, DH2 (rd (obuf g) k)) (seqZ 0 n) ++
  (if nz (nibble g) then [DH (Z.land (rd (obuf g) n) 0xf) 1] else []) ++
  (if report g REP_RSSI then [DH2 (rssi_reg e)] else []) ++ [DNL].

(** What the loops and the filter leave alone. *)
Definition filter_frame (g : globals) :=
  (tx_report g, oby g, obuf g, nibble g, display g, counters g,
   packageOK (packetCheckValues g), isrep (packetCheckValues g)).

(** The stored payload. *)
Definition repeat_store (g : globals) := (roby g, robuf g, reptime g).

Definition filter_frame_but_isrep (g : globals) :=
  (tx_report g, oby g, obuf g, nibble g, display g, counters g,
   packageOK (packetCheckValues g)).

(** The same payload decoded again: the state [g1] with the scratchpad of
    [g]. *)
Definition decoded_again (g g1 : globals) : globals :=
  set_oby (oby g) (set_obuf (obuf g) g1).

(** C4 as it is stated: a payload arrives at [e1] for the first time and
    is not emitted; the byte-identical payload arrives again at [e2],
    inside the window, and is emitted. *)
Definition confirmed_on_second_arrival (e1 e2 : env) (datatype : Z) (g : globals) : Prop :=
  datatype = TYPE_IT ∨ datatype = TYPE_TCM97001 →
  ¬ (same_payload g ∧ within_reptime e1 g) →
  u32 (ticks e2 - ticks e1) < REPTIME →
  let g1 := report_known e1 datatype g in
  let g2 := report_known e2 datatype (decoded_again g g1) in
  packageOK (packetCheckValues g1) = false ∧
  packageOK (packetCheckValues g2) = true.

End Repeats.

(** *** The bit stream of a bucket (C3, C6, C7)

    [addbit] fills each byte from bit 7 down, so bit number [p] of the
    stream is bit [7 - p mod 8] of [data[p / 8]]. *)
Definition bit_at (d : list Z) (p : Z) : bool :=
  Z.testbit (rd d (p / 8)) (7 - p mod 8).

(** The [n] bits from position [p] on. *)
Fixpoint bits_from (d : list Z) (p : Z) (n : nat) : list bool :=
  match n with
  | O => []
  | S n' => bit_at d p :: bits_from d (p + 1) n'
  end.

(** The number a run of bits stands for, first bit most significant, and
    first bit least significant. *)
Definition msb_first (bs : list bool) : Z :=
  fold_left (λ acc b, 2 * acc + b2z b) bs 0.
Definition lsb_first (bs : list bool) : Z :=
  fold_right (λ b acc, b2z b + 2 * acc) 0 bs.

(** The reader [input_t] standing at bit [p] of the stream. *)
Definition at_pos (d : list Z) (p : Z) : input_t :=
  mk_input d (p / 8) (7 - p mod 8).

(** The accumulation of [getbits] over the bits it reads. *)
Fixpoint assemble (i nbits msb ret : Z) (bs : list bool) : Z :=
  match bs with
  | [] => ret
  | b :: bs' =>
      assemble (i + 1) nbits msb
        (if b then u8 (Z.lor ret (_BV (if nz msb then nbits - i - 1 else i))) else ret)
        bs'
  end.

(** *** HMS frames (C3) *)

Definition xor_bytes (l : list Z) : Z := fold_left Z.lxor l 0.

(** What [analyze_hms] accepts.  A byte takes ten bits of the stream:
    eight data bits, first bit least significant, the parity bit and a stop
    bit.  Six bytes are followed by the check byte and its parity bit. *)
Definition hms_byte (d : list Z) (k : Z) : Z :=
  lsb_first (bits_from d (10 * k) 8).
Definition hms_parity_ok (d : list Z) (k : Z) : bool :=
  parity_even_bit (hms_byte d k) =? b2z (bit_at d (10 * k + 8)).
Definition hms_stop (d : list Z) (k : Z) : bool := bit_at d (10 * k + 9).
Definition hms_payload (d : list Z) : list Z := map (hms_byte d) [0; 1; 2; 3; 4; 5].
Definition hms_frame (d : list Z) : bool :=
  forallb (λ k, hms_parity_ok d k && negb (hms_stop d k)) [0; 1; 2; 3; 4; 5] &&
  hms_parity_ok d 6 &&
  (xor_bytes (hms_payload d) =? hms_byte d 6).

(** C3 as it is stated: the bytes are assembled first bit most
    significant, and the stop bit of a byte is 1. *)
Definition hms_byte_msb (d : list Z) (k : Z) : Z :=
  msb_first (bits_from d (10 * k) 8).
Definition hms_parity_ok_msb (d : list Z) (k : Z) : bool :=
  parity_even_bit (hms_byte_msb d k) =? b2z (bit_at d (10 * k + 8)).
Definition hms_payload_msb (d : list Z) : list Z :=
  map (hms_byte_msb d) [0; 1; 2; 3; 4; 5].
Definition hms_frame_as_stated (d : list Z) : bool :=
  forallb (λ k, hms_parity_ok_msb d k && hms_stop d k) [0; 1; 2; 3; 4; 5] &&
  hms_parity_ok_msb d 6 &&
  (xor_bytes (hms_payload_msb d) =? hms_byte_msb d 6).
Definition hms_as_stated (b : bucket_t) (g : globals) : Prop :=
  69 <= bitcount b →
  ((analyze_hms b g).1 = 1 ↔ hms_frame_as_stated (data b) = true) ∧
  ((analyze_hms b g).1 = 1 →
   firstn 6 (obuf (analyze_hms b g).2) = hms_payload_msb (data b)).

Section ESA.
Context `{B : board}.

(** *** ESA frames (C6) *)

(** Byte [k] of the stream, read first bit most significant. *)
Definition esa_byte (d : list Z) (k : Z) : Z := msb_first (bits_from d (8 * k) 8).

(** The descrambler in the words of the specification: for each payload
    byte [b], add [b] to [crc], output [b XOR salt], and set [salt] to
    [b + 0x24].  The result is the output and the sum. *)
Fixpoint esa_descramble (salt crc : Z) (bs : list Z) : list Z * Z :=
  match bs with
  | [] => ([], crc)
  | b :: bs' =>
      let '(out, crc') := esa_descramble (u8 (b + 0x24)) (crc + b) bs' in
      (Z.lxor b salt :: out, crc')
  end.

Definition esa_payload (d : list Z) : list Z :=
  map (esa_byte d) (seqZ 0 ESA_DATALEN).

(** The descrambled payload, then the next byte [XOR 0xFF]. *)
Definition esa_output (d : list Z) : list Z :=
  (esa_descramble 0x89 ESA_CRC (esa_payload d)).1
  ++ [Z.lxor (esa_byte d ESA_DATALEN) 0xFF].

(** The sum over the payload from the build constant, plus the next byte,
    minus the last two bytes as a big-endian 16 bit value; in 16 bits. *)
Definition esa_crc (d : list Z) : Z :=
  ((esa_descramble 0x89 ESA_CRC (esa_payload d)).2 + esa_byte d ESA_DATALEN
   - (256 * esa_byte d (ESA_DATALEN + 1) + esa_byte d (ESA_DATALEN + 2)))
  mod 65536.

Definition esa_frame (b : bucket_t) : Prop :=
  state b = STATE_ESA ∧ bitcount b = ESA_BITLEN ∧ esa_crc (data b) = 0.

End ESA.

(** *** TX3 frames (C7) *)

(** The five bytes: seven bits under a leading 1, three whole bytes, and
    seven bits above a trailing 0; all first bit most significant. *)
Definition tx3_byte (d : list Z) (k : Z) : Z :=
  if k =? 0 then Z.lor 0x80 (msb_first (bits_from d 0 7))
  else if k =? 4 then 2 * msb_first (bits_from d 31 7)
  else msb_first (bits_from d (8 * k - 1) 8).
Definition tx3_output (d : list Z) : list Z := map (tx3_byte d) [0; 1; 2; 3; 4].

(** The sum of the nibbles: both nibbles of the first four bytes and the
    high nibble of the fifth. *)
Definition tx3_nibble_sum (d : list Z) : Z :=
  fold_right Z.add 0
    (map (λ k, Z.shiftr (tx3_byte d k) 4 + Z.land (tx3_byte d k) 0xf) [0; 1; 2; 3])
  + Z.shiftr (tx3_byte d 4) 4.

(** The test the decoder makes on the sum: reduced to its low nibble, it
    has nothing above the low nibble. *)
Definition tx3_nibble_check (d : list Z) : Prop :=
  Z.shiftr (Z.land (tx3_nibble_sum d) 0xF) 4 = 0.

Definition tx3_frame (b : bucket_t) : Prop :=
  byteidx b = 4 ∧ bitidx b = 1 ∧
  Z.shiftr (tx3_byte (data b) 0) 4 = 0xA ∧
  tx3_nibble_check (data b).

(** *** The dispatch as a first success (C1) *)

Inductive decoder :=
  | Dec_IT | Dec_TCM97001 | Dec_Revolt | Dec_ESA | Dec_FS20 | Dec_EM
  | Dec_HMS | Dec_TX3 | Dec_KS300 | Dec_Hoermann.

Section Order.
Context `{B : board}.

(** The fixed order. *)
Definition dispatch_order : list decoder :=
  [Dec_IT; Dec_TCM97001; Dec_Revolt; Dec_ESA; Dec_FS20; Dec_EM;
   Dec_HMS; Dec_TX3; Dec_KS300; Dec_Hoermann].

(** The block of [RfAnalyze_Task] of each decoder. *)
Definition attempt (d : decoder) (i : Z) : dstate → dstate :=
  match d with
  | Dec_IT => try_it i
  | Dec_TCM97001 => try_tcm97001 i
  | Dec_Revolt => try_revolt i
  | Dec_ESA => try_esa i
  | Dec_FS20 => try_fs20 i
  | Dec_EM => try_em i
  | Dec_HMS => try_hms i
  | Dec_TX3 => try_tx3 i
  | Dec_KS300 => try_ks300 i
  | Dec_Hoermann => try_hoermann i
  end.

(** The type tags a decoder can assign. *)
Definition tags (d : decoder) : list Z :=
  match d with
  | Dec_IT => [TYPE_IT]
  | Dec_TCM97001 => [TYPE_TCM97001]
  | Dec_Revolt => [TYPE_REVOLT]
  | Dec_ESA => [TYPE_ESA]
  | Dec_FS20 => [TYPE_FS20; TYPE_FHT]
  | Dec_EM => [TYPE_EM]
  | Dec_HMS => [TYPE_HMS]
  | Dec_TX3 => [TYPE_TX3]
  | Dec_KS300 => [TYPE_KS300]
  | Dec_Hoermann => [TYPE_HRM]
  end.

(** A decoder succeeds on bucket [i], called with the globals [g]: its
    function returns nonzero; for FS20, EM and KS300, whose blocks call
    [analyze] and test the check sum themselves, the frame has also the
    length and the check sum of the type; for Hoermann, which has no
    function, the bucket has the shape tested. *)
Definition succeeds (d : decoder) (i : Z) (g : globals) : bool :=
  let b := bucket_at g i in
  match d with
  | Dec_IT => nz (analyze_it b g).1
  | Dec_TCM97001 => nz (analyze_tcm97001 b g).1
  | Dec_Revolt => nz (analyze_revolt b g).1
  | Dec_ESA => nz (analyze_esa b g).1
  | Dec_FS20 =>
      let r := analyze b TYPE_FS20 g in
      let n := u8 (oby r.2 - 1) in
      let c := rd (obuf r.2) n in
      nz r.1 && (4 <=? n) &&
      ((cksum1 6 (obuf r.2) n =? c) || (cksum1 6 (obuf r.2) n + 1 =? c) ||
       (cksum1 12 (obuf r.2) n =? c))
  | Dec_EM =>
      let r := analyze b TYPE_EM g in
      let n := u8 (oby r.2 - 1) in
      nz r.1 && (n =? 9) && (cksum2 (obuf r.2) n =? rd (obuf r.2) n)
  | Dec_HMS => nz (analyze_hms b g).1
  | Dec_TX3 => nz (analyze_TX3 b g).1
  | Dec_KS300 =>
      let g1 :=
        addbit i (wave_equals (one b) (g_hightime g) (lowtime (one b)) (state b)) g in
      let r := analyze (bucket_at g1 i) TYPE_KS300 g1 in
      let g2 := set_oby (u8 (oby r.2 - 1)) r.2 in
      nz r.1 && (cksum3 g2 (obuf g2) (oby g2) =? rd (obuf g2) (oby g2 - nibble g2))
  | Dec_Hoermann =>
      (byteidx b =? 4) && (bitidx b =? 4) &&
      nz (wave_equals (zero b) (TSCALE 960) (TSCALE 480) (state b))
  end.

(** The type tag of a decoder that succeeds; the FS20 block tells FS20
    from FHT by the check sum. *)
Definition tag_of (d : decoder) (i : Z) (g : globals) : Z :=
  match d with
  | Dec_IT => TYPE_IT
  | Dec_TCM97001 => TYPE_TCM97001
  | Dec_Revolt => TYPE_REVOLT
  | Dec_ESA => TYPE_ESA
  | Dec_FS20 =>
      let r := analyze (bucket_at g i) TYPE_FS20 g in
      let n := u8 (oby r.2 - 1) in
      let c := rd (obuf r.2) n in
      if (cksum1 6 (obuf r.2) n =? c) || (cksum1 6 (obuf r.2) n + 1 =? c)
      then TYPE_FS20 else TYPE_FHT
  | Dec_EM => TYPE_EM
  | Dec_HMS => TYPE_HMS
  | Dec_TX3 => TYPE_TX3
  | Dec_KS300 => TYPE_KS300
  | Dec_Hoermann => TYPE_HRM
  end.

(** The decoders the build has. *)
Definition compiled_in (d : decoder) : bool :=
  match d with
  | Dec_IT => HAS_IT
  | Dec_TCM97001 => HAS_TCM97001
  | Dec_Revolt => HAS_REVOLT
  | Dec_ESA => HAS_ESA
  | Dec_TX3 => HAS_TX3
  | Dec_Hoermann => HAS_HOERMANN
  | _ => true
  end.

(** The decoders inside the [LONG_PULSE] bracket, and the buckets the
    bracket excludes. *)
Definition short_pulse (d : decoder) : bool :=
  match d with
  | Dec_IT | Dec_TCM97001 | Dec_Revolt => false
  | _ => true
  end.

Definition long_pulse_bucket (g : globals) : bool :=
  let b := bucket_at g (bucket_out g) in
  LONG_PULSE &&
  negb (negb (state b =? STATE_REVOLT) && negb (state b =? STATE_IT) &&
        negb (state b =? STATE_TCM97001)).

(** The decoders tried on the tail bucket, in order. *)
Definition tried (g : globals) : list decoder :=
  List.filter (λ d, compiled_in d && negb (short_pulse d && long_pulse_bucket g))
    dispatch_order.

(** The decoders of [l] are tried in turn from [datatype = 0], each on the
    globals its predecessors left; the first that assigns a type tag gives
    the result, and the rest of [l] is not run. *)
Fixpoint first_success (i : Z) (l : list decoder) (g : globals) : dstate :=
  match l with
  | [] => (0, g)
  | d :: l =>
      let r := attempt d i (0, g) in
      if nz r.1 then r else first_success i l r.2
  end.

(** C1 as it is stated: every decoder of the build is tried, in the fixed
    order, whatever the bucket. *)
Definition dispatch_in_fixed_order (g : globals) : Prop :=
  dispatch g = first_success (bucket_out g) (List.filter compiled_in dispatch_order) g.

End Order.

(** *** Checksums *)

(** The sum of a list of bytes. *)
Definition sum_bytes (l : list Z) : Z := fold_right Z.add 0 l.

(** *** Pulse comparison *)

Section Tolerance.
Context `{B : board}.

(** The tolerance of [wave_equals]: [TDIFFIT] for a bucket in [STATE_IT]
    of a build with IT, [TDIFF] otherwise. *)
Definition tolerance (state : Z) : Z :=
  if HAS_IT && (state =? STATE_IT) then TDIFFIT else TDIFF.

(** The pulse [(h, l)] is within [t] of the template [a] in its high time,
    its low time and its length. *)
Definition near (t : Z) (a : wave_t) (h l : Z) : Prop :=
  Z.abs (lowtime a - l) < t ∧ Z.abs (hightime a - h) < t ∧
  Z.abs ((lowtime a + hightime a) - (l + h)) < t.

End Tolerance.


Section Copies.
Context `{B : board}.

(** The [(state, byteidx, bitidx)] of the buckets the IT, TCM97001 and
    Revolt decoders accept: 24 bits of IT, 64 bits of IT V3, 24 bits of
    TCM97001, 103 bits of Revolt. *)
Definition it_shape (b : bucket_t) : Prop :=
  (state b = STATE_IT ∧ byteidx b = 3 ∧ bitidx b = 7) ∨
  (state b = STATE_ITV3 ∧ byteidx b = 8 ∧ bitidx b = 7).
Definition tcm97001_shape (b : bucket_t) : Prop :=
  state b = STATE_TCM97001 ∧ byteidx b = 3 ∧ bitidx b = 7.
Definition revolt_shape (b : bucket_t) : Prop :=
  state b = STATE_REVOLT ∧ byteidx b = 12 ∧ bitidx b = 0.

(** The first [n] bytes of the output buffer are those of the bucket. *)
Definition copied (n : Z) (b : bucket_t) (g : globals) : Prop :=
  oby g = n ∧ ∀ k, 0 <= k < n → rd (obuf g) k = rd (data b) k.

End Copies.

Section Writer.
Context `{B : board}.

(** *** Writing and reading the bit stream *)

(** The byte at the cursor has no bit at or below the cursor: what
    [b->data[0] = 0] at the start of a reception and
    [b->data[++b->byteidx] = 0] at each new byte establish. *)
Definition clean_cursor (b : bucket_t) : Prop :=
  ∀ k, 0 <= k <= bitidx b → Z.testbit (rd (data b) (byteidx b)) k = false.

(** A run of calls [addbit(b, bit)]. *)
Definition addbits (i : Z) (bits : list Z) (g : globals) : globals :=
  fold_left (λ g bit, addbit i bit g) bits g.

End Writer.

Section Fifo.
Context `{B : board}.

(** *** The bucket ring as a queue *)

(** The ring is a queue of [bucket_nrused] buckets from [bucket_out] on;
    [bucket_in] is the slot after them. *)
Definition fifo (g : globals) : Prop :=
  length (bucket_array g) = Z.to_nat RCV_BUCKETS ∧
  0 <= bucket_in g < RCV_BUCKETS ∧
  0 <= bucket_out g < RCV_BUCKETS ∧
  0 <= bucket_nrused g < RCV_BUCKETS ∧
  bucket_in g = (bucket_out g + bucket_nrused g) mod RCV_BUCKETS.

(** The [m]-th bucket that waits for the decode task. *)
Definition waiting (g : globals) (m : Z) : Z :=
  (bucket_out g + m) mod RCV_BUCKETS.

(** [g'] has the counters of [g] and differs from it in no bucket but the
    input bucket. *)
Definition input_only (g g' : globals) : Prop :=
  counters g' = counters g ∧
  ∀ j, j ≠ Z.to_nat (bucket_in g) → bucket_array g' !! j = bucket_array g !! j.

End Fifo.

Section Framing.
Context `{B : board}.

(** *** FS20 and EM framing

    [analyze(b, TYPE_FS20)] and [analyze(b, TYPE_EM)] read the stream in
    groups of nine bits: eight data bits and a check bit.  FS20 (and FHT)
    send the data bits first bit most significant and an even parity bit;
    EM sends them first bit least significant and a 1. *)
Definition framed_byte (t : Z) (d : list Z) (k : Z) : Z :=
  if t =? TYPE_FS20 then msb_first (bits_from d (9 * k) 8)
  else lsb_first (bits_from d (9 * k) 8).

Definition framed_check (t : Z) (d : list Z) (k : Z) : bool :=
  if t =? TYPE_FS20
  then parity_even_bit (framed_byte t d k) =? b2z (bit_at d (9 * k + 8))
  else bit_at d (9 * k + 8).

(** The number of bytes [analyze] hands out for [n] bits: the complete
    groups and, for EM, a last byte whose check bit is missing. *)
Definition framed_count (t : Z) (n : Z) : Z :=
  n / 9 + (if (t =? TYPE_EM) && (n mod 9 =? 8) then 1 else 0).

(** The loop state of [analyze] after [n] bits: the read position, the
    write position, the bytes written and the bits of the byte in
    progress. *)
Definition reading (t : Z) (d : list Z) (len : nat) (n : Z)
    (s : Z * Z * Z * globals) : Prop :=
  let '(iby, ibi, obi, g) := s in
  iby = n / 8 ∧ ibi = 7 - n mod 8 ∧ obi = 7 - n mod 9 ∧
  oby g = n / 9 ∧ nibble g = 0 ∧ length (obuf g) = len ∧
  (∀ k, 0 <= k < n / 9 → rd (obuf g) k = framed_byte t d k) ∧
  (∀ j, 0 <= j < 8 →
     Z.testbit (rd (obuf g) (n / 9)) j =
     ((if t =? TYPE_FS20 then 7 - j else j) <? n mod 9) &&
     bit_at d (9 * (n / 9) + (if t =? TYPE_FS20 then 7 - j else j))) ∧
  0 <= rd (obuf g) (n / 9) < 256.

End Framing.

Section Telegrams.
Context `{B : board}.

(** The bytes of the first [m] groups of nine bits. *)
Definition framed_bytes (t : Z) (d : list Z) (m : Z) : list Z :=
  map (framed_byte t d) (seqZ 0 m).

(** Every complete group of nine bits of the bucket has a good check bit. *)
Definition framed (t : Z) (b : bucket_t) : Prop :=
  ∀ k, 0 <= k < bitcount b / 9 → framed_check t (data b) k = true.

(** The first [m] bytes of the output buffer are those of the groups. *)
Definition unframed (t : Z) (b : bucket_t) (m : Z) (g : globals) : Prop :=
  oby g = m ∧ ∀ k, 0 <= k < m → rd (obuf g) k = framed_byte t (data b) k.

End Telegrams.

(** *** What the interrupt handlers leave alone *)

(** The output and the state of the decode task: the display, the
    scratchpad of the decoders, the stored payload of the repeat filter and
    the flags [isrep] and [packageOK].  ([isnotrep] is not in it:
    [reset_input] writes it.) *)
Definition output_frame (g : globals) :=
  (display g, oby g, obuf g, nibble g, roby g, robuf g, reptime g,
   isrep (packetCheckValues g), packageOK (packetCheckValues g)).

(** The two nibbles of a byte, high nibble first. *)
Definition byte_nibbles (d : Z) : list Z := [Z.shiftr d 4; Z.land d 15].

(** The nibbles the KS300 check sum covers: those of the first [len]
    bytes, without the low nibble of the last byte in a message of half a
    byte more ([half]). *)
Definition ks300_nibbles (half : bool) (buf : list Z) (len : Z) : list Z :=
  if len <=? 0 then []
  else flat_map (λ k, byte_nibbles (rd buf k)) (seqZ 0 (len - 1)) ++
       (if half then [Z.shiftr (rd buf (len - 1)) 4]
        else byte_nibbles (rd buf (len - 1))).

Section FHTMessages.
Context `{B : board}.

(** *** FHT frames *)

(** The FHT protocol messages: more than four bytes, and the command byte
    is an acknowledge or one of the transfer commands, or the bits [0x70] of
    the byte after it are all set. *)
Definition fht_protocol_message (g : globals) : bool :=
  (4 <? oby g) &&
  ((rd (obuf g) 2 =? FHT_ACK) || (rd (obuf g) 2 =? FHT_ACK2) ||
   (rd (obuf g) 2 =? FHT_CAN_XMIT) || (rd (obuf g) 2 =? FHT_CAN_RCV) ||
   (rd (obuf g) 2 =? FHT_START_XMIT) || (rd (obuf g) 2 =? FHT_END_XMIT) ||
   (Z.land (rd (obuf g) 3) 0x70 =? 0x70)).

(** The RF router has a target and the FHT house code is not set: the
    frame is left to the router. *)
Definition left_to_router (e : env) : bool :=
  HAS_RF_ROUTER && HAS_FHT_80b && nz (rf_router_target e) && negb (nz (fht_hc0 e)).

End FHTMessages.

Section KS300Framing.
Context `{B : board}.

(** *** KS300 framing

    [analyze(b, TYPE_KS300)] reads the stream in groups of ten bits: the
    low nibble of a byte, first bit least significant, a 1 bit, the high
    nibble, and a 1 bit.  A message may end with a low nibble and its 1
    bit: half a byte. *)
Definition ks300_byte (d : list Z) (k : Z) : Z :=
  lsb_first (bits_from d (10 * k) 4 ++ bits_from d (10 * k + 5) 4).
Definition ks300_half (d : list Z) (k : Z) : Z :=
  lsb_first (bits_from d (10 * k) 4).

(** The bits after the nibbles, among the first [n] bits, are all 1. *)
Definition ks300_framed (d : list Z) (n : Z) : Prop :=
  ∀ p, 0 <= p < n → p mod 10 = 4 ∨ p mod 10 = 9 → bit_at d p = true.

(** The number of bytes for [n] bits, the half byte counted as one. *)
Definition ks300_count (n : Z) : Z :=
  n / 10 + (if n mod 10 =? 5 then 1 else 0).

(** The place in its group of the bit that goes to bit [j] of the byte. *)
Definition ks300_pos (j : Z) : Z := if j <? 4 then j else j + 1.

(** The loop state of [analyze] after [n] bits of a KS300 stream. *)
Definition reading_ks300 (d : list Z) (len : nat) (n : Z)
    (s : Z * Z * Z * globals) : Prop :=
  let '(iby, ibi, obi, g) := s in
  iby = n / 8 ∧ ibi = 7 - n mod 8 ∧
  obi = (if n mod 10 <? 5 then 7 - n mod 10 else 8 - n mod 10) ∧
  oby g = n / 10 ∧ nibble g = b2z (n mod 10 =? 5) ∧ length (obuf g) = len ∧
  (∀ k, 0 <= k < n / 10 → rd (obuf g) k = ks300_byte d k) ∧
  (∀ j, 0 <= j < 8 →
     Z.testbit (rd (obuf g) (n / 10)) j =
     (ks300_pos j <? n mod 10) && bit_at d (10 * (n / 10) + ks300_pos j)) ∧
  0 <= rd (obuf g) (n / 10) < 256.

End KS300Framing.

(** *** Concrete receptions (build [cul]) *)

(** Twelve sync pulses, the one-pulse that ends the sync, [n] zero bits
    and the last fall. *)
Definition zero_bits (n : nat) : list event :=
  pulses (replicate 12 (25, 23) ++ [(38, 37)] ++ replicate n (25, 23))
  ++ [falling 38].

(** C9: sixteen zero bits, then silence. *)
Definition zeros16_events : list event := zero_bits 16 ++ [Silence].
Definition zeros16 : globals := run (B := cul) zeros16_events (globals0 (B := cul)).

(** C2: three such receptions fill the ring while the task does not run;
    a fourth is in the input bucket. *)
Definition ring_full : globals :=
  run (B := cul)
    (zeros16_events ++ zeros16_events ++ zeros16_events ++ zero_bits 16)
    (globals0 (B := cul)).

(** C10: 159 zero bits put the cursor on the last bit of [data]. *)
Definition last_bit : globals :=
  run (B := cul) (zero_bits 159) (globals0 (B := cul)).

(** C4: an InterTechno reception.  The opening pulse [(20, 320)], then
    per bit [(20, 60)] for a 0 and [(60, 20)] for a 1, the fall of the next
    opening, silence, and the decode task at tick [t]. *)
Fixpoint bits_msb (n : nat) (v : Z) : list bool :=
  match n with
  | O => []
  | S n' => Z.testbit v (Z.of_nat n') :: bits_msb n' v
  end.
Definition it_bit (b : bool) : Z * Z := if b then (60, 20) else (20, 60).
Definition it_pulses (bytes : list Z) : list event :=
  [falling 20; rising 340] ++
  pulses (map it_bit (concat (map (bits_msb 8) bytes))) ++ [falling 20; Silence].
Definition it_reception (t : Z) (bytes : list Z) : list event :=
  it_pulses bytes ++ [Task (quiet t)].
Definition it_payload : list Z := [0x05; 0x5C; 0x0F].

(** Three arrivals of the payload within the window, with [tx_report = 01]
    ([REP_KNOWN]). *)
Definition it_thrice : globals :=
  run (B := cul)
    (Report 1 :: it_reception 100 it_payload ++ it_reception 110 it_payload ++
     it_reception 120 it_payload)
    (globals0 (B := cul)).

(** The second arrival of the payload has been received and decoded, and
    is about to be checked. *)
Definition it_second : globals :=
  (dispatch (B := cul)
     (run (B := cul) (Report 1 :: it_reception 100 it_payload ++ it_pulses it_payload)
        (globals0 (B := cul)))).2.

(** The payload arrives again much later (tick 1000), has been received
    and decoded, and is about to be checked. *)
Definition it_later : globals :=
  (dispatch (B := cul) (run (B := cul) (it_pulses it_payload) it_thrice)).2.

(** C3: an HMS reception.  Twelve long sync pulses and a short one put
    the bucket in [STATE_HMS]; then every edge that comes a full bit time
    (60) after the last accepted one is a bit, 1 for a fall and 0 for a rise,
    and an edge after half a bit time (30) is ignored.  [level] is the line
    level before the bit. *)
Definition hms_edge (high : bool) (c : Z) : event :=
  Edge (mk_env 0 0 (16 * c) high 0 0 0).
Fixpoint edge_bits (half full : Z) (level : bool) (bits : list bool) : list event :=
  match bits with
  | [] => []
  | b :: bits' =>
      (if eqb level b
       then [hms_edge (negb level) full]
       else [hms_edge (negb level) half; hms_edge level full])
      ++ edge_bits half full (negb b) bits'
  end.
Definition hms_bits : bool → list bool → list event := edge_bits 30 60.
Definition hms_events (bits : list bool) : list event :=
  pulses (replicate 12 (60, 60) ++ [(30, 30)]) ++ hms_bits true bits ++ [Silence].

(** The frame with payload [01 00 00 00 00 00]: the byte [01] is sent as
    [1 0 0 0 0 0 0 0], parity 1, stop 0; the check byte is [01] with parity
    1. *)
Definition hms_01_bits : list bool :=
  [true; false; false; false; false; false; false; false; true; false]
  ++ replicate 50 false
  ++ [true; false; false; false; false; false; false; false; true].
Definition hms_01 : globals :=
  run (B := cul) (Report 1 :: hms_events hms_01_bits) (globals0 (B := cul)).

(** C6: an ESA reception.  Twelve short sync pulses and a longer one put
    the bucket in [STATE_ESA]; the bits follow as for HMS, with a bit time
    of 30.  The frame has sixteen zero bytes; the check sum is then the
    build constant [F0 0F]. *)
Definition esa_events (bytes : list Z) : list event :=
  pulses (replicate 12 (15, 15) ++ [(30, 30)])
  ++ edge_bits 15 30 true (concat (map (bits_msb 8) bytes)) ++ [Silence].
Definition esa_zeros : globals :=
  run (B := cul) (Report 1 :: esa_events (replicate 16 0 ++ [0xF0; 0x0F]))
    (globals0 (B := cul)).

(** C7: a TX3 reception.  Six sync pulses [(25, 23)], the one-pulse
    [(38, 37)] that ends the sync, and 38 bits: [0 1 0], the low nibble of
    the first byte, three bytes, and seven bits of the last byte. *)
Definition tx3_events (bits : list bool) : list event :=
  pulses (replicate 6 (25, 23) ++ [(38, 37)]
          ++ map (λ b : bool, if b then (38, 37) else (25, 23)) bits)
  ++ [Silence].
Definition tx3_bits : list bool :=
  [false; true; false] ++ bits_msb 4 0 ++ bits_msb 8 0x12 ++ bits_msb 8 0x34
  ++ bits_msb 8 0x56 ++ bits_msb 7 0x3C.
Definition tx3_a0 : globals :=
  run (B := cul) (Report 1 :: tx3_events tx3_bits) (globals0 (B := cul)).

(** Receptions in [STATE_COLLECT]: twelve sync pulses, the one-pulse that
    ends the sync, a pulse per bit, the last fall and silence. *)
Definition bit_pulse (b : bool) : Z * Z := if b then (38, 37) else (25, 23).
Definition collect_events (bits : list bool) : list event :=
  pulses (replicate 12 (25, 23) ++ [(38, 37)]) ++ pulses (map bit_pulse bits)
  ++ [falling 25; Silence].

(** The sync alone, with the report mask [v]: the input bucket is in
    [STATE_COLLECT] with its cursor on the first bit. *)
Definition synced (v : Z) : globals :=
  run (B := cul) (Report v :: pulses (replicate 12 (25, 23) ++ [(38, 37)]))
    (globals0 (B := cul)).

(** An FS20 telegram: each byte, first bit most significant, and its parity
    bit; the last byte is 6 plus the sum of the others, in eight bits. *)
Definition fs20_bits (bytes : list Z) : list bool :=
  concat (map (λ d, bits_msb 8 d ++ [nz (parity_even_bit d)]) bytes).
Definition fs20_sum (payload : list Z) : Z := (6 + sum_bytes payload) mod 256.
Definition fs20_telegram (payload : list Z) : list bool :=
  fs20_bits (payload ++ [fs20_sum payload]).

(** C1: the FS20 telegram of the payload [12 34 56 78] sent with the
    InterTechno timing after an InterTechno opening pulse, and silence: the
    bucket is in [STATE_IT]. *)
Definition it_stream (bits : list bool) : list event :=
  [falling 20; rising 340] ++ pulses (map it_bit bits) ++ [falling 20; Silence].
Definition it_fs20 : globals :=
  run (B := cul) (Report 1 :: it_stream (fs20_telegram [0x12; 0x34; 0x56; 0x78]))
    (globals0 (B := cul)).

(** X8: a Revolt reception.  The long opening pulse [(600, 20)], then per
    bit [(19, 14)] for a 1 and [(6, 14)] for a 0: twelve bytes, the last the
    sum of the others, and seven more bits; the last fall and silence. *)
Definition revolt_bit (b : bool) : Z * Z := if b then (19, 14) else (6, 14).
Definition revolt_events (bytes : list Z) : list event :=
  pulses [(600, 20)] ++
  pulses (map revolt_bit (concat (map (bits_msb 8) bytes) ++ replicate 7 false)) ++
  [falling 6; Silence].
Definition revolt_frame : globals :=
  run (B := cul)
    (Report 1 :: revolt_events [1; 2; 3; 4; 5; 6; 7; 8; 9; 10; 11; 66])
    (globals0 (B := cul)).

(** The input bucket is bucket 0 and collects bits with the templates of
    the two pulses; no fast RF or router reception is under way. *)
Definition collecting (g : globals) : Prop :=
  fastrf_on g = 0 ∧ rf_router_status g = 0 ∧ bucket_in g = 0 ∧
  (0 < length (bucket_array g))%nat ∧
  state (@bucket_at cul g 0) = STATE_COLLECT ∧
  zero (@bucket_at cul g 0) = mk_wave 25 23 ∧
  one (@bucket_at cul g 0) = mk_wave 38 37.

(** Receptions in [STATE_HMS] and [STATE_ESA]: twelve sync pulses of one
    bit time, the pulse that ends the sync, the bits as edges (an edge one
    bit time after the last is the bit, 1 if it falls and 0 if it rises; an
    edge after half a bit time prepares it) and silence. *)
Definition edge_state (esa : bool) : Z := if esa then STATE_ESA else STATE_HMS.
Definition edge_half (esa : bool) : Z := if esa then 15 else 30.
Definition edge_full (esa : bool) : Z := if esa then 30 else 60.
Definition edge_sync (esa : bool) : list event :=
  pulses (replicate 12 (if esa then (15, 15) else (60, 60)) ++ [(30, 30)]).
Definition edge_coded (esa : bool) (bits : list bool) : list event :=
  edge_sync esa ++ edge_bits (edge_half esa) (edge_full esa) true bits ++ [Silence].

(** The input bucket is bucket 0 and collects the bits of an HMS or ESA
    message; no fast RF or router reception is under way. *)
Definition collecting_edges (esa : bool) (g : globals) : Prop :=
  fastrf_on g = 0 ∧ rf_router_status g = 0 ∧ bucket_in g = 0 ∧
  (0 < length (bucket_array g))%nat ∧
  state (@bucket_at cul g 0) = edge_state esa.

(** The FS20 telegram [12 34 56 78], check byte [1A], with
    [tx_report = 01]. *)
Definition fs20_frame : globals :=
  run (B := cul) (Report 1 :: collect_events (fs20_telegram [0x12; 0x34; 0x56; 0x78]))
    (globals0 (B := cul)).

(** The same payload with the FHT check byte [20]. *)
Definition fht_frame : globals :=
  run (B := cul) (Report 1 :: collect_events (fs20_bits [0x12; 0x34; 0x56; 0x78; 0x20]))
    (globals0 (B := cul)).

(** An EM telegram: each byte, first bit least significant, and a 1 bit;
    here without the 1 bit after the tenth byte. *)
Definition em_bits (bytes : list Z) : list bool :=
  concat (map (λ d, rev (bits_msb 8 d) ++ [true]) bytes).
Definition em_frame : globals :=
  run (B := cul)
    (Report 1 :: collect_events (take 89 (em_bits [1; 2; 3; 4; 5; 6; 7; 8; 9; 1])))
    (globals0 (B := cul)).

(** A KS300 telegram: per byte the low nibble, first bit least significant,
    a 1 bit, the high nibble and a 1 bit.  The last 1 bit has no rise: the
    reception ends with its fall.  [12 34] has the check byte [34]. *)
Definition ks300_bits (bytes : list Z) : list bool :=
  concat (map (λ d, rev (bits_msb 4 (Z.land d 15)) ++ [true] ++
                    rev (bits_msb 4 (Z.shiftr d 4)) ++ [true]) bytes).
Definition ks300_frame : globals :=
  run (B := cul)
    (Report 1 :: pulses (replicate 12 (25, 23) ++ [(38, 37)])
       ++ pulses (map bit_pulse (take 29 (ks300_bits [0x12; 0x34; 0x34])))
       ++ [falling 38; Silence])
    (globals0 (B := cul)).

(** * Properties *)

(** ** Arrays and control flow *)

Lemma u8_range x : 0 <= u8 x < 256.
Proof. unfold u8. apply Z.mod_pos_bound. lia. Qed.

Lemma u8_small x : 0 <= x < 256 → u8 x = x.
Proof. intros. unfold u8. apply Z.mod_small. lia. Qed.

Lemma length_wr l i v : length (wr l i v) = length l.
Proof. unfold wr. destruct (i <? 0); [done | apply length_insert]. Qed.

Lemma rd_wr_eq l i v :
  0 <= i → (Z.to_nat i < length l)%nat → rd (wr l i v) i = v.
Proof.
  intros Hi Hl. unfold rd, wr.
  destruct (i <? 0) eqn:E; [lia |].
  by rewrite list_lookup_insert_eq.
Qed.

Lemma rd_wr_ne l i j v : 0 <= i → 0 <= j → i ≠ j → rd (wr l i v) j = rd l j.
Proof.
  intros Hi Hj Hne. unfold rd, wr.
  destruct (i <? 0) eqn:E; [lia |].
  destruct (j <? 0); [done |].
  rewrite list_lookup_insert_ne; [done | lia].
Qed.

Lemma rd_wr l i j v :
  0 <= i → 0 <= j → (Z.to_nat i < length l)%nat →
  rd (wr l i v) j = if i =? j then v else rd l j.
Proof.
  intros. destruct (Z.eqb_spec i j) as [->|].
  - by apply rd_wr_eq.
  - by apply rd_wr_ne.
Qed.

Lemma for_loop_S {S : Type} n (body : S → ctl S) s :
  for_loop (Datatypes.S n) body s =
  match body s with
  | Continue s' => for_loop n body s'
  | Return v s' => Return v s'
  end.
Proof. reflexivity. Qed.

Lemma for_loop_invariant {S : Type} (P : S → Prop) (body : S → ctl S) n s :
  (∀ s, P s → P (ctl_state (body s))) → P s → P (ctl_state (for_loop n body s)).
Proof.
  intros Hbody. revert s. induction n as [|n IH]; intros s Hs; [exact Hs |].
  simpl. specialize (Hbody s Hs). destruct (body s); simpl in *; auto.
Qed.

Section Cursor.
Context `{B : board}.

Lemma bucket_at_with_bucket i f g :
  0 <= i → (Z.to_nat i < length (bucket_array g))%nat →
  bucket_at (with_bucket i f g) i = f (bucket_at g i).
Proof.
  intros Hi Hl. unfold bucket_at, with_bucket. simpl.
  rewrite list_lookup_alter_eq.
  destruct (bucket_array g !! Z.to_nat i) eqn:E; [done |].
  apply lookup_ge_None in E. lia.
Qed.

Lemma bucket_at_with_bucket_ne i j f g :
  0 <= i → 0 <= j → i ≠ j → bucket_at (with_bucket i f g) j = bucket_at g j.
Proof.
  intros Hi Hj Hne. unfold bucket_at, with_bucket. simpl.
  rewrite list_lookup_alter_ne; [done | lia].
Qed.

(** The part of C10 that holds: with [byteidx >= MAXMSG], [addbit] only
    resets the input bucket, and no bucket's [data] changes. *)
Lemma addbit_full_resets i bit g :
  MAXMSG <= byteidx (bucket_at g i) →
  addbit i bit g = reset_input g ∧
  map data (bucket_array (addbit i bit g)) = map data (bucket_array g).
Proof.
  intros Hfull. unfold addbit.
  destruct (Z.leb_spec MAXMSG (byteidx (bucket_at g i))); [| lia].
  split; [done |].
  unfold reset_input.
  assert (map data (bucket_array (with_bucket (bucket_in g) (set_state STATE_RESET)
            (set_TIMSK1 0 g))) = map data (bucket_array g)) as Hd.
  { unfold with_bucket. simpl. generalize (Z.to_nat (bucket_in g)) as k.
    induction (bucket_array g) as [|b l IH]; intros [|k]; simpl; [done.. |].
    f_equal. apply IH. }
  by destruct (HAS_IT || HAS_TCM97001).
Qed.

(** C10, at the input where it fails: with the cursor on the last bit of
    the last byte ([byteidx = MAXMSG - 1], [bitidx = 0]) the overflow check
    of [addbit] passes, and the clearing of the next byte is a store to
    [data[MAXMSG]], one past the array; it clears [zero.hightime]. *)
Theorem addbit_stores_past_data bit b :
  0 < MAXMSG <= 255 →
  byteidx b = MAXMSG - 1 →
  bitidx b = 0 →
  addbit_stores bit b = (if nz bit then [MAXMSG - 1] else []) ++ [MAXMSG] ∧
  ¬ (0 <= MAXMSG <= MAXMSG - 1) ∧
  hightime (zero (addbit_body bit b).1) = 0.
Proof.
  intros HM Hby Hbi. unfold addbit_stores, addbit_body.
  destruct (Z.leb_spec MAXMSG (byteidx b)) as [|_]; [lia |].
  rewrite Hbi, Hby. simpl (0 =? 0).
  replace (u8 (MAXMSG - 1 + 1)) with MAXMSG by (rewrite u8_small; lia).
  split; [| split; [lia |]].
  - destruct (nz bit); simpl; done.
  - unfold data_store_at, data_store. simpl.
    destruct (Z.ltb_spec MAXMSG MAXMSG); [lia |].
    rewrite Z.eqb_refl. done.
Qed.

End Cursor.

(** ** The decoders only write their scratchpad *)

Section Frame.
Context `{B : board}.

Ltac frame_step :=
  match goal with
  | |- context [let '(_, _) := ?x in _] => destruct x eqn:?
  | |- context [if ?c then _ else _] => destruct c eqn:?
  | |- context [match ?x with _ => _ end] => destruct x eqn:?
  end.
Ltac frame := repeat (simpl in *; try frame_step); simpl in *; try done.

Lemma analyze_frame b t g : scratch_frame (analyze b t g).2 = scratch_frame g.
Proof.
  unfold analyze.
  set (g0 := set_obuf _ _).
  set (n := Z.to_nat _).
  pose proof (for_loop_invariant (λ s, scratch_frame s.2 = scratch_frame g)
                (analyze_body b t) n (0, 7, 7, g0)) as H.
  simpl in H.
  assert (scratch_frame (ctl_state (for_loop n (analyze_body b t) (0, 7, 7, g0))).2
          = scratch_frame g) as Hl.
  { apply H; [| done]. intros [[[iby ibi] obi] g1] Hg1. simpl in Hg1.
    unfold analyze_body. frame. }
  clear H. destruct (for_loop _ _ _) as [[[[? ?] ?] g1]|v [[[? ?] ?] g1]]; simpl in Hl; frame.
Qed.

Lemma analyze_hms_frame b g : scratch_frame (analyze_hms b g).2 = scratch_frame g.
Proof.
  unfold analyze_hms.
  destruct (_ <? 69); [done |].
  set (s0 := (mk_input _ _ _, 0, _)).
  assert (scratch_frame (ctl_state (for_loop 6 analyze_hms_body s0)).2
          = scratch_frame g) as Hl.
  { apply (for_loop_invariant (λ s, scratch_frame s.2 = scratch_frame g)); [| done].
    intros [[inp crc] g1] Hg1. unfold analyze_hms_body. frame. }
  destruct (for_loop _ _ _) as [[[? ?] g1]|v [[? ?] g1]]; simpl in Hl; frame.
Qed.

Lemma analyze_esa_frame b g : scratch_frame (analyze_esa b g).2 = scratch_frame g.
Proof.
  unfold analyze_esa.
  destruct (negb (state b =? STATE_ESA)); [done |].
  destruct (negb (_ =? ESA_BITLEN)); [done |].
  set (s0 := (mk_input _ _ _, _, _, _)).
  set (n := Z.to_nat _).
  assert (scratch_frame (ctl_state (for_loop n analyze_esa_body s0)).2
          = scratch_frame g) as Hl.
  { apply (for_loop_invariant (λ s, scratch_frame s.2 = scratch_frame g)); [| done].
    intros [[[inp salt] crc] g1] Hg1. unfold analyze_esa_body. frame. }
  destruct (for_loop _ _ _) as [[[[? ?] ?] g1]|v [[[? ?] ?] g1]]; simpl in Hl; frame.
Qed.

Lemma analyze_TX3_frame b g : scratch_frame (analyze_TX3 b g).2 = scratch_frame g.
Proof.
  unfold analyze_TX3.
  destruct (_ || _); [done |].
  set (s0 := (mk_input _ _ _, 0, _)).
  assert (scratch_frame (ctl_state (for_loop 4 analyze_TX3_body s0)).2
          = scratch_frame g) as Hl.
  { apply (for_loop_invariant (λ s, scratch_frame s.2 = scratch_frame g)); [| done].
    intros [[inp crc] g1] Hg1. unfold analyze_TX3_body. frame. }
  destruct (for_loop _ _ _) as [[[? ?] g1]|v [[? ?] g1]]; simpl in Hl; frame.
Qed.

Lemma copy_data_frame b n g : scratch_frame (copy_data b n g) = scratch_frame g.
Proof.
  unfold copy_data.
  assert (scratch_frame (ctl_state (for_loop (Z.to_nat n) (copy_body b) (set_oby 0 g)))
          = scratch_frame g) as Hl.
  { apply (for_loop_invariant (λ s, scratch_frame s = scratch_frame g)); [| done].
    intros g1 Hg1. unfold copy_body. frame. }
  destruct (for_loop _ _ _); simpl in Hl; done.
Qed.

Lemma analyze_it_frame b g : scratch_frame (analyze_it b g).2 = scratch_frame g.
Proof. unfold analyze_it. destruct (_ && _); [done | apply copy_data_frame]. Qed.

Lemma analyze_tcm97001_frame b g :
  scratch_frame (analyze_tcm97001 b g).2 = scratch_frame g.
Proof. unfold analyze_tcm97001. destruct (_ || _); [done | apply copy_data_frame]. Qed.

Lemma analyze_revolt_frame b g : scratch_frame (analyze_revolt b g).2 = scratch_frame g.
Proof.
  unfold analyze_revolt.
  destruct (_ || _); [done |].
  assert (scratch_frame (ctl_state (for_loop 11 (analyze_revolt_body b) (0, set_oby 0 g))).2
          = scratch_frame g) as Hl.
  { apply (for_loop_invariant (λ s, scratch_frame s.2 = scratch_frame g)); [| done].
    intros [sum g1] Hg1. unfold analyze_revolt_body. frame. }
  destruct (for_loop _ _ _) as [[? g1]|v [? g1]]; simpl in Hl; frame.
Qed.

(** What a frame equation says about single variables. *)
Lemma scratch_frame_fields g g' :
  scratch_frame g' = scratch_frame g →
  bucket_array g' = bucket_array g ∧ bucket_in g' = bucket_in g ∧
  bucket_out g' = bucket_out g ∧ bucket_nrused g' = bucket_nrused g ∧
  display g' = display g ∧ packetCheckValues g' = packetCheckValues g ∧
  tx_report g' = tx_report g ∧ g_hightime g' = g_hightime g.
Proof. unfold scratch_frame. intros H. by simplify_eq. Qed.

Lemma scratch_frame_bucket_at g g' i :
  scratch_frame g' = scratch_frame g → bucket_at g' i = bucket_at g i.
Proof.
  intros H. apply scratch_frame_fields in H as (Ha & _).
  unfold bucket_at. by rewrite Ha.
Qed.

End Frame.

(** ** The dispatch leaves the ring counters and the output alone *)

Section RingFrame.
Context `{B : board}.

Lemma scratch_ring_frame g g' :
  scratch_frame g' = scratch_frame g → ring_frame g' = ring_frame g.
Proof. unfold scratch_frame, ring_frame. intros H. simplify_eq. congruence. Qed.

Lemma with_bucket_ring_frame i f g : ring_frame (with_bucket i f g) = ring_frame g.
Proof. unfold ring_frame, with_bucket. simpl. by rewrite length_alter. Qed.

Lemma reset_input_ring_frame g : ring_frame (reset_input g) = ring_frame g.
Proof.
  unfold reset_input.
  destruct (HAS_IT || HAS_TCM97001); unfold ring_frame, with_bucket; simpl;
    by rewrite length_alter.
Qed.

Lemma addbit_ring_frame i bit g : ring_frame (addbit i bit g) = ring_frame g.
Proof.
  unfold addbit. destruct (_ <=? _).
  - apply reset_input_ring_frame.
  - apply with_bucket_ring_frame.
Qed.

Lemma delbit_ring_frame i g : ring_frame (delbit i g) = ring_frame g.
Proof. apply with_bucket_ring_frame. Qed.

Lemma set_oby_ring_frame v g : ring_frame (set_oby v g) = ring_frame g.
Proof. done. Qed.

Lemma set_obuf_ring_frame v g : ring_frame (set_obuf v g) = ring_frame g.
Proof. done. Qed.

Ltac blocks :=
  repeat match goal with
  | |- context [let '(_, _) := ?x in _] => destruct x eqn:?
  | |- context [if ?c then _ else _] => destruct c eqn:?
  end; simpl; try done.

Ltac use_frame H :=
  let F := fresh "F" in
  pose proof H as F;
  match type of F with
  | scratch_frame (?f).2 = _ =>
      let r := fresh "r" in let g := fresh "g" in
      destruct f as [r g]; simpl in F; apply scratch_ring_frame in F
  end.

Lemma try_it_ring_frame i s : ring_frame (try_it i s).2 = ring_frame s.2.
Proof.
  destruct s as [dt g]. unfold try_it.
  use_frame (analyze_it_frame (bucket_at g i) g). blocks.
Qed.

Lemma try_tcm97001_ring_frame i s : ring_frame (try_tcm97001 i s).2 = ring_frame s.2.
Proof.
  destruct s as [dt g]. unfold try_tcm97001.
  use_frame (analyze_tcm97001_frame (bucket_at g i) g). blocks.
Qed.

Lemma try_revolt_ring_frame i s : ring_frame (try_revolt i s).2 = ring_frame s.2.
Proof.
  destruct s as [dt g]. unfold try_revolt.
  use_frame (analyze_revolt_frame (bucket_at g i) g). blocks.
Qed.

Lemma try_esa_ring_frame i s : ring_frame (try_esa i s).2 = ring_frame s.2.
Proof.
  destruct s as [dt g]. unfold try_esa.
  use_frame (analyze_esa_frame (bucket_at g i) g). blocks.
Qed.

Lemma try_fs20_ring_frame i s : ring_frame (try_fs20 i s).2 = ring_frame s.2.
Proof.
  destruct s as [dt g]. unfold try_fs20.
  use_frame (analyze_frame (bucket_at g i) TYPE_FS20 g). blocks.
Qed.

Lemma try_em_ring_frame i s : ring_frame (try_em i s).2 = ring_frame s.2.
Proof.
  destruct s as [dt g]. unfold try_em.
  use_frame (analyze_frame (bucket_at g i) TYPE_EM g). blocks.
Qed.

Lemma try_hms_ring_frame i s : ring_frame (try_hms i s).2 = ring_frame s.2.
Proof.
  destruct s as [dt g]. unfold try_hms.
  use_frame (analyze_hms_frame (bucket_at g i) g). blocks.
Qed.

Lemma try_tx3_ring_frame i s : ring_frame (try_tx3 i s).2 = ring_frame s.2.
Proof.
  destruct s as [dt g]. unfold try_tx3.
  use_frame (analyze_TX3_frame (bucket_at g i) g). blocks.
Qed.

Lemma try_ks300_ring_frame i s : ring_frame (try_ks300 i s).2 = ring_frame s.2.
Proof.
  destruct s as [dt g]. unfold try_ks300. simpl.
  destruct (nz dt); [done |].
  set (g1 := addbit i _ g).
  assert (ring_frame g1 = ring_frame g) as H1 by apply addbit_ring_frame.
  use_frame (analyze_frame (bucket_at g1 i) TYPE_KS300 g1).
  destruct (nz r); [destruct (_ =? _) |];
    blocks; rewrite ?delbit_ring_frame, ?set_oby_ring_frame; congruence.
Qed.

Lemma try_hoermann_ring_frame i s : ring_frame (try_hoermann i s).2 = ring_frame s.2.
Proof.
  destruct s as [dt g]. unfold try_hoermann. simpl.
  destruct (_ && _); [| done]. simpl.
  rewrite (scratch_ring_frame _ _ (copy_data_frame _ _ _)).
  apply addbit_ring_frame.
Qed.

Lemma dispatch_ring_frame g : ring_frame (dispatch g).2 = ring_frame g.
Proof.
  unfold dispatch, when.
  destruct HAS_IT, HAS_TCM97001, HAS_REVOLT, HAS_ESA, HAS_TX3, HAS_HOERMANN;
    destruct (_ && _);
    rewrite ?try_hoermann_ring_frame, ?try_ks300_ring_frame, ?try_tx3_ring_frame,
      ?try_hms_ring_frame, ?try_em_ring_frame, ?try_fs20_ring_frame,
      ?try_esa_ring_frame, ?try_revolt_ring_frame, ?try_tcm97001_ring_frame,
      ?try_it_ring_frame; done.
Qed.

End RingFrame.

(** ** Who writes the ring counters *)

Section Counters.
Context `{B : board}.

Ltac blocks :=
  repeat match goal with
  | |- context [let '(_, _) := ?x in _] => destruct x eqn:?
  | |- context [if ?c then _ else _] => destruct c eqn:?
  | |- context [match ?x with Continue _ => _ | Return _ _ => _ end] =>
      destruct x eqn:?
  end; simpl; try done.

Lemma ring_frame_counters g g' :
  ring_frame g' = ring_frame g → counters g' = counters g.
Proof. unfold ring_frame, counters. intros H. simplify_eq. congruence. Qed.

Lemma with_bucket_counters i f g : counters (with_bucket i f g) = counters g.
Proof. apply ring_frame_counters, with_bucket_ring_frame. Qed.

Lemma reset_input_counters g : counters (reset_input g) = counters g.
Proof. apply ring_frame_counters, reset_input_ring_frame. Qed.

Lemma addbit_counters i bit g : counters (addbit i bit g) = counters g.
Proof. apply ring_frame_counters, addbit_ring_frame. Qed.

Lemma emit_counters o g : counters (emit o g) = counters g.
Proof. done. Qed.

Lemma hexdump_counters n i buf g : counters (hexdump n i buf g) = counters g.
Proof.
  revert i g. induction n as [|n IH]; intros i g; simpl; [done |].
  by rewrite IH.
Qed.

Lemma compare_data_counters g : counters (compare_data g) = counters g.
Proof.
  unfold compare_data.
  assert (counters (ctl_state (for_loop (Z.to_nat (oby g)) compare_body (set_roby 0 g)))
          = counters g) as H.
  { apply (for_loop_invariant (λ s, counters s = counters g)); [| done].
    intros g1 H1. unfold compare_body. blocks. }
  by destruct (for_loop _ _ _).
Qed.

Lemma save_data_counters g : counters (save_data g) = counters g.
Proof.
  unfold save_data.
  assert (counters (ctl_state (for_loop (Z.to_nat (oby g)) save_body (set_roby 0 g)))
          = counters g) as H.
  { apply (for_loop_invariant (λ s, counters s = counters g)); [| done].
    intros g1 H1. unfold save_body. blocks. }
  by destruct (for_loop _ _ _).
Qed.

Lemma filter_repeated_counters e g : counters (filter_repeated e g) = counters g.
Proof.
  unfold filter_repeated.
  destruct (negb _); [| done].
  change (counters (set_reptime (ticks e) ?x)) with (counters x).
  rewrite save_data_counters.
  destruct (_ =? _); [| done].
  destruct (_ && _); change (counters (set_packetCheckValues ?p ?x)) with (counters x);
    by rewrite compare_data_counters.
Qed.

Lemma fht_protocol_counters dt g : counters (fht_protocol dt g) = counters g.
Proof. unfold fht_protocol. by destruct (_ && _). Qed.

Lemma checkForRepeatedPackage_counters dt g :
  counters (checkForRepeatedPackage dt g) = counters g.
Proof. unfold checkForRepeatedPackage. blocks. Qed.

Lemma print_frame_counters e dt g : counters (print_frame e dt g) = counters g.
Proof.
  unfold print_frame. destruct (packageOK _); [| done].
  rewrite emit_counters.
  repeat match goal with
  | |- context [if ?c then _ else _] => destruct c
  end; rewrite ?emit_counters, ?hexdump_counters; done.
Qed.

Lemma report_known_counters e dt g : counters (report_known e dt g) = counters g.
Proof.
  unfold report_known. destruct (_ && _); [| done].
  rewrite print_frame_counters.
  destruct (_ && _);
    change (counters (set_packetCheckValues ?p ?x)) with (counters x);
    by rewrite checkForRepeatedPackage_counters, fht_protocol_counters,
         filter_repeated_counters.
Qed.

Lemma report_bits_counters e i g : counters (report_bits e i g) = counters g.
Proof.
  unfold report_bits. destruct (_ && _); [| done].
  rewrite emit_counters, hexdump_counters.
  repeat match goal with
  | |- context [if ?c then _ else _] => destruct c
  end; rewrite ?with_bucket_counters; done.
Qed.

Lemma monitor_counters e g : counters (monitor e g) = counters g.
Proof. unfold monitor. blocks. Qed.

Lemma dispatch_counters g : counters (dispatch g).2 = counters g.
Proof. apply ring_frame_counters, dispatch_ring_frame. Qed.

(** The edge interrupt never writes the ring counters. *)
Lemma retry_sync_counters i g : counters (retry_sync i g) = counters g.
Proof. unfold retry_sync. blocks; by rewrite with_bucket_counters. Qed.

Lemma addbit_avg_counters i bit g : counters (addbit_avg i bit g) = counters g.
Proof.
  unfold addbit_avg. destruct (nz bit);
    by rewrite with_bucket_counters, addbit_counters.
Qed.

Lemma sync_end_counters e i g : counters (sync_end e i g) = counters g.
Proof.
  unfold sync_end. blocks;
    rewrite ?reset_input_counters;
    change (counters (set_TIMSK1 ?p ?x)) with (counters x);
    rewrite ?with_bucket_counters;
    change (counters (set_OCR1A ?p ?x)) with (counters x);
    rewrite ?with_bucket_counters; done.
Qed.

Lemma classify_counters e i g : counters (classify e i g) = counters g.
Proof.
  unfold classify. blocks;
    rewrite ?retry_sync_counters, ?sync_end_counters, ?addbit_avg_counters,
      ?addbit_counters, ?reset_input_counters, ?with_bucket_counters; done.
Qed.

Lemma it_sync_counters i g : counters (ctl_state (it_sync i g)) = counters g.
Proof.
  unfold it_sync. blocks;
    change (counters (set_TCNT1 ?p ?x)) with (counters x);
    by rewrite ?with_bucket_counters.
Qed.

Lemma tcm97001_sync_counters i g : counters (tcm97001_sync i g) = counters g.
Proof. unfold tcm97001_sync. blocks; by rewrite with_bucket_counters. Qed.

Lemma CC1100_INTVECT_counters e g : counters (CC1100_INTVECT e g) = counters g.
Proof.
  unfold CC1100_INTVECT.
  repeat match goal with
  | |- context [if ?c then _ else _] =>
      destruct c; [by rewrite ?reset_input_counters |]
  end.
  destruct (negb (pin_high e)).
  - change (counters (set_g_hightime ?p ?x)) with (counters x).
    destruct (is_hms_esa _); [| done].
    change (counters (set_TCNT1 ?p ?x)) with (counters x).
    apply addbit_counters.
  - set (g1 := set_TCNT1 _ _).
    assert (counters g1 = counters g) as H1 by done.
    pose proof (it_sync_counters (bucket_in g) g1) as H.
    destruct (it_sync _ _) as [g2 | v g2]; simpl in H; [| congruence].
    pose proof (tcm97001_sync_counters (bucket_in g) g2) as H2.
    set (g3 := tcm97001_sync _ _) in *.
    destruct (is_hms_esa _); [rewrite addbit_counters; congruence |].
    assert (counters (set_TIFR1 (_BV OCF1A) g3) = counters g) as H3
      by (transitivity (counters g3); [done | congruence]).
    set (g4 := set_TIFR1 _ g3) in *.
    destruct (_ && _).
    + change (counters (set_TIMSK1 ?p ?x)) with (counters x).
      change (counters (set_OCR1A ?p ?x)) with (counters x).
      by rewrite with_bucket_counters.
    + by rewrite classify_counters.
Qed.

End Counters.

(** ** C8 and C2: the ring and the silence interrupt *)

Section RingProperties.
Context `{B : board}.

Lemma RfAnalyze_Task_nrused e g :
  bucket_nrused (RfAnalyze_Task e g) =
  if bucket_nrused g =? 0 then 0 else u8 (bucket_nrused g - 1).
Proof.
  unfold RfAnalyze_Task.
  pose proof (monitor_counters e g) as Hm.
  set (g1 := monitor e g) in *.
  assert (bucket_nrused g1 = bucket_nrused g) as Hn
    by (unfold counters in Hm; by simplify_eq).
  rewrite Hn. destruct (Z.eqb_spec (bucket_nrused g) 0) as [E | E]; [congruence |].
  pose proof (dispatch_counters g1) as Hd.
  destruct (dispatch g1) as [dt g2]. simpl in Hd.
  set (g3 := report_bits e (bucket_out g1) (report_known e dt g2)).
  assert (counters g3 = counters g) as H3.
  { unfold g3. by rewrite report_bits_counters, report_known_counters, Hd. }
  assert (bucket_nrused g3 = bucket_nrused g) as H4
    by (unfold counters in H3; by simplify_eq).
  clearbody g3.
  repeat match goal with
  | |- context [if ?c then _ else _] => destruct c
  end; simpl; by rewrite H4.
Qed.

(** How far the silence handler gets before it looks at the bucket. *)
Lemma TIMER1_COMPA_vect_cases g :
  ∃ g0,
    counters g0 = counters g ∧ bucket_array g0 = bucket_array g ∧
    TIMER1_COMPA_vect g =
      if (state (bucket_at g (bucket_in g)) <? STATE_COLLECT) ||
         (byteidx (bucket_at g (bucket_in g)) <? 2)
      then reset_input g0
      else if bucket_nrused g + 1 =? RCV_BUCKETS
      then reset_input
             (if negb NO_RF_DEBUG && report g0 REP_BITS
              then emit (DS_P [66; 79; 86; 70; 13; 10]) g0 else g0)
      else
        let g1 := set_bucket_in (u8 (bucket_in g + 1))
                    (set_bucket_nrused (u8 (bucket_nrused g + 1)) g0) in
        if bucket_in g1 =? RCV_BUCKETS then set_bucket_in 0 g1 else g1.
Proof.
  unfold TIMER1_COMPA_vect.
  set (g0 := if negb NO_RF_DEBUG && _ then _ else _).
  assert (counters g0 = counters g ∧ bucket_array g0 = bucket_array g) as [Hc Ha].
  { unfold g0. destruct (_ && _); destruct LONG_PULSE; done. }
  exists g0. split; [done |]. split; [done |].
  assert (bucket_at g0 (bucket_in g0) = bucket_at g (bucket_in g)) as ->.
  { unfold bucket_at. rewrite Ha. unfold counters in Hc. simplify_eq. congruence. }
  assert (bucket_nrused g0 = bucket_nrused g) as Hn
    by (unfold counters in Hc; by simplify_eq).
  assert (bucket_in g0 = bucket_in g) as Hi
    by (unfold counters in Hc; by simplify_eq).
  cbn [bucket_in set_bucket_in set_bucket_nrused bucket_nrused].
  by rewrite Hn, Hi.
Qed.

Lemma reset_input_state g :
  0 <= bucket_in g → (Z.to_nat (bucket_in g) < length (bucket_array g))%nat →
  state (bucket_at (reset_input g) (bucket_in g)) = STATE_RESET.
Proof.
  intros Hi Hl. unfold reset_input.
  assert (state (bucket_at (with_bucket (bucket_in (set_TIMSK1 0 g))
            (set_state STATE_RESET) (set_TIMSK1 0 g)) (bucket_in g)) = STATE_RESET) as H.
  { simpl. by rewrite bucket_at_with_bucket. }
  by destruct (HAS_IT || HAS_TCM97001).
Qed.

(** C2, amended: the silence handler publishes the bucket exactly when it
    carries a frame and the ring is not full; otherwise the bucket is reset
    in place and the counters stay.  With fewer than two bytes nothing is
    published, and if the ring was empty the decode task returns before it
    looks at a bucket. *)
Theorem silence_publishes g :
  let b := bucket_at g (bucket_in g) in
  let g' := TIMER1_COMPA_vect g in
  0 <= bucket_in g < RCV_BUCKETS → RCV_BUCKETS <= 255 →
  0 <= bucket_nrused g < 255 →
  length (bucket_array g) = Z.to_nat RCV_BUCKETS →
  (published g g' ↔ carries_frame b = true ∧ bucket_nrused g + 1 ≠ RCV_BUCKETS) ∧
  (published g g' → bucket_at g' (bucket_in g) = b) ∧
  (¬ published g g' →
     state (bucket_at g' (bucket_in g)) = STATE_RESET ∧
     bucket_nrused g' = bucket_nrused g ∧ bucket_in g' = bucket_in g) ∧
  (byteidx b < 2 →
     ¬ published g g' ∧
     (bucket_nrused g = 0 → ∀ e, RfAnalyze_Task e g' = monitor e g')).
Proof.
  intros b g' Hin HR Hnr Hlen.
  destruct (TIMER1_COMPA_vect_cases g) as (g0 & Hc & Ha & Heq).
  fold b in Heq. fold g' in Heq.
  assert (bucket_in g0 = bucket_in g ∧ bucket_nrused g0 = bucket_nrused g)
    as [Hin0 Hnr0] by (unfold counters in Hc; by simplify_eq).
  assert (∀ g1, counters g1 = counters g → bucket_in g1 = bucket_in g →
            bucket_array g1 = bucket_array g →
            ¬ published g (reset_input g1) ∧
            state (bucket_at (reset_input g1) (bucket_in g)) = STATE_RESET ∧
            bucket_nrused (reset_input g1) = bucket_nrused g ∧
            bucket_in (reset_input g1) = bucket_in g) as Hreset.
  { intros g1 Hc1 Hin1 Ha1.
    pose proof (reset_input_counters g1) as Hr. rewrite Hc1 in Hr.
    unfold counters in Hr. simplify_eq.
    repeat split; try congruence.
    - unfold published. lia.
    - rewrite <- Hin1. apply reset_input_state; rewrite ?Hin1, ?Ha1; lia. }
  assert (∀ g2, bucket_nrused g2 = bucket_nrused g → bucket_nrused g = 0 →
            ∀ e, RfAnalyze_Task e g2 = monitor e g2) as Htask.
  { intros g2 Hn Hz e. unfold RfAnalyze_Task.
    pose proof (monitor_counters e g2) as Hm. unfold counters in Hm. simplify_eq.
    destruct (Z.eqb_spec (bucket_nrused (monitor e g2)) 0); [done | lia]. }
  assert (¬ published g g' →
          state (bucket_at g' (bucket_in g)) = STATE_RESET ∧
          bucket_nrused g' = bucket_nrused g ∧ bucket_in g' = bucket_in g →
          ¬ (carries_frame b = true ∧ bucket_nrused g + 1 ≠ RCV_BUCKETS) →
          (published g g' ↔ carries_frame b = true ∧ bucket_nrused g + 1 ≠ RCV_BUCKETS) ∧
          (published g g' → bucket_at g' (bucket_in g) = b) ∧
          (¬ published g g' →
             state (bucket_at g' (bucket_in g)) = STATE_RESET ∧
             bucket_nrused g' = bucket_nrused g ∧ bucket_in g' = bucket_in g) ∧
          (byteidx b < 2 →
             ¬ published g g' ∧
             (bucket_nrused g = 0 → ∀ e, RfAnalyze_Task e g' = monitor e g')))
    as Hno.
  { intros Hnp Hst Hnc.
    split; [split; intros; contradiction |].
    split; [intros; contradiction |].
    split; [done |].
    intros _. split; [done |]. apply Htask. tauto. }
  unfold carries_frame in *.
  destruct (Z.ltb_spec (state b) STATE_COLLECT) as [Hs | Hs];
    [| destruct (Z.ltb_spec (byteidx b) 2) as [Hb | Hb]]; simpl in Heq.
  - destruct (Hreset g0 Hc Hin0 Ha) as (Hnp & Hst). rewrite <- Heq in *.
    apply Hno; [done | done |].
    destruct (Z.leb_spec STATE_COLLECT (state b)); [lia |].
    rewrite andb_false_r. intros [? _]. done.
  - destruct (Hreset g0 Hc Hin0 Ha) as (Hnp & Hst). rewrite <- Heq in *.
    apply Hno; [done | done |].
    destruct (Z.leb_spec 2 (byteidx b)); [lia |]. intros [? _]. done.
  - destruct (Z.leb_spec 2 (byteidx b)); [| lia].
    destruct (Z.leb_spec STATE_COLLECT (state b)); [| lia]. simpl.
    destruct (Z.eqb_spec (bucket_nrused g + 1) RCV_BUCKETS) as [Hfull | Hfull].
    + set (g1 := if negb NO_RF_DEBUG && _ then _ else _) in *.
      assert (counters g1 = counters g ∧ bucket_in g1 = bucket_in g ∧
              bucket_array g1 = bucket_array g) as (Hc1 & Hin1 & Ha1).
      { unfold g1. destruct (_ && _); simpl; rewrite ?Hc, ?Hin0, ?Ha; done. }
      destruct (Hreset g1 Hc1 Hin1 Ha1) as (Hnp & Hst).
      rewrite <- Heq in *.
      apply Hno; [done | done |]. intros [_ ?]. done.
    + assert (published g g' ∧ bucket_at g' (bucket_in g) = b) as [Hp Hb'].
      { rewrite Heq. simpl.
        rewrite (u8_small (bucket_in g + 1)), (u8_small (bucket_nrused g + 1)) by lia.
        destruct (Z.eqb_spec (bucket_in g + 1) RCV_BUCKETS) as [Hw | Hw].
        - split.
          + unfold published. simpl. split; [done |].
            rewrite Hw, Z_mod_same_full. done.
          + unfold bucket_at. simpl. by rewrite Ha.
        - split.
          + unfold published. simpl. split; [done |].
            rewrite Z.mod_small; lia.
          + unfold bucket_at. simpl. by rewrite Ha. }
      split; [split; [done | by intros _] |].
      split; [done |].
      split; [intros; contradiction |].
      intros. lia.
Qed.

(** C8: the ring occupancy stays within its bounds in every reachable
    state; the silence handler increments it only when the ring is not full
    and otherwise discards the bucket; the task decrements it only when it
    is not zero; the edge handler does not write it. *)
Theorem ring_occupancy_bounded :
  1 <= RCV_BUCKETS →
  (∀ g, reachable g → ring_bounded g) ∧
  (∀ g,
     let g' := TIMER1_COMPA_vect g in
     (bucket_nrused g' = bucket_nrused g ∨
      (bucket_nrused g + 1 ≠ RCV_BUCKETS ∧
       bucket_nrused g' = u8 (bucket_nrused g + 1))) ∧
     (bucket_nrused g + 1 = RCV_BUCKETS →
      0 <= bucket_in g → (Z.to_nat (bucket_in g) < length (bucket_array g))%nat →
      bucket_nrused g' = bucket_nrused g ∧ bucket_in g' = bucket_in g ∧
      state (bucket_at g' (bucket_in g)) = STATE_RESET)) ∧
  (∀ e g,
     bucket_nrused (RfAnalyze_Task e g) =
     if bucket_nrused g =? 0 then 0 else u8 (bucket_nrused g - 1)) ∧
  (∀ e g, bucket_nrused (CC1100_INTVECT e g) = bucket_nrused g).
Proof.
  intros HR.
  assert (∀ g,
     let g' := TIMER1_COMPA_vect g in
     (bucket_nrused g' = bucket_nrused g ∨
      (bucket_nrused g + 1 ≠ RCV_BUCKETS ∧
       bucket_nrused g' = u8 (bucket_nrused g + 1))) ∧
     (bucket_nrused g + 1 = RCV_BUCKETS →
      0 <= bucket_in g → (Z.to_nat (bucket_in g) < length (bucket_array g))%nat →
      bucket_nrused g' = bucket_nrused g ∧ bucket_in g' = bucket_in g ∧
      state (bucket_at g' (bucket_in g)) = STATE_RESET)) as Hsil.
  { intros g g'.
    destruct (TIMER1_COMPA_vect_cases g) as (g0 & Hc & Ha & Heq). fold g' in Heq.
    assert (∀ g1, counters g1 = counters g → bucket_array g1 = bucket_array g →
              bucket_nrused (reset_input g1) = bucket_nrused g ∧
              bucket_in (reset_input g1) = bucket_in g ∧
              (0 <= bucket_in g →
               (Z.to_nat (bucket_in g) < length (bucket_array g))%nat →
               state (bucket_at (reset_input g1) (bucket_in g)) = STATE_RESET))
      as Hreset.
    { intros g1 Hc1 Ha1.
      pose proof (reset_input_counters g1) as Hr. rewrite Hc1 in Hr.
      assert (bucket_in g1 = bucket_in g) as Hin1
        by (unfold counters in Hc1; by simplify_eq).
      unfold counters in Hr. simplify_eq.
      repeat split; try congruence.
      intros. rewrite <- Hin1. apply reset_input_state; rewrite ?Hin1, ?Ha1; lia. }
    destruct (_ || _).
    - destruct (Hreset g0 Hc Ha) as (Hn & Hi & Hs). rewrite <- Heq in *.
      split; [by left | auto].
    - destruct (Z.eqb_spec (bucket_nrused g + 1) RCV_BUCKETS) as [Hfull | Hfull].
      + set (g1 := if negb NO_RF_DEBUG && _ then _ else _) in *.
        assert (counters g1 = counters g ∧ bucket_array g1 = bucket_array g)
          as (Hc1 & Ha1).
        { unfold g1. destruct (_ && _); simpl; rewrite ?Hc, ?Ha; done. }
        destruct (Hreset g1 Hc1 Ha1) as (Hn & Hi & Hs). rewrite <- Heq in *.
        split; [by left | auto].
      + split; [right | done]. split; [done |].
        rewrite Heq. simpl. by destruct (_ =? _). }
  split; [| split; [exact Hsil | split]].
  - assert (∀ g, reachable g →
              0 <= bucket_nrused g <= 255 ∧ bucket_nrused g < RCV_BUCKETS) as Hinv.
    { induction 1 as [| ev g Hg IH].
      - simpl. lia.
      - destruct ev as [e | | e | v]; simpl.
        + pose proof (CC1100_INTVECT_counters e g) as H.
          unfold counters in H. simplify_eq. congruence.
        + destruct (Hsil g) as [[-> | [Hne ->]] _]; [done |].
          pose proof (u8_range (bucket_nrused g + 1)).
          destruct (Z.eq_dec (bucket_nrused g) 255) as [E | E].
          * rewrite E. change (u8 (255 + 1)) with 0. lia.
          * rewrite u8_small by lia. lia.
        + rewrite RfAnalyze_Task_nrused.
          destruct (Z.eqb_spec (bucket_nrused g) 0); [lia |].
          rewrite u8_small by lia. lia.
        + done. }
    intros g Hg. destruct (Hinv g Hg). unfold ring_bounded. lia.
  - apply RfAnalyze_Task_nrused.
  - intros e g. pose proof (CC1100_INTVECT_counters e g) as H.
    unfold counters in H. by simplify_eq.
Qed.

End RingProperties.

(** ** C9: the speculative bit of KS300 *)

Section KS300.
Context `{B : board}.

Lemma addbit_body_fields bit b :
  0 <= byteidx b < MAXMSG → MAXMSG <= 255 → 0 <= bitidx b <= 7 →
  let b1 := (addbit_body bit b).1 in
  byteidx b1 = (if bitidx b =? 0 then byteidx b + 1 else byteidx b) ∧
  bitidx b1 = (if bitidx b =? 0 then 7 else bitidx b - 1) ∧
  data b1 = data_with_bit bit b.
Proof.
  destruct b as [st by_ sy bi d z o]. simpl. intros Hby HM Hbi.
  unfold addbit_body, data_with_bit, data_store_at, data_store. simpl.
  destruct (Z.ltb_spec by_ MAXMSG); [| lia].
  destruct (Z.eqb_spec bi 0) as [-> | Hne]; simpl.
  - rewrite (u8_small (by_ + 1)) by lia.
    destruct (nz bit); simpl;
      destruct (Z.ltb_spec (by_ + 1) MAXMSG); simpl; try done;
      destruct (by_ + 1 =? MAXMSG); done.
  - destruct (nz bit); done.
Qed.

Lemma delbit_addbit_cursor bit b :
  0 <= byteidx b < MAXMSG → MAXMSG <= 255 → 0 <= bitidx b <= 7 →
  let b' := delbit_body (addbit_body bit b).1 in
  byteidx b' = byteidx b ∧ bitidx b' = bitidx b ∧ data b' = data_with_bit bit b.
Proof.
  intros Hby HM Hbi.
  destruct (addbit_body_fields bit b Hby HM Hbi) as (H1 & H2 & H3).
  simpl. unfold delbit_body.
  destruct ((addbit_body bit b).1) as [st by1 sy bi1 d1 z o]. simpl in *. subst.
  destruct (Z.eqb_spec (bitidx b) 0) as [E | E]; simpl.
  - replace (u8 (byteidx b + 1 - 1)) with (byteidx b) by (rewrite u8_small; lia).
    done.
  - destruct (Z.eqb_spec (bitidx b - 1) 7); [lia |]. simpl.
    rewrite u8_small by lia. split; [done |]. split; [lia | done].
Qed.

(** C9, amended: a failed KS300 attempt takes the cursor back to where it
    was, and leaves the speculative bit in [data]; a successful one keeps
    the appended bit. *)
Theorem ks300_retracts_cursor i g :
  let b := bucket_at g i in
  let r := try_ks300 i (0, g) in
  0 <= i → (Z.to_nat i < length (bucket_array g))%nat →
  0 <= byteidx b < MAXMSG → MAXMSG <= 255 → 0 <= bitidx b <= 7 →
  (r.1 = 0 →
     byteidx (bucket_at r.2 i) = byteidx b ∧
     bitidx (bucket_at r.2 i) = bitidx b ∧
     data (bucket_at r.2 i) = data_with_bit (ks300_last_bit g b) b) ∧
  (r.1 ≠ 0 →
     bitcount (bucket_at r.2 i) = bitcount b + 1 ∧
     data (bucket_at r.2 i) = data_with_bit (ks300_last_bit g b) b).
Proof.
  intros b r Hi Hl Hby HM Hbi. subst r. unfold try_ks300. simpl (nz 0).
  fold b. fold (ks300_last_bit g b).
  set (bit := ks300_last_bit g b).
  assert (bucket_at (addbit i bit g) i = (addbit_body bit b).1) as Hb1.
  { unfold addbit. fold b. destruct (Z.leb_spec MAXMSG (byteidx b)); [lia |].
    by rewrite bucket_at_with_bucket. }
  assert (length (bucket_array (addbit i bit g)) = length (bucket_array g)) as Hlen.
  { unfold addbit. fold b. destruct (Z.leb_spec MAXMSG (byteidx b)); [lia |].
    unfold with_bucket. simpl. apply length_alter. }
  set (g1 := addbit i bit g) in *.
  pose proof (analyze_frame (bucket_at g1 i) TYPE_KS300 g1) as Hfr.
  destruct (analyze (bucket_at g1 i) TYPE_KS300 g1) as [res g2]. simpl in Hfr.
  assert (∀ dt g3, scratch_frame g3 = scratch_frame g1 →
    let r := if nz dt then (dt, g3) else (dt, delbit i g3) in
    (r.1 = 0 →
       byteidx (bucket_at r.2 i) = byteidx b ∧ bitidx (bucket_at r.2 i) = bitidx b ∧
       data (bucket_at r.2 i) = data_with_bit bit b) ∧
    (r.1 ≠ 0 →
       bitcount (bucket_at r.2 i) = bitcount b + 1 ∧
       data (bucket_at r.2 i) = data_with_bit bit b)) as Hfin.
  { intros dt g3 H3.
    pose proof (scratch_frame_bucket_at _ _ i H3) as Hb3.
    apply scratch_frame_fields in H3 as (Ha3 & _).
    destruct (addbit_body_fields bit b Hby HM Hbi) as (F1 & F2 & F3).
    unfold nz. destruct (Z.eqb_spec dt 0) as [-> | Hdt]; simpl.
    - split; [intros _ | done].
      unfold delbit. rewrite bucket_at_with_bucket by (rewrite ?Ha3, ?Hlen; done).
      rewrite Hb3, Hb1. by apply delbit_addbit_cursor.
    - split; [done | intros _].
      rewrite Hb3, Hb1. split; [| done].
      unfold bitcount. rewrite F1, F2. destruct (bitidx b =? 0) eqn:E; lia. }
  destruct (nz res).
  - destruct (_ =? _).
    + apply (Hfin TYPE_KS300 (set_oby (u8 (oby g2 - 1)) g2)). by rewrite <- Hfr.
    + apply (Hfin 0 (set_oby (u8 (oby g2 - 1)) g2)). by rewrite <- Hfr.
  - apply (Hfin 0 g2). done.
Qed.

End KS300.

(** ** C5 and C4: the repeat filter *)

Section RepeatFilter.
Context `{B : board}.

Lemma compare_loop n g :
  0 <= roby g → roby g + Z.of_nat n <= 255 →
  match for_loop n compare_body g with
  | Continue g' =>
      roby g' = roby g + Z.of_nat n ∧
      (∀ k, roby g <= k < roby g + Z.of_nat n → rd (robuf g) k = rd (obuf g) k) ∧
      packetCheckValues g' = packetCheckValues g ∧
      robuf g' = robuf g ∧ reptime g' = reptime g ∧ filter_frame g' = filter_frame g
  | Return _ g' =>
      roby g <= roby g' < roby g + Z.of_nat n ∧
      rd (robuf g) (roby g') ≠ rd (obuf g) (roby g') ∧
      packetCheckValues g' = set_isnotrep false (packetCheckValues g) ∧
      robuf g' = robuf g ∧ reptime g' = reptime g ∧ filter_frame g' = filter_frame g
  end.
Proof.
  revert g. induction n as [|n IH]; intros g H0 Hn.
  - simpl. repeat split; try done; lia.
  - simpl. unfold compare_body at 1.
    destruct (Z.eqb_spec (rd (robuf g) (roby g)) (rd (obuf g) (roby g))) as [E | E];
      simpl.
    + rewrite (u8_small (roby g + 1)) by lia.
      specialize (IH (set_roby (roby g + 1) g)). simpl in IH.
      specialize (IH ltac:(lia) ltac:(lia)).
      destruct (for_loop n compare_body _) as [g' | v g'].
      * destruct IH as (H1 & H2 & H3).
        split; [lia |]. split; [| done].
        intros k Hk. destruct (Z.eq_dec k (roby g)) as [-> | Hne]; [done |].
        apply H2. lia.
      * destruct IH as (H1 & H2). split; [lia | done].
    + repeat split; try done; lia.
Qed.

Lemma compare_data_spec g :
  0 <= oby g <= 255 →
  let g' := compare_data g in
  (roby g' = oby g ↔ ∀ k, 0 <= k < oby g → rd (robuf g) k = rd (obuf g) k) ∧
  (roby g' = oby g → packetCheckValues g' = packetCheckValues g) ∧
  (packetCheckValues g' = packetCheckValues g ∨
   packetCheckValues g' = set_isnotrep false (packetCheckValues g)) ∧
  robuf g' = robuf g ∧ reptime g' = reptime g ∧ filter_frame g' = filter_frame g.
Proof.
  intros Ho. unfold compare_data.
  pose proof (compare_loop (Z.to_nat (oby g)) (set_roby 0 g)) as H. simpl in H.
  rewrite Z2Nat.id in H by lia.
  specialize (H ltac:(lia) ltac:(lia)).
  destruct (for_loop _ _ _) as [g' | v g']; simpl.
  - destruct H as (H1 & H2 & H3 & H4 & H5 & H6).
    repeat split; auto; try lia; try (intros; apply H2; lia).
  - destruct H as (H1 & H2 & H3 & H4 & H5 & H6).
    repeat split; auto; try lia; try (intros; lia);
      try (intros Hall; destruct H2; apply Hall; lia).
Qed.

Lemma save_loop n g :
  0 <= roby g → roby g + Z.of_nat n <= 255 →
  (Z.to_nat (roby g) + n <= length (robuf g))%nat →
  ∃ g',
    for_loop n save_body g = Continue g' ∧
    roby g' = roby g + Z.of_nat n ∧
    (∀ k, roby g <= k < roby g + Z.of_nat n → rd (robuf g') k = rd (obuf g) k) ∧
    (∀ k, 0 <= k → ¬ (roby g <= k < roby g + Z.of_nat n) →
          rd (robuf g') k = rd (robuf g) k) ∧
    length (robuf g') = length (robuf g) ∧
    packetCheckValues g' = packetCheckValues g ∧
    reptime g' = reptime g ∧ filter_frame g' = filter_frame g.
Proof.
  revert g. induction n as [|n IH]; intros g H0 Hn Hl.
  - exists g. simpl. repeat split; try done; try lia; try (intros; lia).
  - simpl. unfold save_body at 1.
    set (g1 := set_roby _ _).
    destruct (IH g1) as (g' & E & H1 & H2 & H3 & H4 & H5);
      unfold g1; simpl; rewrite ?u8_small, ?length_wr by lia; try lia.
    exists g'. unfold g1 in *. simpl in *. rewrite u8_small in * by lia.
    split; [done |]. split; [lia |]. rewrite length_wr in H4.
    split; [| split; [| done]].
    + intros k Hk. destruct (Z.eq_dec k (roby g)) as [-> | Hne].
      * rewrite H3 by lia. apply rd_wr_eq; lia.
      * apply H2. lia.
    + intros k Hk Hout. rewrite H3 by lia. apply rd_wr_ne; lia.
Qed.

Lemma save_data_spec g :
  0 <= oby g <= 255 → (Z.to_nat (oby g) <= length (robuf g))%nat →
  let g' := save_data g in
  roby g' = oby g ∧
  (∀ k, 0 <= k < oby g → rd (robuf g') k = rd (obuf g) k) ∧
  (∀ k, oby g <= k → rd (robuf g') k = rd (robuf g) k) ∧
  length (robuf g') = length (robuf g) ∧
  packetCheckValues g' = packetCheckValues g ∧
  reptime g' = reptime g ∧ filter_frame g' = filter_frame g.
Proof.
  intros Ho Hl. unfold save_data.
  destruct (save_loop (Z.to_nat (oby g)) (set_roby 0 g))
    as (g' & E & H1 & H2 & H3 & H4); simpl; try lia.
  rewrite E. simpl in *. rewrite Z2Nat.id in * by lia.
  destruct H4 as (H4 & H5 & H6 & H7).
  split; [lia |]. split; [intros; apply H2; lia |].
  split; [intros; apply H3; lia |]. done.
Qed.

Lemma filter_frame_fields g g' :
  filter_frame g' = filter_frame g →
  tx_report g' = tx_report g ∧ oby g' = oby g ∧ obuf g' = obuf g ∧
  nibble g' = nibble g ∧ display g' = display g ∧ counters g' = counters g ∧
  packageOK (packetCheckValues g') = packageOK (packetCheckValues g) ∧
  isrep (packetCheckValues g') = isrep (packetCheckValues g).
Proof.
  unfold filter_frame. intros H. simplify_eq.
  repeat split; try congruence. unfold counters. congruence.
Qed.

(** The filter with [REP_REPEATED] clear. *)
Lemma filter_repeated_spec e g :
  0 <= oby g <= 255 → (Z.to_nat (oby g) <= length (robuf g))%nat →
  report g REP_REPEATED = false →
  let g' := filter_repeated e g in
  (isrep (packetCheckValues g') = true ↔ same_payload g ∧ within_reptime e g) ∧
  packageOK (packetCheckValues g') = false ∧
  (isrep (packetCheckValues g') = true →
   isnotrep (packetCheckValues g') = isnotrep (packetCheckValues g)) ∧
  roby g' = oby g ∧
  (∀ k, 0 <= k < oby g → rd (robuf g') k = rd (obuf g) k) ∧
  (∀ k, oby g <= k → rd (robuf g') k = rd (robuf g) k) ∧
  reptime g' = ticks e ∧
  (tx_report g' = tx_report g ∧ oby g' = oby g ∧ obuf g' = obuf g ∧
   nibble g' = nibble g ∧ display g' = display g ∧ counters g' = counters g ∧
   length (robuf g') = length (robuf g)).
Proof.
  intros Ho Hl Hrep. unfold filter_repeated.
  set (g1 := set_packetCheckValues _ (set_packetCheckValues _ g)).
  assert (report g1 REP_REPEATED = false) as -> by done. simpl negb. cbv iota.
  assert (filter_frame g1 = filter_frame (set_packetCheckValues
            (mk_pcv false (isnotrep (packetCheckValues g)) false) g)) as Hf1 by done.
  assert (isnotrep (packetCheckValues g1) = isnotrep (packetCheckValues g)) as Hn1 by done.
  assert (roby g1 = roby g ∧ robuf g1 = robuf g ∧ reptime g1 = reptime g ∧
          oby g1 = oby g ∧ obuf g1 = obuf g) as (Hr1 & Hb1 & Ht1 & Ho1 & Hob1) by done.
  set (g2 := if roby g1 =? oby g1 then _ else g1).
  assert ((isrep (packetCheckValues g2) = true ↔ same_payload g ∧ within_reptime e g) ∧
          packageOK (packetCheckValues g2) = false ∧
          (isrep (packetCheckValues g2) = true →
           isnotrep (packetCheckValues g2) = isnotrep (packetCheckValues g)) ∧
          robuf g2 = robuf g ∧
          (tx_report g2 = tx_report g ∧ oby g2 = oby g ∧ obuf g2 = obuf g ∧
           nibble g2 = nibble g ∧ display g2 = display g ∧ counters g2 = counters g))
    as (Hi2 & Hp2 & Hn2 & Hb2 & Hfr2).
  { unfold g2, same_payload, within_reptime. rewrite Hr1, Ho1.
    destruct (Z.eqb_spec (roby g) (oby g)) as [E | E].
    - pose proof (compare_data_spec g1) as H. rewrite Ho1, Hb1, Hob1 in H.
      specialize (H Ho). simpl in H.
      destruct H as (Hc1 & Hc2 & Hc3 & Hc4 & Hc5 & Hc6).
      apply filter_frame_fields in Hc6 as (F1 & F2 & F3 & F4 & F5 & F6 & F7 & F8).
      rewrite Hc5, F2, Ho1.
      assert (isrep (packetCheckValues (compare_data g1)) = false) as F8' by done.
      assert (packageOK (packetCheckValues (compare_data g1)) = false) as F7' by done.
      assert (tx_report g1 = tx_report g ∧ nibble g1 = nibble g ∧
              display g1 = display g ∧ counters g1 = counters g)
        as (T1 & T2 & T3 & T4) by done.
      clear F7 F8.
      generalize dependent (compare_data g1). intros g3. intros.
      destruct (Z.eqb_spec (roby g3) (oby g)) as [E2 | E2];
        [destruct (Z.ltb_spec (u32 (ticks e - reptime g)) REPTIME) as [E3 | E3] |];
        simpl.
      + split; [split; [intros _ | done] |].
        { split; [split; [done | by apply Hc1] | done]. }
        split; [done |]. split; [intros _; by rewrite (Hc2 E2) |].
        split; [done |].
        change (counters (set_packetCheckValues ?p ?x)) with (counters x).
        repeat split; congruence.
      + split; [split; [rewrite F8'; done | intros [_ ?]; lia] |].
        split; [done |]. split; [rewrite F8'; done |].
        split; [done |]. repeat split; congruence.
      + split; [split; [rewrite F8'; done | intros [[_ ?] _]; tauto] |].
        split; [done |]. split; [rewrite F8'; done |].
        split; [done |]. repeat split; congruence.
    - split; [split; [done | intros [[? _] _]; done] |].
      split; [done |]. split; [done |]. split; [done |]. done. }
  clearbody g2.
  destruct Hfr2 as (F1 & F2 & F3 & F4 & F5 & F6).
  pose proof (save_data_spec g2) as H. rewrite F2, F3, Hb2 in H.
  specialize (H Ho Hl). simpl in H.
  destruct H as (S1 & S2 & S3 & S4 & S5 & S6 & S7).
  apply filter_frame_fields in S7 as (G1 & G2 & G3 & G4 & G5 & G6 & G7 & G8).
  simpl. rewrite S5.
  split; [done |]. split; [done |]. split; [done |]. split; [done |].
  split; [done |]. split; [done |]. split; [done |].
  change (counters (set_reptime ?p ?x)) with (counters x).
  repeat split; congruence.
Qed.

(** The filter with [REP_REPEATED] set: nothing is compared or stored. *)
Lemma filter_repeated_off e g :
  report g REP_REPEATED = true →
  filter_repeated e g =
  set_packetCheckValues (mk_pcv false (isnotrep (packetCheckValues g)) false) g.
Proof.
  intros Hrep. unfold filter_repeated.
  set (g1 := set_packetCheckValues _ (set_packetCheckValues _ g)).
  assert (report g1 REP_REPEATED = true) as -> by done. done.
Qed.

(** The filter, whatever [REP_REPEATED] is. *)
Lemma filter_repeated_cases e g :
  0 <= oby g <= 255 → (Z.to_nat (oby g) <= length (robuf g))%nat →
  let g' := filter_repeated e g in
  (isrep (packetCheckValues g') = true ↔
   report g REP_REPEATED = false ∧ same_payload g ∧ within_reptime e g) ∧
  packageOK (packetCheckValues g') = false ∧
  (isrep (packetCheckValues g') = true →
   isnotrep (packetCheckValues g') = isnotrep (packetCheckValues g)) ∧
  (tx_report g' = tx_report g ∧ oby g' = oby g ∧ obuf g' = obuf g ∧
   nibble g' = nibble g ∧ display g' = display g ∧ counters g' = counters g ∧
   length (robuf g') = length (robuf g)).
Proof.
  intros Ho Hl. destruct (report g REP_REPEATED) eqn:Hrep.
  - simpl. rewrite (filter_repeated_off e g Hrep). simpl.
    split; [split; [done | intros [? _]; done] |]. done.
  - destruct (filter_repeated_spec e g Ho Hl Hrep)
      as (H1 & H2 & H3 & H4 & H5 & H6 & H7 & H8).
    simpl. split; [| done]. rewrite H1. tauto.
Qed.

Lemma hexdump_spec n i buf g :
  0 <= i → i + Z.of_nat n <= 256 →
  hexdump n i buf g =
  set_display (display g ++ map (λ k, DH2 (rd buf k)) (seqZ i (Z.of_nat n))) g.
Proof.
  revert i g. induction n as [|n IH]; intros i g H0 Hn.
  - destruct g. simpl. unfold set_display. simpl. by rewrite app_nil_r.
  - simpl hexdump.
    rewrite (seqZ_cons i (Z.of_nat (S n))) by lia.
    replace (Z.pred (Z.of_nat (S n))) with (Z.of_nat n) by lia.
    replace (Z.succ i) with (i + 1) by lia.
    destruct (Z.eq_dec (i + 1) 256) as [E | E].
    + assert (n = 0%nat) as -> by lia. simpl. done.
    + rewrite u8_small by lia. rewrite IH by lia.
      destruct g. unfold set_display, emit. simpl. by rewrite <- app_assoc.
Qed.

(** Output and scratchpad updates commute. *)
Lemma emit_set_display o d g : emit o (set_display d g) = set_display (d ++ [o]) g.
Proof. reflexivity. Qed.

Lemma set_oby_set_display v d g :
  set_oby v (set_display d g) = set_display d (set_oby v g).
Proof. reflexivity. Qed.

Lemma set_display_twice d d' g : set_display d' (set_display d g) = set_display d' g.
Proof. reflexivity. Qed.

(** The frame line is the whole output of [print_frame]. *)
Lemma print_frame_spec e datatype g :
  0 <= oby g <= 255 →
  print_frame e datatype g =
  if packageOK (packetCheckValues g)
  then set_display (display g ++ frame_line e datatype g)
         (if nz (nibble g) then set_oby (u8 (oby g - 1)) g else g)
  else g.
Proof.
  intros Ho. unfold print_frame, frame_line.
  destruct (packageOK (packetCheckValues g)); [| reflexivity].
  pose proof (u8_range (oby g - 1)) as Hu.
  change (emit (DC datatype) g) with (set_display (display g ++ [DC datatype]) g).
  set (d0 := display g ++ [DC datatype]).
  change (nibble (set_display d0 g)) with (nibble g).
  change (oby (set_display d0 g)) with (oby g).
  destruct (nz (nibble g)) eqn:En; cbv iota.
  - rewrite set_oby_set_display.
    set (g1 := set_oby (u8 (oby g - 1)) g).
    change (oby (set_display d0 g1)) with (u8 (oby g - 1)).
    change (obuf (set_display d0 g1)) with (obuf g).
    rewrite (hexdump_spec _ 0 (obuf g) (set_display d0 g1)) by lia.
    change (display (set_display d0 g1)) with d0.
    rewrite set_display_twice. rewrite Z2Nat.id by lia.
    set (d1 := d0 ++ _).
    change (nibble (set_display d1 g1)) with (nibble g). rewrite En.
    change (obuf (set_display d1 g1)) with (obuf g).
    change (oby (set_display d1 g1)) with (u8 (oby g - 1)).
    rewrite emit_set_display.
    set (d2 := d1 ++ _).
    change (report (set_display d2 g1) REP_RSSI) with (report g REP_RSSI).
    destruct (report g REP_RSSI); rewrite !emit_set_display;
      f_equal; unfold d2, d1, d0; rewrite <- !app_assoc; reflexivity.
  - change (obuf (set_display d0 g)) with (obuf g).
    change (oby (set_display d0 g)) with (oby g).
    rewrite (hexdump_spec _ 0 (obuf g) (set_display d0 g)) by lia.
    change (display (set_display d0 g)) with d0.
    rewrite set_display_twice. rewrite Z2Nat.id by lia.
    set (d1 := d0 ++ _).
    change (nibble (set_display d1 g)) with (nibble g). rewrite En.
    change (report (set_display d1 g) REP_RSSI) with (report g REP_RSSI).
    destruct (report g REP_RSSI); rewrite !emit_set_display;
      f_equal; unfold d1, d0; rewrite <- !app_assoc; reflexivity.
Qed.

(** The steps of [report_known] after the filter do not touch the stored
    payload. *)
Lemma fht_protocol_store datatype g :
  repeat_store (fht_protocol datatype g) = repeat_store g ∧
  filter_frame_but_isrep (fht_protocol datatype g) = filter_frame_but_isrep g ∧
  isnotrep (packetCheckValues (fht_protocol datatype g))
    = isnotrep (packetCheckValues g) ∧
  (datatype ≠ TYPE_FHT → fht_protocol datatype g = g).
Proof.
  unfold fht_protocol.
  destruct (Z.eqb_spec datatype TYPE_FHT) as [E | E]; simpl; [| done].
  destruct (_ && _); done.
Qed.

Lemma checkForRepeatedPackage_store datatype g :
  repeat_store (checkForRepeatedPackage datatype g) = repeat_store g ∧
  isrep (packetCheckValues (checkForRepeatedPackage datatype g))
    = isrep (packetCheckValues g) ∧
  oby (checkForRepeatedPackage datatype g) = oby g.
Proof.
  unfold checkForRepeatedPackage.
  repeat match goal with
  | |- context [if ?c then _ else _] => destruct c eqn:?
  end; simpl; auto.
Qed.

(** C5: with [REP_REPEATED] clear, the filter flags the payload as a
    repeat exactly when it has the length and the bytes of [robuf] and
    [(ticks - reptime) < REPTIME]; afterwards [robuf] holds the payload,
    [roby] its length and [reptime] the tick count.  With [REP_KNOWN] set
    this filter runs for every decoded frame, and what it stores is what
    [RfAnalyze_Task] leaves; its flag is final except for FHT, whose protocol
    messages are flagged afterwards (lines 618 to 624). *)
Theorem repeat_flag e datatype g :
  0 <= oby g <= 255 → (Z.to_nat (oby g) <= length (robuf g))%nat →
  report g REP_REPEATED = false →
  let g' := filter_repeated e g in
  (isrep (packetCheckValues g') = true ↔ same_payload g ∧ within_reptime e g) ∧
  (roby g' = oby g ∧ (∀ k, 0 <= k < oby g → rd (robuf g') k = rd (obuf g) k) ∧
   reptime g' = ticks e) ∧
  (nz datatype = true → report g REP_KNOWN = true →
   let g'' := report_known e datatype g in
   robuf g'' = robuf g' ∧ roby g'' = roby g' ∧ reptime g'' = reptime g' ∧
   (datatype ≠ TYPE_FHT →
    isrep (packetCheckValues g'') = isrep (packetCheckValues g'))).
Proof.
  intros Ho Hl Hrep g'.
  destruct (filter_repeated_spec e g Ho Hl Hrep)
    as (H1 & H2 & H3 & H4 & H5 & H6 & H7 & H8).
  fold g' in H1, H2, H3, H4, H5, H6, H7, H8.
  split; [done |]. split; [done |].
  intros Hdt Hk. unfold report_known. rewrite Hdt, Hk. simpl andb. cbv iota.
  fold g'.
  destruct (fht_protocol_store datatype g') as (P1 & P2 & P3 & P4).
  set (g1 := fht_protocol datatype g') in *.
  destruct (checkForRepeatedPackage_store datatype g1) as (C1 & C2 & C3).
  set (g2 := checkForRepeatedPackage datatype g1) in *.
  set (g3 := if _ && _ then _ else g2).
  assert (repeat_store g3 = repeat_store g2 ∧ oby g3 = oby g2 ∧
          isrep (packetCheckValues g3) = isrep (packetCheckValues g2))
    as (R1 & R2 & R3) by (unfold g3; destruct (_ && _); done).
  assert (oby g1 = oby g') as O1.
  { unfold filter_frame_but_isrep in P2. by simplify_eq. }
  rewrite print_frame_spec by (rewrite R2, C3, O1; lia).
  assert (repeat_store g3 = repeat_store g') as R by congruence.
  unfold repeat_store in R.
  assert (datatype ≠ TYPE_FHT →
          isrep (packetCheckValues g3) = isrep (packetCheckValues g')) as I.
  { intros Hne. rewrite R3, C2. by rewrite (P4 Hne). }
  clearbody g3.
  destruct (packageOK (packetCheckValues g3)); [destruct (nz (nibble g3)) |];
    simpl; simplify_eq; repeat split; auto.
Qed.

(** The state in which [report_known] prints an IT or TCM97001 frame. *)
Lemma it_check e datatype g :
  HAS_IT || HAS_TCM97001 = true →
  datatype = TYPE_IT ∨ datatype = TYPE_TCM97001 →
  nz datatype = true → datatype ≠ TYPE_FHT →
  report g REP_KNOWN = true →
  0 <= oby g <= 255 → (Z.to_nat (oby g) <= length (robuf g))%nat →
  ∃ g3,
    report_known e datatype g = print_frame e datatype g3 ∧
    (packageOK (packetCheckValues g3) = true ↔
     report g REP_REPEATED = false ∧ same_payload g ∧ within_reptime e g ∧
     isnotrep (packetCheckValues g) = false) ∧
    (packageOK (packetCheckValues g3) = true →
     isnotrep (packetCheckValues g3) = true) ∧
    (tx_report g3 = tx_report g ∧ oby g3 = oby g ∧ obuf g3 = obuf g ∧
     nibble g3 = nibble g ∧ display g3 = display g ∧
     length (robuf g3) = length (robuf g)).
Proof.
  intros Hhas Hdt Hnz Hfht Hk Ho Hl.
  unfold report_known. rewrite Hnz, Hk. simpl andb. cbv iota.
  destruct (filter_repeated_cases e g Ho Hl) as (F1 & F2 & F3 & F4).
  set (g1 := filter_repeated e g) in *.
  destruct (fht_protocol_store datatype g1) as (_ & _ & _ & P4).
  rewrite (P4 Hfht).
  assert ((datatype =? TYPE_FHT) = false) as -> by (by apply Z.eqb_neq).
  rewrite !andb_false_r. simpl andb. cbv iota.
  exists (checkForRepeatedPackage datatype g1). split; [done |].
  unfold checkForRepeatedPackage. rewrite Hhas.
  assert ((datatype =? TYPE_IT) || (datatype =? TYPE_TCM97001) = true) as ->.
  { destruct Hdt as [-> | ->]; rewrite Z.eqb_refl; [done | apply orb_true_r]. }
  simpl andb. cbv iota.
  destruct F4 as (T1 & T2 & T3 & T4 & T5 & T6 & T7).
  destruct (isrep (packetCheckValues g1)) eqn:Ei;
    [destruct (isnotrep (packetCheckValues g1)) eqn:En |]; simpl.
  - specialize (F3 eq_refl).
    split; [| done].
    split; [done |]. intros (? & ? & ? & ?). congruence.
  - specialize (F3 eq_refl).
    split; [| done].
    split; [intros _ | done].
    destruct F1 as [F1 _]. destruct (F1 eq_refl) as (? & ? & ?).
    rewrite <- F3. done.
  - split; [| split; [by rewrite F2 |]; done].
    rewrite F2. split; [done |]. intros (? & ? & ? & ?).
    destruct F1 as [_ F1]. apply F1. done.
Qed.

(** The check for IT and TCM97001 as it is coded: with [REP_KNOWN] set, a
    frame is emitted exactly when the repeat filter flags it ([REP_REPEATED]
    clear, the length and bytes of [robuf], inside the window) and [isnotrep]
    is 0, so the first arrival of a payload is never emitted.  The emission
    sets [isnotrep], and a further arrival of the same payload is not
    emitted. *)
Theorem it_repeat_rule e datatype g :
  HAS_IT || HAS_TCM97001 = true →
  datatype = TYPE_IT ∨ datatype = TYPE_TCM97001 →
  nz datatype = true → datatype ≠ TYPE_FHT →
  report g REP_KNOWN = true →
  0 <= oby g <= 255 → (Z.to_nat (oby g) <= length (robuf g))%nat →
  let g' := report_known e datatype g in
  let emitted := packageOK (packetCheckValues g') in
  (emitted = true ↔
   report g REP_REPEATED = false ∧ same_payload g ∧ within_reptime e g ∧
   isnotrep (packetCheckValues g) = false) ∧
  display g' = display g ++ (if emitted then frame_line e datatype g else []) ∧
  (emitted = true → isnotrep (packetCheckValues g') = true) ∧
  (emitted = true →
   ∀ e2, packageOK (packetCheckValues
                      (report_known e2 datatype (decoded_again g g'))) = false).
Proof.
  intros Hhas Hdt Hnz Hfht Hk Ho Hl g' emitted.
  destruct (it_check e datatype g Hhas Hdt Hnz Hfht Hk Ho Hl)
    as (g3 & E & C1 & C2 & T1 & T2 & T3 & T4 & T5 & T6).
  assert (packetCheckValues g' = packetCheckValues g3 ∧
          display g' = display g ++
            (if packageOK (packetCheckValues g3) then frame_line e datatype g else []) ∧
          tx_report g' = tx_report g ∧ length (robuf g') = length (robuf g))
    as (P1 & P2 & P3 & P4).
  { unfold g'. rewrite E, print_frame_spec by lia.
    assert (frame_line e datatype g3 = frame_line e datatype g) as ->.
    { unfold frame_line, report. by rewrite T1, T2, T3, T4. }
    destruct (packageOK (packetCheckValues g3)); [destruct (nz (nibble g3)) |];
      simpl; rewrite ?T5, ?T1, ?T6, ?app_nil_r; done. }
  unfold emitted. rewrite P1.
  split; [done |]. split; [done |]. split; [done |].
  intros Hem e2.
  set (g2 := decoded_again g g').
  assert (report g2 REP_KNOWN = true) as Hk2.
  { unfold g2, decoded_again, report. simpl. rewrite P3. exact Hk. }
  assert (0 <= oby g2 <= 255) as Ho2 by done.
  assert ((Z.to_nat (oby g2) <= length (robuf g2))%nat) as Hl2.
  { unfold g2, decoded_again. simpl. by rewrite P4. }
  destruct (it_check e2 datatype g2 Hhas Hdt Hnz Hfht Hk2 Ho2 Hl2)
    as (g4 & E4 & D1 & _ & _ & D2 & _).
  rewrite E4, print_frame_spec by lia.
  assert (packageOK (packetCheckValues g4) = false) as D3.
  { destruct (packageOK (packetCheckValues g4)); [| done].
    destruct D1 as [D1 _]. destruct (D1 eq_refl) as (_ & _ & _ & D4).
    unfold g2, decoded_again in D4. simpl in D4.
    rewrite P1, (C2 Hem) in D4. done. }
  by rewrite D3.
Qed.

End RepeatFilter.

(** ** The bit reader *)

Section BitReader.

Lemma nz_land_BV x k : 0 <= k → nz (Z.land x (_BV k)) = Z.testbit x k.
Proof.
  intros Hk. unfold nz, _BV.
  destruct (Z.testbit x k) eqn:E.
  - apply negb_true_iff, Z.eqb_neq. intros H.
    assert (Z.testbit (Z.land x (Z.shiftl 1 k)) k = false) as H1
      by (rewrite H; apply Z.bits_0).
    rewrite Z.land_spec, E, Z.shiftl_spec, Z.sub_diag in H1 by lia. done.
  - apply negb_false_iff, Z.eqb_eq. apply Z.bits_inj'. intros n Hn.
    rewrite Z.land_spec, Z.shiftl_spec, Z.bits_0 by lia.
    destruct (Z.eq_dec n k) as [-> | Hne]; [by rewrite E |].
    destruct (Z.lt_ge_cases n k).
    + rewrite (Z.testbit_neg_r 1 (n - k)) by lia. apply andb_false_r.
    + replace (Z.testbit 1 (n - k)) with false; [apply andb_false_r |].
      symmetry. change 1 with (2 ^ 0). apply Z.pow2_bits_false. lia.
Qed.

Lemma getbit_at d p :
  0 <= p → p < 2040 →
  getbit (at_pos d p) = (b2z (bit_at d p), at_pos d (p + 1)).
Proof.
  intros H0 H1. unfold getbit, at_pos, bit_at. simpl.
  rewrite nz_land_BV by (pose proof (Z.mod_pos_bound p 8); lia).
  assert (p = 8 * (p / 8) + p mod 8) as Hp by (apply Z.div_mod; lia).
  pose proof (Z.mod_pos_bound p 8 ltac:(lia)) as Hm.
  destruct (Z.eqb_spec (7 - p mod 8) 0) as [E | E].
  - assert ((p + 1) / 8 = p / 8 + 1 ∧ (p + 1) mod 8 = 0) as [-> ->].
    { assert (p + 1 = 8 * (p / 8 + 1) + 0) as Hq by lia.
      split.
      - symmetry. apply (Z.div_unique (p + 1) 8 (p / 8 + 1) 0); lia.
      - symmetry. apply (Z.mod_unique (p + 1) 8 (p / 8 + 1) 0); lia. }
    rewrite u8_small; [done |].
    split; [apply Z.add_nonneg_nonneg; [apply Z.div_pos |]; lia |].
    assert (p / 8 < 255); [| lia]. apply Z.div_lt_upper_bound; lia.
  - assert ((p + 1) / 8 = p / 8 ∧ (p + 1) mod 8 = p mod 8 + 1) as [-> ->].
    { assert (p + 1 = 8 * (p / 8) + (p mod 8 + 1)) as Hq by lia.
      split.
      - symmetry. apply (Z.div_unique (p + 1) 8 (p / 8) (p mod 8 + 1)); lia.
      - symmetry. apply (Z.mod_unique (p + 1) 8 (p / 8) (p mod 8 + 1)); lia. }
    do 2 f_equal. lia.
Qed.

Lemma getbits_loop_at n i nbits msb ret d p :
  0 <= p → p + Z.of_nat n <= 2040 →
  getbits_loop n i nbits msb ret (at_pos d p)
  = (assemble i nbits msb ret (bits_from d p n), at_pos d (p + Z.of_nat n)).
Proof.
  revert i ret p. induction n as [|n IH]; intros i ret p H0 H1.
  - simpl. by rewrite Z.add_0_r.
  - simpl getbits_loop. rewrite getbit_at by lia.
    rewrite IH by lia. simpl bits_from. simpl assemble.
    replace (p + 1 + Z.of_nat n) with (p + Z.of_nat (S n)) by lia.
    destruct (bit_at d p); done.
Qed.

(** Eight bits, first bit least significant ([getbits(in, 8, 0)]). *)
Lemma getbits_8_lsb d p :
  0 <= p → p + 8 <= 2040 →
  getbits (at_pos d p) 8 0 = (lsb_first (bits_from d p 8), at_pos d (p + 8)).
Proof.
  intros H0 H1. unfold getbits.
  change (Z.to_nat 8) with 8%nat. rewrite getbits_loop_at by lia.
  f_equal. simpl bits_from.
  generalize (bit_at d p) (bit_at d (p + 1)) (bit_at d (p + 1 + 1))
    (bit_at d (p + 1 + 1 + 1)) (bit_at d (p + 1 + 1 + 1 + 1))
    (bit_at d (p + 1 + 1 + 1 + 1 + 1)) (bit_at d (p + 1 + 1 + 1 + 1 + 1 + 1))
    (bit_at d (p + 1 + 1 + 1 + 1 + 1 + 1 + 1)).
  intros [] [] [] [] [] [] [] []; vm_compute; reflexivity.
Qed.

(** Eight bits, first bit most significant ([getbits(in, 8, 1)]). *)
Lemma getbits_8_msb d p :
  0 <= p → p + 8 <= 2040 →
  getbits (at_pos d p) 8 1 = (msb_first (bits_from d p 8), at_pos d (p + 8)).
Proof.
  intros H0 H1. unfold getbits.
  change (Z.to_nat 8) with 8%nat. rewrite getbits_loop_at by lia.
  f_equal. simpl bits_from.
  generalize (bit_at d p) (bit_at d (p + 1)) (bit_at d (p + 1 + 1))
    (bit_at d (p + 1 + 1 + 1)) (bit_at d (p + 1 + 1 + 1 + 1))
    (bit_at d (p + 1 + 1 + 1 + 1 + 1)) (bit_at d (p + 1 + 1 + 1 + 1 + 1 + 1))
    (bit_at d (p + 1 + 1 + 1 + 1 + 1 + 1 + 1)).
  intros [] [] [] [] [] [] [] []; vm_compute; reflexivity.
Qed.

(** Seven bits, first bit most significant ([getbits(in, 7, 1)]). *)
Lemma getbits_7_msb d p :
  0 <= p → p + 7 <= 2040 →
  getbits (at_pos d p) 7 1 = (msb_first (bits_from d p 7), at_pos d (p + 7)).
Proof.
  intros H0 H1. unfold getbits.
  change (Z.to_nat 7) with 7%nat. rewrite getbits_loop_at by lia.
  f_equal. simpl bits_from.
  generalize (bit_at d p) (bit_at d (p + 1)) (bit_at d (p + 1 + 1))
    (bit_at d (p + 1 + 1 + 1)) (bit_at d (p + 1 + 1 + 1 + 1))
    (bit_at d (p + 1 + 1 + 1 + 1 + 1)) (bit_at d (p + 1 + 1 + 1 + 1 + 1 + 1)).
  intros [] [] [] [] [] [] []; vm_compute; reflexivity.
Qed.

Lemma msb_first_8_range d p : 0 <= msb_first (bits_from d p 8) < 256.
Proof.
  simpl bits_from.
  generalize (bit_at d p) (bit_at d (p + 1)) (bit_at d (p + 1 + 1))
    (bit_at d (p + 1 + 1 + 1)) (bit_at d (p + 1 + 1 + 1 + 1))
    (bit_at d (p + 1 + 1 + 1 + 1 + 1)) (bit_at d (p + 1 + 1 + 1 + 1 + 1 + 1))
    (bit_at d (p + 1 + 1 + 1 + 1 + 1 + 1 + 1)).
  intros [] [] [] [] [] [] [] []; vm_compute; done.
Qed.

Lemma lsb_first_8_range d p : 0 <= lsb_first (bits_from d p 8) < 256.
Proof.
  simpl bits_from.
  generalize (bit_at d p) (bit_at d (p + 1)) (bit_at d (p + 1 + 1))
    (bit_at d (p + 1 + 1 + 1)) (bit_at d (p + 1 + 1 + 1 + 1))
    (bit_at d (p + 1 + 1 + 1 + 1 + 1)) (bit_at d (p + 1 + 1 + 1 + 1 + 1 + 1))
    (bit_at d (p + 1 + 1 + 1 + 1 + 1 + 1 + 1)).
  intros [] [] [] [] [] [] [] []; vm_compute; done.
Qed.

End BitReader.

(** ** C3: the HMS decoder *)

Section HMS.

Lemma analyze_hms_body_at d k crc g :
  0 <= k → 10 * k + 10 <= 2040 → oby g = k → (Z.to_nat k < length (obuf g))%nat →
  let g1 := set_obuf (wr (obuf g) k (hms_byte d k)) g in
  analyze_hms_body (at_pos d (10 * k), crc, g) =
  if hms_parity_ok d k
  then if hms_stop d k
       then Return 0 (at_pos d (10 * k + 8 + 1 + 1), crc, g1)
       else Continue (at_pos d (10 * (k + 1)), Z.lxor crc (hms_byte d k),
                      set_oby (u8 (k + 1)) g1)
  else Return 0 (at_pos d (10 * k + 8 + 1), crc, g1).
Proof.
  intros Hk Hp Ho Hl g1. unfold analyze_hms_body.
  rewrite getbits_8_lsb by lia. fold (hms_byte d k). rewrite Ho. fold g1.
  rewrite getbit_at by lia.
  assert (rd (obuf g1) (oby g1) = hms_byte d k) as ->.
  { unfold g1. simpl. rewrite Ho. apply rd_wr_eq; lia. }
  fold (hms_parity_ok d k).
  destruct (hms_parity_ok d k); simpl negb; cbv iota; [| done].
  rewrite getbit_at by lia. fold (hms_stop d k).
  replace (10 * k + 8 + 1) with (10 * k + 9) by lia. fold (hms_stop d k).
  destruct (hms_stop d k); simpl; [by replace (10 * k + 9 + 1) with (10 * k + 8 + 1 + 1) by lia |].
  unfold g1. simpl. rewrite Ho.
  by replace (10 * k + 9 + 1) with (10 * (k + 1)) by lia.
Qed.

(** [n] rounds of the byte loop from byte [k] on. *)
Lemma analyze_hms_loop d n k crc g :
  0 <= k → 10 * (k + Z.of_nat n) <= 2040 → k + Z.of_nat n <= 255 →
  oby g = k → (Z.to_nat k + n <= length (obuf g))%nat →
  match for_loop n analyze_hms_body (at_pos d (10 * k), crc, g) with
  | Continue (inp, crc', g') =>
      forallb (λ j, hms_parity_ok d j && negb (hms_stop d j)) (seqZ k (Z.of_nat n)) = true ∧
      inp = at_pos d (10 * (k + Z.of_nat n)) ∧
      crc' = fold_left Z.lxor (map (hms_byte d) (seqZ k (Z.of_nat n))) crc ∧
      oby g' = k + Z.of_nat n ∧
      (∀ j, k <= j < k + Z.of_nat n → rd (obuf g') j = hms_byte d j) ∧
      (∀ j, 0 <= j < k → rd (obuf g') j = rd (obuf g) j) ∧
      length (obuf g') = length (obuf g)
  | Return v _ =>
      v = 0 ∧
      forallb (λ j, hms_parity_ok d j && negb (hms_stop d j)) (seqZ k (Z.of_nat n)) = false
  end.
Proof.
  revert k crc g. induction n as [|n IH]; intros k crc g Hk Hp Hk2 Ho Hl.
  - simpl. rewrite Z.add_0_r. repeat split; try done; intros; lia.
  - rewrite for_loop_S, analyze_hms_body_at by lia.
    rewrite (seqZ_cons k (Z.of_nat (S n))) by lia.
    replace (Z.pred (Z.of_nat (S n))) with (Z.of_nat n) by lia.
    replace (Z.succ k) with (k + 1) by lia. simpl forallb. simpl map.
    destruct (hms_parity_ok d k); [destruct (hms_stop d k) |]; simpl; try done.
    set (g1 := set_oby _ _).
    specialize (IH (k + 1) (Z.lxor crc (hms_byte d k)) g1).
    assert (oby g1 = k + 1) as Ho1 by (unfold g1; simpl; apply u8_small; lia).
    assert (length (obuf g1) = length (obuf g)) as Hl1
      by (unfold g1; simpl; apply length_wr).
    specialize (IH ltac:(lia) ltac:(lia) ltac:(lia) Ho1 ltac:(lia)).
    destruct (for_loop n analyze_hms_body _) as [[[inp crc'] g'] | v s]; [| done].
    destruct IH as (I1 & I2 & I3 & I4 & I5 & I6 & I7).
    split; [done |]. split; [rewrite I2; f_equal; lia |]. split; [done |].
    split; [lia |]. split; [| split; [| congruence]].
    + intros j Hj. destruct (Z.eq_dec j k) as [-> | Hne].
      * rewrite I6 by lia. unfold g1. simpl. apply rd_wr_eq; lia.
      * apply I5. lia.
    + intros j Hj. rewrite I6 by lia. unfold g1. simpl. apply rd_wr_ne; lia.
Qed.

Lemma firstn_6_rd (l : list Z) (f : Z → Z) :
  (6 <= length l)%nat → (∀ j, 0 <= j < 6 → rd l j = f j) →
  firstn 6 l = map f [0; 1; 2; 3; 4; 5].
Proof.
  intros Hl H.
  destruct l as [|a0 [|a1 [|a2 [|a3 [|a4 [|a5 l]]]]]]; simpl in Hl; try lia.
  simpl. rewrite <- (H 0), <- (H 1), <- (H 2), <- (H 3), <- (H 4), <- (H 5) by lia.
  reflexivity.
Qed.

(** C3, amended: with fewer than 69 bits [analyze_hms] fails; with at
    least 69 bits it succeeds exactly on an HMS frame, in which each of the
    six payload bytes is assembled first bit least significant and followed
    by its even-parity bit and a 0 stop bit, and the check byte, with its
    parity bit, is the exclusive or of the six; the output is the six payload
    bytes. *)
Theorem hms_decoder b g :
  let r := analyze_hms b g in
  (bitcount b < 69 → r.1 = 0) ∧
  (69 <= bitcount b → (9 <= length (data b))%nat → (6 <= length (obuf g))%nat →
   (r.1 = 0 ∨ r.1 = 1) ∧
   (r.1 = 1 ↔ hms_frame (data b) = true) ∧
   (r.1 = 1 → oby r.2 = 6 ∧ firstn 6 (obuf r.2) = hms_payload (data b))).
Proof.
  intros r. subst r. unfold analyze_hms. fold (bitcount b).
  destruct (Z.ltb_spec (bitcount b) 69) as [Hlt | Hge].
  - split; [done | lia].
  - split; [lia |]. intros _ Hd Hl.
    change (mk_input (data b) 0 7) with (at_pos (data b) (10 * 0)).
    set (d := data b).
    pose proof (analyze_hms_loop d 6 0 0 (set_oby 0 (set_oby 0 g))) as H.
    specialize (H ltac:(lia) ltac:(lia) ltac:(lia) eq_refl ltac:(simpl; lia)).
    unfold hms_frame.
    change (seqZ 0 (Z.of_nat 6)) with [0; 1; 2; 3; 4; 5] in H.
    destruct (for_loop 6 analyze_hms_body _) as [[[inp crc'] g'] | v [[inp crc'] g']].
    + destruct H as (I1 & I2 & I3 & I4 & I5 & I6 & I7).
      rewrite I1, I2. simpl andb.
      change (10 * (0 + Z.of_nat 6)) with (10 * 6).
      rewrite getbits_8_lsb by lia. fold (hms_byte d 6).
      rewrite getbit_at by lia. fold (hms_parity_ok d 6).
      fold (hms_payload d) in I3. fold (xor_bytes (hms_payload d)) in I3.
      rewrite I3.
      destruct (hms_parity_ok d 6); simpl;
        [destruct (xor_bytes (hms_payload d) =? hms_byte d 6); simpl |].
      * split; [by right |]. split; [done |]. intros _.
        split; [done |]. apply firstn_6_rd; [simpl in I7; lia |].
        intros j Hj. apply I5. lia.
      * split; [by left |]. split; [split; done | done].
      * split; [by left |]. split; [split; done | done].
    + destruct H as [-> H]. rewrite H. simpl.
      split; [by left |]. split; [split; done | done].
Qed.

End HMS.

(** ** C6: the ESA decoder *)

Section ESADecoder.
Context `{B : board}.

Lemma firstn_rd_eq (l l' : list Z) n :
  length l' = n → (n <= length l)%nat →
  (∀ j, 0 <= j < Z.of_nat n → rd l j = rd l' j) →
  firstn n l = l'.
Proof.
  revert l l'. induction n as [|n IH]; intros l l' Hl' Hl H.
  - destruct l'; [done | simpl in Hl'; lia].
  - destruct l' as [|a' l']; [simpl in Hl'; lia |].
    destruct l as [|a l]; [simpl in Hl; lia |].
    simpl. f_equal.
    + apply (H 0). lia.
    + apply IH; [simpl in Hl'; lia | simpl in Hl; lia |].
      intros j Hj. specialize (H (j + 1) ltac:(lia)).
      unfold rd in *. destruct (j + 1 <? 0) eqn:E1; [lia |].
      destruct (j <? 0) eqn:E2; [lia |].
      replace (Z.to_nat (j + 1)) with (S (Z.to_nat j)) in H by lia. done.
Qed.

Lemma analyze_esa_body_at d k salt crc g :
  0 <= k → 8 * k + 8 <= 2040 → oby g = k →
  analyze_esa_body (at_pos d (8 * k), salt, crc, g) =
  Continue (at_pos d (8 * (k + 1)), u8 (esa_byte d k + 0x24), u16 (crc + esa_byte d k),
            set_oby (u8 (k + 1)) (set_obuf (wr (obuf g) k (Z.lxor (esa_byte d k) salt)) g)).
Proof.
  intros Hk Hp Ho. unfold analyze_esa_body.
  rewrite getbits_8_msb by lia. fold (esa_byte d k). simpl. rewrite Ho.
  by replace (8 * k + 8) with (8 * (k + 1)) by lia.
Qed.

(** [n] rounds of the descrambling loop from byte [k] on; [s] is the sum
    of the specification, which the code keeps in 16 bits. *)
Lemma analyze_esa_loop d n k salt s g :
  0 <= k → 8 * (k + Z.of_nat n) <= 2040 → k + Z.of_nat n <= 255 →
  oby g = k → (Z.to_nat k + n <= length (obuf g))%nat →
  let spec := esa_descramble salt s (map (esa_byte d) (seqZ k (Z.of_nat n))) in
  ∃ salt' g',
    for_loop n analyze_esa_body (at_pos d (8 * k), salt, u16 s, g)
    = Continue (at_pos d (8 * (k + Z.of_nat n)), salt', u16 spec.2, g') ∧
    oby g' = k + Z.of_nat n ∧
    length spec.1 = n ∧
    (∀ j, 0 <= j < Z.of_nat n → rd (obuf g') (k + j) = rd spec.1 j) ∧
    (∀ j, 0 <= j < k → rd (obuf g') j = rd (obuf g) j) ∧
    length (obuf g') = length (obuf g) ∧
    scratch_frame g' = scratch_frame g.
Proof.
  revert k salt s g. induction n as [|n IH]; intros k salt s g Hk Hp Hk2 Ho Hl.
  - exists salt, g. simpl. rewrite Z.add_0_r.
    repeat split; try done; intros; lia.
  - rewrite for_loop_S, analyze_esa_body_at by lia.
    rewrite (seqZ_cons k (Z.of_nat (S n))) by lia.
    replace (Z.pred (Z.of_nat (S n))) with (Z.of_nat n) by lia.
    replace (Z.succ k) with (k + 1) by lia. simpl map. simpl esa_descramble.
    set (g1 := set_oby _ _).
    assert (u16 (u16 s + esa_byte d k) = u16 (s + esa_byte d k)) as ->
      by (unfold u16; apply Zplus_mod_idemp_l).
    assert (oby g1 = k + 1) as Ho1 by (unfold g1; simpl; apply u8_small; lia).
    assert (length (obuf g1) = length (obuf g)) as Hl1
      by (unfold g1; simpl; apply length_wr).
    destruct (IH (k + 1) (u8 (esa_byte d k + 0x24)) (s + esa_byte d k) g1)
      as (salt' & g' & E & I1 & I2 & I3 & I4 & I5 & I6); try lia.
    destruct (esa_descramble _ _ _) as [out crc'] eqn:Ed. simpl in *.
    exists salt', g'. rewrite E.
    split; [by replace (k + Z.of_nat (S n)) with (k + 1 + Z.of_nat n) by lia |].
    split; [lia |]. split; [lia |].
    split; [| split; [| split; [congruence | by rewrite I6]]].
    + intros j Hj. destruct (Z.eq_dec j 0) as [-> | Hne].
      * rewrite Z.add_0_r, I4 by lia. rewrite rd_wr_eq by lia. done.
      * replace (k + j) with (k + 1 + (j - 1)) by lia. rewrite I3 by lia.
        unfold rd. destruct (j - 1 <? 0) eqn:E1; [lia |].
        destruct (j <? 0) eqn:E2; [lia |].
        replace (Z.to_nat j) with (S (Z.to_nat (j - 1))) by lia. done.
    + intros j Hj. rewrite I4 by lia. apply rd_wr_ne; lia.
Qed.

Lemma u16_sub_l a b : u16 (u16 a - b) = u16 (a - b).
Proof. unfold u16. apply Zminus_mod_idemp_l. Qed.

Lemma u16_add_l a b : u16 (u16 a + b) = u16 (a + b).
Proof. unfold u16. apply Zplus_mod_idemp_l. Qed.

(** The decoder after its two checks, for a payload of [n] bytes and the
    start value [crc0]. *)
Lemma analyze_esa_run d n crc0 g :
  Z.of_nat n + 3 <= 255 → (n + 1 <= length (obuf g))%nat →
  let N := Z.of_nat n in
  let spec := esa_descramble 0x89 crc0 (map (esa_byte d) (seqZ 0 N)) in
  let crc :=
    (spec.2 + esa_byte d N - (256 * esa_byte d (N + 1) + esa_byte d (N + 2)))
    mod 65536 in
  ∃ g',
    match for_loop n analyze_esa_body (at_pos d (8 * 0), 0x89, u16 crc0, set_oby 0 g) with
    | Return v (_, _, _, g) => (v, g)
    | Continue (inp, salt, crc, g) =>
        let '(v, inp) := getbits inp 8 1 in
        let g := set_obuf (wr (obuf g) (oby g) v) g in
        let crc := u16 (crc + rd (obuf g) (oby g)) in
        let g := set_obuf (wr (obuf g) (oby g) (Z.lxor (rd (obuf g) (oby g)) 0xff)) g in
        let g := set_oby (u8 (oby g + 1)) g in
        let '(hi, inp) := getbits inp 8 1 in
        let crc := u16 (crc - Z.shiftl hi 8) in
        let '(lo, inp) := getbits inp 8 1 in
        let crc := u16 (crc - lo) in
        if nz crc then (0, g) else (1, g)
    end = (if crc =? 0 then 1 else 0, g') ∧
    oby g' = N + 1 ∧
    firstn (n + 1) (obuf g') = spec.1 ++ [Z.lxor (esa_byte d N) 0xFF].
Proof.
  intros Hn Hl N spec crc.
  destruct (analyze_esa_loop d n 0 0x89 crc0 (set_oby 0 g))
    as (salt' & g' & E & I1 & I2 & I3 & I4 & I5 & I6); try done; try lia.
  { simpl. lia. }
  rewrite E. fold N in E, I1, I3 |- *. fold spec in I2, I3 |- *.
  replace (0 + N) with N in * by lia.
  rewrite getbits_8_msb by lia. fold (esa_byte d N).
  rewrite I1. cbv zeta.
  set (g1 := set_obuf (wr (obuf g') N (esa_byte d N)) g').
  assert (rd (obuf g1) (oby g1) = esa_byte d N) as ->.
  { unfold g1. simpl. rewrite I1. apply rd_wr_eq; [lia |]. simpl in I5. lia. }
  replace (8 * N + 8) with (8 * (N + 1)) by lia.
  rewrite getbits_8_msb by lia. fold (esa_byte d (N + 1)).
  replace (8 * (N + 1) + 8) with (8 * (N + 2)) by lia.
  rewrite getbits_8_msb by lia. fold (esa_byte d (N + 2)).
  set (g2 := set_oby _ _).
  assert (u16 (u16 (u16 (u16 spec.2 + esa_byte d N) - Z.shiftl (esa_byte d (N + 1)) 8)
               - esa_byte d (N + 2)) = crc) as ->.
  { rewrite u16_add_l.
    rewrite (u16_sub_l (spec.2 + esa_byte d N)), u16_sub_l. unfold crc, u16.
    rewrite Z.shiftl_mul_pow2 by lia. f_equal. lia. }
  assert (oby g2 = N + 1 ∧
          obuf g2 = wr (wr (obuf g') N (esa_byte d N)) N (Z.lxor (esa_byte d N) 255))
    as [Ho2 Hb2].
  { unfold g2, g1. simpl. rewrite I1. split; [apply u8_small; lia | done]. }
  clearbody g2. clear g1.
  exists g2. unfold nz.
  split; [by destruct (crc =? 0) |].
  split; [done |]. simpl in I5. fold N in I2. fold spec in I2.
  apply firstn_rd_eq.
  - rewrite length_app, I2. simpl. lia.
  - rewrite Hb2, !length_wr. lia.
  - intros j Hj. rewrite Hb2.
    destruct (Z.eq_dec j N) as [-> | Hne].
    + rewrite rd_wr_eq by (rewrite ?length_wr; lia).
      unfold rd. destruct (N <? 0) eqn:E1; [lia |].
      rewrite lookup_app_r by lia.
      replace (Z.to_nat N - length spec.1)%nat with 0%nat by lia. done.
    + rewrite !rd_wr_ne by lia.
      replace j with (0 + j) at 1 by lia. rewrite I3 by lia.
      unfold rd. destruct (j <? 0) eqn:E1; [lia |].
      rewrite lookup_app_l by lia. done.
Qed.

(** C6: [analyze_esa] succeeds exactly when the bucket is in
    [STATE_ESA], holds [ESA_BITLEN] bits and the sum of the specification
    ends at zero; on success the output is the descrambled payload and the
    next byte [XOR 0xFF]. *)
Theorem esa_decoder b g :
  (Z.to_nat (ESA_DATALEN + 3) <= length (data b))%nat →
  (Z.to_nat (ESA_DATALEN + 1) <= length (obuf g))%nat →
  let r := analyze_esa b g in
  (r.1 = 0 ∨ r.1 = 1) ∧
  (r.1 = 1 ↔ esa_frame b) ∧
  (r.1 = 1 →
   oby r.2 = ESA_DATALEN + 1 ∧
   firstn (Z.to_nat (ESA_DATALEN + 1)) (obuf r.2) = esa_output (data b)).
Proof.
  intros Hd Hl r.
  assert (r = analyze_esa b g) as Hr by reflexivity. clearbody r.
  unfold analyze_esa in Hr. fold (bitcount b) in Hr. unfold esa_frame.
  destruct (Z.eqb_spec (state b) STATE_ESA) as [Hs | Hs]; simpl negb in Hr;
    cbv iota in Hr;
    [| subst r; split; [by left |]; split; [split; [done | tauto] | done]].
  destruct (Z.eqb_spec (bitcount b) ESA_BITLEN) as [Hb | Hb]; simpl negb in Hr;
    cbv iota in Hr;
    [| subst r; split; [by left |]; split; [split; [done | tauto] | done]].
  change (mk_input (data b) 0 7) with (at_pos (data b) (8 * 0)) in Hr.
  unfold esa_crc, esa_output, esa_payload.
  assert (∃ n, ESA_DATALEN = Z.of_nat n ∧ Z.of_nat n + 3 <= 255 ∧
               ESA_CRC = u16 ESA_CRC) as (n & En & Hn & Hc).
  { unfold ESA_DATALEN, ESA_CRC. destruct GIRA_MODE;
      [exists 17%nat | exists 15%nat]; done. }
  rewrite En in *. rewrite Nat2Z.id in Hr. rewrite Hc in Hr at 1.
  destruct (analyze_esa_run (data b) n ESA_CRC g) as (g' & E & O1 & O2); try lia.
  cbv zeta in E. rewrite E in Hr. clear E. subst r. simpl fst. simpl snd.
  replace (Z.to_nat (Z.of_nat n + 1)) with (n + 1)%nat by lia.
  destruct (Z.eqb_spec
    (((esa_descramble 137 ESA_CRC (map (esa_byte (data b)) (seqZ 0 (Z.of_nat n)))).2
      + esa_byte (data b) (Z.of_nat n)
      - (256 * esa_byte (data b) (Z.of_nat n + 1) + esa_byte (data b) (Z.of_nat n + 2)))
     mod 65536) 0) as [Ez | Ez].
  - split; [by right |]. split; [done |]. done.
  - split; [by left |]. split; [split; [done | tauto] | done].
Qed.

End ESADecoder.

(** ** C7: the TX3 decoder *)

Section TX3.

Lemma msb_first_7_range d p : 0 <= msb_first (bits_from d p 7) < 128.
Proof.
  simpl bits_from.
  generalize (bit_at d p) (bit_at d (p + 1)) (bit_at d (p + 1 + 1))
    (bit_at d (p + 1 + 1 + 1)) (bit_at d (p + 1 + 1 + 1 + 1))
    (bit_at d (p + 1 + 1 + 1 + 1 + 1)) (bit_at d (p + 1 + 1 + 1 + 1 + 1 + 1)).
  intros [] [] [] [] [] [] []; vm_compute; done.
Qed.

Lemma tx3_byte_range d k : 0 <= tx3_byte d k < 256.
Proof.
  unfold tx3_byte. destruct (k =? 0); [| destruct (k =? 4)].
  - simpl bits_from.
    generalize (bit_at d 0) (bit_at d (0 + 1)) (bit_at d (0 + 1 + 1))
      (bit_at d (0 + 1 + 1 + 1)) (bit_at d (0 + 1 + 1 + 1 + 1))
      (bit_at d (0 + 1 + 1 + 1 + 1 + 1)) (bit_at d (0 + 1 + 1 + 1 + 1 + 1 + 1)).
    intros [] [] [] [] [] [] []; vm_compute; done.
  - pose proof (msb_first_7_range d 31). lia.
  - apply msb_first_8_range.
Qed.

Lemma nibbles_range n :
  0 <= n < 256 → 0 <= Z.shiftr n 4 <= 15 ∧ 0 <= Z.land n 0xf <= 15.
Proof.
  intros Hn. rewrite Z.shiftr_div_pow2 by lia.
  change (Z.land n 0xf) with (Z.land n (Z.ones 4)). rewrite Z.land_ones by lia.
  change (2 ^ 4) with 16.
  pose proof (Z.mod_pos_bound n 16 ltac:(lia)).
  assert (0 <= n / 16 < 16); [| lia].
  split; [apply Z.div_pos; lia | apply Z.div_lt_upper_bound; lia].
Qed.

(** The test of the decoder cannot fail. *)
Lemma tx3_nibble_check_holds d : tx3_nibble_check d.
Proof.
  unfold tx3_nibble_check. rewrite Z.shiftr_div_pow2 by lia.
  change (Z.land ?x 0xF) with (Z.land x (Z.ones 4)). rewrite Z.land_ones by lia.
  change (2 ^ 4) with 16. apply Z.div_small. apply Z.mod_pos_bound. lia.
Qed.

(** One round of the loop of [analyze_TX3], for byte [k] at bit [p]. *)
Lemma analyze_TX3_body_at d k p crc g :
  0 <= k <= 3 → p = (if k =? 0 then 0 else 8 * k - 1) →
  oby g = k → (Z.to_nat k < length (obuf g))%nat → 0 <= crc <= 30 * k →
  analyze_TX3_body (at_pos d p, crc, g) =
  Continue (at_pos d (8 * (k + 1) - 1),
            crc + Z.shiftr (tx3_byte d k) 4 + Z.land (tx3_byte d k) 0xf,
            set_oby (k + 1) (set_obuf (wr (obuf g) k (tx3_byte d k)) g)).
Proof.
  intros Hk Hp Ho Hl Hc. unfold analyze_TX3_body. rewrite Ho.
  pose proof (tx3_byte_range d k) as Hr.
  pose proof (nibbles_range _ Hr) as [Hn1 Hn2].
  assert (oby (set_obuf (wr (obuf g) k (tx3_byte d k)) g) = k) as Ho' by done.
  unfold tx3_byte in *.
  destruct (Z.eqb_spec k 0) as [-> | Hk0].
  - subst p. rewrite getbits_7_msb by lia. cbv beta iota zeta.
    set (n := Z.lor 128 _) in *. rewrite Ho'.
    rewrite !u8_small by lia. done.
  - assert ((k =? 4) = false) as E4 by (apply Z.eqb_neq; lia). rewrite E4 in *.
    subst p. rewrite getbits_8_msb by lia. cbv beta iota zeta.
    set (n := msb_first _) in *. rewrite Ho'.
    rewrite !u8_small by lia.
    replace (8 * k - 1 + 8) with (8 * (k + 1) - 1) by lia. done.
Qed.

(** The four rounds of the loop. *)
Lemma analyze_TX3_loop d g :
  (5 <= length (obuf g))%nat →
  ∃ crc g',
    for_loop 4 analyze_TX3_body (at_pos d 0, 0, set_oby 0 g) =
      Continue (at_pos d 31, crc, g') ∧
    crc = fold_right Z.add 0
      (map (λ k, Z.shiftr (tx3_byte d k) 4 + Z.land (tx3_byte d k) 0xf) [0; 1; 2; 3]) ∧
    0 <= crc <= 120 ∧
    oby g' = 4 ∧
    obuf g' = wr (wr (wr (wr (obuf g) 0 (tx3_byte d 0)) 1 (tx3_byte d 1))
                   2 (tx3_byte d 2)) 3 (tx3_byte d 3) ∧
    set_oby 0 (set_obuf [] g') = set_oby 0 (set_obuf [] g).
Proof.
  intros Hl.
  pose proof (nibbles_range _ (tx3_byte_range d 0)) as [? ?].
  pose proof (nibbles_range _ (tx3_byte_range d 1)) as [? ?].
  pose proof (nibbles_range _ (tx3_byte_range d 2)) as [? ?].
  pose proof (nibbles_range _ (tx3_byte_range d 3)) as [? ?].
  rewrite for_loop_S, (analyze_TX3_body_at d 0 0); [| lia | done | done | simpl; lia | lia].
  rewrite for_loop_S, (analyze_TX3_body_at d 1 7);
    [| lia | done | done | simpl; rewrite length_wr; lia | lia].
  rewrite for_loop_S, (analyze_TX3_body_at d 2 15);
    [| lia | done | done | simpl; rewrite !length_wr; lia | lia].
  rewrite for_loop_S, (analyze_TX3_body_at d 3 23);
    [| lia | done | done | simpl; rewrite !length_wr; lia | lia].
  eexists _, _. split; [reflexivity |].
  split; [simpl fold_right; lia |]. split; [lia |]. done.
Qed.

Lemma firstn_5_wr (l : list Z) v0 v1 v2 v3 v4 :
  (5 <= length l)%nat →
  firstn 5 (wr (wr (wr (wr (wr l 0 v0) 1 v1) 2 v2) 3 v3) 4 v4) = [v0; v1; v2; v3; v4].
Proof.
  intros Hl.
  destruct l as [|a0 [|a1 [|a2 [|a3 [|a4 l]]]]]; simpl in Hl; try lia.
  reflexivity.
Qed.

Lemma rd_wr_0 (l : list Z) v0 v1 v2 v3 v4 :
  (5 <= length l)%nat →
  rd (wr (wr (wr (wr (wr l 0 v0) 1 v1) 2 v2) 3 v3) 4 v4) 0 = v0.
Proof.
  intros Hl.
  destruct l as [|a0 [|a1 [|a2 [|a3 [|a4 l]]]]]; simpl in Hl; try lia.
  reflexivity.
Qed.

Lemma analyze_TX3_cursor b g :
  byteidx b ≠ 4 ∨ bitidx b ≠ 1 → analyze_TX3 b g = (0, g).
Proof.
  intros H. unfold analyze_TX3.
  destruct (Z.eqb_spec (byteidx b) 4); [| reflexivity].
  destruct (Z.eqb_spec (bitidx b) 1); [| reflexivity].
  tauto.
Qed.

(** With the cursor at byte 4, bit 1, the decoder writes the five bytes and
    its result is decided by the first nibble and the nibble-sum test. *)
Lemma analyze_TX3_run b g :
  (5 <= length (obuf g))%nat → byteidx b = 4 → bitidx b = 1 →
  ∃ g2,
    analyze_TX3 b g =
      (if negb (Z.shiftr (Z.land (tx3_nibble_sum (data b)) 0xF) 4 =? 0)
          || negb (Z.shiftr (tx3_byte (data b) 0) 4 =? 0xA)
       then 0 else 1, g2) ∧
    oby g2 = 5 ∧ firstn 5 (obuf g2) = tx3_output (data b).
Proof.
  intros Hl Eby Ebi.
  destruct (analyze_TX3_loop (data b) g Hl) as (crc & g' & Hloop & Hcrc & Hc & Ho & Hb & _).
  pose proof (tx3_byte_range (data b) 4) as Hr4.
  pose proof (nibbles_range _ Hr4) as [Hn4 _].
  assert (u8 (Z.shiftl (msb_first (bits_from (data b) 31 7)) 1) = tx3_byte (data b) 4) as E4.
  { rewrite Z.shiftl_mul_pow2 by lia. change (2 ^ 1) with 2.
    change (tx3_byte (data b) 4) with (2 * msb_first (bits_from (data b) 31 7)) in *.
    rewrite u8_small by lia. lia. }
  set (g1 := set_obuf (wr (obuf g') 4 (tx3_byte (data b) 4)) g').
  assert (obuf g1 =
          wr (wr (wr (wr (wr (obuf g) 0 (tx3_byte (data b) 0)) 1 (tx3_byte (data b) 1))
                   2 (tx3_byte (data b) 2)) 3 (tx3_byte (data b) 3)) 4 (tx3_byte (data b) 4))
    as Hb1 by (unfold g1; change (obuf (set_obuf ?v _)) with v; rewrite Hb; done).
  assert (rd (obuf g1) 4 = tx3_byte (data b) 4) as Erd.
  { rewrite Hb1. apply rd_wr_eq; [lia |]. rewrite !length_wr. lia. }
  assert (rd (obuf g1) 0 = tx3_byte (data b) 0) as Erd0
    by (rewrite Hb1; by apply rd_wr_0).
  assert (crc + Z.shiftr (tx3_byte (data b) 4) 4 = tx3_nibble_sum (data b)) as Esum
    by (unfold tx3_nibble_sum; rewrite <- Hcrc; done).
  exists (set_oby 5 g1). split; [| split; [done |]].
  - unfold analyze_TX3. rewrite Eby, Ebi.
    change (negb (4 =? 4) || negb (1 =? 1)) with false. cbv zeta. cbv iota.
    change (mk_input (data b) 0 7) with (at_pos (data b) 0).
    rewrite Hloop. cbv beta iota.
    rewrite getbits_7_msb by lia. cbv beta iota zeta.
    rewrite E4, Ho. fold g1.
    change (obuf (set_oby ?v g1)) with (obuf g1).
    change (oby g1) with (oby g'). rewrite Ho.
    rewrite Erd, Erd0. rewrite (u8_small (crc + _)) by lia. rewrite Esum.
    change (u8 (4 + 1)) with 5.
    by destruct (_ || _).
  - change (obuf (set_oby 5 g1)) with (obuf g1). rewrite Hb1. by apply firstn_5_wr.
Qed.

(** [analyze_TX3] as it is coded: it succeeds exactly when the bucket holds
    38 bits (cursor at byte 4, bit 1) and the five reconstructed bytes (seven
    bits under a leading 1, three whole bytes, seven bits above a trailing 0)
    have high nibble 0xA in the first byte and pass the nibble-sum test as the
    decoder makes it.  The output is the five bytes.  The nibble-sum test as
    made cannot fail, so success is decided by the cursor and the first
    nibble alone. *)
Theorem tx3_decoder b g :
  (5 <= length (obuf g))%nat →
  let r := analyze_TX3 b g in
  (r.1 = 0 ∨ r.1 = 1) ∧
  (r.1 = 1 ↔ tx3_frame b) ∧
  (r.1 = 1 ↔
   byteidx b = 4 ∧ bitidx b = 1 ∧ Z.shiftr (tx3_byte (data b) 0) 4 = 0xA) ∧
  (r.1 = 1 → oby r.2 = 5 ∧ firstn 5 (obuf r.2) = tx3_output (data b)).
Proof.
  intros Hl r. unfold tx3_frame.
  pose proof (tx3_nibble_check_holds (data b)) as Hck.
  destruct (Z.eq_dec (byteidx b) 4) as [Eby | Eby];
    [destruct (Z.eq_dec (bitidx b) 1) as [Ebi | Ebi] |].
  - destruct (analyze_TX3_run b g Hl Eby Ebi) as (g2 & E & Ho & Hb).
    assert (r = analyze_TX3 b g) as Hr by reflexivity. clearbody r.
    rewrite E in Hr. subst r. cbn [fst snd].
    unfold tx3_nibble_check in Hck. rewrite Hck.
    change (negb (0 =? 0) || ?x) with x.
    destruct (Z.eqb_spec (Z.shiftr (tx3_byte (data b) 0) 4) 0xA) as [Ea | Ea];
      cbn [negb].
    + split; [by right |]. done.
    + split; [by left |]. split; [| split]; (split; [done | tauto]) || done.
  - assert (r = (0, g)) as -> by (apply analyze_TX3_cursor; by right).
    cbn [fst snd]. split; [by left |]. split; [| split]; (split; [done | tauto]) || done.
  - assert (r = (0, g)) as -> by (apply analyze_TX3_cursor; by left).
    cbn [fst snd]. split; [by left |]. split; [| split]; (split; [done | tauto]) || done.
Qed.

End TX3.

(** ** C1: the ordered dispatch *)

Section Dispatch.
Context `{B : board}.

Lemma try_it_scratch i s : scratch_frame (try_it i s).2 = scratch_frame s.2.
Proof.
  destruct s as [dt g]. unfold try_it.
  pose proof (analyze_it_frame (bucket_at g i) g) as F.
  destruct (analyze_it _ g) as [r g']. simpl in F.
  destruct (_ || _); [| done]. destruct (nz dt); [done |]. by destruct (nz r).
Qed.

Lemma try_tcm97001_scratch i s : scratch_frame (try_tcm97001 i s).2 = scratch_frame s.2.
Proof.
  destruct s as [dt g]. unfold try_tcm97001.
  pose proof (analyze_tcm97001_frame (bucket_at g i) g) as F.
  destruct (analyze_tcm97001 _ g) as [r g']. simpl in F.
  destruct (nz dt); [done |]. by destruct (nz r).
Qed.

Lemma try_revolt_scratch i s : scratch_frame (try_revolt i s).2 = scratch_frame s.2.
Proof.
  destruct s as [dt g]. unfold try_revolt.
  pose proof (analyze_revolt_frame (bucket_at g i) g) as F.
  destruct (analyze_revolt _ g) as [r g']. simpl in F.
  destruct (nz dt); [done |]. by destruct (nz r).
Qed.

Lemma when_scratch c f s :
  (∀ s, scratch_frame (f s).2 = scratch_frame s.2) →
  scratch_frame (when c f s).2 = scratch_frame s.2.
Proof. intros H. unfold when. by destruct c. Qed.

(** A decoder's block does nothing once [datatype] is set. *)
Lemma attempt_skip d i s : nz s.1 = true → attempt d i s = s.
Proof.
  destruct s as [dt g]. cbn [fst]. intros H.
  destruct d; cbn [attempt];
    unfold try_it, try_tcm97001, try_revolt, try_esa, try_fs20, try_em, try_hms,
      try_tx3, try_ks300, try_hoermann; rewrite H; try reflexivity.
  by destruct (_ || _).
Qed.

Lemma nz_false x : nz x = false → x = 0.
Proof. unfold nz. destruct (Z.eqb_spec x 0); [done | discriminate]. Qed.

Lemma stages_skip i l s :
  nz s.1 = true → fold_left (λ s d, attempt d i s) l s = s.
Proof.
  intros H. induction l as [|d l IH]; [done |].
  cbn [fold_left]. by rewrite attempt_skip.
Qed.

Lemma stages_first_success i l g :
  fold_left (λ s d, attempt d i s) l (0, g) = first_success i l g.
Proof.
  revert g. induction l as [|d l IH]; intros g; [done |].
  cbn [fold_left first_success].
  destruct (attempt d i (0, g)) as [t g'] eqn:E. cbn [fst snd].
  destruct (nz t) eqn:N.
  - by apply stages_skip.
  - apply nz_false in N as ->. apply IH.
Qed.

Lemma stages_filter_cons i (p : decoder → bool) d l s :
  fold_left (λ s d, attempt d i s) (List.filter p (d :: l)) s =
  fold_left (λ s d, attempt d i s) (List.filter p l) (when (p d) (attempt d i) s).
Proof. cbn [List.filter]. unfold when. by destruct (p d). Qed.

Lemma when_true f (s : dstate) : when true f s = f s.
Proof. reflexivity. Qed.

Lemma when_false f (s : dstate) : when false f s = s.
Proof. reflexivity. Qed.

(** The dispatch runs the blocks of the decoders of [tried g] in order. *)
Lemma dispatch_stages g :
  dispatch g = fold_left (λ s d, attempt d (bucket_out g) s) (tried g) (0, g).
Proof.
  unfold dispatch, tried, dispatch_order.
  set (i := bucket_out g).
  set (s3 := when HAS_REVOLT (try_revolt i)
               (when HAS_TCM97001 (try_tcm97001 i) (when HAS_IT (try_it i) (0, g)))).
  assert (bucket_at s3.2 i = bucket_at g i) as Hb.
  { apply scratch_frame_bucket_at. unfold s3.
    rewrite when_scratch by apply try_revolt_scratch.
    rewrite when_scratch by apply try_tcm97001_scratch.
    rewrite when_scratch by apply try_it_scratch. done. }
  cbv zeta. fold s3. rewrite Hb.
  change (LONG_PULSE && negb _) with (long_pulse_bucket g).
  rewrite !stages_filter_cons. cbn [List.filter fold_left].
  destruct (long_pulse_bucket g);
    cbn [compiled_in short_pulse andb negb attempt];
    rewrite ?andb_true_r, ?andb_false_r, ?when_true, ?when_false; reflexivity.
Qed.

Lemma attempt_tags d i g :
  (attempt d i (0, g)).1 = 0 ∨ (attempt d i (0, g)).1 ∈ tags d.
Proof.
  destruct d; cbn [attempt tags];
    unfold try_it, try_tcm97001, try_revolt, try_esa, try_fs20, try_em, try_hms,
      try_tx3, try_ks300, try_hoermann; cbn [nz Z.eqb negb];
    repeat match goal with
    | |- context [if ?c then _ else _] => destruct c
    | |- context [let '(_, _) := ?x in _] => destruct x
    end; cbn [fst]; (by left) || (right; repeat constructor).
Qed.

Lemma nz_true x : x ≠ 0 → nz x = true.
Proof. intros H. unfold nz. by destruct (Z.eqb_spec x 0). Qed.

(** The tag a block assigns from [datatype = 0] is that of its decoder if
    the decoder succeeds, and none otherwise. *)
Lemma attempt_succeeds d i g :
  (attempt d i (0, g)).1 = (if succeeds d i g then tag_of d i g else 0) ∧
  tag_of d i g ∈ tags d.
Proof.
  destruct d; cbn [attempt succeeds tag_of tags];
    unfold try_it, try_tcm97001, try_revolt, try_esa, try_fs20, try_em, try_hms,
      try_tx3, try_ks300, try_hoermann; cbn [nz Z.eqb negb andb].
  - split; [| repeat constructor].
    destruct (_ || _) eqn:E.
    + destruct (analyze_it _ g) as [r g1]. cbn [fst]. by destruct (nz r).
    + unfold analyze_it. apply orb_false_iff in E as [-> ->]. reflexivity.
  - split; [| repeat constructor].
    destruct (analyze_tcm97001 _ g) as [r g1]. cbn [fst]. by destruct (nz r).
  - split; [| repeat constructor].
    destruct (analyze_revolt _ g) as [r g1]. cbn [fst]. by destruct (nz r).
  - split; [| repeat constructor].
    destruct (analyze_esa _ g) as [r g1]. cbn [fst]. by destruct (nz r).
  - split.
    + destruct (analyze _ TYPE_FS20 g) as [r g1]. cbn [fst snd].
      destruct (nz r); [| done]. cbn [andb].
      change (oby (set_oby (u8 (oby g1 - 1)) g1)) with (u8 (oby g1 - 1)).
      change (obuf (set_oby (u8 (oby g1 - 1)) g1)) with (obuf g1).
      destruct (4 <=? u8 (oby g1 - 1)); rewrite ?andb_false_r, ?andb_true_r;
        cbn [andb]; [| done].
      destruct (_ =? _); [done |]. destruct (_ =? _); [done |].
      destruct (_ =? _); done.
    + destruct (_ || _); repeat constructor.
  - split; [| repeat constructor].
    destruct (analyze _ TYPE_EM g) as [r g1]. cbn [fst snd].
    destruct (nz r); [| done]. cbn [andb].
    change (oby (set_oby (u8 (oby g1 - 1)) g1)) with (u8 (oby g1 - 1)).
    change (obuf (set_oby (u8 (oby g1 - 1)) g1)) with (obuf g1).
    by destruct (_ && _).
  - split; [| repeat constructor].
    destruct (analyze_hms _ g) as [r g1]. cbn [fst]. by destruct (nz r).
  - split; [| repeat constructor].
    destruct (analyze_TX3 _ g) as [r g1]. cbn [fst]. by destruct (nz r).
  - split; [| repeat constructor].
    destruct (analyze _ TYPE_KS300 _) as [r g1]. cbn [fst snd].
    destruct (nz r); cbn [andb].
    + destruct (_ =? _); [| done]. by destruct (nz TYPE_KS300).
    + done.
  - split; [| repeat constructor]. by destruct (_ && _).
Qed.

Lemma tried_cases g :
  tried g =
  List.filter compiled_in
    (if long_pulse_bucket g then [Dec_IT; Dec_TCM97001; Dec_Revolt] else dispatch_order).
Proof.
  unfold tried, dispatch_order.
  destruct (long_pulse_bucket g); cbn [List.filter short_pulse andb negb];
    rewrite ?andb_true_r, ?andb_false_r; reflexivity.
Qed.

(** C1, amended: the dispatch of [RfAnalyze_Task] tries the decoders of the
    build in the order IT/ITV3, TCM97001, Revolt, ESA, FS20/FHT, EM, HMS, TX3,
    KS300, Hoermann, except that under [LONG_PULSE] a bucket in state REVOLT,
    IT or TCM97001 is offered to the first three only.  Each block runs from
    [datatype = 0] on the globals its failed predecessors left; it assigns a
    tag exactly when its decoder succeeds, and then its decoder's tag; the
    first block that assigns a tag gives the result, and a block does nothing
    once the type is set. *)
Theorem dispatch_first_success g :
  (∀ d, Forall (λ t, t ≠ 0) (tags d)) →
  dispatch g = first_success (bucket_out g) (tried g) g ∧
  tried g =
    List.filter compiled_in
      (if long_pulse_bucket g then [Dec_IT; Dec_TCM97001; Dec_Revolt]
       else dispatch_order) ∧
  (∀ d i s, s.1 ≠ 0 → attempt d i s = s) ∧
  (∀ d i g',
     let r := attempt d i (0, g') in
     nz r.1 = succeeds d i g' ∧
     r.1 = (if succeeds d i g' then tag_of d i g' else 0) ∧
     tag_of d i g' ∈ tags d).
Proof.
  intros Hnz. split; [| split; [| split]].
  - rewrite dispatch_stages. apply stages_first_success.
  - apply tried_cases.
  - intros d i s H. apply attempt_skip. by apply nz_true.
  - intros d i g' r.
    destruct (attempt_succeeds d i g') as [E T]. fold r in E.
    split; [| done]. rewrite E.
    destruct (succeeds d i g'); [| done].
    apply nz_true. specialize (Hnz d). rewrite Forall_forall in Hnz. by apply Hnz.
Qed.

End Dispatch.

Section Checksums.
Context `{B : board}.

Lemma sum_bytes_snoc l x : sum_bytes (l ++ [x]) = sum_bytes l + x.
Proof. unfold sum_bytes. induction l as [|a l IH]; simpl; lia. Qed.

Lemma take_S_rd (buf : list Z) n :
  (n < length buf)%nat → take (S n) buf = take n buf ++ [rd buf (Z.of_nat n)].
Proof.
  intros Hn. unfold rd.
  destruct (Z.ltb_spec (Z.of_nat n) 0); [lia |].
  rewrite Nat2Z.id.
  destruct (lookup_lt_is_Some_2 buf n Hn) as [x Hx].
  rewrite Hx. simpl. by apply take_S_r.
Qed.

Lemma cksum1_loop_sum n s buf :
  (n <= length buf)%nat →
  u8 (cksum1_loop n s buf) = u8 (s + sum_bytes (take n buf)).
Proof.
  revert s. induction n as [|n IH]; intros s Hn.
  - simpl. by rewrite Z.add_0_r.
  - cbn [cksum1_loop]. rewrite IH by lia.
    rewrite take_S_rd, sum_bytes_snoc by lia.
    unfold u8. rewrite Z.add_mod_idemp_l by lia. f_equal. lia.
Qed.

Lemma cksum1_loop_range n s buf :
  0 <= s < 256 → 0 <= cksum1_loop n s buf < 256.
Proof.
  revert s. induction n as [|n IH]; intros s Hs; [done |].
  cbn [cksum1_loop]. apply IH, u8_range.
Qed.

Lemma cksum1_closed s buf len :
  0 <= s < 256 → (Z.to_nat len <= length buf)%nat →
  cksum1 s buf len = (s + sum_bytes (take (Z.to_nat len) buf)) mod 256.
Proof.
  intros Hs Hl. unfold cksum1.
  rewrite <- (u8_small (cksum1_loop _ _ _)) by by apply cksum1_loop_range.
  by apply cksum1_loop_sum.
Qed.

(** [cksum1] is the sum of the start value and the first [len] bytes, in
    eight bits; the FHT check sum (start value 12) is the FS20 check sum
    (start value 6) plus 6, so it differs from the FS20 check sum and from
    the FS20 check sum plus 1 that marks a repeater. *)
Theorem cksum1_sum s buf len :
  0 <= s < 256 → (Z.to_nat len <= length buf)%nat →
  cksum1 s buf len = (s + sum_bytes (take (Z.to_nat len) buf)) mod 256 ∧
  cksum1 12 buf len = (cksum1 6 buf len + 6) mod 256 ∧
  cksum1 12 buf len ≠ cksum1 6 buf len ∧
  cksum1 12 buf len ≠ cksum1 6 buf len + 1.
Proof.
  intros Hs Hl.
  split; [by apply cksum1_closed |].
  rewrite (cksum1_closed 12), (cksum1_closed 6) by (done || lia).
  set (t := sum_bytes _).
  assert ((12 + t) mod 256 = ((6 + t) mod 256 + 6) mod 256) as E
    by (rewrite Z.add_mod_idemp_l by lia; f_equal; lia).
  split; [done |].
  rewrite E. pose proof (Z.mod_pos_bound (6 + t) 256 ltac:(lia)).
  set (c := (6 + t) mod 256) in *.
  destruct (Z.lt_ge_cases (c + 6) 256).
  - rewrite Z.mod_small by lia. lia.
  - replace ((c + 6) mod 256) with (c + 6 - 256); [lia |].
    apply (Z.mod_unique (c + 6) 256 1); lia.
Qed.

Lemma fold_left_lxor l a : fold_left Z.lxor l a = Z.lxor a (fold_left Z.lxor l 0).
Proof.
  revert a. induction l as [|x l IH]; intros a; simpl.
  - by rewrite Z.lxor_0_r.
  - rewrite (IH (Z.lxor a x)), (IH (Z.lxor 0 x)), Z.lxor_0_l. by rewrite Z.lxor_assoc.
Qed.

Lemma xor_bytes_snoc l x : xor_bytes (l ++ [x]) = Z.lxor (xor_bytes l) x.
Proof. unfold xor_bytes. by rewrite fold_left_app. Qed.

Lemma cksum2_loop_xor n s buf :
  (n <= length buf)%nat →
  cksum2_loop n s buf = Z.lxor s (xor_bytes (take n buf)).
Proof.
  revert s. induction n as [|n IH]; intros s Hn.
  - simpl. by rewrite Z.lxor_0_r.
  - cbn [cksum2_loop]. rewrite IH by lia.
    rewrite take_S_rd, xor_bytes_snoc by lia.
    rewrite Z.lxor_assoc. f_equal. apply Z.lxor_comm.
Qed.

(** [cksum2] is the exclusive or of the first [len] bytes; it equals the
    byte after them exactly when the exclusive or over all [len + 1] bytes
    is 0. *)
Theorem cksum2_xor buf len :
  0 <= len → (Z.to_nat len < length buf)%nat →
  cksum2 buf len = xor_bytes (take (Z.to_nat len) buf) ∧
  (cksum2 buf len = rd buf len ↔ cksum2 buf (len + 1) = 0).
Proof.
  intros H0 Hl. unfold cksum2.
  rewrite cksum2_loop_xor by lia. rewrite Z.lxor_0_l. split; [done |].
  replace (Z.to_nat (len + 1)) with (S (Z.to_nat len)) by lia.
  rewrite cksum2_loop_xor by lia. rewrite Z.lxor_0_l.
  rewrite take_S_rd, xor_bytes_snoc by lia. rewrite Z2Nat.id by lia.
  split.
  - intros ->. apply Z.lxor_nilpotent.
  - apply Z.lxor_eq.
Qed.

End Checksums.

Section Pulses.
Context `{B : board}.

(** [makeavg] of two bytes is a byte between them, and it keeps a value
    that equals the sample. *)
Theorem makeavg_between i j :
  0 <= i < 256 → 0 <= j < 256 →
  Z.min i j <= makeavg i j <= Z.max i j ∧
  0 <= makeavg i j < 256 ∧
  makeavg i i = i.
Proof.
  intros Hi Hj. unfold makeavg. rewrite (u8_small i), (u8_small j) by lia.
  assert (0 <= (i + i + i + j) / 4 < 256) as H1.
  { split; [apply Z.div_pos; lia | apply Z.div_lt_upper_bound; lia]. }
  assert (Z.min i j <= (i + i + i + j) / 4 <= Z.max i j) as H2.
  { split; [apply Z.div_le_lower_bound; lia |].
    assert ((i + i + i + j) / 4 < Z.max i j + 1); [| lia].
    apply Z.div_lt_upper_bound; lia. }
  rewrite !(u8_small (_ / 4)) by lia. split; [done |]. split; [done |].
  replace (i + i + i + i) with (i * 4) by lia.
  rewrite Z.div_mul by lia. by apply u8_small.
Qed.

Lemma wave_equals_near a h l st :
  0 <= h < 256 → 0 <= l < 256 →
  wave_equals a h l st = 1 ↔ near (tolerance st) a h l.
Proof.
  intros Hh Hl. unfold wave_equals, near, tolerance.
  rewrite !u8_small by lia.
  set (t := if HAS_IT && _ then TDIFFIT else TDIFF).
  destruct (Z.ltb_spec (lowtime a - l) t), (Z.ltb_spec (- t) (lowtime a - l)),
    (Z.ltb_spec (hightime a - h) t), (Z.ltb_spec (- t) (hightime a - h)),
    (Z.ltb_spec (lowtime a + hightime a - (l + h)) t),
    (Z.ltb_spec (- t) (lowtime a + hightime a - (l + h))); simpl;
    split; intros; try discriminate; try lia.
Qed.

(** [wave_equals] answers 1 exactly when the pulse is within the tolerance
    of the template in high time, low time and length.  It is symmetric in
    template and pulse, a pulse equals itself, and a pulse that matches in
    any state matches in [STATE_IT], where the tolerance is wider. *)
Theorem wave_equals_tolerance a h l st :
  0 <= h < 256 → 0 <= l < 256 →
  0 <= hightime a < 256 → 0 <= lowtime a < 256 →
  (wave_equals a h l st = 0 ∨ wave_equals a h l st = 1) ∧
  (wave_equals a h l st = 1 ↔ near (tolerance st) a h l) ∧
  wave_equals a h l st = wave_equals (mk_wave h l) (hightime a) (lowtime a) st ∧
  wave_equals (mk_wave h l) h l st = 1 ∧
  (wave_equals a h l st = 1 → wave_equals a h l STATE_IT = 1).
Proof.
  intros Hh Hl Hah Hal.
  assert (∀ a h l st, wave_equals a h l st = 0 ∨ wave_equals a h l st = 1) as H01.
  { intros. unfold wave_equals. destruct (_ && _); auto. }
  split; [apply H01 |]. split; [by apply wave_equals_near |].
  split; [| split].
  - destruct (H01 a h l st) as [E | E];
      destruct (H01 (mk_wave h l) (hightime a) (lowtime a) st) as [E' | E'];
      rewrite E, E'; try done; exfalso.
    + apply wave_equals_near in E'; [| done..].
      assert (wave_equals a h l st = 1); [| congruence].
      apply wave_equals_near; [done.. |].
      unfold near in *. simpl in E'. lia.
    + apply wave_equals_near in E; [| done..].
      assert (wave_equals (mk_wave h l) (hightime a) (lowtime a) st = 1); [| congruence].
      apply wave_equals_near; [done.. |].
      unfold near in *. simpl. lia.
  - apply wave_equals_near; [done.. |]. unfold near, tolerance. simpl.
    replace (l - l) with 0 by lia. replace (h - h) with 0 by lia.
    replace (l + h - (l + h)) with 0 by lia.
    destruct (_ && _); vm_compute; done.
  - rewrite !wave_equals_near by done. unfold near, tolerance.
    change (STATE_IT =? STATE_IT) with true.
    destruct HAS_IT, (st =? STATE_IT); cbn [andb];
      unfold TDIFF, TDIFFIT, TSCALE;
      change (200 / 16) with 12; change (350 / 16) with 21; lia.
Qed.

End Pulses.

Section Reader.

Lemma assemble_msb_lsb (bs : list bool) msb :
  (length bs <= 8)%nat →
  assemble 0 (Z.of_nat (length bs)) msb 0 bs =
  (if nz msb then msb_first bs else lsb_first bs) ∧
  0 <= (if nz msb then msb_first bs else lsb_first bs) < 2 ^ Z.of_nat (length bs).
Proof.
  intros Hl.
  destruct (nz msb) eqn:E;
    do 9 (destruct bs as [|? bs];
          [cbn [assemble length]; rewrite ?E;
           repeat match goal with b : bool |- _ => destruct b end;
           vm_compute; done |]);
    simpl in Hl; lia.
Qed.

Lemma length_bits_from d p n : length (bits_from d p n) = n.
Proof. revert p. induction n as [|n IH]; intros p; simpl; [done | by rewrite IH]. Qed.

(** [getbits] reads the next [nbits] bits of the stream (at most eight),
    leaves the reader [nbits] further, and assembles them first bit most
    significant when [msb] is set, first bit least significant otherwise;
    the value has no more than [nbits] bits. *)
Theorem getbits_reads d p nbits msb :
  0 <= p → 0 <= nbits <= 8 → p + nbits <= 2040 →
  let bs := bits_from d p (Z.to_nat nbits) in
  getbits (at_pos d p) nbits msb =
    (if nz msb then msb_first bs else lsb_first bs, at_pos d (p + nbits)) ∧
  0 <= (getbits (at_pos d p) nbits msb).1 < 2 ^ nbits.
Proof.
  intros Hp Hn Hq bs. unfold getbits.
  rewrite getbits_loop_at by lia. fold bs.
  rewrite Z2Nat.id by lia.
  destruct (assemble_msb_lsb bs msb) as [E R].
  { unfold bs. rewrite length_bits_from. lia. }
  unfold bs in E, R. rewrite length_bits_from, Z2Nat.id in E, R by lia.
  fold bs in E, R. rewrite E. done.
Qed.

End Reader.

Section CopyDecoders.
Context `{B : board}.

Lemma copy_loop b n g :
  0 <= oby g → oby g + Z.of_nat n <= 255 →
  (Z.to_nat (oby g) + n <= length (obuf g))%nat →
  ∃ g',
    for_loop n (copy_body b) g = Continue g' ∧
    oby g' = oby g + Z.of_nat n ∧
    (∀ j, oby g <= j < oby g + Z.of_nat n → rd (obuf g') j = rd (data b) j) ∧
    (∀ j, 0 <= j < oby g → rd (obuf g') j = rd (obuf g) j) ∧
    length (obuf g') = length (obuf g).
Proof.
  revert g. induction n as [|n IH]; intros g H0 H1 Hl.
  - exists g. simpl. repeat split; try done; intros; lia.
  - rewrite for_loop_S. unfold copy_body. cbv zeta.
    set (g1 := set_oby _ _).
    assert (oby g1 = oby g + 1) as Ho1 by (unfold g1; simpl; apply u8_small; lia).
    assert (obuf g1 = wr (obuf g) (oby g) (rd (data b) (oby g))) as Hb1 by done.
    destruct (IH g1) as (g' & E & I1 & I2 & I3 & I4).
    { lia. } { lia. } { rewrite Hb1, length_wr. lia. }
    exists g'. split; [done |]. split; [lia |].
    split; [| split].
    + intros j Hj. destruct (Z.eq_dec j (oby g)) as [-> | Hne].
      * rewrite I3 by lia. rewrite Hb1. apply rd_wr_eq; lia.
      * apply I2. lia.
    + intros j Hj. rewrite I3 by lia. rewrite Hb1. apply rd_wr_ne; lia.
    + rewrite I4, Hb1. apply length_wr.
Qed.

Lemma copy_data_copied b n g :
  0 <= n <= 255 → (Z.to_nat n <= length (obuf g))%nat →
  copied n b (copy_data b n g).
Proof.
  intros Hn Hl. unfold copy_data, copied.
  destruct (copy_loop b (Z.to_nat n) (set_oby 0 g)) as (g' & E & I1 & I2 & _).
  { done. } { simpl. lia. } { simpl. lia. }
  rewrite E. simpl in I1, I2. split; [lia |].
  intros k Hk. apply I2. lia.
Qed.

(** [analyze_it] and [analyze_tcm97001] accept a bucket by its state and
    its bit count alone, without any check of the content, and hand out the
    bytes of the bucket; a refused bucket leaves the output buffer as it
    was. *)
Theorem it_tcm97001_copy b g :
  (8 <= length (obuf g))%nat →
  let r := analyze_it b g in
  let r' := analyze_tcm97001 b g in
  (r.1 = 1 ↔ it_shape b) ∧ (r.1 = 1 → copied (byteidx b) b r.2) ∧
  (r.1 ≠ 1 → r = (0, g)) ∧
  (r'.1 = 1 ↔ tcm97001_shape b) ∧ (r'.1 = 1 → copied 3 b r'.2) ∧
  (r'.1 ≠ 1 → r' = (0, g)).
Proof.
  intros Hl r r'. unfold r, r', analyze_it, analyze_tcm97001, it_shape, tcm97001_shape.
  split; [| split; [| split; [| split; [| split]]]].
  - destruct (Z.eqb_spec (state b) STATE_IT), (Z.eqb_spec (state b) STATE_ITV3),
      (Z.eqb_spec (byteidx b) 3), (Z.eqb_spec (byteidx b) 8),
      (Z.eqb_spec (bitidx b) 7); simpl; split; intros; try done; try lia; tauto.
  - destruct (Z.eqb_spec (state b) STATE_IT), (Z.eqb_spec (state b) STATE_ITV3),
      (Z.eqb_spec (byteidx b) 3), (Z.eqb_spec (byteidx b) 8),
      (Z.eqb_spec (bitidx b) 7); simpl; intros; try done; try lia;
      apply copy_data_copied; lia.
  - by destruct (_ && _).
  - destruct (Z.eqb_spec (state b) STATE_TCM97001), (Z.eqb_spec (byteidx b) 3),
      (Z.eqb_spec (bitidx b) 7); simpl; split; intros; try done; try lia; tauto.
  - destruct (Z.eqb_spec (state b) STATE_TCM97001), (Z.eqb_spec (byteidx b) 3),
      (Z.eqb_spec (bitidx b) 7); simpl; intros; try done.
    replace 3 with (byteidx b) at 1 by done. apply copy_data_copied; lia.
  - by destruct (_ || _).
Qed.

Lemma revolt_loop b n sum g :
  0 <= sum < 256 → 0 <= oby g → oby g + Z.of_nat n <= 255 →
  (Z.to_nat (oby g) + n <= length (obuf g))%nat →
  ∃ g',
    for_loop n (analyze_revolt_body b) (sum, g) =
      Continue ((sum + sum_bytes (map (rd (data b)) (seqZ (oby g) (Z.of_nat n)))) mod 256,
                g') ∧
    oby g' = oby g + Z.of_nat n ∧
    (∀ j, oby g <= j < oby g + Z.of_nat n → rd (obuf g') j = rd (data b) j) ∧
    (∀ j, 0 <= j < oby g → rd (obuf g') j = rd (obuf g) j) ∧
    length (obuf g') = length (obuf g).
Proof.
  revert sum g. induction n as [|n IH]; intros sum g Hs H0 H1 Hl.
  - exists g. simpl. rewrite Z.add_0_r, Z.mod_small by lia.
    repeat split; try done; intros; lia.
  - rewrite for_loop_S. unfold analyze_revolt_body. cbv zeta.
    set (g1 := set_oby _ _).
    assert (oby g1 = oby g + 1) as Ho1 by (unfold g1; simpl; apply u8_small; lia).
    assert (obuf g1 = wr (obuf g) (oby g) (rd (data b) (oby g))) as Hb1 by done.
    destruct (IH (u8 (sum + rd (data b) (oby g))) g1) as (g' & E & I1 & I2 & I3 & I4).
    { apply u8_range. } { lia. } { lia. } { rewrite Hb1, length_wr. lia. }
    exists g'. split; [| split; [lia |]; split; [| split]].
    + etransitivity; [exact E |]. do 2 f_equal.
      rewrite (seqZ_cons (oby g) (Z.of_nat (S n))) by lia.
      replace (Z.pred (Z.of_nat (S n))) with (Z.of_nat n) by lia.
      replace (Z.succ (oby g)) with (oby g + 1) by lia. rewrite Ho1.
      cbn [map sum_bytes fold_right]. fold (sum_bytes (map (rd (data b)) (seqZ (oby g + 1) (Z.of_nat n)))).
      unfold u8. rewrite Z.add_mod_idemp_l by lia. f_equal. lia.
    + intros j Hj. destruct (Z.eq_dec j (oby g)) as [-> | Hne].
      * rewrite I3 by lia. rewrite Hb1. apply rd_wr_eq; lia.
      * apply I2. lia.
    + intros j Hj. rewrite I3 by lia. rewrite Hb1. apply rd_wr_ne; lia.
    + rewrite I4, Hb1. apply length_wr.
Qed.

(** [analyze_revolt] accepts a bucket of 103 bits in [STATE_REVOLT] whose
    twelfth byte is the sum of the first eleven, in eight bits; it hands out
    the eleven bytes, without the check sum. *)
Theorem revolt_decoder b g :
  (11 <= length (obuf g))%nat →
  let r := analyze_revolt b g in
  (r.1 = 0 ∨ r.1 = 1) ∧
  (r.1 = 1 ↔
   revolt_shape b ∧
   rd (data b) 11 = sum_bytes (map (rd (data b)) (seqZ 0 11)) mod 256) ∧
  (r.1 = 1 → copied 11 b r.2).
Proof.
  intros Hl r. unfold r, analyze_revolt, revolt_shape.
  destruct (Z.eqb_spec (byteidx b) 12) as [E1 | E1]; cbn [negb orb];
    [| split; [by left |]; split; [split; [done | tauto] | done]].
  destruct (Z.eqb_spec (state b) STATE_REVOLT) as [E2 | E2]; cbn [negb orb];
    [| split; [by left |]; split; [split; [done | tauto] | done]].
  destruct (Z.eqb_spec (bitidx b) 0) as [E3 | E3]; cbn [negb orb];
    [| split; [by left |]; split; [split; [done | tauto] | done]].
  destruct (revolt_loop b 11 0 (set_oby 0 g)) as (g' & E & I1 & I2 & _).
  { lia. } { done. } { simpl. lia. } { simpl. lia. }
  rewrite E. change (oby (set_oby 0 g)) with 0 in *.
  change (Z.of_nat 11) with 11 in *. rewrite Z.add_0_l in *.
  set (s := sum_bytes _ mod 256). clearbody s. clear E r.
  destruct (Z.eqb_spec s (rd (data b) 11)) as [Es | Es]; cbn [negb fst snd].
  - split; [by right |]. split; [split; [intros _; auto | reflexivity] |].
    intros _. split; [exact I1 |]. exact I2.
  - split; [by left |].
    split; [split; [discriminate | intros (_ & ?); congruence] | discriminate].
Qed.

End CopyDecoders.

Section WriteRead.
Context `{B : board}.

Lemma bit_at_split d q r :
  0 <= r <= 7 → bit_at d (8 * q + r) = Z.testbit (rd d q) (7 - r).
Proof.
  intros Hr. unfold bit_at.
  assert ((8 * q + r) / 8 = q ∧ (8 * q + r) mod 8 = r) as [-> ->]; [| done].
  split.
  - symmetry. apply (Z.div_unique (8 * q + r) 8 q r); lia.
  - symmetry. apply (Z.mod_unique (8 * q + r) 8 q r); lia.
Qed.

Lemma testbit_u8 x k : 0 <= k < 8 → Z.testbit (u8 x) k = Z.testbit x k.
Proof.
  intros Hk. unfold u8. change 256 with (2 ^ 8).
  apply Z.mod_pow2_bits_low. lia.
Qed.

Lemma testbit_BV i k : 0 <= i → 0 <= k → Z.testbit (_BV i) k = (k =? i).
Proof.
  intros Hi Hk. unfold _BV. rewrite Z.shiftl_spec by lia.
  destruct (Z.eqb_spec k i) as [-> | Hne].
  - by rewrite Z.sub_diag.
  - destruct (Z.lt_ge_cases k i).
    + apply Z.testbit_neg_r. lia.
    + change 1 with (2 ^ 0). apply Z.pow2_bits_false. lia.
Qed.

Lemma rd_out (l : list Z) i : (length l <= Z.to_nat i)%nat → rd l i = 0.
Proof.
  intros H. unfold rd. destruct (i <? 0); [done |].
  by rewrite lookup_ge_None_2.
Qed.

(** One bit appended below the overflow check: it is the next bit of the
    stream, the bits before it stay, and the cursor is clean again. *)
Lemma addbit_body_bits bit b :
  0 <= byteidx b < MAXMSG → MAXMSG <= 255 → 0 <= bitidx b <= 7 →
  length (data b) = Z.to_nat MAXMSG → clean_cursor b →
  let b1 := (addbit_body bit b).1 in
  bitcount b1 = bitcount b + 1 ∧
  0 <= byteidx b1 ∧ 0 <= bitidx b1 <= 7 ∧
  length (data b1) = Z.to_nat MAXMSG ∧ clean_cursor b1 ∧
  bit_at (data b1) (bitcount b) = nz bit ∧
  (∀ p, 0 <= p < bitcount b → bit_at (data b1) p = bit_at (data b) p).
Proof.
  intros Hby HM Hbi Hlen Hc b1.
  destruct (addbit_body_fields bit b Hby HM Hbi) as (F1 & F2 & F3).
  fold b1 in F1, F2, F3.
  set (x := rd (data b) (byteidx b)) in *.
  set (d1 := if nz bit
             then wr (data b) (byteidx b) (u8 (Z.lor x (_BV (bitidx b))))
             else data b).
  assert (length d1 = Z.to_nat MAXMSG) as Hl1
    by (unfold d1; destruct (nz bit); rewrite ?length_wr; done).
  assert (∀ k, 0 <= k < 8 →
            Z.testbit (rd d1 (byteidx b)) k = Z.testbit x k || (nz bit && (k =? bitidx b)))
    as Hcur.
  { intros k Hk. unfold d1. destruct (nz bit); simpl.
    - rewrite rd_wr_eq by lia. rewrite testbit_u8 by lia.
      rewrite Z.lor_spec, testbit_BV by lia. done.
    - by rewrite orb_false_r. }
  assert (∀ q, 0 <= q → q ≠ byteidx b → rd d1 q = rd (data b) q) as Hoth.
  { intros q Hq Hne. unfold d1. destruct (nz bit); [| done].
    apply rd_wr_ne; lia. }
  assert (data b1 =
          if (bitidx b =? 0) && (byteidx b + 1 <? MAXMSG)
          then wr d1 (byteidx b + 1) 0 else d1) as Hd by exact F3.
  assert (∀ q, 0 <= q <= byteidx b → rd (data b1) q = rd d1 q) as Hkeep.
  { intros q Hq. rewrite Hd. destruct (_ && _); [| done]. apply rd_wr_ne; lia. }
  unfold bitcount. rewrite F1, F2.
  split; [destruct (Z.eqb_spec (bitidx b) 0); lia |].
  split; [destruct (Z.eqb_spec (bitidx b) 0); lia |].
  split; [destruct (Z.eqb_spec (bitidx b) 0); lia |].
  split; [rewrite Hd; destruct (_ && _); rewrite ?length_wr; done |].
  split; [| split].
  - unfold clean_cursor. rewrite F1, F2. intros k Hk.
    destruct (Z.eqb_spec (bitidx b) 0) as [E | E].
    + rewrite Hd. cbn [andb].
      destruct (Z.ltb_spec (byteidx b + 1) MAXMSG).
      * rewrite rd_wr_eq by lia. apply Z.bits_0.
      * rewrite rd_out by lia. apply Z.bits_0.
    + rewrite Hkeep, Hcur by lia. rewrite Hc by lia.
      destruct (Z.eqb_spec k (bitidx b)); [lia |]. by rewrite andb_false_r.
  - replace (byteidx b * 8 + (7 - bitidx b)) with (8 * byteidx b + (7 - bitidx b)) by lia.
    rewrite bit_at_split by lia. rewrite Hkeep, Hcur by lia.
    replace (7 - (7 - bitidx b)) with (bitidx b) by lia.
    rewrite Hc by lia. rewrite Z.eqb_refl. by rewrite andb_true_r.
  - intros p Hp.
    assert (p = 8 * (p / 8) + p mod 8) as Ep by (apply Z.div_mod; lia).
    pose proof (Z.mod_pos_bound p 8 ltac:(lia)) as Hm.
    assert (0 <= p / 8) by (apply Z.div_pos; lia).
    rewrite Ep, !bit_at_split by lia.
    assert (p / 8 <= byteidx b) by lia.
    rewrite Hkeep by lia.
    destruct (Z.eq_dec (p / 8) (byteidx b)) as [Eq | Eq].
    + rewrite Eq, Hcur by lia. fold x.
      destruct (Z.eqb_spec (7 - p mod 8) (bitidx b)); [lia |].
      by rewrite andb_false_r, orb_false_r.
    + by rewrite Hoth by lia.
Qed.

Lemma addbit_at i bit g :
  0 <= i → (Z.to_nat i < length (bucket_array g))%nat →
  byteidx (bucket_at g i) < MAXMSG →
  bucket_at (addbit i bit g) i = (addbit_body bit (bucket_at g i)).1 ∧
  length (bucket_array (addbit i bit g)) = length (bucket_array g).
Proof.
  intros Hi Hl Hby. unfold addbit.
  destruct (Z.leb_spec MAXMSG (byteidx (bucket_at g i))); [lia |].
  split; [by rewrite bucket_at_with_bucket |].
  unfold with_bucket. simpl. apply length_alter.
Qed.

(** The bits [addbit] stores are the bits the decoders read: after a run
    of calls on a bucket with a clean cursor, the new bits of the stream are
    the arguments, in order, the bits before them are unchanged, and the bit
    count has grown by their number.  This holds up to the last bit of
    [data]. *)
Theorem addbits_read_back i bits g :
  let b := bucket_at g i in
  let b' := bucket_at (addbits i bits g) i in
  0 <= i → (Z.to_nat i < length (bucket_array g))%nat →
  MAXMSG <= 255 → length (data b) = Z.to_nat MAXMSG →
  0 <= byteidx b → 0 <= bitidx b <= 7 → clean_cursor b →
  bitcount b + Z.of_nat (length bits) <= 8 * MAXMSG →
  bitcount b' = bitcount b + Z.of_nat (length bits) ∧
  bits_from (data b') (bitcount b) (length bits) = map nz bits ∧
  (∀ p, 0 <= p < bitcount b → bit_at (data b') p = bit_at (data b) p).
Proof.
  intros b b' Hi. unfold b, b'. clear b b'.
  revert g. induction bits as [|bit bits IH]; intros g Hl HM Hlen Hby Hbi Hc Hn.
  - simpl. split; [lia | done].
  - cbn [addbits fold_left length] in *. fold (addbits i bits (addbit i bit g)).
    set (b := bucket_at g i) in *.
    assert (byteidx b < MAXMSG) as Hby' by (unfold bitcount in Hn; lia).
    destruct (addbit_at i bit g Hi Hl Hby') as [Eb El]. fold b in Eb.
    destruct (addbit_body_bits bit b ltac:(lia) HM Hbi Hlen Hc)
      as (S1 & S2 & S3 & S4 & S5 & S6 & S7).
    rewrite <- Eb in S1, S2, S3, S4, S5, S6, S7.
    set (g1 := addbit i bit g) in *.
    destruct (IH g1) as (I1 & I2 & I3); try done; try lia.
    split; [lia |]. split.
    + cbn [bits_from map]. f_equal.
      * rewrite I3; [done |]. unfold bitcount in *. lia.
      * rewrite <- I2. f_equal. lia.
    + intros p Hp. rewrite I3 by lia. by apply S7.
Qed.

End WriteRead.

Section Queue.
Context `{B : board}.

Lemma counters_fields g g' :
  counters g' = counters g →
  tx_report g' = tx_report g ∧ bucket_in g' = bucket_in g ∧
  bucket_out g' = bucket_out g ∧ bucket_nrused g' = bucket_nrused g ∧
  length (bucket_array g') = length (bucket_array g).
Proof. unfold counters. intros H. by simplify_eq. Qed.

Lemma RfAnalyze_Task_idle e g :
  bucket_nrused g = 0 → RfAnalyze_Task e g = monitor e g.
Proof.
  intros H. unfold RfAnalyze_Task.
  destruct (counters_fields _ _ (monitor_counters e g)) as (_ & _ & _ & Hn & _).
  rewrite Hn, H. reflexivity.
Qed.

(** What the decode task does to the ring when a bucket waits. *)
Lemma RfAnalyze_Task_tail e g :
  bucket_nrused g ≠ 0 →
  0 <= bucket_out g → (Z.to_nat (bucket_out g) < length (bucket_array g))%nat →
  let g' := RfAnalyze_Task e g in
  state (bucket_at g' (bucket_out g)) = STATE_RESET ∧
  bucket_nrused g' = u8 (bucket_nrused g - 1) ∧
  bucket_out g' =
    (if u8 (bucket_out g + 1) =? RCV_BUCKETS then 0 else u8 (bucket_out g + 1)) ∧
  bucket_in g' = bucket_in g ∧ tx_report g' = tx_report g ∧
  length (bucket_array g') = length (bucket_array g).
Proof.
  intros Hn Ho Hl. unfold RfAnalyze_Task.
  destruct (counters_fields _ _ (monitor_counters e g)) as (_ & _ & Ho1 & Hn1 & _).
  pose proof (monitor_counters e g) as Hm.
  set (g1 := monitor e g) in *.
  rewrite Hn1. destruct (Z.eqb_spec (bucket_nrused g) 0) as [E | _]; [done |].
  pose proof (dispatch_counters g1) as Hd.
  destruct (dispatch g1) as [dt g2]. simpl in Hd.
  set (g3 := report_bits e (bucket_out g1) (report_known e dt g2)).
  assert (counters g3 = counters g) as H3.
  { unfold g3. by rewrite report_bits_counters, report_known_counters, Hd. }
  clearbody g3. clear Hd g2 Hm. rewrite Ho1. clearbody g1. clear g1 Ho1 Hn1.
  destruct (counters_fields _ _ H3) as (Ht & Hi & Hout & Hnr & Hlen).
  cbv zeta.
  set (g5 := with_bucket (bucket_out g) (set_state STATE_RESET) g3).
  assert (state (bucket_at g5 (bucket_out g)) = STATE_RESET) as Hs.
  { unfold g5. rewrite bucket_at_with_bucket; [done | lia | lia]. }
  assert (counters g5 = counters g3) as H5 by apply with_bucket_counters.
  destruct (counters_fields _ _ H5) as (Ht5 & Hi5 & Hout5 & Hnr5 & Hlen5).
  clearbody g5.
  set (g7 := set_bucket_out _ (set_bucket_nrused _ g5)).
  assert (bucket_at g7 (bucket_out g) = bucket_at g5 (bucket_out g)) as Hb7 by done.
  assert (bucket_out g7 = u8 (bucket_out g + 1)) as Ho7.
  { unfold g7. change (bucket_out (set_bucket_out ?v _)) with v.
    change (bucket_out (set_bucket_nrused ?v ?x)) with (bucket_out x).
    by rewrite Hout5, Hout. }
  assert (bucket_nrused g7 = u8 (bucket_nrused g - 1)) as Hn7.
  { unfold g7. change (bucket_nrused (set_bucket_out ?v ?x)) with (bucket_nrused x).
    change (bucket_nrused (set_bucket_nrused ?v _)) with v.
    by rewrite Hnr5, Hnr. }
  assert (bucket_in g7 = bucket_in g ∧ tx_report g7 = tx_report g ∧
          length (bucket_array g7) = length (bucket_array g)) as (Hi7 & Ht7 & Hl7).
  { unfold g7. cbn [bucket_in tx_report bucket_array set_bucket_out set_bucket_nrused].
    split; [congruence |]. split; congruence. }
  clearbody g7. rewrite Ho7.
  set (g8 := if u8 (bucket_out g + 1) =? RCV_BUCKETS then set_bucket_out 0 g7 else g7).
  assert (bucket_at g8 (bucket_out g) = bucket_at g7 (bucket_out g) ∧
          bucket_nrused g8 = bucket_nrused g7 ∧
          bucket_out g8 =
            (if u8 (bucket_out g + 1) =? RCV_BUCKETS then 0 else u8 (bucket_out g + 1)) ∧
          bucket_in g8 = bucket_in g7 ∧ tx_report g8 = tx_report g7 ∧
          length (bucket_array g8) = length (bucket_array g7))
    as (A1 & A2 & A3 & A4 & A5 & A6).
  { unfold g8. destruct (_ =? _); done. }
  clearbody g8.
  assert (∀ h, bucket_at (emit h g8) (bucket_out g) = bucket_at g8 (bucket_out g)) as Hem
    by done.
  destruct (_ && _); cbn [emit bucket_nrused bucket_out bucket_in tx_report
                           bucket_array set_display]; rewrite ?Hem;
    (split; [congruence |]); repeat split; congruence.
Qed.

Lemma wrap_succ x :
  1 <= RCV_BUCKETS <= 255 → 0 <= x < RCV_BUCKETS →
  (if u8 (x + 1) =? RCV_BUCKETS then 0 else u8 (x + 1)) = (x + 1) mod RCV_BUCKETS.
Proof.
  intros HR Hx. rewrite u8_small by lia.
  destruct (Z.eqb_spec (x + 1) RCV_BUCKETS) as [E | E].
  - rewrite E. by rewrite Z.mod_same by lia.
  - by rewrite Z.mod_small by lia.
Qed.

Lemma reset_input_array g :
  bucket_array (reset_input g) =
  alter (set_state STATE_RESET) (Z.to_nat (bucket_in g)) (bucket_array g).
Proof. unfold reset_input. by destruct (_ || _). Qed.

Lemma fifo_start : 1 <= RCV_BUCKETS → fifo globals0.
Proof.
  intros HR. unfold fifo. simpl. rewrite length_replicate.
  rewrite Z.mod_0_l by lia. lia.
Qed.

Lemma fifo_counters g g' : counters g' = counters g → fifo g → fifo g'.
Proof.
  intros H. destruct (counters_fields _ _ H) as (_ & Hi & Ho & Hn & Hl).
  unfold fifo. by rewrite Hi, Ho, Hn, Hl.
Qed.

Lemma fifo_silence g : 1 <= RCV_BUCKETS <= 255 → fifo g → fifo (TIMER1_COMPA_vect g).
Proof.
  intros HR Hf.
  destruct (TIMER1_COMPA_vect_cases g) as (g0 & Hc & Ha & ->).
  pose proof (fifo_counters g g0 Hc Hf) as Hf0.
  destruct (_ || _).
  - apply (fifo_counters g0); [apply reset_input_counters | done].
  - destruct (Z.eqb_spec (bucket_nrused g + 1) RCV_BUCKETS) as [Hfull | Hfull].
    + destruct (_ && _).
      * apply (fifo_counters g0); [| done].
        by rewrite reset_input_counters, emit_counters.
      * apply (fifo_counters g0); [apply reset_input_counters | done].
    + destruct (counters_fields _ _ Hc) as (_ & Hi & Ho & Hn & Hl).
      destruct Hf as (F1 & F2 & F3 & F4 & F5).
      cbv zeta. cbn [bucket_in set_bucket_in].
      rewrite (u8_small (bucket_in g + 1)) by lia.
      assert ((if bucket_in g + 1 =? RCV_BUCKETS then 0 else bucket_in g + 1)
              = (bucket_out g + (bucket_nrused g + 1)) mod RCV_BUCKETS) as Hin.
      { replace (bucket_out g + (bucket_nrused g + 1))
          with (bucket_out g + bucket_nrused g + 1) by lia.
        rewrite <- (Z.add_mod_idemp_l (bucket_out g + bucket_nrused g)) by lia.
        rewrite <- F5.
        destruct (Z.eqb_spec (bucket_in g + 1) RCV_BUCKETS) as [E | E].
        - rewrite E. by rewrite Z.mod_same by lia.
        - by rewrite Z.mod_small by lia. }
      assert (0 < RCV_BUCKETS) as HR0 by lia.
      pose proof (Z.mod_pos_bound (bucket_out g + (bucket_nrused g + 1)) RCV_BUCKETS HR0)
        as Hb.
      destruct (Z.eqb_spec (bucket_in g + 1) RCV_BUCKETS) as [E | E];
        unfold fifo;
        cbn [bucket_array bucket_in bucket_out bucket_nrused
             set_bucket_in set_bucket_nrused];
        rewrite Ho, Hl, (u8_small (bucket_nrused g + 1)) by lia;
        (split; [done |]); (split; [lia |]); (split; [done |]); (split; [lia |]);
        rewrite <- Hin; done.
Qed.

Lemma fifo_task e g : 1 <= RCV_BUCKETS <= 255 → fifo g → fifo (RfAnalyze_Task e g).
Proof.
  intros HR Hf.
  destruct (Z.eq_dec (bucket_nrused g) 0) as [E | E].
  - rewrite RfAnalyze_Task_idle by done.
    by apply (fifo_counters g); [apply monitor_counters |].
  - destruct Hf as (F1 & F2 & F3 & F4 & F5).
    destruct (RfAnalyze_Task_tail e g E ltac:(lia) ltac:(lia))
      as (_ & T2 & T3 & T4 & _ & T6).
    unfold fifo. rewrite T2, T3, T4, T6.
    rewrite wrap_succ by lia. rewrite u8_small by lia.
    assert (0 < RCV_BUCKETS) as HR0 by lia.
    pose proof (Z.mod_pos_bound (bucket_out g + 1) RCV_BUCKETS HR0).
    split; [done |]. split; [done |]. split; [done |]. split; [lia |].
    rewrite Z.add_mod_idemp_l by lia.
    rewrite F5. f_equal. lia.
Qed.

Lemma reachable_fifo : 1 <= RCV_BUCKETS <= 255 → ∀ g, reachable g → fifo g.
Proof.
  intros HR. induction 1 as [| ev g Hg IH].
  - apply fifo_start. lia.
  - destruct ev as [e | | e | v]; simpl.
    + apply (fifo_counters g); [apply CC1100_INTVECT_counters | done].
    + by apply fifo_silence.
    + by apply fifo_task.
    + done.
Qed.

Lemma fifo_waiting g m :
  1 <= RCV_BUCKETS <= 255 → fifo g → 0 <= m < bucket_nrused g →
  waiting g m ≠ bucket_in g.
Proof.
  intros HR (F1 & F2 & F3 & F4 & F5) Hm.
  unfold waiting. rewrite F5. intros Heq.
  assert ((bucket_out g + bucket_nrused g - (bucket_out g + m)) mod RCV_BUCKETS = 0) as H0.
  { rewrite Zminus_mod, Heq, Z.sub_diag. apply Z.mod_0_l. lia. }
  replace (bucket_out g + bucket_nrused g - (bucket_out g + m))
    with (bucket_nrused g - m) in H0 by lia.
  rewrite Z.mod_small in H0 by lia. lia.
Qed.

(** In every reachable state the ring is a queue: the indices are inside
    the array, fewer than [RCV_BUCKETS] buckets wait, and [bucket_in] is
    [bucket_nrused] slots after [bucket_out], around the ring; so the input
    bucket is none of the waiting buckets. *)
Theorem ring_is_a_queue :
  1 <= RCV_BUCKETS <= 255 →
  ∀ g, reachable g →
    fifo g ∧ ∀ m, 0 <= m < bucket_nrused g → waiting g m ≠ bucket_in g.
Proof.
  intros HR g Hg. pose proof (reachable_fifo HR g Hg) as Hf.
  split; [done |]. intros m Hm. by apply fifo_waiting.
Qed.

(** When a bucket waits, the decode task takes the one at [bucket_out]: it
    leaves that bucket in [STATE_RESET], moves [bucket_out] one slot on
    around the ring and counts one bucket less; [bucket_in] stays. *)
Theorem task_takes_tail e g :
  1 <= RCV_BUCKETS <= 255 → fifo g → bucket_nrused g ≠ 0 →
  let g' := RfAnalyze_Task e g in
  state (bucket_at g' (bucket_out g)) = STATE_RESET ∧
  bucket_out g' = (bucket_out g + 1) mod RCV_BUCKETS ∧
  bucket_nrused g' = bucket_nrused g - 1 ∧
  bucket_in g' = bucket_in g ∧
  (∀ m, waiting g' m = waiting g (m + 1)).
Proof.
  intros HR (F1 & F2 & F3 & F4 & F5) Hn g'.
  destruct (RfAnalyze_Task_tail e g Hn ltac:(lia) ltac:(lia))
    as (T1 & T2 & T3 & T4 & _ & _).
  fold g' in T1, T2, T3, T4.
  rewrite wrap_succ in T3 by lia. rewrite u8_small in T2 by lia.
  repeat split; try done.
  intros m. unfold waiting. rewrite T3.
  rewrite Z.add_mod_idemp_l by lia. f_equal. lia.
Qed.

(** *** The edge interrupt writes the input bucket only *)

Lemma io_refl g : input_only g g.
Proof. by split. Qed.

Lemma io_same g g1 g2 :
  counters g2 = counters g1 → bucket_array g2 = bucket_array g1 →
  input_only g g1 → input_only g g2.
Proof. intros Hc Ha [H1 H2]. split; [congruence |]. intros j Hj. rewrite Ha. auto. Qed.

Lemma io_with_bucket g g1 i f :
  input_only g g1 → i = bucket_in g → input_only g (with_bucket i f g1).
Proof.
  intros [H1 H2] ->. split; [by rewrite with_bucket_counters |].
  intros j Hj. unfold with_bucket. cbn [bucket_array set_bucket_array].
  rewrite list_lookup_alter_ne by done. auto.
Qed.

Lemma io_reset_input g g1 : input_only g g1 → input_only g (reset_input g1).
Proof.
  intros [H1 H2]. split; [by rewrite reset_input_counters |].
  intros j Hj. rewrite reset_input_array.
  destruct (counters_fields _ _ H1) as (_ & Hi & _).
  rewrite list_lookup_alter_ne by (rewrite Hi; done). auto.
Qed.

Lemma io_addbit g g1 i bit :
  input_only g g1 → i = bucket_in g → input_only g (addbit i bit g1).
Proof.
  intros H ->. unfold addbit. destruct (_ <=? _).
  - by apply io_reset_input.
  - by apply io_with_bucket.
Qed.

(** A field update that is neither a counter nor the bucket array. *)
Ltac io_field :=
  match goal with
  | |- input_only ?g (?s ?v ?g1) => apply (io_same g g1); [reflexivity | reflexivity |]
  end.

Ltac io :=
  repeat first
    [ assumption
    | apply io_refl
    | apply io_reset_input
    | apply io_addbit; [| assumption || reflexivity]
    | apply io_with_bucket; [| assumption || reflexivity]
    | match goal with
      | |- input_only _ (if ?c then _ else _) => destruct c
      | |- input_only _ (ctl_state (if ?c then _ else _)) => destruct c
      | |- input_only _ (ctl_state (Continue _)) => cbn [ctl_state]
      | |- input_only _ (ctl_state (Return _ _)) => cbn [ctl_state]
      end
    | io_field ].

Lemma io_addbit_avg g g1 i bit :
  input_only g g1 → i = bucket_in g → input_only g (addbit_avg i bit g1).
Proof. intros H Hi. unfold addbit_avg. cbv zeta. destruct (nz bit); io. Qed.

Lemma io_retry_sync g g1 i :
  input_only g g1 → i = bucket_in g → input_only g (retry_sync i g1).
Proof.
  intros H Hi. unfold retry_sync. cbv zeta. io.
Qed.

Lemma io_sync_end e g g1 i :
  input_only g g1 → i = bucket_in g → input_only g (sync_end e i g1).
Proof.
  intros H Hi. unfold sync_end. cbv zeta. io.
Qed.

Lemma io_classify e g g1 i :
  input_only g g1 → i = bucket_in g → input_only g (classify e i g1).
Proof.
  intros H Hi. unfold classify. cbv zeta.
  repeat first
    [ apply io_retry_sync; [| assumption]
    | apply io_sync_end; [| assumption]
    | apply io_addbit_avg; [| assumption]
    | progress io ].
Qed.

Lemma io_it_sync g g1 i :
  input_only g g1 → i = bucket_in g → input_only g (ctl_state (it_sync i g1)).
Proof.
  intros H Hi. unfold it_sync. cbv zeta. io.
Qed.

Lemma io_tcm97001_sync g g1 i :
  input_only g g1 → i = bucket_in g → input_only g (tcm97001_sync i g1).
Proof.
  intros H Hi. unfold tcm97001_sync. cbv zeta. destruct (_ && _); io.
Qed.

Lemma io_CC1100_INTVECT e g : input_only g (CC1100_INTVECT e g).
Proof.
  unfold CC1100_INTVECT. cbv zeta. io.
  set (g1 := set_TCNT1 _ _).
  assert (input_only g g1) as H1 by (unfold g1; io).
  clearbody g1.
  pose proof (io_it_sync g g1 (bucket_in g) H1 eq_refl) as H2.
  destruct (it_sync _ g1) as [g2 | v g2]; simpl in H2; [| done].
  pose proof (io_tcm97001_sync g g2 (bucket_in g) H2 eq_refl) as H3.
  set (g3 := tcm97001_sync _ g2) in *. clearbody g3.
  io. apply io_classify; [io | done].
Qed.

Lemma io_TIMER1_COMPA_vect g :
  ∀ j, j ≠ Z.to_nat (bucket_in g) →
       bucket_array (TIMER1_COMPA_vect g) !! j = bucket_array g !! j.
Proof.
  intros j Hj.
  destruct (TIMER1_COMPA_vect_cases g) as (g0 & Hc & Ha & ->).
  assert (input_only g g0) as H0 by (by apply (io_same g g); [| | apply io_refl]).
  destruct (_ || _); [by apply (io_reset_input g g0) |].
  destruct (_ =? _).
  - apply (io_reset_input g); [| done]. destruct (_ && _); io.
  - cbv zeta. destruct (_ =? _); cbn [bucket_array set_bucket_in set_bucket_nrused];
      by rewrite Ha.
Qed.

(** In a reachable state neither interrupt handler changes a bucket that
    waits for the decode task: the edge handler writes the input bucket
    only, and the silence handler resets the input bucket or hands it
    over. *)
Theorem handlers_leave_waiting_buckets e g m :
  1 <= RCV_BUCKETS <= 255 → reachable g → 0 <= m < bucket_nrused g →
  bucket_at (CC1100_INTVECT e g) (waiting g m) = bucket_at g (waiting g m) ∧
  bucket_at (TIMER1_COMPA_vect g) (waiting g m) = bucket_at g (waiting g m).
Proof.
  intros HR Hg Hm.
  pose proof (reachable_fifo HR g Hg) as Hf.
  pose proof (fifo_waiting g m HR Hf Hm) as Hw.
  assert (0 < RCV_BUCKETS) as HR0 by lia.
  pose proof (Z.mod_pos_bound (bucket_out g + m) RCV_BUCKETS HR0) as Hb.
  fold (waiting g m) in Hb. destruct Hf as (_ & F2 & _).
  assert (Z.to_nat (waiting g m) ≠ Z.to_nat (bucket_in g)) as Hne by lia.
  unfold bucket_at. split.
  - destruct (io_CC1100_INTVECT e g) as [_ H]. by rewrite H.
  - by rewrite io_TIMER1_COMPA_vect.
Qed.

End Queue.

Section Suppression.
Context `{B : board}.

(** The state in which [report_known] prints a frame that is neither IT,
    TCM97001 nor FHT. *)
Lemma plain_check e datatype g :
  nz datatype = true →
  datatype ≠ TYPE_IT → datatype ≠ TYPE_TCM97001 → datatype ≠ TYPE_FHT →
  report g REP_KNOWN = true →
  0 <= oby g <= 255 → (Z.to_nat (oby g) <= length (robuf g))%nat →
  ∃ g3,
    report_known e datatype g = print_frame e datatype g3 ∧
    (packageOK (packetCheckValues g3) = false ↔
     report g REP_REPEATED = false ∧ same_payload g ∧ within_reptime e g) ∧
    (tx_report g3 = tx_report g ∧ oby g3 = oby g ∧ obuf g3 = obuf g ∧
     nibble g3 = nibble g ∧ display g3 = display g ∧
     length (robuf g3) = length (robuf g)) ∧
    (report g REP_REPEATED = false →
     roby g3 = oby g ∧ (∀ k, 0 <= k < oby g → rd (robuf g3) k = rd (obuf g) k) ∧
     reptime g3 = ticks e).
Proof.
  intros Hnz Hit Htcm Hfht Hk Ho Hl.
  unfold report_known. rewrite Hnz, Hk. simpl andb. cbv iota.
  destruct (filter_repeated_cases e g Ho Hl) as (F1 & F2 & _ & F4).
  assert (report g REP_REPEATED = false →
          roby (filter_repeated e g) = oby g ∧
          (∀ k, 0 <= k < oby g → rd (robuf (filter_repeated e g)) k = rd (obuf g) k) ∧
          reptime (filter_repeated e g) = ticks e) as Hst.
  { intros Hrep.
    destruct (filter_repeated_spec e g Ho Hl Hrep) as (_ & _ & _ & S1 & S2 & _ & S3 & _).
    done. }
  set (g1 := filter_repeated e g) in *.
  destruct (fht_protocol_store datatype g1) as (_ & _ & _ & P4).
  rewrite (P4 Hfht).
  assert ((datatype =? TYPE_FHT) = false) as -> by (by apply Z.eqb_neq).
  rewrite !andb_false_r. simpl andb. cbv iota.
  exists (checkForRepeatedPackage datatype g1). split; [done |].
  unfold checkForRepeatedPackage.
  assert ((datatype =? TYPE_IT) || (datatype =? TYPE_TCM97001) = false) as ->.
  { apply orb_false_iff. split; by apply Z.eqb_neq. }
  rewrite andb_false_r. cbv iota.
  destruct F4 as (T1 & T2 & T3 & T4 & T5 & T6 & T7).
  clearbody g1.
  destruct (isrep (packetCheckValues g1)) eqn:Ei; simpl.
  - split; [| done]. rewrite F2. split; [intros _ | done]. by apply F1.
  - split; [| done]. split; [done |]. intros H. apply F1 in H. done.
Qed.

(** With [REP_KNOWN] set, a frame that is neither IT, TCM97001 nor FHT is
    printed unless the repeat filter flags it: with [REP_REPEATED] set every
    frame is printed, and with [REP_REPEATED] clear a frame is dropped
    exactly when it has the length and bytes of the stored payload and comes
    within [REPTIME] ticks of it.  What is printed is [frame_line]: the tag,
    the [oby] bytes of [obuf] in hex, the last of them as one hex digit if
    [nibble] is nonzero at that time, whichever decoder produced the frame,
    the RSSI if asked for, and the newline.  The same payload decoded again
    inside the window prints nothing. *)
Theorem repeats_are_suppressed e datatype g :
  nz datatype = true →
  datatype ≠ TYPE_IT → datatype ≠ TYPE_TCM97001 → datatype ≠ TYPE_FHT →
  report g REP_KNOWN = true →
  0 <= oby g <= 255 → (Z.to_nat (oby g) <= length (robuf g))%nat →
  let g' := report_known e datatype g in
  let emitted := packageOK (packetCheckValues g') in
  (emitted = false ↔
   report g REP_REPEATED = false ∧ same_payload g ∧ within_reptime e g) ∧
  display g' = display g ++ (if emitted then frame_line e datatype g else []) ∧
  (report g REP_REPEATED = false →
   ∀ e2, u32 (ticks e2 - ticks e) < REPTIME →
         display (report_known e2 datatype (decoded_again g g')) = display g').
Proof.
  intros Hnz Hit Htcm Hfht Hk Ho Hl g' emitted.
  destruct (plain_check e datatype g Hnz Hit Htcm Hfht Hk Ho Hl)
    as (g3 & E & C1 & (T1 & T2 & T3 & T4 & T5 & T6) & S).
  assert (packetCheckValues g' = packetCheckValues g3 ∧
          display g' = display g ++
            (if packageOK (packetCheckValues g3) then frame_line e datatype g else []) ∧
          tx_report g' = tx_report g ∧ robuf g' = robuf g3 ∧ roby g' = roby g3 ∧
          reptime g' = reptime g3)
    as (P1 & P2 & P3 & P4 & P5 & P6).
  { unfold g'. rewrite E, print_frame_spec by lia.
    assert (frame_line e datatype g3 = frame_line e datatype g) as ->.
    { unfold frame_line, report. by rewrite T1, T2, T3, T4. }
    destruct (packageOK (packetCheckValues g3)); [destruct (nz (nibble g3)) |];
      simpl; rewrite ?T5, ?T1, ?app_nil_r; done. }
  unfold emitted. rewrite P1.
  split; [done |]. split; [done |].
  intros Hrep e2 Hwin.
  destruct (S Hrep) as (S1 & S2 & S3).
  set (g2 := decoded_again g g').
  assert (report g2 REP_KNOWN = true) as Hk2.
  { unfold g2, decoded_again, report. simpl. rewrite P3. exact Hk. }
  assert (report g2 REP_REPEATED = false) as Hrep2.
  { unfold g2, decoded_again, report. simpl. rewrite P3. exact Hrep. }
  assert (0 <= oby g2 <= 255) as Ho2 by done.
  assert ((Z.to_nat (oby g2) <= length (robuf g2))%nat) as Hl2.
  { unfold g2, decoded_again. simpl. rewrite P4, T6. done. }
  destruct (plain_check e2 datatype g2 Hnz Hit Htcm Hfht Hk2 Ho2 Hl2)
    as (g4 & E4 & D1 & (_ & D2 & _ & _ & D3 & _) & _).
  rewrite E4, print_frame_spec by lia.
  assert (packageOK (packetCheckValues g4) = false) as ->; [| exact D3].
  apply D1. split; [done |]. split.
  - unfold same_payload, g2, decoded_again. simpl. rewrite P5, P4. done.
  - unfold within_reptime, g2, decoded_again. simpl. rewrite P6, S3. done.
Qed.

End Suppression.

Section Analyze.
Context `{B : board}.

(** The input side of one round: the bit read and the next position. *)
Lemma analyze_advance d n :
  0 <= n < 2040 →
  b2z (nz (Z.land (rd d (n / 8)) (_BV (7 - n mod 8)))) = b2z (bit_at d n) ∧
  (if 7 - n mod 8 =? 0 then (u8 (n / 8 + 1), 7) else (n / 8, 7 - n mod 8 - 1))
  = ((n + 1) / 8, 7 - (n + 1) mod 8).
Proof.
  intros Hn. pose proof (getbit_at d n ltac:(lia) ltac:(lia)) as H.
  unfold getbit, at_pos in H. cbn [in_data in_byte in_bit] in H.
  destruct (7 - n mod 8 =? 0); injection H; intros; split; congruence.
Qed.

(** A byte is determined by its eight bits. *)
Lemma byte_bits_eq x y :
  0 <= x < 256 → 0 <= y < 256 →
  (∀ j, 0 <= j < 8 → Z.testbit x j = Z.testbit y j) → x = y.
Proof.
  intros Hx Hy H. apply Z.bits_inj'. intros j Hj.
  destruct (Z.lt_ge_cases j 8); [apply H; lia |].
  rewrite <- (Z.mod_small x 256), <- (Z.mod_small y 256) by lia.
  change 256 with (2 ^ 8). by rewrite !Z.mod_pow2_bits_high by lia.
Qed.

Lemma msb_first_8_bits d p j :
  0 <= j < 8 →
  Z.testbit (msb_first (bits_from d p 8)) j = bit_at d (p + (7 - j)).
Proof.
  intros Hj. simpl bits_from.
  replace (p + 1 + 1 + 1 + 1 + 1 + 1 + 1) with (p + 7) by lia.
  replace (p + 1 + 1 + 1 + 1 + 1 + 1) with (p + 6) by lia.
  replace (p + 1 + 1 + 1 + 1 + 1) with (p + 5) by lia.
  replace (p + 1 + 1 + 1 + 1) with (p + 4) by lia.
  replace (p + 1 + 1 + 1) with (p + 3) by lia.
  replace (p + 1 + 1) with (p + 2) by lia.
  assert (j = 0 ∨ j = 1 ∨ j = 2 ∨ j = 3 ∨ j = 4 ∨ j = 5 ∨ j = 6 ∨ j = 7) as Hc by lia.
  replace (bit_at d p) with (bit_at d (p + 0)) by (f_equal; lia).
  destruct Hc as [-> | [-> | [-> | [-> | [-> | [-> | [-> | ->]]]]]]];
    match goal with |- _ = bit_at d (p + ?c) =>
      let c' := eval cbv in c in change c with c' end;
    generalize (bit_at d (p + 0)) (bit_at d (p + 1)) (bit_at d (p + 2))
      (bit_at d (p + 3)) (bit_at d (p + 4)) (bit_at d (p + 5))
      (bit_at d (p + 6)) (bit_at d (p + 7));
    intros [] [] [] [] [] [] [] []; vm_compute; reflexivity.
Qed.

Lemma lsb_first_8_bits d p j :
  0 <= j < 8 →
  Z.testbit (lsb_first (bits_from d p 8)) j = bit_at d (p + j).
Proof.
  intros Hj. simpl bits_from.
  replace (p + 1 + 1 + 1 + 1 + 1 + 1 + 1) with (p + 7) by lia.
  replace (p + 1 + 1 + 1 + 1 + 1 + 1) with (p + 6) by lia.
  replace (p + 1 + 1 + 1 + 1 + 1) with (p + 5) by lia.
  replace (p + 1 + 1 + 1 + 1) with (p + 4) by lia.
  replace (p + 1 + 1 + 1) with (p + 3) by lia.
  replace (p + 1 + 1) with (p + 2) by lia.
  assert (j = 0 ∨ j = 1 ∨ j = 2 ∨ j = 3 ∨ j = 4 ∨ j = 5 ∨ j = 6 ∨ j = 7) as Hc by lia.
  replace (bit_at d p) with (bit_at d (p + 0)) by (f_equal; lia).
  destruct Hc as [-> | [-> | [-> | [-> | [-> | [-> | [-> | ->]]]]]]];
    generalize (bit_at d (p + 0)) (bit_at d (p + 1)) (bit_at d (p + 2))
      (bit_at d (p + 3)) (bit_at d (p + 4)) (bit_at d (p + 5))
      (bit_at d (p + 6)) (bit_at d (p + 7));
    intros [] [] [] [] [] [] [] []; vm_compute; reflexivity.
Qed.

Lemma framed_byte_range t d k : 0 <= framed_byte t d k < 256.
Proof.
  unfold framed_byte. destruct (t =? TYPE_FS20);
    [apply msb_first_8_range | apply lsb_first_8_range].
Qed.

Lemma framed_byte_bits t d k j :
  0 <= j < 8 →
  Z.testbit (framed_byte t d k) j =
  bit_at d (9 * k + (if t =? TYPE_FS20 then 7 - j else j)).
Proof.
  intros Hj. unfold framed_byte. destruct (t =? TYPE_FS20).
  - by apply msb_first_8_bits.
  - by apply lsb_first_8_bits.
Qed.

Lemma succ_div_mod_9 n :
  0 <= n →
  0 <= n / 9 ∧ 0 <= n mod 9 < 9 ∧ n = 9 * (n / 9) + n mod 9 ∧
  (n mod 9 = 8 → (n + 1) / 9 = n / 9 + 1 ∧ (n + 1) mod 9 = 0) ∧
  (n mod 9 ≠ 8 → (n + 1) / 9 = n / 9 ∧ (n + 1) mod 9 = n mod 9 + 1).
Proof. intros Hn. Z.div_mod_to_equations. lia. Qed.

Lemma nz_b2z x : nz (b2z x) = x.
Proof. by destruct x. Qed.

Section Round.
Variables (b : bucket_t) (t : Z) (len : nat).
Hypothesis Ht : t = TYPE_FS20 ∨ t = TYPE_EM.
Hypothesis Hfe : TYPE_FS20 ≠ TYPE_EM.
Hypothesis Hfk : TYPE_FS20 ≠ TYPE_KS300.
Hypothesis Hek : TYPE_EM ≠ TYPE_KS300.

Lemma framed_tags :
  (t =? TYPE_KS300) = false ∧
  (((t =? TYPE_FS20) = true ∧ (t =? TYPE_EM) = false) ∨
   ((t =? TYPE_FS20) = false ∧ (t =? TYPE_EM) = true)).
Proof.
  destruct Ht as [-> | ->].
  - split; [by apply Z.eqb_neq |]. left. split; [apply Z.eqb_refl | by apply Z.eqb_neq].
  - split; [by apply Z.eqb_neq |]. right. split; [by apply Z.eqb_neq | apply Z.eqb_refl].
Qed.

(** One round of the loop of [analyze]. *)
Lemma analyze_round n s :
  reading t (data b) len n s → 0 <= n < 255 →
  (Z.to_nat (n / 9 + 1) < len)%nat →
  match analyze_body b t s with
  | Continue s' =>
      reading t (data b) len (n + 1) s' ∧
      (n mod 9 = 8 → framed_check t (data b) (n / 9) = true)
  | Return v _ => v = 0 ∧ n mod 9 = 8 ∧ framed_check t (data b) (n / 9) = false
  end.
Proof.
  destruct s as [[[iby ibi] obi] g].
  intros (R1 & R2 & R3 & R4 & R5 & R6 & R7 & R8 & R9) Hn Hlen.
  destruct (succ_div_mod_9 n ltac:(lia)) as (Hq & Hr & En & S8 & S9).
  destruct (analyze_advance (data b) n ltac:(lia)) as [Ebit Enext].
  destruct framed_tags as [Ek Efe].
  set (q := n / 9) in *. set (r := n mod 9) in *.
  set (d := data b) in *.
  set (pos := λ j : Z, if t =? TYPE_FS20 then 7 - j else j) in *.
  subst iby ibi obi. unfold analyze_body. fold d. rewrite Ebit, Enext, Ek.
  cbn [andb]. cbv iota zeta. rewrite ?nz_b2z, ?R4.
  destruct (Z.eqb_spec (7 - r) (-1)) as [E8 | E8].
  - (* the check bit *)
    assert (r = 8) as Er by lia.
    destruct (S8 Er) as [Sq Sr].
    assert (rd (obuf g) q = framed_byte t d q) as Ebyte.
    { apply byte_bits_eq; [done | apply framed_byte_range |].
      intros j Hj. rewrite R8, framed_byte_bits by done. fold (pos j).
      assert ((pos j <? r) = true) as ->; [| done].
      apply Z.ltb_lt. unfold pos. destruct (t =? TYPE_FS20); lia. }
    assert (bit_at d n = bit_at d (9 * q + 8)) as Ebn by (f_equal; lia).
    rewrite Ebyte. unfold framed_check. fold d.
    destruct Efe as [[Ef Ee] | [Ef Ee]]; rewrite Ef, ?Ee; cbn [andb orb].
    + rewrite <- Ebn.
      destruct (parity_even_bit (framed_byte t d q) =? b2z (bit_at d n)) eqn:Ep;
        cbn [negb]; [| done].
      split; [| done].
      unfold reading. rewrite Sq, Sr.
      cbn [oby nibble obuf set_oby set_obuf].
      rewrite (u8_small (q + 1)) by lia. rewrite length_wr.
      split; [done |]. split; [done |]. split; [done |]. split; [done |].
      split; [done |]. split; [done |].
      split; [| split].
      * intros k Hk. rewrite rd_wr_ne by lia.
        destruct (Z.eq_dec k q) as [-> | Hne]; [done | apply R7; lia].
      * intros j Hj. rewrite rd_wr_eq by lia. rewrite Z.bits_0.
        replace ((if t =? TYPE_FS20 then 7 - j else j) <? 0) with false; [done |].
        symmetry. apply Z.ltb_ge. destruct (t =? TYPE_FS20); lia.
      * rewrite rd_wr_eq by lia. lia.
    + rewrite <- Ebn. destruct (bit_at d n) eqn:Eb; cbn [negb]; [| done].
      split; [| done].
      unfold reading. rewrite Sq, Sr.
      cbn [oby nibble obuf set_oby set_obuf].
      rewrite (u8_small (q + 1)) by lia. rewrite length_wr.
      split; [done |]. split; [done |]. split; [done |]. split; [done |].
      split; [done |]. split; [done |].
      split; [| split].
      * intros k Hk. rewrite rd_wr_ne by lia.
        destruct (Z.eq_dec k q) as [-> | Hne]; [done | apply R7; lia].
      * intros j Hj. rewrite rd_wr_eq by lia. rewrite Z.bits_0.
        replace ((if t =? TYPE_FS20 then 7 - j else j) <? 0) with false; [done |].
        symmetry. apply Z.ltb_ge. destruct (t =? TYPE_FS20); lia.
      * rewrite rd_wr_eq by lia. lia.
  - (* a data bit *)
    assert (r ≠ 8) as Er by lia.
    destruct (S9 Er) as [Sq Sr].
    split; [| done].
    assert (bit_at d n = bit_at d (9 * q + r)) as Ebn by (f_equal; lia).
    set (g' := if bit_at d n then _ else g).
    assert (oby g' = q ∧ nibble g' = 0 ∧ length (obuf g') = len ∧
            (∀ k, 0 <= k → k ≠ q → rd (obuf g') k = rd (obuf g) k) ∧
            (∀ j, 0 <= j < 8 →
               Z.testbit (rd (obuf g') q) j =
               Z.testbit (rd (obuf g) q) j || (bit_at d n && (pos j =? r))) ∧
            0 <= rd (obuf g') q < 256) as (G1 & G2 & G3 & G4 & G5 & G6).
    { unfold g'. destruct (bit_at d n).
      - destruct Efe as [[Ef Ee] | [Ef Ee]]; rewrite Ef, ?Ee; cbn [orb];
          cbn [oby nibble obuf set_obuf]; rewrite ?R4, length_wr;
          (split; [done |]); (split; [done |]); (split; [done |]);
          (split; [intros k Hk Hne; apply rd_wr_ne; lia |]);
          (split; [| rewrite rd_wr_eq by lia; apply u8_range]);
          intros j Hj; rewrite rd_wr_eq by lia;
          rewrite testbit_u8, Z.lor_spec, testbit_BV by lia;
          f_equal; unfold pos; rewrite Ef; cbn [andb];
          apply eq_true_iff_eq; rewrite !Z.eqb_eq; lia.
      - split; [done |]. split; [done |]. split; [done |]. split; [done |].
        split; [| done]. intros j Hj. by rewrite orb_false_r. }
    clearbody g'.
    unfold reading. rewrite Sq, Sr.
    split; [done |]. split; [done |]. split; [lia |]. split; [done |].
    split; [done |]. split; [done |].
    split; [| split; [| done]].
    + intros k Hk. rewrite G4 by lia. by apply R7.
    + intros j Hj. rewrite G5, R8 by done. fold (pos j).
      assert (0 <= pos j < 8) as Hp by (unfold pos; destruct (t =? TYPE_FS20); lia).
      destruct (Z.eqb_spec (pos j) r) as [Epr | Epr].
      * rewrite Epr, <- Ebn.
        assert ((r <? r) = false) as -> by (apply Z.ltb_ge; lia).
        assert ((r <? r + 1) = true) as -> by (apply Z.ltb_lt; lia).
        by destruct (bit_at d n).
      * rewrite andb_false_r, orb_false_r. f_equal.
        apply eq_true_iff_eq. rewrite !Z.ltb_lt. lia.
Qed.

(** The rounds from bit [n] on. *)
Lemma analyze_rounds m n s :
  reading t (data b) len n s → 0 <= n → n + Z.of_nat m <= 255 →
  (Z.to_nat ((n + Z.of_nat m) / 9 + 1) < len)%nat →
  match for_loop m (analyze_body b t) s with
  | Continue s' =>
      reading t (data b) len (n + Z.of_nat m) s' ∧
      (∀ k, n <= 9 * k + 8 < n + Z.of_nat m → framed_check t (data b) k = true)
  | Return v _ =>
      v = 0 ∧
      ∃ k, n <= 9 * k + 8 < n + Z.of_nat m ∧ framed_check t (data b) k = false
  end.
Proof.
  revert n s. induction m as [|m IH]; intros n s Hs Hn Hm Hlen.
  - cbn [for_loop]. rewrite Z.add_0_r. split; [done |]. intros k Hk. lia.
  - rewrite for_loop_S.
    assert ((n / 9 + 1 <= (n + Z.of_nat (S m)) / 9 + 1)) as Hle.
    { assert (n / 9 <= (n + Z.of_nat (S m)) / 9); [| lia].
      apply Z.div_le_mono; lia. }
    pose proof (analyze_round n s Hs ltac:(lia) ltac:(lia)) as H1.
    destruct (analyze_body b t s) as [s1 | v s1].
    + destruct H1 as [H1 H2].
      assert (n mod 9 = 8 → n = 9 * (n / 9) + 8) as H8.
      { intros E. destruct (succ_div_mod_9 n Hn) as (_ & _ & En & _). lia. }
      specialize (IH (n + 1) s1 H1 ltac:(lia) ltac:(lia)).
      replace (n + 1 + Z.of_nat m) with (n + Z.of_nat (S m)) in IH by lia.
      specialize (IH Hlen).
      destruct (for_loop m (analyze_body b t) s1) as [s2 | v s2].
      * destruct IH as [I1 I2]. split; [done |].
        intros k Hk. destruct (Z.eq_dec (9 * k + 8) n) as [E | E].
        -- assert (n mod 9 = 8 ∧ n / 9 = k) as [E1 E2].
           { rewrite <- E. split.
             - symmetry. apply (Z.mod_unique (9 * k + 8) 9 k 8); lia.
             - symmetry. apply (Z.div_unique (9 * k + 8) 9 k 8); lia. }
           rewrite <- E2. by apply H2.
        -- apply I2. lia.
      * destruct IH as [-> (k & Hk & Hc)]. split; [done |].
        exists k. split; [lia | done].
    + destruct H1 as (-> & E & Hc). split; [done |].
      exists (n / 9). split; [| done].
      destruct (succ_div_mod_9 n Hn) as (_ & _ & En & _). lia.
Qed.

End Round.

(** The whole loop of [analyze] and what follows it, for FS20 and EM. *)
Lemma analyze_frames b t g :
  t = TYPE_FS20 ∨ t = TYPE_EM →
  TYPE_FS20 ≠ TYPE_EM → TYPE_FS20 ≠ TYPE_KS300 → TYPE_EM ≠ TYPE_KS300 →
  0 <= byteidx b → 0 <= bitidx b <= 7 → bitcount b <= 254 →
  (Z.to_nat (bitcount b / 9 + 1) < length (obuf g))%nat →
  let r := analyze b t g in
  let n := bitcount b in
  (r.1 = 0 ∨ r.1 = 1) ∧
  (r.1 = 1 ↔
   1 <= framed_count t n ∧
   ∀ k, 0 <= k < n / 9 → framed_check t (data b) k = true) ∧
  (r.1 = 1 →
   oby r.2 = framed_count t n ∧ nibble r.2 = 0 ∧
   (∀ k, 0 <= k < framed_count t n → rd (obuf r.2) k = framed_byte t (data b) k) ∧
   length (obuf r.2) = length (obuf g)).
Proof.
  intros Ht Hfe Hfk Hek Hby Hbi Hmax Hlen r n.
  assert (0 <= n <= 254) as Hn by (unfold n, bitcount in *; lia).
  destruct (succ_div_mod_9 n ltac:(lia)) as (Hq & Hr & En & _ & _).
  assert (∀ k, 0 <= k → (9 * k + 8 < n ↔ k < n / 9)) as Hgroups.
  { intros k Hk. lia. }
  set (g0 := set_obuf (wr (obuf (set_oby 0 (set_nibble 0 g))) 0 0)
               (set_oby 0 (set_nibble 0 g))).
  assert (reading t (data b) (length (obuf g)) 0 (0, 7, 7, g0)) as H0.
  { unfold reading, g0. cbn [oby nibble obuf set_oby set_obuf set_nibble].
    change (0 / 9) with 0. change (0 mod 9) with 0. rewrite length_wr.
    split; [done |]. split; [done |]. split; [done |]. split; [done |].
    split; [done |]. split; [done |].
    split; [intros k Hk; lia |].
    rewrite rd_wr_eq by lia. split; [| lia].
    intros j Hj. rewrite Z.bits_0.
    replace ((if t =? TYPE_FS20 then 7 - j else j) <? 0) with false; [done |].
    symmetry. apply Z.ltb_ge. destruct (t =? TYPE_FS20); lia. }
  pose proof (analyze_rounds b t (length (obuf g)) Ht Hfe Hfk Hek
                (Z.to_nat n) 0 (0, 7, 7, g0) H0 ltac:(lia) ltac:(lia)) as Hloop.
  rewrite Z.add_0_l, Z2Nat.id in Hloop by lia. specialize (Hloop Hlen).
  assert (r = analyze b t g) as Er by reflexivity. clearbody r.
  unfold analyze in Er. cbv zeta in Er. fold (bitcount b) in Er. fold n in Er.
  fold g0 in Er.
  rewrite (u8_small n) in Er by lia.
  rewrite (u8_small (n + 1)) in Er by lia.
  destruct (for_loop (Z.to_nat n) (analyze_body b t) (0, 7, 7, g0))
    as [[[[iby ibi] obi] g1] | v [[[iby ibi] obi] g1]].
  - destruct Hloop as [(_ & _ & R3 & R4 & R5 & R6 & R7 & R8 & R9) Hchk].
    destruct (Z.leb_spec (n + 1) n) as [? | _]; [lia |].
    rewrite R5 in Er. change (nz 0) with false in Er. cbv iota in Er.
    set (g2 := if (t =? TYPE_EM) && (obi =? -1) then set_oby (u8 (oby g1 + 1)) g1 else g1)
      in Er.
    assert (oby g2 = framed_count t n ∧ nibble g2 = 0 ∧ obuf g2 = obuf g1)
      as (G1 & G2 & G3).
    { unfold g2, framed_count. rewrite R3.
      replace (7 - n mod 9 =? -1) with (n mod 9 =? 8)
        by (apply eq_true_iff_eq; rewrite !Z.eqb_eq; lia).
      destruct ((t =? TYPE_EM) && (n mod 9 =? 8));
        cbn [oby nibble obuf set_oby]; rewrite R4, ?Z.add_0_r, ?u8_small by lia;
        done. }
    clearbody g2.
    assert (0 <= framed_count t n) as Hc0.
    { unfold framed_count. destruct (_ && _); lia. }
    assert (∀ k, 0 <= k < framed_count t n → rd (obuf g1) k = framed_byte t (data b) k)
      as Hbytes.
    { intros k Hk. destruct (Z.lt_ge_cases k (n / 9)) as [Hlt | Hge];
        [apply R7; lia |].
      unfold framed_count in Hk.
      destruct (Z.eqb_spec t TYPE_EM) as [Et | Et]; cbn [andb] in Hk; [| lia].
      destruct (Z.eqb_spec (n mod 9) 8) as [E8 | E8]; [| lia].
      assert (k = n / 9) as -> by lia.
      apply byte_bits_eq; [done | apply framed_byte_range |].
      intros j Hj. rewrite R8, framed_byte_bits by done. rewrite E8.
      replace ((if t =? TYPE_FS20 then 7 - j else j) <? 8) with true; [done |].
      symmetry. apply Z.ltb_lt. destruct (t =? TYPE_FS20); lia. }
    destruct (Z.eqb_spec (oby g2) 0) as [E0 | E0]; subst r; cbn [fst snd].
    + split; [by left |]. split; [| done].
      split; [done |]. intros [H1 _]. lia.
    + split; [by right |]. split.
      * split; [intros _ | done]. split; [lia |].
        intros k Hk. apply Hchk. split; [lia |]. apply Hgroups; lia.
      * intros _. rewrite G3. done.
  - destruct Hloop as [-> (k & Hk & Hc)]. subst r. cbn [fst snd].
    split; [by left |]. split; [| done].
    split; [done |]. intros [_ H]. rewrite H in Hc; [done |].
    split; [lia |]. apply Hgroups; lia.
Qed.


(** [analyze(b, t)] for FS20 and for EM: it succeeds exactly when the
    stream has a byte and every complete group of nine bits has a good check
    bit, parity for FS20 and 1 for EM; it hands out the bytes of the groups,
    and for EM also a last byte of eight bits without its check bit.  The
    bits after the last group are not looked at. *)
Theorem analyze_framing b t g :
  t = TYPE_FS20 ∨ t = TYPE_EM →
  TYPE_FS20 ≠ TYPE_EM → TYPE_FS20 ≠ TYPE_KS300 → TYPE_EM ≠ TYPE_KS300 →
  0 <= byteidx b → 0 <= bitidx b <= 7 → bitcount b <= 254 →
  (Z.to_nat (bitcount b / 9 + 1) < length (obuf g))%nat →
  let r := analyze b t g in
  let n := bitcount b in
  (r.1 = 0 ∨ r.1 = 1) ∧
  (r.1 = 1 ↔
   1 <= framed_count t n ∧
   ∀ k, 0 <= k < n / 9 → framed_check t (data b) k = true) ∧
  (r.1 = 1 →
   oby r.2 = framed_count t n ∧ nibble r.2 = 0 ∧
   ∀ k, 0 <= k < framed_count t n → rd (obuf r.2) k = framed_byte t (data b) k).
Proof.
  intros Ht Hfe Hfk Hek Hby Hbi Hmax Hlen.
  destruct (analyze_frames b t g Ht Hfe Hfk Hek Hby Hbi Hmax Hlen) as (H1 & H2 & H3).
  split; [exact H1 |]. split; [exact H2 |].
  intros H. destruct (H3 H) as (O1 & O2 & O3 & _). done.
Qed.

End Analyze.

Section FS20.
Context `{B : board}.

Lemma take_rd_map (f : Z → Z) (l : list Z) n :
  (∀ k, 0 <= k < Z.of_nat n → rd l k = f k) → (n <= length l)%nat →
  take n l = map f (seqZ 0 (Z.of_nat n)).
Proof.
  induction n as [|n IH]; intros Hf Hl; [done |].
  rewrite take_S_rd by lia.
  replace (Z.of_nat (S n)) with (Z.of_nat n + 1) by lia.
  rewrite seqZ_app by lia. rewrite map_app. cbn [seqZ]. simpl.
  rewrite IH by (try lia; intros; apply Hf; lia).
  rewrite Hf by lia. done.
Qed.

(** What [analyze] leaves for the check of the FS20 and EM blocks: the
    output bytes as a list. *)
Lemma analyze_bytes b t g :
  t = TYPE_FS20 ∨ t = TYPE_EM →
  TYPE_FS20 ≠ TYPE_EM → TYPE_FS20 ≠ TYPE_KS300 → TYPE_EM ≠ TYPE_KS300 →
  0 <= byteidx b → 0 <= bitidx b <= 7 → bitcount b <= 254 →
  (Z.to_nat (bitcount b / 9 + 1) < length (obuf g))%nat →
  let r := analyze b t g in
  let c := framed_count t (bitcount b) in
  (nz r.1 = true ↔ 1 <= c ∧ framed t b) ∧
  (nz r.1 = true →
   oby r.2 = c ∧ (Z.to_nat c <= length (obuf r.2))%nat ∧ 1 <= c <= 29 ∧
   (∀ k, 0 <= k < c → rd (obuf r.2) k = framed_byte t (data b) k) ∧
   (∀ m, 0 <= m <= c →
         take (Z.to_nat m) (obuf r.2) = framed_bytes t (data b) m) ∧
   nibble r.2 = 0 ∧ length (obuf r.2) = length (obuf g)).
Proof.
  intros Ht Hfe Hfk Hek Hby Hbi Hmax Hlen r c.
  destruct (analyze_frames b t g Ht Hfe Hfk Hek Hby Hbi Hmax Hlen)
    as (H01 & Hiff & Hout).
  fold r in H01, Hiff, Hout. fold c in Hiff, Hout.
  assert (nz r.1 = true ↔ r.1 = 1) as Hnz.
  { unfold nz. destruct H01 as [-> | ->]; simpl; split; done. }
  split; [rewrite Hnz; exact Hiff |].
  intros H1. apply Hnz in H1. destruct (Hout H1) as (O1 & O2 & O3 & Hl2).
  apply Hiff in H1. destruct H1 as [Hc _].
  assert (0 <= bitcount b) as Hn by (unfold bitcount; lia).
  assert (c <= bitcount b / 9 + 1) as Hc1.
  { unfold c, framed_count. destruct (_ && _); lia. }
  assert (bitcount b / 9 <= 28) as Hq.
  { clear -Hmax Hn. Z.div_mod_to_equations. lia. }
  split; [done |]. split; [lia |]. split; [lia |]. split; [done |].
  split; [| done].
  intros m Hm. unfold framed_bytes.
  rewrite <- (Z2Nat.id m) at 2 by lia.
  apply take_rd_map; [| lia].
  intros k Hk. apply O3. lia.
Qed.

(** The FS20 block of [RfAnalyze_Task]: a stream whose groups of nine bits
    all have even parity, with at least four bytes before the last one, is
    FS20 when the last byte is the sum of the others plus 6 or, from a
    repeater, that sum plus 1, and FHT when it is that sum plus 6, all in
    eight bits; anything else leaves the type 0.  The bytes before the check
    byte are handed out, and the check byte of a repeater is replaced by the
    plain FS20 sum. *)
Theorem fs20_decoder i g :
  let b := bucket_at g i in
  let m := bitcount b / 9 - 1 in
  let sum := (6 + sum_bytes (framed_bytes TYPE_FS20 (data b) m)) mod 256 in
  let check := framed_byte TYPE_FS20 (data b) m in
  let s := try_fs20 i (0, g) in
  TYPE_FS20 ≠ TYPE_EM → TYPE_FS20 ≠ TYPE_KS300 → TYPE_EM ≠ TYPE_KS300 →
  0 <= byteidx b → 0 <= bitidx b <= 7 → bitcount b <= 254 →
  (Z.to_nat (bitcount b / 9 + 1) < length (obuf g))%nat →
  (framed TYPE_FS20 b ∧ 4 <= m ∧ (check = sum ∨ check = sum + 1) →
   s.1 = TYPE_FS20 ∧ unframed TYPE_FS20 b m s.2 ∧ rd (obuf s.2) m = sum) ∧
  (framed TYPE_FS20 b ∧ 4 <= m ∧ check = (sum + 6) mod 256 →
   s.1 = TYPE_FHT ∧ unframed TYPE_FS20 b m s.2 ∧ rd (obuf s.2) m = check) ∧
  (¬ (framed TYPE_FS20 b ∧ 4 <= m ∧
      (check = sum ∨ check = sum + 1 ∨ check = (sum + 6) mod 256)) →
   s.1 = 0).
Proof.
  intros b m sum check s Hfe Hfk Hek Hby Hbi Hmax Hlen.
  destruct (analyze_bytes b TYPE_FS20 g (or_introl eq_refl) Hfe Hfk Hek Hby Hbi Hmax Hlen)
    as [Hiff Hout].
  assert (framed_count TYPE_FS20 (bitcount b) = m + 1) as Ec.
  { unfold framed_count, m.
    assert ((TYPE_FS20 =? TYPE_EM) = false) as -> by (by apply Z.eqb_neq).
    cbn [andb]. lia. }
  rewrite Ec in Hiff, Hout.
  assert (0 <= sum < 256) as Hsum by (apply Z.mod_pos_bound; lia).
  assert ((sum + 6) mod 256 ≠ sum ∧ (sum + 6) mod 256 ≠ sum + 1) as [Hd1 Hd2].
  { destruct (Z.lt_ge_cases (sum + 6) 256).
    - rewrite Z.mod_small by lia. lia.
    - replace ((sum + 6) mod 256) with (sum + 6 - 256); [lia |].
      apply (Z.mod_unique (sum + 6) 256 1); lia. }
  assert (s = try_fs20 i (0, g)) as Es by reflexivity. clearbody s.
  unfold try_fs20 in Es. change (nz 0) with false in Es. cbv iota beta in Es.
  fold b in Es.
  destruct (analyze b TYPE_FS20 g) as [v g1]. cbn [fst snd] in Hiff, Hout.
  destruct (nz v).
  - destruct (Hout eq_refl) as (O1 & O2 & O3 & O4 & O5 & _).
    cbv zeta in Es. set (g2 := set_oby _ g1) in Es.
    assert (oby g2 = m ∧ obuf g2 = obuf g1) as [Eo Eb].
    { unfold g2. simpl. split; [rewrite O1, u8_small; lia | done]. }
    clearbody g2. rewrite !Eo, !Eb in Es.
    assert (cksum1 6 (obuf g1) m = sum) as E6.
    { rewrite cksum1_closed by lia. rewrite O5 by lia. done. }
    assert (cksum1 12 (obuf g1) m = (sum + 6) mod 256) as E12.
    { rewrite cksum1_closed by lia. rewrite O5 by lia. unfold sum.
      rewrite Z.add_mod_idemp_l by lia. f_equal. lia. }
    assert (rd (obuf g1) m = check) as Ech by (apply O4; lia).
    rewrite E6, E12, Ech in Es.
    assert (framed TYPE_FS20 b) as Hfr by (by apply Hiff).
    assert (∀ g3, oby g3 = m → obuf g3 = obuf g1 → unframed TYPE_FS20 b m g3) as Hun.
    { intros g3 H1 H2. split; [done |]. intros k Hk. rewrite H2. apply O4. lia. }
    destruct (Z.leb_spec 4 m) as [H4 | H4]; rewrite ?andb_true_r, ?andb_false_r in Es.
    + destruct (Z.eqb_spec sum check) as [E1 | E1].
      { subst s. cbn [fst snd]. split; [| split].
        - intros _. split; [done |]. split; [by apply Hun |].
          rewrite Eb. congruence.
        - intros (_ & _ & H). congruence.
        - intros H. exfalso. apply H. auto. }
      destruct (Z.eqb_spec (sum + 1) check) as [E2 | E2].
      { subst s. cbn [fst snd]. split; [| split].
        - intros _. split; [done |]. split.
          + split; [exact Eo |]. intros k Hk.
            change (obuf (set_obuf (wr (obuf g1) m sum) g2)) with (wr (obuf g1) m sum).
            rewrite rd_wr_ne by lia. apply O4. lia.
          + change (obuf (set_obuf (wr (obuf g1) m sum) g2)) with (wr (obuf g1) m sum).
            apply rd_wr_eq; lia.
        - intros (_ & _ & H). congruence.
        - intros H. exfalso. apply H. auto. }
      destruct (Z.eqb_spec ((sum + 6) mod 256) check) as [E3 | E3].
      { subst s. cbn [fst snd]. split; [| split].
        - intros (_ & _ & [H | H]); congruence.
        - intros _. split; [done |]. split; [by apply Hun |]. by rewrite Eb.
        - intros H. exfalso. apply H. auto. }
      subst s. cbn [fst snd]. split; [| split].
      * intros (_ & _ & [H | H]); congruence.
      * intros (_ & _ & H). congruence.
      * done.
    + subst s. cbn [fst snd]. split; [| split].
      * intros (_ & H & _). lia.
      * intros (_ & H & _). lia.
      * done.
  - subst s. cbn [fst snd].
    assert (¬ (framed TYPE_FS20 b ∧ 4 <= m)) as Hno.
    { intros [H1 H2]. assert (false = true); [| done]. apply Hiff. split; [lia | done]. }
    split; [| split].
    + intros (H1 & H2 & _). tauto.
    + intros (H1 & H2 & _). tauto.
    + done.
Qed.

(** The EM block of [RfAnalyze_Task]: a stream is EM exactly when it has
    ten bytes, each of the first nine followed by a 1 bit, that is 89 to 97
    bits, and the tenth byte is the exclusive or of the nine before it; the
    stop bit of the tenth byte may be missing. *)
Theorem em_decoder i g :
  let b := bucket_at g i in
  let check := framed_byte TYPE_EM (data b) 9 in
  let ok := framed TYPE_EM b ∧ 89 <= bitcount b <= 97 ∧
            check = xor_bytes (framed_bytes TYPE_EM (data b) 9) in
  let s := try_em i (0, g) in
  TYPE_FS20 ≠ TYPE_EM → TYPE_FS20 ≠ TYPE_KS300 → TYPE_EM ≠ TYPE_KS300 →
  0 <= byteidx b → 0 <= bitidx b <= 7 → bitcount b <= 254 →
  (Z.to_nat (bitcount b / 9 + 1) < length (obuf g))%nat →
  (ok → s.1 = TYPE_EM ∧ unframed TYPE_EM b 9 s.2 ∧ rd (obuf s.2) 9 = check) ∧
  (¬ ok → s.1 = 0).
Proof.
  intros b check ok s Hfe Hfk Hek Hby Hbi Hmax Hlen.
  destruct (analyze_bytes b TYPE_EM g (or_intror eq_refl) Hfe Hfk Hek Hby Hbi Hmax Hlen)
    as [Hiff Hout].
  assert (0 <= bitcount b) as Hn by (unfold bitcount; lia).
  assert (framed_count TYPE_EM (bitcount b) = 10 ↔ 89 <= bitcount b <= 97) as Ec.
  { unfold framed_count. rewrite Z.eqb_refl. cbn [andb].
    clear -Hn. destruct (Z.eqb_spec (bitcount b mod 9) 8);
      Z.div_mod_to_equations; lia. }
  assert (s = try_em i (0, g)) as Es by reflexivity. clearbody s.
  unfold try_em in Es. change (nz 0) with false in Es. cbv iota beta in Es.
  fold b in Es.
  destruct (analyze b TYPE_EM g) as [v g1]. cbn [fst snd] in Hiff, Hout.
  destruct (nz v).
  - destruct (Hout eq_refl) as (O1 & O2 & O3 & O4 & O5 & _).
    set (c := framed_count TYPE_EM (bitcount b)) in *.
    cbv zeta in Es. set (g2 := set_oby _ g1) in Es.
    assert (oby g2 = c - 1 ∧ obuf g2 = obuf g1) as [Eo Eb].
    { unfold g2. simpl. split; [rewrite O1, u8_small; lia | done]. }
    clearbody g2. rewrite !Eo, !Eb in Es.
    assert (framed TYPE_EM b) as Hfr by (by apply Hiff).
    destruct (Z.eqb_spec (c - 1) 9) as [E9 | E9]; cbn [andb] in Es.
    + rewrite E9 in Es.
      assert (cksum2 (obuf g1) 9 = xor_bytes (framed_bytes TYPE_EM (data b) 9)) as Ex.
      { unfold cksum2. rewrite cksum2_loop_xor by lia. rewrite Z.lxor_0_l.
        rewrite O5 by lia. done. }
      assert (rd (obuf g1) 9 = check) as Ech by (apply O4; lia).
      rewrite Ex, Ech in Es.
      destruct (Z.eqb_spec (xor_bytes (framed_bytes TYPE_EM (data b) 9)) check) as [E | E];
        subst s; cbn [fst snd].
      * split; [| intros H; exfalso; apply H; split; [done |];
                  split; [apply Ec; lia | done]].
        intros _. split; [done |]. split; [| by rewrite Eb].
        split; [lia |]. intros k Hk. rewrite Eb. apply O4. lia.
      * split; [| done]. intros (_ & _ & H). congruence.
    + subst s. cbn [fst snd]. split; [| done].
      intros (_ & H & _). apply Ec in H. lia.
  - subst s. cbn [fst snd]. split; [| done].
    intros (H1 & H2 & _). apply Ec in H2.
    assert (false = true); [| done]. apply Hiff. split; [lia | done].
Qed.

End FS20.

Section Silent.
Context `{B : board}.

Ltac blocks :=
  repeat match goal with
  | |- context [let '(_, _) := ?x in _] => destruct x eqn:?
  | |- context [if ?c then _ else _] => destruct c eqn:?
  | |- context [match ?x with Continue _ => _ | Return _ _ => _ end] =>
      destruct x eqn:?
  end; simpl; try done.

Lemma with_bucket_output i f g : output_frame (with_bucket i f g) = output_frame g.
Proof. done. Qed.

Lemma reset_input_output g : output_frame (reset_input g) = output_frame g.
Proof. unfold reset_input. by destruct (HAS_IT || HAS_TCM97001). Qed.

Lemma addbit_output i bit g : output_frame (addbit i bit g) = output_frame g.
Proof.
  unfold addbit. destruct (_ <=? _); [apply reset_input_output | done].
Qed.

Lemma retry_sync_output i g : output_frame (retry_sync i g) = output_frame g.
Proof. unfold retry_sync. blocks. Qed.

Lemma addbit_avg_output i bit g : output_frame (addbit_avg i bit g) = output_frame g.
Proof.
  unfold addbit_avg. destruct (nz bit);
    by rewrite with_bucket_output, addbit_output.
Qed.

Lemma sync_end_output e i g : output_frame (sync_end e i g) = output_frame g.
Proof.
  unfold sync_end. blocks;
    rewrite ?reset_input_output;
    change (output_frame (set_TIMSK1 ?p ?x)) with (output_frame x);
    rewrite ?with_bucket_output;
    change (output_frame (set_OCR1A ?p ?x)) with (output_frame x);
    rewrite ?with_bucket_output; done.
Qed.

Lemma classify_output e i g : output_frame (classify e i g) = output_frame g.
Proof.
  unfold classify. blocks;
    rewrite ?retry_sync_output, ?sync_end_output, ?addbit_avg_output,
      ?addbit_output, ?reset_input_output, ?with_bucket_output; done.
Qed.

Lemma it_sync_output i g : output_frame (ctl_state (it_sync i g)) = output_frame g.
Proof.
  unfold it_sync. blocks;
    change (output_frame (set_TCNT1 ?p ?x)) with (output_frame x);
    by rewrite ?with_bucket_output.
Qed.

Lemma tcm97001_sync_output i g : output_frame (tcm97001_sync i g) = output_frame g.
Proof. unfold tcm97001_sync. blocks. Qed.

(** The edge interrupt prints nothing and writes neither the scratchpad of
    the decoders nor the stored payload of the repeat filter, whatever the
    edge and the state: the decode task it interrupts finds its output
    bytes as it left them. *)
Theorem edge_interrupt_is_silent e g :
  output_frame (CC1100_INTVECT e g) = output_frame g.
Proof.
  unfold CC1100_INTVECT.
  repeat match goal with
  | |- context [if ?c then _ else _] =>
      destruct c; [by rewrite ?reset_input_output |]
  end.
  destruct (negb (pin_high e)).
  - change (output_frame (set_g_hightime ?p ?x)) with (output_frame x).
    destruct (is_hms_esa _); [| done].
    change (output_frame (set_TCNT1 ?p ?x)) with (output_frame x).
    apply addbit_output.
  - set (g1 := set_TCNT1 _ _).
    assert (output_frame g1 = output_frame g) as H1 by done.
    pose proof (it_sync_output (bucket_in g) g1) as H.
    destruct (it_sync _ _) as [g2 | v g2]; simpl in H; [| congruence].
    pose proof (tcm97001_sync_output (bucket_in g) g2) as H2.
    set (g3 := tcm97001_sync _ _) in *.
    destruct (is_hms_esa _); [rewrite addbit_output; congruence |].
    assert (output_frame (set_TIFR1 (_BV OCF1A) g3) = output_frame g) as H3
      by (transitivity (output_frame g3); [done | congruence]).
    set (g4 := set_TIFR1 _ g3) in *.
    destruct (_ && _).
    + change (output_frame (set_TIMSK1 ?p ?x)) with (output_frame x).
      change (output_frame (set_OCR1A ?p ?x)) with (output_frame x).
      by rewrite with_bucket_output.
    + by rewrite classify_output.
Qed.

(** The silence interrupt prints a dot under [REP_MONITOR] and [BOVF]
    under [REP_BITS] when the ring is full; it writes nothing else of the
    state of the decode task. *)
Lemma TIMER1_COMPA_vect_output g :
  report g REP_MONITOR = false →
  report g REP_BITS = false ∨ bucket_nrused g + 1 ≠ RCV_BUCKETS →
  output_frame (TIMER1_COMPA_vect g) = output_frame g.
Proof.
  intros Hm Hb. unfold TIMER1_COMPA_vect. cbv zeta.
  set (g1 := if LONG_PULSE then _ else _).
  assert (output_frame g1 = output_frame g ∧ tx_report g1 = tx_report g ∧
          bucket_nrused g1 = bucket_nrused g) as (D1 & T1 & N1)
    by (unfold g1; by destruct LONG_PULSE).
  assert (∀ x, report g1 x = report g x) as R1 by (intros x; unfold report; by rewrite T1).
  clearbody g1. rewrite !R1, Hm, !andb_false_r. cbv iota.
  rewrite !R1, N1.
  destruct (_ || _); [by rewrite reset_input_output |].
  destruct (Z.eqb_spec (bucket_nrused g + 1) RCV_BUCKETS) as [E | E].
  - destruct Hb as [Hb | Hb]; [| done].
    rewrite Hb, andb_false_r. by rewrite reset_input_output.
  - by destruct (_ =? _).
Qed.

Lemma ring_frame_display g g' : ring_frame g' = ring_frame g → display g' = display g.
Proof. unfold ring_frame. intros H. by simplify_eq. Qed.

(** With the bits [REP_KNOWN], [REP_BITS], [REP_MONITOR] and [REP_LCDMON]
    of the report mask clear, the silence interrupt prints nothing and the
    decode task prints nothing of its own: the only output is that of
    [fht_hook], called for an FHT frame in a build with [HAS_FHT_80b].  The
    task still decodes and frees the bucket. *)
Theorem reports_off_is_silent e g :
  report g REP_KNOWN = false → report g REP_BITS = false →
  report g REP_MONITOR = false → report g REP_LCDMON = false →
  display (TIMER1_COMPA_vect g) = display g ∧
  (display (RfAnalyze_Task e g) = display g ∨
   HAS_FHT_80b = true ∧
   ∃ buf, display (RfAnalyze_Task e g) = display g ++ [fht_hook buf]).
Proof.
  intros Hk Hb Hm Hl. split.
  - pose proof (TIMER1_COMPA_vect_output g Hm (or_introl Hb)) as H.
    unfold output_frame in H. by simplify_eq.
  - unfold RfAnalyze_Task.
    assert (monitor e g = if nz (g_lowtime g) then set_g_lowtime 0 g else g) as ->.
    { unfold monitor. cbv zeta. rewrite Hl. cbv iota. rewrite Hm.
      by destruct (negb NO_RF_DEBUG). }
    set (g1 := if nz (g_lowtime g) then _ else _).
    assert (display g1 = display g ∧ tx_report g1 = tx_report g) as [D1 T1]
      by (unfold g1; by destruct (nz _)).
    assert (∀ x, report g1 x = report g x) as R1 by (intros x; unfold report; by rewrite T1).
    clearbody g1.
    destruct (_ =? _); [by left |].
    pose proof (dispatch_ring_frame g1) as Hd.
    destruct (dispatch g1) as [dt g2]. cbn [snd] in Hd.
    assert (display g2 = display g1 ∧ tx_report g2 = tx_report g1) as [D2 T2]
      by (unfold ring_frame in Hd; by simplify_eq).
    assert (∀ x, report g2 x = report g x) as R2
      by (intros x; unfold report; by rewrite T2, T1).
    assert (report_known e dt g2 = g2) as ->
      by (unfold report_known; by rewrite R2, Hk, andb_false_r).
    assert (report_bits e (bucket_out g1) g2 = g2) as ->
      by (unfold report_bits; by rewrite R2, Hb, andb_false_r).
    cbv zeta.
    set (g3 := if _ =? RCV_BUCKETS then _ else _).
    assert (display g3 = display g) as D3.
    { unfold g3. destruct (_ =? RCV_BUCKETS); simpl; congruence. }
    clearbody g3.
    destruct HAS_FHT_80b; cbn [andb]; [| by left].
    destruct (_ =? _); [| by left].
    right. split; [done |]. exists (obuf g3). unfold emit. simpl. by rewrite D3.
Qed.

End Silent.

Section KS300Sum.
Context `{B : board}.

Lemma u8_add_l a b : u8 (u8 a + b) = u8 (a + b).
Proof. unfold u8. by rewrite Z.add_mod_idemp_l by lia. Qed.

Lemma lxor_nibble a b : 0 <= a < 16 → 0 <= b < 16 → 0 <= Z.lxor a b < 16.
Proof.
  intros Ha Hb.
  assert (0 <= Z.lxor a b) as H0 by (apply Z.lxor_nonneg; lia).
  split; [done |].
  assert (Z.shiftr (Z.lxor a b) 4 = 0) as H.
  { rewrite Z.shiftr_lxor, !Z.shiftr_div_pow2 by lia.
    change (2 ^ 4) with 16. rewrite !Z.div_small by lia. done. }
  rewrite Z.shiftr_div_pow2 in H by lia. change (2 ^ 4) with 16 in H.
  clear -H H0. Z.div_mod_to_equations. lia.
Qed.

Lemma byte_nibbles_range d :
  0 <= d < 256 → Forall (λ x, 0 <= x < 16) (byte_nibbles d).
Proof.
  intros Hd. unfold byte_nibbles. repeat constructor.
  - apply Z.shiftr_nonneg. lia.
  - rewrite Z.shiftr_div_pow2 by lia. change (2 ^ 4) with 16.
    clear -Hd. Z.div_mod_to_equations. lia.
  - change 15 with (Z.ones 4). rewrite Z.land_ones by lia.
    apply Z.mod_pos_bound. lia.
  - change 15 with (Z.ones 4). rewrite Z.land_ones by lia.
    apply Z.mod_pos_bound. lia.
Qed.

Lemma xor_bytes_nibble l : Forall (λ x, 0 <= x < 16) l → 0 <= xor_bytes l < 16.
Proof.
  induction l as [|x l IH] using rev_ind; intros H; [done |].
  apply Forall_app in H as [H1 H2]. rewrite xor_bytes_snoc.
  apply lxor_nibble; [by apply IH |]. by inversion H2.
Qed.

(** The rounds of [cksum3] after the first: both nibbles of every byte. *)
Lemma cksum3_loop_full n nib buf x y cnt :
  0 <= y < 256 →
  n = 0%nat ∨ nz nib = false ∨ (1 <= cnt ∧ cnt + Z.of_nat n <= 256) →
  let ns := flat_map (λ k, byte_nibbles (rd buf k)) (seqZ 0 (Z.of_nat n)) in
  ∃ cnt',
    cksum3_loop n nib buf (x, y, cnt) =
      (Z.lxor x (xor_bytes ns), u8 (y + sum_bytes ns), cnt').
Proof.
  revert x y cnt. induction n as [|n IH]; intros x y cnt Hy Hc ns.
  - exists cnt. unfold ns. simpl. rewrite Z.lxor_0_r, Z.add_0_r, u8_small by lia. done.
  - assert (negb (nz nib) || nz cnt = true) as Hfull.
    { destruct Hc as [? | [-> | [H1 H2]]]; [lia | done |].
      unfold nz. destruct (Z.eqb_spec cnt 0); [lia |]. apply orb_true_r. }
    cbn [cksum3_loop]. rewrite Hfull.
    set (d := rd buf (Z.of_nat n)).
    destruct (IH (Z.lxor (Z.lxor x (Z.shiftr d 4)) (Z.land d 15))
                 (u8 (u8 (y + Z.shiftr d 4) + Z.land d 15)) (u8 (cnt + 1)))
      as [cnt' E].
    { apply u8_range. }
    { destruct n as [|n]; [by left |]. right.
      destruct Hc as [? | [-> | [H1 H2]]]; [lia | by left |].
      right. rewrite u8_small by lia. lia. }
    exists cnt'. etransitivity; [exact E |].
    assert (ns = flat_map (λ k, byte_nibbles (rd buf k)) (seqZ 0 (Z.of_nat n)) ++
                 byte_nibbles d) as ->.
    { unfold ns. replace (Z.of_nat (S n)) with (Z.of_nat n + 1) by lia.
      rewrite seqZ_app by lia. rewrite flat_map_app. simpl. rewrite ?app_nil_r. done. }
    set (l := flat_map _ _).
    unfold byte_nibbles.
    replace (l ++ [Z.shiftr d 4; Z.land d 15])
      with ((l ++ [Z.shiftr d 4]) ++ [Z.land d 15]) by (by rewrite <- app_assoc).
    rewrite !xor_bytes_snoc, !sum_bytes_snoc.
    f_equal. f_equal.
    + rewrite !Z.lxor_assoc. f_equal.
      rewrite (Z.lxor_comm (xor_bytes l)). by rewrite Z.lxor_assoc.
    + unfold u8. Z.div_mod_to_equations. lia.
Qed.

Lemma pack_nibbles t x :
  0 <= x < 16 → u8 (Z.lor (Z.shiftl (u8 t) 4) x) = 16 * (t mod 16) + x.
Proof.
  intros Hx.
  assert (Z.land (Z.shiftl (u8 t) 4) x = 0) as Hl.
  { apply Z.bits_inj'. intros n Hn. rewrite Z.land_spec, Z.bits_0.
    destruct (Z.lt_ge_cases n 4).
    - by rewrite Z.shiftl_spec_low by lia.
    - rewrite <- (Z.mod_small x (2 ^ 4)) by (change (2 ^ 4) with 16; lia).
      rewrite Z.mod_pow2_bits_high by lia. apply andb_false_r. }
  pose proof (Z.add_lor_land (Z.shiftl (u8 t) 4) x) as H.
  rewrite Hl, Z.add_0_r in H. rewrite H.
  rewrite Z.shiftl_mul_pow2 by lia. change (2 ^ 4) with 16.
  unfold u8. clear -Hx. Z.div_mod_to_equations. lia.
Qed.

(** The KS300 check sum: its low nibble is the exclusive or of the nibbles
    of the message, its high nibble the sum of 5, the nibbles and that
    exclusive or, in four bits.  The low nibble of the last byte is left out
    when the message ends with half a byte. *)
Theorem cksum3_nibbles g buf len :
  0 <= len <= 255 → Forall (λ d, 0 <= d < 256) buf →
  let ns := ks300_nibbles (nz (nibble g)) buf len in
  let x := xor_bytes ns in
  0 <= x < 16 ∧
  cksum3 g buf len = 16 * ((5 + sum_bytes ns + x) mod 16) + x.
Proof.
  intros Hlen Hbytes ns x.
  assert (∀ k, 0 <= rd buf k < 256) as Hbuf.
  { intros k. unfold rd. destruct (k <? 0); [lia |].
    destruct (buf !! Z.to_nat k) as [d |] eqn:E; [| simpl; lia].
    simpl. by apply (Forall_lookup_1 _ _ _ _ Hbytes E). }
  assert (Forall (λ x, 0 <= x < 16) ns) as Hns.
  { unfold ns, ks300_nibbles. destruct (Z.leb_spec len 0); [done |].
    apply Forall_app. split.
    - apply Forall_flat_map, Forall_forall. intros k Hk.
      apply elem_of_seqZ in Hk. apply byte_nibbles_range, Hbuf.
    - assert (0 <= rd buf (len - 1) < 256) as Hd by apply Hbuf.
      pose proof (byte_nibbles_range _ Hd) as Hn.
      destruct (nz (nibble g)); [| done].
      unfold byte_nibbles in Hn. inversion Hn. by constructor. }
  assert (0 <= x < 16) as Hx by (by apply xor_bytes_nibble).
  split; [done |].
  assert (∃ c, cksum3_loop (Z.to_nat len) (nibble g) buf (0, 5, 0) =
               (x, u8 (5 + sum_bytes ns), c)) as [c E].
  { unfold x, ns, ks300_nibbles. destruct (Z.leb_spec len 0) as [H0 | H0].
    - replace len with 0 by lia. by exists 0.
    - replace (Z.to_nat len) with (S (Z.to_nat (len - 1))) by lia.
      cbn [cksum3_loop]. rewrite Z2Nat.id by lia.
      set (d := rd buf (len - 1)).
      change (nz 0) with false. rewrite orb_false_r, Z.lxor_0_l.
      set (l := flat_map _ _).
      destruct (nz (nibble g)) eqn:En; cbn [negb].
      + destruct (cksum3_loop_full (Z.to_nat (len - 1)) (nibble g) buf
                    (Z.shiftr d 4) (u8 (5 + Z.shiftr d 4)) (u8 (0 + 1)))
          as [c E]; [apply u8_range | right; right; rewrite u8_small by lia; lia |].
        rewrite Z2Nat.id in E by lia. fold l in E.
        exists c. etransitivity; [exact E |].
        rewrite xor_bytes_snoc, sum_bytes_snoc.
        f_equal. f_equal.
        * apply Z.lxor_comm.
        * unfold u8. Z.div_mod_to_equations. lia.
      + destruct (cksum3_loop_full (Z.to_nat (len - 1)) (nibble g) buf
                    (Z.lxor (Z.shiftr d 4) (Z.land d 15))
                    (u8 (u8 (5 + Z.shiftr d 4) + Z.land d 15)) (u8 (0 + 1)))
          as [c E]; [apply u8_range | right; by left |].
        rewrite Z2Nat.id in E by lia. fold l in E.
        exists c. etransitivity; [exact E |].
        unfold byte_nibbles.
        replace (l ++ [Z.shiftr d 4; Z.land d 15])
          with ((l ++ [Z.shiftr d 4]) ++ [Z.land d 15]) by (by rewrite <- app_assoc).
        rewrite !xor_bytes_snoc, !sum_bytes_snoc.
        f_equal. f_equal.
        * rewrite (Z.lxor_comm _ (xor_bytes l)). by rewrite Z.lxor_assoc.
        * unfold u8. Z.div_mod_to_equations. lia. }
  unfold cksum3. rewrite E.
  set (s := sum_bytes ns). clearbody s x. clear E.
  rewrite u8_add_l.
  by apply pack_nibbles.
Qed.

End KS300Sum.

Section FHTFilter.
Context `{B : board}.

(** With [REP_KNOWN] set, an FHT frame is printed unless it repeats the
    stored payload within [REPTIME] ticks (with [REP_REPEATED] clear), or is
    an FHT protocol message (with [REP_FHTPROTO] clear), or is left to the RF
    router. *)
Theorem fht_frames_filtered e g :
  nz TYPE_FHT = true → TYPE_FHT ≠ TYPE_IT → TYPE_FHT ≠ TYPE_TCM97001 →
  report g REP_KNOWN = true →
  0 <= oby g <= 255 → (Z.to_nat (oby g) <= length (robuf g))%nat →
  let g' := report_known e TYPE_FHT g in
  let emitted := packageOK (packetCheckValues g') in
  (emitted = false ↔
   (report g REP_REPEATED = false ∧ same_payload g ∧ within_reptime e g) ∨
   (report g REP_FHTPROTO = false ∧ fht_protocol_message g = true) ∨
   left_to_router e = true) ∧
  display g' = display g ++ (if emitted then frame_line e TYPE_FHT g else []).
Proof.
  intros Hnz Hit Htcm Hk Ho Hl g' emitted.
  assert (g' = report_known e TYPE_FHT g) as Eg by reflexivity. clearbody g'.
  unfold report_known in Eg. rewrite Hnz, Hk in Eg. simpl andb in Eg. cbv iota zeta in Eg.
  destruct (filter_repeated_cases e g Ho Hl) as (F1 & F2 & _ & F4).
  set (g1 := filter_repeated e g) in *. clearbody g1.
  destruct F4 as (T1 & T2 & T3 & T4 & T5 & T6 & T7).
  set (g2 := fht_protocol TYPE_FHT g1) in *.
  assert (isrep (packetCheckValues g2) = true ↔
          (report g REP_REPEATED = false ∧ same_payload g ∧ within_reptime e g) ∨
          (report g REP_FHTPROTO = false ∧ fht_protocol_message g = true)) as I2.
  { unfold g2, fht_protocol, fht_protocol_message, report.
    rewrite Z.eqb_refl, T1, T2, T3. cbn [andb].
    fold (report g REP_FHTPROTO).
    set (m := _ || (Z.land _ _ =? _)).
    rewrite <- F1.
    destruct (report g REP_FHTPROTO), (4 <? oby g), m; cbn [negb andb];
      try (cbn [isrep packetCheckValues set_packetCheckValues set_isrep]);
      intuition congruence. }
  assert (packageOK (packetCheckValues g2) = false ∧ tx_report g2 = tx_report g ∧
          oby g2 = oby g ∧ obuf g2 = obuf g ∧ nibble g2 = nibble g ∧
          display g2 = display g) as (P2 & U1 & U2 & U3 & U4 & U5).
  { unfold g2, fht_protocol.
    match goal with |- context [if ?c then _ else _] => destruct c end;
      simpl; rewrite ?F2; done. }
  clearbody g2.
  set (g3 := checkForRepeatedPackage TYPE_FHT g2) in *.
  assert (packageOK (packetCheckValues g3) = negb (isrep (packetCheckValues g2)) ∧
          tx_report g3 = tx_report g ∧ oby g3 = oby g ∧ obuf g3 = obuf g ∧
          nibble g3 = nibble g ∧ display g3 = display g)
    as (P3 & V1 & V2 & V3 & V4 & V5).
  { unfold g3, checkForRepeatedPackage.
    assert ((TYPE_FHT =? TYPE_IT) || (TYPE_FHT =? TYPE_TCM97001) = false) as ->.
    { apply orb_false_iff. split; by apply Z.eqb_neq. }
    rewrite andb_false_r. cbv iota zeta.
    destruct (isrep (packetCheckValues g2)); simpl; rewrite ?P2; done. }
  clearbody g3.
  rewrite Z.eqb_refl, andb_true_r in Eg.
  fold (left_to_router e) in Eg.
  set (g4 := if left_to_router e then _ else g3) in Eg.
  assert (packageOK (packetCheckValues g4)
            = negb (left_to_router e) && negb (isrep (packetCheckValues g2)) ∧
          tx_report g4 = tx_report g ∧ oby g4 = oby g ∧ obuf g4 = obuf g ∧
          nibble g4 = nibble g ∧ display g4 = display g)
    as (P4 & W1 & W2 & W3 & W4 & W5).
  { unfold g4. destruct (left_to_router e); simpl; done. }
  clearbody g4.
  assert (packetCheckValues g' = packetCheckValues g4 ∧
          display g' = display g ++
            (if packageOK (packetCheckValues g4) then frame_line e TYPE_FHT g else []))
    as (Q1 & Q2).
  { rewrite Eg, print_frame_spec by lia.
    assert (frame_line e TYPE_FHT g4 = frame_line e TYPE_FHT g) as ->.
    { unfold frame_line, report. by rewrite W1, W2, W3, W4. }
    destruct (packageOK (packetCheckValues g4)); [destruct (nz (nibble g4)) |];
      simpl; rewrite ?W5, ?app_nil_r; done. }
  unfold emitted. rewrite Q1. split; [| exact Q2].
  rewrite P4.
  destruct (left_to_router e), (isrep (packetCheckValues g2)) eqn:Ei; cbn [negb andb];
    intuition congruence.
Qed.

End FHTFilter.

Section KS300Analyze.
Context `{B : board}.

Lemma lsb_first_app_4 (a b : list bool) :
  length a = 4%nat → lsb_first (a ++ b) = lsb_first a + 16 * lsb_first b.
Proof.
  intros H. destruct a as [|a0 [|a1 [|a2 [|a3 [|? ?]]]]]; try done.
  unfold lsb_first. cbn [app fold_right]. lia.
Qed.

Lemma ks300_byte_bits d k j :
  0 <= j < 8 → Z.testbit (ks300_byte d k) j = bit_at d (10 * k + ks300_pos j).
Proof.
  intros Hj. unfold ks300_byte. simpl bits_from.
  set (p := 10 * k).
  replace (p + 1 + 1 + 1) with (p + 3) by lia.
  replace (p + 1 + 1) with (p + 2) by lia.
  replace (p + 5 + 1 + 1 + 1) with (p + 8) by lia.
  replace (p + 5 + 1 + 1) with (p + 7) by lia.
  replace (p + 5 + 1) with (p + 6) by lia.
  replace (bit_at d p) with (bit_at d (p + 0)) by (f_equal; lia).
  assert (j = 0 ∨ j = 1 ∨ j = 2 ∨ j = 3 ∨ j = 4 ∨ j = 5 ∨ j = 6 ∨ j = 7) as Hc by lia.
  destruct Hc as [-> | [-> | [-> | [-> | [-> | [-> | [-> | ->]]]]]]];
    match goal with |- _ = bit_at d (p + ?c) =>
      let c' := eval cbv in c in change c with c' end;
    generalize (bit_at d (p + 0)) (bit_at d (p + 1)) (bit_at d (p + 2))
      (bit_at d (p + 3)) (bit_at d (p + 5)) (bit_at d (p + 6))
      (bit_at d (p + 7)) (bit_at d (p + 8));
    intros [] [] [] [] [] [] [] []; vm_compute; reflexivity.
Qed.

Lemma ks300_byte_range d k : 0 <= ks300_byte d k < 256.
Proof.
  unfold ks300_byte. simpl bits_from.
  repeat match goal with |- context [bit_at d ?p] =>
    generalize (bit_at d p); intros [] end; vm_compute; (split; [discriminate | reflexivity]).
Qed.

Lemma ks300_half_bits d k j :
  0 <= j < 8 →
  Z.testbit (ks300_half d k) j = (j <? 4) && bit_at d (10 * k + j).
Proof.
  intros Hj. unfold ks300_half. simpl bits_from.
  set (p := 10 * k).
  replace (p + 1 + 1 + 1) with (p + 3) by lia.
  replace (p + 1 + 1) with (p + 2) by lia.
  replace (bit_at d p) with (bit_at d (p + 0)) by (f_equal; lia).
  assert (j = 0 ∨ j = 1 ∨ j = 2 ∨ j = 3 ∨ j = 4 ∨ j = 5 ∨ j = 6 ∨ j = 7) as Hc by lia.
  destruct Hc as [-> | [-> | [-> | [-> | [-> | [-> | [-> | ->]]]]]]];
    cbn [Z.ltb Z.compare Pos.compare Pos.compare_cont andb];
    generalize (bit_at d (p + 0)) (bit_at d (p + 1)) (bit_at d (p + 2))
      (bit_at d (p + 3)); intros [] [] [] []; vm_compute; reflexivity.
Qed.

Lemma ks300_half_range d k : 0 <= ks300_half d k < 16.
Proof.
  unfold ks300_half. simpl bits_from.
  repeat match goal with |- context [bit_at d ?p] =>
    generalize (bit_at d p); intros [] end; vm_compute; (split; [discriminate | reflexivity]).
Qed.

Lemma succ_div_mod_10 n :
  0 <= n →
  0 <= n / 10 ∧ 0 <= n mod 10 < 10 ∧ n = 10 * (n / 10) + n mod 10 ∧
  (n mod 10 = 9 → (n + 1) / 10 = n / 10 + 1 ∧ (n + 1) mod 10 = 0) ∧
  (n mod 10 ≠ 9 → (n + 1) / 10 = n / 10 ∧ (n + 1) mod 10 = n mod 10 + 1).
Proof. intros Hn. Z.div_mod_to_equations. lia. Qed.

Section RoundKS300.
Variables (b : bucket_t) (len : nat).
Hypothesis Hkf : TYPE_KS300 ≠ TYPE_FS20.
Hypothesis Hke : TYPE_KS300 ≠ TYPE_EM.

(** One round of the loop of [analyze] on a KS300 stream. *)
Lemma analyze_round_ks300 n s :
  reading_ks300 (data b) len n s → 0 <= n < 255 →
  (Z.to_nat (n / 10 + 1) < len)%nat →
  match analyze_body b TYPE_KS300 s with
  | Continue s' =>
      reading_ks300 (data b) len (n + 1) s' ∧
      (n mod 10 = 4 ∨ n mod 10 = 9 → bit_at (data b) n = true)
  | Return v _ =>
      v = 0 ∧ (n mod 10 = 4 ∨ n mod 10 = 9) ∧ bit_at (data b) n = false
  end.
Proof.
  destruct s as [[[iby ibi] obi] g].
  intros (R1 & R2 & R3 & R4 & R5 & R6 & R7 & R8 & R9) Hn Hlen.
  destruct (succ_div_mod_10 n ltac:(lia)) as (Hq & Hr & En & S9 & S10).
  destruct (analyze_advance (data b) n ltac:(lia)) as [Ebit Enext].
  assert ((TYPE_KS300 =? TYPE_FS20) = false ∧ (TYPE_KS300 =? TYPE_EM) = false)
    as [Ekf Eke] by (split; by apply Z.eqb_neq).
  set (q := n / 10) in *. set (r := n mod 10) in *.
  set (d := data b) in *.
  assert (bit_at d n = bit_at d (10 * q + r)) as Ebn by (f_equal; lia).
  subst iby ibi. unfold analyze_body. fold d.
  rewrite Ebit, Enext, Z.eqb_refl, Ekf, Eke. cbn [andb orb]. cbv zeta.
  rewrite ?nz_b2z, R5.
  clearbody q r d.
  destruct (Z.eq_dec r 4) as [E4 | E4]; [| destruct (Z.eq_dec r 9) as [E9 | E9]].
  - (* the 1 bit after the low nibble *)
    subst r obi. change ((if 4 <? 5 then 7 - 4 else 8 - 4) =? 3) with true.
    change (nz (b2z (4 =? 5))) with false. cbn [negb andb]. cbv iota.
    destruct (S10 ltac:(lia)) as [Sq Sr].
    destruct (bit_at d n) eqn:Eb; cbn [negb]; [| split; [done | split; [by left | done]]].
    split; [| done].
    unfold reading_ks300. rewrite Sq, Sr.
    change (nibble (set_nibble 1 g)) with 1.
    change (oby (set_nibble 1 g)) with (oby g).
    change (obuf (set_nibble 1 g)) with (obuf g).
    split; [done |]. split; [done |]. split; [done |]. split; [done |].
    split; [done |]. split; [done |]. split; [done |]. split; [| done].
    intros j Hj. rewrite R8 by done. f_equal.
    apply eq_true_iff_eq. rewrite !Z.ltb_lt. unfold ks300_pos.
    destruct (Z.ltb_spec j 4); lia.
  - (* the 1 bit after the high nibble *)
    subst r obi. change ((if 9 <? 5 then 7 - 9 else 8 - 9) =? 3) with false.
    cbn [andb]. cbv iota.
    change ((if 9 <? 5 then 7 - 9 else 8 - 9) =? -1) with true. cbv iota.
    destruct (S9 ltac:(lia)) as [Sq Sr].
    assert (rd (obuf g) q = ks300_byte d q) as Ebyte.
    { apply byte_bits_eq; [done | apply ks300_byte_range |].
      intros j Hj. rewrite R8, ks300_byte_bits by done.
      assert ((ks300_pos j <? 9) = true) as ->; [| done].
      apply Z.ltb_lt. unfold ks300_pos. destruct (Z.ltb_spec j 4); lia. }
    destruct (bit_at d n) eqn:Eb; cbn [negb]; [| split; [done | split; [by right | done]]].
    split; [| done].
    unfold reading_ks300. rewrite Sq, Sr.
    cbn [oby nibble obuf set_oby set_obuf].
    rewrite R4, (u8_small (q + 1)) by lia. rewrite length_wr.
    split; [done |]. split; [done |]. split; [done |]. split; [done |].
    split; [done |]. split; [done |].
    split; [| split].
    + intros k Hk. rewrite rd_wr_ne by lia.
      destruct (Z.eq_dec k q) as [-> | Hne]; [done | apply R7; lia].
    + intros j Hj. rewrite rd_wr_eq by lia. rewrite Z.bits_0.
      replace (ks300_pos j <? 0) with false; [done |].
      symmetry. apply Z.ltb_ge. unfold ks300_pos. destruct (Z.ltb_spec j 4); lia.
    + rewrite rd_wr_eq by lia. lia.
  - (* a bit of a nibble *)
    destruct (S10 E9) as [Sq Sr].
    set (jb := if r <? 5 then r else r - 1).
    assert (0 <= jb < 8 ∧ ks300_pos jb = r ∧ 7 - obi = jb ∧
            (obi =? 3) = (r =? 5) ∧ (obi =? -1) = false ∧
            obi - 1 = (if r + 1 <? 5 then 7 - (r + 1) else 8 - (r + 1)))
      as (Hjb & Epos & Eobi & E3 & E1 & Enext').
    { unfold jb, ks300_pos. subst obi.
      destruct (Z.ltb_spec r 5), (Z.ltb_spec (r + 1) 5), (Z.eqb_spec r 5);
        repeat split; try lia;
        try (destruct (Z.ltb_spec r 4); lia);
        try (destruct (Z.ltb_spec (r - 1) 4); lia);
        try (apply Z.eqb_neq; lia); try (apply Z.eqb_eq; lia).  }
    rewrite E3, E1.
    assert ((r =? 5) && negb (nz (b2z (r =? 5))) = false) as ->
      by (destruct (r =? 5); done).
    cbv iota.
    set (g1 := if r =? 5 then _ else g).
    assert (oby g1 = q ∧ nibble g1 = 0 ∧ obuf g1 = obuf g) as (H1 & H2 & H3).
    { unfold g1. destruct (Z.eqb_spec r 5) as [E5 | E5].
      - cbn [oby nibble obuf set_nibble]. done.
      - rewrite R5. destruct (Z.eqb_spec r 5); done. }
    clearbody g1.
    split; [| intros [? | ?]; lia].
    rewrite Eobi.
    set (g' := if bit_at d n then _ else g1).
    assert (oby g' = q ∧ nibble g' = 0 ∧ length (obuf g') = len ∧
            (∀ k, 0 <= k → k ≠ q → rd (obuf g') k = rd (obuf g) k) ∧
            (∀ j, 0 <= j < 8 →
               Z.testbit (rd (obuf g') q) j =
               Z.testbit (rd (obuf g) q) j || (bit_at d n && (j =? jb))) ∧
            0 <= rd (obuf g') q < 256) as (G1 & G2 & G3 & G4 & G5 & G6).
    { unfold g'. destruct (bit_at d n).
      - cbn [oby nibble obuf set_obuf]. rewrite H1, H2, H3, length_wr.
        split; [done |]. split; [done |]. split; [done |].
        split; [intros k Hk Hne; apply rd_wr_ne; lia |].
        split; [| rewrite rd_wr_eq by lia; apply u8_range].
        intros j Hj. rewrite rd_wr_eq by lia.
        rewrite testbit_u8, Z.lor_spec, testbit_BV by lia. done.
      - rewrite H1, H2, H3. split; [done |]. split; [done |]. split; [done |].
        split; [done |]. split; [| done]. intros j Hj. by rewrite orb_false_r. }
    clearbody g'.
    unfold reading_ks300. rewrite Sq, Sr.
    split; [done |]. split; [done |]. split; [done |]. split; [done |].
    split; [rewrite G2; destruct (Z.eqb_spec (r + 1) 5); [lia | done] |].
    split; [done |].
    split; [| split; [| done]].
    + intros k Hk. rewrite G4 by lia. by apply R7.
    + intros j Hj. rewrite G5, R8 by done.
      assert (0 <= ks300_pos j < 9 ∧ ks300_pos j ≠ 4) as [Hp Hp4]
        by (unfold ks300_pos; destruct (Z.ltb_spec j 4); lia).
      destruct (Z.eqb_spec j jb) as [Ej | Ej].
      * rewrite Ej, Epos, <- Ebn.
        assert ((r <? r) = false) as -> by (apply Z.ltb_ge; lia).
        assert ((r <? r + 1) = true) as -> by (apply Z.ltb_lt; lia).
        by destruct (bit_at d n).
      * rewrite andb_false_r, orb_false_r. f_equal.
        apply eq_true_iff_eq. rewrite !Z.ltb_lt.
        assert (ks300_pos j ≠ r); [| lia].
        intros E. apply Ej. unfold jb, ks300_pos in *.
        destruct (Z.ltb_spec j 4), (Z.ltb_spec r 5); lia.
Qed.

(** The rounds from bit [n] on. *)
Lemma analyze_rounds_ks300 m n s :
  reading_ks300 (data b) len n s → 0 <= n → n + Z.of_nat m <= 255 →
  (Z.to_nat ((n + Z.of_nat m) / 10 + 1) < len)%nat →
  match for_loop m (analyze_body b TYPE_KS300) s with
  | Continue s' =>
      reading_ks300 (data b) len (n + Z.of_nat m) s' ∧
      (∀ p, n <= p < n + Z.of_nat m → p mod 10 = 4 ∨ p mod 10 = 9 →
            bit_at (data b) p = true)
  | Return v _ =>
      v = 0 ∧
      ∃ p, n <= p < n + Z.of_nat m ∧ (p mod 10 = 4 ∨ p mod 10 = 9) ∧
           bit_at (data b) p = false
  end.
Proof.
  revert n s. induction m as [|m IH]; intros n s Hs Hn Hm Hlen.
  - cbn [for_loop]. rewrite Z.add_0_r. split; [done |]. intros p Hp. lia.
  - rewrite for_loop_S.
    assert ((n / 10 + 1 <= (n + Z.of_nat (S m)) / 10 + 1)) as Hle.
    { assert (n / 10 <= (n + Z.of_nat (S m)) / 10); [| lia].
      apply Z.div_le_mono; lia. }
    pose proof (analyze_round_ks300 n s Hs ltac:(lia) ltac:(lia)) as H1.
    destruct (analyze_body b TYPE_KS300 s) as [s1 | v s1].
    + destruct H1 as [H1 H2].
      specialize (IH (n + 1) s1 H1 ltac:(lia) ltac:(lia)).
      replace (n + 1 + Z.of_nat m) with (n + Z.of_nat (S m)) in IH by lia.
      specialize (IH Hlen).
      destruct (for_loop m (analyze_body b TYPE_KS300) s1) as [s2 | v s2].
      * destruct IH as [I1 I2]. split; [done |].
        intros p Hp Hc. destruct (Z.eq_dec p n) as [-> | E]; [by apply H2 |].
        apply I2; [lia | done].
      * destruct IH as [-> (p & Hp & Hc)]. split; [done |].
        exists p. split; [lia | done].
    + destruct H1 as (-> & E & Hc). split; [done |].
      exists n. split; [lia | done].
Qed.

End RoundKS300.

(** The whole loop of [analyze] and what follows it, for KS300. *)
Lemma analyze_frames_ks300 b g :
  TYPE_KS300 ≠ TYPE_FS20 → TYPE_KS300 ≠ TYPE_EM →
  0 <= byteidx b → 0 <= bitidx b <= 7 → bitcount b <= 254 →
  (Z.to_nat (bitcount b / 10 + 1) < length (obuf g))%nat →
  let r := analyze b TYPE_KS300 g in
  let n := bitcount b in
  (r.1 = 0 ∨ r.1 = 1) ∧
  (r.1 = 1 ↔ 1 <= ks300_count n ∧ ks300_framed (data b) n) ∧
  (r.1 = 1 →
   oby r.2 = ks300_count n ∧ nibble r.2 = b2z (n mod 10 =? 5) ∧
   (∀ k, 0 <= k < n / 10 → rd (obuf r.2) k = ks300_byte (data b) k) ∧
   (n mod 10 = 5 → rd (obuf r.2) (n / 10) = ks300_half (data b) (n / 10)) ∧
   length (obuf r.2) = length (obuf g)).
Proof.
  intros Hkf Hke Hby Hbi Hmax Hlen r n.
  assert (0 <= n <= 254) as Hn by (unfold n, bitcount in *; lia).
  destruct (succ_div_mod_10 n ltac:(lia)) as (Hq & Hr & En & _ & _).
  set (g0 := set_obuf (wr (obuf (set_oby 0 (set_nibble 0 g))) 0 0)
               (set_oby 0 (set_nibble 0 g))).
  assert (reading_ks300 (data b) (length (obuf g)) 0 (0, 7, 7, g0)) as H0.
  { unfold reading_ks300, g0. cbn [oby nibble obuf set_oby set_obuf set_nibble].
    change (0 / 10) with 0. change (0 mod 10) with 0. rewrite length_wr.
    split; [done |]. split; [done |]. split; [done |]. split; [done |].
    split; [done |]. split; [done |].
    split; [intros k Hk; lia |].
    rewrite rd_wr_eq by lia. split; [| lia].
    intros j Hj. rewrite Z.bits_0.
    replace (ks300_pos j <? 0) with false; [done |].
    symmetry. apply Z.ltb_ge. unfold ks300_pos. destruct (Z.ltb_spec j 4); lia. }
  pose proof (analyze_rounds_ks300 b (length (obuf g)) Hkf Hke
                (Z.to_nat n) 0 (0, 7, 7, g0) H0 ltac:(lia) ltac:(lia)) as Hloop.
  rewrite Z.add_0_l, Z2Nat.id in Hloop by lia. specialize (Hloop Hlen).
  assert (r = analyze b TYPE_KS300 g) as Er by reflexivity. clearbody r.
  unfold analyze in Er. cbv zeta in Er. fold (bitcount b) in Er. fold n in Er.
  fold g0 in Er.
  rewrite (u8_small n) in Er by lia.
  rewrite (u8_small (n + 1)) in Er by lia.
  assert ((TYPE_KS300 =? TYPE_EM) = false) as Eke by (by apply Z.eqb_neq).
  rewrite Eke in Er. cbn [andb] in Er.
  destruct (for_loop (Z.to_nat n) (analyze_body b TYPE_KS300) (0, 7, 7, g0))
    as [[[[iby ibi] obi] g1] | v [[[iby ibi] obi] g1]].
  - destruct Hloop as [(_ & _ & R3 & R4 & R5 & R6 & R7 & R8 & R9) Hchk].
    destruct (Z.leb_spec (n + 1) n) as [? | _]; [lia |].
    rewrite R5, nz_b2z in Er.
    set (g2 := if n mod 10 =? 5 then set_oby (u8 (oby g1 + 1)) g1 else g1) in Er.
    assert (oby g2 = ks300_count n ∧ nibble g2 = b2z (n mod 10 =? 5) ∧
            obuf g2 = obuf g1) as (G1 & G2 & G3).
    { unfold g2, ks300_count.
      destruct (n mod 10 =? 5) eqn:E5;
        cbn [oby nibble obuf set_oby]; rewrite R4, ?R5, ?E5, ?Z.add_0_r, ?u8_small by lia;
        done. }
    clearbody g2.
    assert (0 <= ks300_count n) as Hc0.
    { unfold ks300_count. destruct (_ =? _); lia. }
    assert (n mod 10 = 5 → rd (obuf g1) (n / 10) = ks300_half (data b) (n / 10))
      as Hhalf.
    { intros E5. apply byte_bits_eq; [done | |].
      - pose proof (ks300_half_range (data b) (n / 10)). lia.
      - intros j Hj. rewrite R8, ks300_half_bits by done. rewrite E5.
        unfold ks300_pos. destruct (Z.ltb_spec j 4) as [H4 | H4].
        + assert ((j <? 5) = true) as -> by (apply Z.ltb_lt; lia). done.
        + assert ((j + 1 <? 5) = false) as -> by (apply Z.ltb_ge; lia). done. }
    destruct (Z.eqb_spec (oby g2) 0) as [E0 | E0]; subst r; cbn [fst snd].
    + split; [by left |]. split; [| done].
      split; [done |]. intros [H1 _]. lia.
    + split; [by right |]. split.
      * split; [intros _ | done]. split; [lia |].
        intros p Hp Hc. apply Hchk; [lia | done].
      * intros _. rewrite G3. done.
  - destruct Hloop as [-> (p & Hp & Hc & Hb)]. subst r. cbn [fst snd].
    split; [by left |]. split; [| done].
    split; [done |]. intros [_ H]. rewrite H in Hb; [done | lia | done].
Qed.

(** [analyze(b, TYPE_KS300)] succeeds exactly when the stream has a byte or
    half a byte and each of its nibbles that is followed by a bit is followed
    by a 1; it hands out the bytes, low nibble first and each nibble first
    bit least significant, and sets [nibble] when the stream ends with a low
    nibble and its 1 bit, which is then the low nibble of a last byte. *)
Theorem analyze_ks300_framing b g :
  TYPE_KS300 ≠ TYPE_FS20 → TYPE_KS300 ≠ TYPE_EM →
  0 <= byteidx b → 0 <= bitidx b <= 7 → bitcount b <= 254 →
  (Z.to_nat (bitcount b / 10 + 1) < length (obuf g))%nat →
  let r := analyze b TYPE_KS300 g in
  let n := bitcount b in
  (r.1 = 0 ∨ r.1 = 1) ∧
  (r.1 = 1 ↔ 1 <= ks300_count n ∧ ks300_framed (data b) n) ∧
  (r.1 = 1 →
   oby r.2 = ks300_count n ∧ nibble r.2 = b2z (n mod 10 =? 5) ∧
   (∀ k, 0 <= k < n / 10 → rd (obuf r.2) k = ks300_byte (data b) k) ∧
   (n mod 10 = 5 → rd (obuf r.2) (n / 10) = ks300_half (data b) (n / 10))).
Proof.
  intros Hkf Hke Hby Hbi Hmax Hlen.
  destruct (analyze_frames_ks300 b g Hkf Hke Hby Hbi Hmax Hlen) as (H1 & H2 & H3).
  split; [exact H1 |]. split; [exact H2 |].
  intros H. destruct (H3 H) as (O1 & O2 & O3 & O4 & _). done.
Qed.


End KS300Analyze.

Section Templates.
Context `{B : board}.

Lemma addbit_small i bit g :
  byteidx (bucket_at g i) < MAXMSG →
  addbit i bit g = with_bucket i (λ b, (addbit_body bit b).1) g.
Proof.
  intros H. unfold addbit. destruct (Z.leb_spec MAXMSG (byteidx (bucket_at g i))); [lia | done].
Qed.

(** Below the last bit of [data], [addbit] writes the cursor and [data]
    only. *)
Lemma addbit_body_templates bit b :
  0 <= byteidx b → MAXMSG <= 255 → bitcount b < 8 * MAXMSG - 1 → 0 <= bitidx b <= 7 →
  let b1 := (addbit_body bit b).1 in
  state b1 = state b ∧ sync b1 = sync b ∧ zero b1 = zero b ∧ one b1 = one b.
Proof.
  destruct b as [st by_ sy bi d z o]. unfold bitcount. simpl. intros Hby HM Hn Hbi.
  unfold addbit_body, data_store_at, data_store. simpl.
  destruct (Z.ltb_spec by_ MAXMSG); [| lia].
  destruct (Z.eqb_spec bi 0) as [-> | Hne]; simpl.
  - rewrite (u8_small (by_ + 1)) by lia.
    destruct (Z.ltb_spec (by_ + 1) MAXMSG); [| lia].
    by destruct (nz bit).
  - by destruct (nz bit).
Qed.

Lemma bits_from_app d p n m :
  bits_from d p (n + m) = bits_from d p n ++ bits_from d (p + Z.of_nat n) m.
Proof.
  revert p. induction n as [|n IH]; intros p.
  - simpl. by rewrite Z.add_0_r.
  - cbn [Nat.add bits_from app]. f_equal. rewrite IH. do 2 f_equal. lia.
Qed.

Lemma msb_first_bits_msb x : 0 <= x < 256 → msb_first (bits_msb 8 x) = x.
Proof.
  intros Hx.
  assert (forallb (λ x, msb_first (bits_msb 8 x) =? x) (seqZ 0 256) = true) as H
    by (vm_compute; reflexivity).
  rewrite forallb_forall in H. apply Z.eqb_eq, H, list_elem_of_In, elem_of_seqZ. lia.
Qed.

(** A stream that holds the bits of an FS20 telegram holds its bytes, each
    followed by its parity bit. *)
Lemma fs20_bits_framed bytes d p :
  Forall (λ x, 0 <= x < 256) bytes →
  bits_from d p (9 * length bytes) = fs20_bits bytes →
  ∀ k x, bytes !! k = Some x →
    msb_first (bits_from d (p + 9 * Z.of_nat k) 8) = x ∧
    bit_at d (p + 9 * Z.of_nat k + 8) = nz (parity_even_bit x).
Proof.
  revert p. induction bytes as [|y bytes IH]; intros p Hb E k x Hk; [done |].
  apply Forall_cons in Hb as [Hy Hb].
  replace (9 * length (y :: bytes))%nat with (8 + (1 + 9 * length bytes))%nat in E
    by (cbn [length]; lia).
  rewrite !bits_from_app in E.
  change (fs20_bits (y :: bytes))
    with ((bits_msb 8 y ++ [nz (parity_even_bit y)]) ++ fs20_bits bytes) in E.
  rewrite <- app_assoc in E.
  apply app_inj_1 in E as [E1 E2]; [| by rewrite length_bits_from].
  apply app_inj_1 in E2 as [E2 E3]; [| done].
  destruct k as [|k].
  - injection Hk as <-. rewrite Z.mul_0_r, Z.add_0_r.
    rewrite E1. split; [by apply msb_first_bits_msb |].
    cbn [bits_from] in E2. by injection E2.
  - cbn [lookup list_lookup] in Hk.
    destruct (IH (p + 9) Hb) with (k := k) (x := x) as [I1 I2]; [| done |].
    + rewrite <- E3. f_equal. lia.
    + replace (p + 9 * Z.of_nat (S k)) with (p + 9 + 9 * Z.of_nat k) by lia.
      done.
Qed.

Lemma lookup_snoc_cases {A} (l : list A) (y x : A) k :
  (l ++ [y]) !! k = Some x →
  ((k < length l)%nat ∧ l !! k = Some x) ∨ (k = length l ∧ x = y).
Proof.
  intros H. destruct (Nat.lt_ge_cases k (length l)) as [Hk | Hk].
  - left. by rewrite lookup_app_l in H.
  - right. rewrite lookup_app_r in H by done.
    destruct (k - length l)%nat as [|n] eqn:E; [| by destruct n].
    injection H as <-. split; [lia | done].
Qed.

(** The FS20 block on a bucket that holds an FS20 telegram. *)
Lemma try_fs20_accepts i g payload :
  let b := bucket_at g i in
  TYPE_FS20 ≠ TYPE_EM → TYPE_FS20 ≠ TYPE_KS300 → TYPE_EM ≠ TYPE_KS300 →
  0 <= byteidx b → 0 <= bitidx b <= 7 →
  (4 <= length payload <= 26)%nat →
  bitcount b = 9 * (Z.of_nat (length payload) + 1) →
  (length payload + 2 < length (obuf g))%nat →
  Forall (λ x, 0 <= x < 256) payload →
  bits_from (data b) 0 (9 * length (payload ++ [fs20_sum payload]))
    = fs20_telegram payload →
  ∃ g3,
    try_fs20 i (0, g) = (TYPE_FS20, g3) ∧
    oby g3 = Z.of_nat (length payload) ∧ nibble g3 = 0 ∧
    take (length payload) (obuf g3) = payload ∧
    scratch_frame g3 = scratch_frame g ∧ length (obuf g3) = length (obuf g).
Proof.
  intros b Hfe Hfk Hek Hby Hbi Hlen Hn Hobuf Hbytes Hbits.
  set (n := Z.of_nat (length payload)) in *.
  assert (0 <= fs20_sum payload < 256) as Hsum
    by (apply Z.mod_pos_bound; lia).
  assert (bitcount b / 9 = n + 1) as Hq.
  { rewrite Hn. rewrite Z.mul_comm. apply Z.div_mul. lia. }
  assert (Forall (λ x, 0 <= x < 256) (payload ++ [fs20_sum payload])) as Hall
    by (apply Forall_app; split; [done | by constructor]).
  pose proof (fs20_bits_framed _ (data b) 0 Hall Hbits) as Hfr.
  assert (∀ k x, (payload ++ [fs20_sum payload]) !! k = Some x →
            framed_byte TYPE_FS20 (data b) (Z.of_nat k) = x ∧
            framed_check TYPE_FS20 (data b) (Z.of_nat k) = true) as Hgroups.
  { intros k x Hk. destruct (Hfr k x Hk) as [F1 F2]. rewrite Z.add_0_l in F1, F2.
    unfold framed_check, framed_byte. rewrite Z.eqb_refl, F1, F2.
    split; [done |]. unfold parity_even_bit. rewrite nz_b2z. apply Z.eqb_refl. }
  clear Hfr Hbits.
  assert (Z.to_nat (bitcount b / 9 + 1) < length (obuf g))%nat as Hob by lia.
  assert (bitcount b <= 254) as Hmax by lia.
  destruct (analyze_bytes b TYPE_FS20 g (or_introl eq_refl) Hfe Hfk Hek Hby Hbi Hmax Hob)
    as [Hiff Hout].
  assert (framed_count TYPE_FS20 (bitcount b) = n + 1) as Ec.
  { unfold framed_count.
    assert ((TYPE_FS20 =? TYPE_EM) = false) as -> by (by apply Z.eqb_neq).
    cbn [andb]. lia. }
  rewrite Ec in Hiff, Hout.
  pose proof (analyze_frame b TYPE_FS20 g) as Hscr.
  unfold try_fs20. change (nz 0) with false. cbv iota beta. fold b.
  destruct (analyze b TYPE_FS20 g) as [v g1]. cbn [fst snd] in Hiff, Hout, Hscr.
  assert (nz v = true) as Hv.
  { apply Hiff. split; [lia |]. intros k Hk. rewrite Hq in Hk.
    destruct (lookup_lt_is_Some_2 (payload ++ [fs20_sum payload]) (Z.to_nat k))
      as [x Hx]; [rewrite length_app; simpl; lia |].
    destruct (Hgroups _ _ Hx) as [_ H]. by rewrite Z2Nat.id in H by lia. }
  rewrite Hv. destruct (Hout Hv) as (O1 & O2 & O3 & O4 & O5 & O6 & O7).
  assert (take (length payload) (obuf g1) = payload) as Htake.
  { replace (length payload) with (Z.to_nat n) at 1 by lia.
    rewrite O5 by lia. unfold framed_bytes.
    apply list_eq. intros k. rewrite list_lookup_fmap.
    destruct (payload !! k) as [x |] eqn:Ex.
    - assert ((k < length payload)%nat) as Hk by (by apply lookup_lt_Some in Ex).
      rewrite (lookup_seqZ_lt 0 n k) by lia. cbn [fmap option_fmap option_map].
      f_equal. rewrite Z.add_0_l. apply Hgroups. by rewrite lookup_app_l.
    - apply lookup_ge_None in Ex. rewrite lookup_seqZ_ge by lia. done. }
  cbv zeta. set (g2 := set_oby _ g1).
  assert (oby g2 = n ∧ obuf g2 = obuf g1 ∧ nibble g2 = 0 ∧
          scratch_frame g2 = scratch_frame g) as (Eo & Eb & En & Es).
  { unfold g2. simpl. split; [rewrite O1, u8_small; lia | done]. }
  clearbody g2. rewrite !Eo, !Eb.
  assert (cksum1 6 (obuf g1) n = fs20_sum payload) as ->.
  { rewrite cksum1_closed by lia. unfold n. rewrite Nat2Z.id, Htake. done. }
  assert (rd (obuf g1) n = fs20_sum payload) as ->.
  { rewrite O4 by lia. apply (Hgroups (length payload)).
    rewrite lookup_app_r by lia. by rewrite Nat.sub_diag. }
  rewrite Z.eqb_refl.
  destruct (Z.leb_spec 4 n) as [_ | ?]; [| lia]. cbn [andb].
  exists g2. rewrite Eb. by rewrite <- O7.
Qed.

Lemma monitor_off e g :
  report g REP_MONITOR = false → report g REP_LCDMON = false →
  monitor e g = if nz (g_lowtime g) then set_g_lowtime 0 g else g.
Proof.
  intros Hm Hl. unfold monitor. cbv zeta. rewrite Hl. cbv iota. rewrite Hm.
  by destruct (negb NO_RF_DEBUG).
Qed.

(** A first frame of a plain type is printed: tag, bytes and newline. *)
Lemma report_known_first e datatype g payload :
  nz datatype = true →
  datatype ≠ TYPE_IT → datatype ≠ TYPE_TCM97001 → datatype ≠ TYPE_FHT →
  report g REP_KNOWN = true → report g REP_RSSI = false →
  oby g = Z.of_nat (length payload) → nibble g = 0 →
  take (length payload) (obuf g) = payload →
  (1 <= length payload <= 255)%nat → (length payload <= length (obuf g))%nat →
  roby g = 0 → (length payload <= length (robuf g))%nat →
  let g' := report_known e datatype g in
  display g' = display g ++ [DC datatype] ++ map DH2 payload ++ [DNL] ∧
  tx_report g' = tx_report g.
Proof.
  intros Hnz Hit Htcm Hfht Hk Hrssi Ho Hnib Htake Hlen Hlo Hro Hlr g'.
  destruct (plain_check e datatype g Hnz Hit Htcm Hfht Hk) as
    (g3 & E & C1 & (T1 & T2 & T3 & T4 & T5 & T6) & _); [lia | lia |].
  assert (packageOK (packetCheckValues g3) = true) as Hok.
  { destruct (packageOK (packetCheckValues g3)); [done |].
    destruct C1 as [C1 _]. destruct (C1 eq_refl) as (_ & [Hs _] & _). lia. }
  unfold g'. rewrite E, print_frame_spec by lia. rewrite Hok.
  assert (frame_line e datatype g3 = [DC datatype] ++ map DH2 payload ++ [DNL]) as ->.
  { unfold frame_line, report. rewrite T1, T2, T3, T4, Hnib.
    change (nz 0) with false. cbv iota.
    unfold report in Hrssi. rewrite Hrssi, Ho. cbn [app].
    do 2 f_equal. rewrite <- Htake at 2.
    rewrite (take_rd_map (rd (obuf g)) (obuf g) (length payload)) by done.
    by rewrite map_map. }
  rewrite T4, Hnib. change (nz 0) with false. cbv iota.
  split; [simpl; by rewrite T5 | simpl; exact T1].
Qed.

End Templates.

(** ** Runs *)

Lemma reachable_run `{B : board} evs g : reachable g → reachable (run evs g).
Proof.
  revert g. induction evs as [|ev evs IH]; intros g Hg; [done |].
  apply IH. by constructor.
Qed.

(** ** Concrete receptions on the build [cul] *)

Section CUL.
Local Existing Instance cul.

Ltac evaluate := vm_compute; intuition (discriminate || lia).

(** C9 fails as stated.  After twelve sync pulses, sixteen zero bits and
    silence the bucket holds two zero bytes in [STATE_COLLECT]; no decoder
    accepts it; the KS300 attempt appends a 1 and, failing, takes the cursor
    back but leaves [data[2] = 0x80]. *)
Lemma ks300_leaves_bit_in_data :
  reachable zeros16 ∧
  (dispatch zeros16).1 = 0 ∧
  data (bucket_at zeros16 0) = replicate 20 0 ∧
  data (bucket_at (try_ks300 0 (0, zeros16)).2 0) = [0; 0; 128] ++ replicate 17 0 ∧
  ¬ ks300_retracts_all 0 zeros16.
Proof.
  split; [| split; [| split; [| split]]].
  - apply reachable_run, reachable_start.
  - vm_compute. reflexivity.
  - vm_compute. reflexivity.
  - vm_compute. reflexivity.
  - unfold ks300_retracts_all. intros H. vm_compute in H.
    destruct (H eq_refl) as (_ & _ & Hd). discriminate Hd.
Qed.

Lemma ks300_retracts_cursor_witness :
  let g := zeros16 in
  let b := bucket_at g 0 in
  let r := try_ks300 0 (0, g) in
  (0 <= byteidx b < MAXMSG ∧ MAXMSG <= 255 ∧ 0 <= bitidx b <= 7) ∧
  (r.1 = 0 →
     byteidx (bucket_at r.2 0) = byteidx b ∧
     bitidx (bucket_at r.2 0) = bitidx b ∧
     data (bucket_at r.2 0) = data_with_bit (ks300_last_bit g b) b) ∧
  (r.1 ≠ 0 →
     bitcount (bucket_at r.2 0) = bitcount b + 1 ∧
     data (bucket_at r.2 0) = data_with_bit (ks300_last_bit g b) b).
Proof.
  split; [evaluate |].
  apply (ks300_retracts_cursor 0 zeros16); evaluate.
Defined.

(** C2 fails as stated: with three buckets waiting, a fourth bucket that
    carries two bytes in [STATE_COLLECT] is not published by the silence
    handler but reset. *)
Lemma silence_drops_frame_when_full :
  reachable ring_full ∧
  carries_frame (bucket_at ring_full (bucket_in ring_full)) = true ∧
  bucket_nrused ring_full = 3 ∧
  bucket_nrused (TIMER1_COMPA_vect ring_full) = 3 ∧
  state (bucket_at (TIMER1_COMPA_vect ring_full) (bucket_in ring_full)) = STATE_RESET ∧
  ¬ silence_publishes_iff_frame ring_full.
Proof.
  split; [apply reachable_run, reachable_start |].
  split; [vm_compute; reflexivity |].
  split; [vm_compute; reflexivity |].
  split; [vm_compute; reflexivity |].
  split; [vm_compute; reflexivity |].
  unfold silence_publishes_iff_frame, published. intros [_ H].
  assert (carries_frame (bucket_at ring_full (bucket_in ring_full)) = true) as Hc
    by (vm_compute; reflexivity).
  destruct (H Hc) as [Hn _]. vm_compute in Hn. discriminate Hn.
Qed.

Lemma silence_publishes_witness :
  let g := run (zero_bits 16) globals0 in
  let b := bucket_at g (bucket_in g) in
  let g' := TIMER1_COMPA_vect g in
  (0 <= bucket_in g < RCV_BUCKETS ∧ RCV_BUCKETS <= 255 ∧
   0 <= bucket_nrused g < 255 ∧
   length (bucket_array g) = Z.to_nat RCV_BUCKETS) ∧
  (carries_frame b = true ∧ bucket_nrused g = 0 ∧ published g g') ∧
  (published g g' ↔ carries_frame b = true ∧ bucket_nrused g + 1 ≠ RCV_BUCKETS) ∧
  (published g g' → bucket_at g' (bucket_in g) = b) ∧
  (¬ published g g' →
     state (bucket_at g' (bucket_in g)) = STATE_RESET ∧
     bucket_nrused g' = bucket_nrused g ∧ bucket_in g' = bucket_in g) ∧
  (byteidx b < 2 →
     ¬ published g g' ∧
     (bucket_nrused g = 0 → ∀ e, RfAnalyze_Task e g' = monitor e g')).
Proof.
  split; [evaluate |]. split; [evaluate |].
  apply (silence_publishes (run (zero_bits 16) globals0)); evaluate.
Defined.

Lemma ring_occupancy_bounded_witness :
  1 <= RCV_BUCKETS ∧
  ((∀ g, reachable g → ring_bounded g) ∧
   (∀ g,
      let g' := TIMER1_COMPA_vect g in
      (bucket_nrused g' = bucket_nrused g ∨
       (bucket_nrused g + 1 ≠ RCV_BUCKETS ∧
        bucket_nrused g' = u8 (bucket_nrused g + 1))) ∧
      (bucket_nrused g + 1 = RCV_BUCKETS →
       0 <= bucket_in g → (Z.to_nat (bucket_in g) < length (bucket_array g))%nat →
       bucket_nrused g' = bucket_nrused g ∧ bucket_in g' = bucket_in g ∧
       state (bucket_at g' (bucket_in g)) = STATE_RESET)) ∧
   (∀ e g,
      bucket_nrused (RfAnalyze_Task e g) =
      if bucket_nrused g =? 0 then 0 else u8 (bucket_nrused g - 1)) ∧
   (∀ e g, bucket_nrused (CC1100_INTVECT e g) = bucket_nrused g)).
Proof.
  split; [evaluate |].
  apply ring_occupancy_bounded. evaluate.
Defined.

(** C10 on a reception: after 159 zero bits the next bit is stored with
    the cursor at [byteidx = 19], [bitidx = 0]; [addbit] then writes
    [data[20]] of a 20 byte array, and the zero template, which was
    [(25, 23)], has lost its high time (the handler then averages it with
    the pulse: [(0 + 0 + 0 + 25) / 4 = 6]). *)
Lemma addbit_overruns_on_bit_160 :
  let b := bucket_at last_bit 0 in
  reachable last_bit ∧
  (byteidx b, bitidx b, zero b) = (19, 0, mk_wave 25 23) ∧
  addbit_stores 0 b = [20] ∧
  zero (bucket_at (run (pulse (25, 23)) last_bit) 0) = mk_wave 6 23.
Proof.
  split; [apply reachable_run, reachable_start |].
  repeat split; vm_compute; reflexivity.
Qed.

Lemma addbit_stores_past_data_witness :
  let b := bucket_at last_bit 0 in
  (0 < MAXMSG <= 255 ∧ byteidx b = MAXMSG - 1 ∧ bitidx b = 0) ∧
  addbit_stores 0 b = (if nz 0 then [MAXMSG - 1] else []) ++ [MAXMSG] ∧
  ¬ (0 <= MAXMSG <= MAXMSG - 1) ∧
  hightime (zero (addbit_body 0 b).1) = 0.
Proof.
  split; [evaluate |].
  apply (addbit_stores_past_data 0 (bucket_at last_bit 0)); evaluate.
Defined.

(** C4: the code does not keep the rule that [checkForRepeatedPackage]
    documents ("there must be received two packages with the same message").
    Of three arrivals of an InterTechno payload within the window the second
    is emitted.  The same payload arrives again at tick 1000, long after the
    window: a first arrival, not emitted.  It arrives once more at tick 1010,
    byte-identical and inside the window, and is not emitted either:
    [isnotrep] is still set from the emission at tick 110.  The repeat filter
    clears it on a byte mismatch, but not when the window has expired or the
    length differs. *)
Lemma it_second_arrival_not_emitted :
  reachable it_thrice ∧
  display it_thrice = [DC 105; DH2 5; DH2 92; DH2 15; DNL] ∧
  display (run (it_reception 1000 it_payload ++ it_reception 1010 it_payload) it_thrice)
    = display it_thrice ∧
  ¬ confirmed_on_second_arrival (quiet 1000) (quiet 1010) TYPE_IT it_later.
Proof.
  split; [apply reachable_run, reachable_start |].
  split; [vm_compute; reflexivity |].
  split; [vm_compute; reflexivity |].
  unfold confirmed_on_second_arrival. intros H.
  assert (¬ (same_payload it_later ∧ within_reptime (quiet 1000) it_later)) as Hfirst.
  { intros [_ Hw]. vm_compute in Hw. discriminate Hw. }
  assert (u32 (ticks (quiet 1010) - ticks (quiet 1000)) < REPTIME) as Hwin
    by (vm_compute; reflexivity).
  destruct (H (or_introl eq_refl) Hfirst Hwin) as [_ Hem].
  vm_compute in Hem. discriminate Hem.
Qed.

Lemma it_repeat_rule_witness :
  let e := quiet 110 in
  let g := it_second in
  let g' := report_known e TYPE_IT g in
  let emitted := packageOK (packetCheckValues g') in
  (HAS_IT || HAS_TCM97001 = true ∧
   (TYPE_IT = TYPE_IT ∨ TYPE_IT = TYPE_TCM97001) ∧
   nz TYPE_IT = true ∧ TYPE_IT ≠ TYPE_FHT ∧ report g REP_KNOWN = true ∧
   0 <= oby g <= 255 ∧ (Z.to_nat (oby g) <= length (robuf g))%nat) ∧
  (emitted = true ↔
   report g REP_REPEATED = false ∧ same_payload g ∧ within_reptime e g ∧
   isnotrep (packetCheckValues g) = false) ∧
  display g' = display g ++ (if emitted then frame_line e TYPE_IT g else []) ∧
  (emitted = true → isnotrep (packetCheckValues g') = true) ∧
  (emitted = true →
   ∀ e2, packageOK (packetCheckValues
                      (report_known e2 TYPE_IT (decoded_again g g'))) = false).
Proof.
  split; [evaluate |].
  apply (it_repeat_rule (quiet 110) TYPE_IT it_second); evaluate.
Defined.

Lemma repeat_flag_witness :
  let e := quiet 110 in
  let g := it_second in
  let g' := filter_repeated e g in
  (0 <= oby g <= 255 ∧ (Z.to_nat (oby g) <= length (robuf g))%nat ∧
   report g REP_REPEATED = false) ∧
  (isrep (packetCheckValues g') = true ↔ same_payload g ∧ within_reptime e g) ∧
  (roby g' = oby g ∧ (∀ k, 0 <= k < oby g → rd (robuf g') k = rd (obuf g) k) ∧
   reptime g' = ticks e) ∧
  (nz TYPE_IT = true → report g REP_KNOWN = true →
   let g'' := report_known e TYPE_IT g in
   robuf g'' = robuf g' ∧ roby g'' = roby g' ∧ reptime g'' = reptime g' ∧
   (TYPE_IT ≠ TYPE_FHT →
    isrep (packetCheckValues g'') = isrep (packetCheckValues g'))).
Proof.
  split; [evaluate |].
  apply (repeat_flag (quiet 110) TYPE_IT it_second); evaluate.
Defined.

(** C3 fails as stated.  The frame with payload [01 00 00 00 00 00], each
    byte sent first bit least significant with its parity bit and a 0 stop
    bit, is received in [STATE_HMS] with 69 bits, decoded and printed.  Read
    first bit most significant and with 1 stop bits it is no frame, and its
    first byte would be [80]. *)
Lemma hms_lsb_first_stop_0 :
  let b := bucket_at hms_01 0 in
  reachable hms_01 ∧
  (state b, bitcount b) = (STATE_HMS, 69) ∧
  (analyze_hms b hms_01).1 = 1 ∧
  firstn 6 (obuf (analyze_hms b hms_01).2) = [1; 0; 0; 0; 0; 0] ∧
  display (RfAnalyze_Task (quiet 5) hms_01)
    = [DC TYPE_HMS; DH2 1; DH2 0; DH2 0; DH2 0; DH2 0; DH2 0; DNL] ∧
  hms_frame_as_stated (data b) = false ∧
  hms_payload_msb (data b) = [128; 0; 0; 0; 0; 0] ∧
  ¬ hms_as_stated b hms_01.
Proof.
  split; [apply reachable_run, reachable_start |].
  split; [vm_compute; reflexivity |].
  split; [vm_compute; reflexivity |].
  split; [vm_compute; reflexivity |].
  split; [vm_compute; reflexivity |].
  split; [vm_compute; reflexivity |].
  split; [vm_compute; reflexivity |].
  unfold hms_as_stated. intros H.
  assert (69 <= bitcount (bucket_at hms_01 0)) as Hb by (vm_compute; discriminate).
  destruct (H Hb) as [[Hs _] _].
  assert ((analyze_hms (bucket_at hms_01 0) hms_01).1 = 1) as Hr
    by (vm_compute; reflexivity).
  specialize (Hs Hr). vm_compute in Hs. discriminate Hs.
Qed.

Lemma hms_decoder_witness :
  let b := bucket_at hms_01 0 in
  let r := analyze_hms b hms_01 in
  (69 <= bitcount b ∧ (9 <= length (data b))%nat ∧ (6 <= length (obuf hms_01))%nat) ∧
  (r.1 = 0 ∨ r.1 = 1) ∧
  (r.1 = 1 ↔ hms_frame (data b) = true) ∧
  (r.1 = 1 → oby r.2 = 6 ∧ firstn 6 (obuf r.2) = hms_payload (data b)).
Proof.
  split; [evaluate |].
  apply (hms_decoder (bucket_at hms_01 0) hms_01); evaluate.
Defined.

(** The ESA frame of sixteen zero bytes is received, decoded and printed
    with tag [S]. *)
Lemma esa_zeros_decoded :
  let b := bucket_at esa_zeros 0 in
  reachable esa_zeros ∧
  (state b, bitcount b) = (STATE_ESA, 144) ∧
  (analyze_esa b esa_zeros).1 = 1 ∧
  display (RfAnalyze_Task (quiet 5) esa_zeros)
    = [DC TYPE_ESA; DH2 0x89] ++ replicate 14 (DH2 0x24) ++ [DH2 0xFF; DNL].
Proof.
  split; [apply reachable_run, reachable_start |].
  repeat split; vm_compute; reflexivity.
Qed.

Lemma esa_decoder_witness :
  let b := bucket_at esa_zeros 0 in
  let g := esa_zeros in
  let r := analyze_esa b g in
  ((Z.to_nat (ESA_DATALEN + 3) <= length (data b))%nat ∧
   (Z.to_nat (ESA_DATALEN + 1) <= length (obuf g))%nat) ∧
  (r.1 = 0 ∨ r.1 = 1) ∧
  (r.1 = 1 ↔ esa_frame b) ∧
  (r.1 = 1 →
   oby r.2 = ESA_DATALEN + 1 ∧
   firstn (Z.to_nat (ESA_DATALEN + 1)) (obuf r.2) = esa_output (data b)).
Proof.
  split; [evaluate |].
  apply (esa_decoder (bucket_at esa_zeros 0) esa_zeros); evaluate.
Defined.

(** C7: the nibble-sum check of [analyze_TX3] is not made.  The decoder
    reduces the sum to its low nibble and then tests the bits above the low
    nibble, which are always 0.  The TX3 frame [A0 12 34 56 78] is received,
    decoded and printed with tag [t], although the sum of its first nine
    nibbles is 38, with low nibble 6, and its last nibble is 8. *)
Lemma tx3_a0_decoded :
  let b := bucket_at tx3_a0 0 in
  reachable tx3_a0 ∧
  (state b, byteidx b, bitidx b) = (STATE_COLLECT, 4, 1) ∧
  (analyze_TX3 b tx3_a0).1 = 1 ∧
  tx3_output (data b) = [0xA0; 0x12; 0x34; 0x56; 0x78] ∧
  tx3_nibble_sum (data b) = 38 ∧
  Z.land (tx3_nibble_sum (data b)) 0xF = 6 ∧
  Z.land (tx3_byte (data b) 4) 0xF = 8 ∧
  display (RfAnalyze_Task (quiet 5) tx3_a0)
    = [DC TYPE_TX3; DH2 0xA0; DH2 0x12; DH2 0x34; DH2 0x56; DH2 0x78; DNL].
Proof.
  split; [apply reachable_run, reachable_start |].
  repeat split; vm_compute; reflexivity.
Qed.

Lemma tx3_decoder_witness :
  let b := bucket_at tx3_a0 0 in
  let g := tx3_a0 in
  let r := analyze_TX3 b g in
  (5 <= length (obuf g))%nat ∧
  (r.1 = 0 ∨ r.1 = 1) ∧
  (r.1 = 1 ↔ tx3_frame b) ∧
  (r.1 = 1 ↔
   byteidx b = 4 ∧ bitidx b = 1 ∧ Z.shiftr (tx3_byte (data b) 0) 4 = 0xA) ∧
  (r.1 = 1 → oby r.2 = 5 ∧ firstn 5 (obuf r.2) = tx3_output (data b)).
Proof.
  split; [evaluate |].
  apply (tx3_decoder (bucket_at tx3_a0 0) tx3_a0); evaluate.
Defined.

(** C1 fails as stated.  An FS20 telegram sent with the InterTechno timing
    is received into a bucket in [STATE_IT].  IT, TCM97001, Revolt and ESA
    refuse it and the FS20 decoder accepts it, so the first success over the
    fixed order is FS20; but on this [LONG_PULSE] build the dispatch stops
    after Revolt, assigns no type, and the task prints nothing. *)
Lemma long_pulse_skips_later_decoders :
  reachable it_fs20 ∧
  state (bucket_at it_fs20 (bucket_out it_fs20)) = STATE_IT ∧
  map (λ d, succeeds d 0 it_fs20) [Dec_IT; Dec_TCM97001; Dec_Revolt; Dec_ESA; Dec_FS20]
    = [false; false; false; false; true] ∧
  (first_success 0 (List.filter compiled_in dispatch_order) it_fs20).1 = TYPE_FS20 ∧
  (dispatch it_fs20).1 = 0 ∧
  display (RfAnalyze_Task (quiet 5) it_fs20) = [] ∧
  ¬ dispatch_in_fixed_order it_fs20.
Proof.
  split; [apply reachable_run, reachable_start |].
  split; [vm_compute; reflexivity |].
  split; [vm_compute; reflexivity |].
  split; [vm_compute; reflexivity |].
  split; [vm_compute; reflexivity |].
  split; [vm_compute; reflexivity |].
  unfold dispatch_in_fixed_order. intros H.
  apply (f_equal fst) in H. vm_compute in H. discriminate H.
Qed.

Lemma dispatch_first_success_witness :
  let g := hms_01 in
  (∀ d, Forall (λ t, t ≠ 0) (tags d)) ∧
  dispatch g = first_success (bucket_out g) (tried g) g ∧
  tried g =
    List.filter compiled_in
      (if long_pulse_bucket g then [Dec_IT; Dec_TCM97001; Dec_Revolt]
       else dispatch_order) ∧
  (∀ d i s, s.1 ≠ 0 → attempt d i s = s) ∧
  (∀ d i g',
     let r := attempt d i (0, g') in
     nz r.1 = succeeds d i g' ∧
     r.1 = (if succeeds d i g' then tag_of d i g' else 0) ∧
     tag_of d i g' ∈ tags d).
Proof.
  split; [intros d; destruct d; repeat constructor; discriminate |].
  apply (dispatch_first_success hms_01).
  intros d; destruct d; repeat constructor; discriminate.
Defined.

(** The dispatch on the three receptions: the first success is that of the
    decoder of the frame. *)
Lemma dispatch_receptions :
  (first_success 0 (tried hms_01) hms_01).1 = TYPE_HMS ∧
  (first_success 0 (tried esa_zeros) esa_zeros).1 = TYPE_ESA ∧
  (first_success 0 (tried tx3_a0) tx3_a0).1 = TYPE_TX3 ∧
  tried it_second = [Dec_IT; Dec_TCM97001; Dec_Revolt].
Proof. repeat split; vm_compute; reflexivity. Qed.

(** One pulse in [STATE_COLLECT]: the falling edge stores the high time,
    the rising edge the low time, and the pulse is classified against the
    templates. *)
Lemma pulse_collecting bit g :
  collecting g →
  run (pulse (bit_pulse bit)) g =
  addbit_avg 0 (b2z bit)
    (set_TIFR1 (_BV OCF1A)
       (set_TCNT1 0
          (set_g_lowtime (bit_pulse bit).2 (set_g_hightime (bit_pulse bit).1 g)))).
Proof.
  intros (H1 & H2 & H3 & H4 & H5 & H6 & H7).
  destruct g as [txr arr bin bout nr oby obuf nib roby robuf rept ht lt pcv t1 o1 m1 f1
                   fast rst disp].
  destruct arr as [|b arr]; [simpl in H4; lia |].
  destruct b as [st byi sy bii d z o].
  vm_compute in H1, H2, H3, H5, H6, H7. subst.
  destruct bit; reflexivity.
Qed.

Lemma pulse_bucket bit g :
  let b := bucket_at g 0 in
  let g' := run (pulse (bit_pulse bit)) g in
  let b' := bucket_at g' 0 in
  collecting g → 0 <= byteidx b → 0 <= bitidx b <= 7 → bitcount b < 159 →
  collecting g' ∧ b' = (addbit_body (b2z bit) b).1 ∧
  counters g' = counters g ∧ output_frame g' = output_frame g.
Proof.
  intros b g' b' Hc Hby Hbi Hn.
  assert (g' = run (pulse (bit_pulse bit)) g) as Eg by reflexivity.
  rewrite (pulse_collecting bit g Hc) in Eg. clearbody g'.
  destruct Hc as (H1 & H2 & H3 & H4 & H5 & H6 & H7).
  fold b in H5, H6, H7.
  set (g1 := set_TIFR1 _ _) in Eg.
  assert (bucket_at g1 0 = b) as Eb1 by reflexivity.
  assert (fastrf_on g1 = 0 ∧ rf_router_status g1 = 0 ∧ bucket_in g1 = 0 ∧
          length (bucket_array g1) = length (bucket_array g) ∧
          counters g1 = counters g ∧ output_frame g1 = output_frame g ∧
          g_hightime g1 = (bit_pulse bit).1 ∧ g_lowtime g1 = (bit_pulse bit).2)
    as (G1 & G2 & G3 & G4 & G5 & G6 & G7 & G8) by done.
  clearbody g1 b.
  assert (byteidx (bucket_at g1 0) < MAXMSG) as Hlt.
  { rewrite Eb1. change MAXMSG with 20. unfold bitcount in Hn. lia. }
  unfold addbit_avg in Eg. rewrite (addbit_small 0 (b2z bit) g1 Hlt) in Eg.
  destruct (addbit_body_templates (b2z bit) b) as (T1 & T2 & T3 & T4);
    [done | evaluate | change MAXMSG with 20; lia | done |].
  set (g2 := with_bucket 0 _ g1) in Eg.
  assert (bucket_at g2 0 = (addbit_body (b2z bit) b).1) as Eb2.
  { unfold g2. rewrite bucket_at_with_bucket by lia. by rewrite Eb1. }
  assert (fastrf_on g2 = 0 ∧ rf_router_status g2 = 0 ∧ bucket_in g2 = 0 ∧
          length (bucket_array g2) = length (bucket_array g) ∧
          counters g2 = counters g ∧ output_frame g2 = output_frame g)
    as (F1 & F2 & F3 & F4 & F5 & F6).
  { unfold g2. rewrite with_bucket_counters.
    repeat split; try done.
    unfold with_bucket. simpl. by rewrite length_alter. }
  clearbody g2.
  set (b1 := (addbit_body (b2z bit) b).1) in *. clearbody b1.
  rewrite G7, G8 in Eg.
  assert (g' = with_bucket 0 (λ _, b1) g2) as Eg'.
  { rewrite Eg. unfold bucket_at in Eb2.
    destruct (bucket_array g2 !! Z.to_nat 0) as [x |] eqn:Ex;
      [| apply lookup_ge_None in Ex; lia].
    simpl in Eb2. subst x.
    destruct b1 as [st byi sy bii d z o]. simpl in T3, T4. subst z o.
    rewrite H6, H7 in Ex. rewrite H6, H7.
    destruct bit;
      [change (nz (b2z true)) with true | change (nz (b2z false)) with false];
      cbv iota; unfold with_bucket; f_equal;
      apply list_eq; intros j; rewrite !list_lookup_alter;
      (destruct (decide (Z.to_nat 0 = j)) as [<- | Hj];
       [rewrite Ex; reflexivity | reflexivity]). }
  clear Eg. subst g'. unfold b'.
  rewrite bucket_at_with_bucket by lia.
  split; [| split; [done | split]].
  - unfold collecting. rewrite bucket_at_with_bucket by lia.
    rewrite T1, T3, T4. unfold with_bucket. simpl. rewrite length_alter.
    repeat split; try done. lia.
  - rewrite <- F5. unfold counters, with_bucket. simpl. by rewrite length_alter.
  - by rewrite <- F6.
Qed.

(** The state after the sync. *)
Lemma synced_state v :
  let g := synced v in
  let b := bucket_at g 0 in
  collecting g ∧ byteidx b = 0 ∧ bitidx b = 7 ∧ data b = replicate 20 0 ∧
  counters g = (u8 v, 0, 0, 0, 4%nat) ∧ output_frame g = output_frame globals0.
Proof.
  unfold collecting. repeat split; try reflexivity. vm_compute. lia.
Qed.

Lemma falling_collecting g :
  collecting g → run [falling 25] g = set_g_hightime 25 g.
Proof.
  intros (H1 & H2 & H3 & H4 & H5 & H6 & H7).
  destruct g as [txr arr bin bout nr oby obuf nib roby robuf rept ht lt pcv t1 o1 m1 f1
                   fast rst disp].
  destruct arr as [|b arr]; [simpl in H4; lia |].
  destruct b as [st byi sy bii d z o].
  vm_compute in H1, H2, H3, H5, H6, H7. subst. reflexivity.
Qed.

(** A run of pulses in [STATE_COLLECT], below the last bit of [data]: the
    bits are appended to the stream of the input bucket, and nothing else
    of the ring or of the state of the decode task changes. *)
Lemma pulses_collecting bits g :
  let b := bucket_at g 0 in
  let g' := run (pulses (map bit_pulse bits)) g in
  let b' := bucket_at g' 0 in
  collecting g → 0 <= byteidx b → 0 <= bitidx b <= 7 →
  length (data b) = 20%nat → clean_cursor b →
  bitcount b + Z.of_nat (length bits) <= 159 →
  collecting g' ∧ 0 <= byteidx b' ∧ 0 <= bitidx b' <= 7 ∧
  bitcount b' = bitcount b + Z.of_nat (length bits) ∧
  bits_from (data b') (bitcount b) (length bits) = bits ∧
  (∀ p, 0 <= p < bitcount b → bit_at (data b') p = bit_at (data b) p) ∧
  counters g' = counters g ∧ output_frame g' = output_frame g.
Proof.
  revert g. induction bits as [|bit bits IH]; intros g b g' b' Hc Hby Hbi Hl Hcl Hn.
  - subst g' b'. change (run (pulses (map bit_pulse [])) g) with g. fold b.
    change (length (@nil bool)) with 0%nat. cbn [bits_from].
    split; [exact Hc |]. repeat split; try done; lia.
  - change (length (bit :: bits)) with (S (length bits)) in *.
    assert (g' = run (pulses (map bit_pulse bits)) (run (pulse (bit_pulse bit)) g)) as Eg
      by reflexivity.
    assert (bitcount b < 159) as Hlt by lia.
    assert (0 <= bitcount b) as H0 by (unfold bitcount; lia).
    destruct (pulse_bucket bit g Hc Hby Hbi Hlt) as (P1 & P2 & P3 & P4).
    fold b in P2.
    destruct (addbit_body_bits (b2z bit) b) as (S1 & S2 & S3 & S4 & S5 & S6 & S7);
      [unfold bitcount in Hn; change MAXMSG with 20; lia | evaluate | done | done | done |].
    rewrite <- P2 in S1, S2, S3, S4, S5, S6, S7. rewrite nz_b2z in S6.
    set (g1 := run (pulse (bit_pulse bit)) g) in *.
    assert (bitcount (bucket_at g1 0) + Z.of_nat (length bits) <= 159) as Hn1 by lia.
    destruct (IH g1 P1 S2 S3 S4 S5 Hn1) as (I1 & I2 & I3 & I4 & I5 & I6 & I7 & I8).
    clearbody g1 g'. subst g'. subst b'.
    set (b2 := bucket_at (run (pulses (map bit_pulse bits)) g1) 0) in *.
    split; [done |]. split; [done |]. split; [done |].
    split; [lia |]. split; [| split; [| split]].
    + cbn [bits_from]. f_equal.
      * rewrite I6; [done |]. lia.
      * etransitivity; [| exact I5]. f_equal. lia.
    + intros p Hp. rewrite I6 by lia. by apply S7.
    + congruence.
    + congruence.
Qed.

(** The last fall and the silence: a bucket of two bytes or more is
    handed to the decode task as it is. *)
Lemma silence_collecting g :
  let g' := run [falling 25; Silence] g in
  collecting g → 2 <= byteidx (bucket_at g 0) → bucket_nrused g = 0 →
  bucket_array g' = bucket_array g ∧
  counters g' = (tx_report g, 1, bucket_out g, 1, length (bucket_array g)) ∧
  (report g REP_MONITOR = false → output_frame g' = output_frame g).
Proof.
  intros g' Hc Hby Hnr.
  assert (g' = TIMER1_COMPA_vect (run [falling 25] g)) as Eg by reflexivity.
  rewrite (falling_collecting g Hc) in Eg.
  destruct Hc as (H1 & H2 & H3 & H4 & H5 & H6 & H7).
  set (g1 := set_g_hightime 25 g) in *.
  assert (bucket_at g1 (bucket_in g1) = bucket_at g 0 ∧ bucket_nrused g1 = 0 ∧
          bucket_in g1 = 0 ∧ counters g1 = counters g ∧
          bucket_array g1 = bucket_array g ∧ output_frame g1 = output_frame g ∧
          tx_report g1 = tx_report g)
    as (G1 & G2 & G3 & G4 & G5 & G6 & G7).
  { unfold g1. cbn [bucket_in set_g_hightime]. rewrite H3. done. }
  clearbody g1. clearbody g'.
  destruct (TIMER1_COMPA_vect_cases g1) as (g0 & C1 & C2 & E).
  rewrite G1, G2, H5 in E.
  destruct (Z.ltb_spec (byteidx (bucket_at g 0)) 2) as [? | _]; [lia |].
  rewrite G3 in E.
  assert (g' = set_bucket_in 1 (set_bucket_nrused 1 g0)) as E'
    by (rewrite Eg, E; reflexivity).
  clear E.
  split; [| split].
  - rewrite E'. simpl. congruence.
  - rewrite E'. unfold counters in *. simpl. simplify_eq. congruence.
  - intros Hm. rewrite Eg, <- G6. apply TIMER1_COMPA_vect_output.
    + unfold report. by rewrite G7.
    + right. rewrite G2. evaluate.
Qed.

Lemma run_app l1 l2 g : run (l1 ++ l2) g = run l2 (run l1 g).
Proof. unfold run. apply fold_left_app. Qed.

(** What the reception of a bit stream leaves. *)
Lemma received v bits :
  (16 <= length bits <= 159)%nat →
  let g := run (Report v :: collect_events bits) globals0 in
  let b := bucket_at g 0 in
  state b = STATE_COLLECT ∧ 0 <= byteidx b ∧ 0 <= bitidx b <= 7 ∧
  bitcount b = Z.of_nat (length bits) ∧
  bits_from (data b) 0 (length bits) = bits ∧
  counters g = (u8 v, 1, 0, 1, 4%nat) ∧
  (nz (Z.land (u8 v) REP_MONITOR) = false → output_frame g = output_frame globals0).
Proof.
  intros Hlen g b.
  assert (g = run [falling 25; Silence] (run (pulses (map bit_pulse bits)) (synced v)))
    as Eg.
  { unfold g, collect_events, synced. rewrite app_comm_cons, !run_app. reflexivity. }
  clearbody g.
  destruct (synced_state v) as (S1 & S2 & S3 & S4 & S5 & S6).
  set (g0 := synced v) in *. clearbody g0.
  set (u := u8 v) in *. clearbody u.
  set (o0 := output_frame globals0) in *. clearbody o0.
  assert (bitcount (bucket_at g0 0) = 0) as B0
    by (unfold bitcount; rewrite S2, S3; lia).
  assert (clean_cursor (bucket_at g0 0)) as Hcl.
  { intros k _. rewrite S2, S4. apply Z.bits_0. }
  assert (length (data (bucket_at g0 0)) = 20%nat) as Hl by (by rewrite S4).
  assert (bitcount (bucket_at g0 0) + Z.of_nat (length bits) <= 159) as Hn by lia.
  assert (0 <= byteidx (bucket_at g0 0)) as Hby by lia.
  assert (0 <= bitidx (bucket_at g0 0) <= 7) as Hbi by lia.
  destruct (pulses_collecting bits g0 S1 Hby Hbi Hl Hcl Hn)
    as (P1 & P2 & P3 & P4 & P5 & P6 & P7 & P8).
  rewrite B0 in P4, P5. rewrite Z.add_0_l in P4.
  set (g1 := run (pulses (map bit_pulse bits)) g0) in *. clearbody g1.
  assert (tx_report g1 = u ∧ bucket_out g1 = 0 ∧ bucket_nrused g1 = 0 ∧
          length (bucket_array g1) = 4%nat) as (T1 & T2 & T4 & T3).
  { rewrite S5 in P7. unfold counters in P7. clear -P7. by simplify_eq. }
  assert (2 <= byteidx (bucket_at g1 0)) as Hby2 by (unfold bitcount in P4; lia).
  destruct (silence_collecting g1 P1 Hby2 T4) as (Q1 & Q2 & Q3).
  rewrite <- Eg in Q1, Q2, Q3.
  assert (b = bucket_at g1 0) as Eb by (unfold b, bucket_at; by rewrite Q1).
  clearbody b. subst b. destruct P1 as (_ & _ & _ & _ & C5 & _).
  split; [exact C5 |]. split; [exact P2 |]. split; [exact P3 |].
  split; [exact P4 |]. split; [exact P5 |].
  split; [by rewrite Q2, T1, T2, T3 |].
  intros Hm. rewrite Q3 by (unfold report; by rewrite T1). by rewrite P8.
Qed.

(** On the CUL build, a stream of 16 to 159 bits that follows the sync as
    one pulse per bit, [(38, 37)] for a 1 and [(25, 23)] for a 0, and ends in
    silence is received bit for bit: it is handed to the decode task as one
    bucket in [STATE_COLLECT] whose bit stream is the bits sent. *)
Theorem collect_reception v bits :
  (16 <= length bits <= 159)%nat →
  let g := run (Report v :: collect_events bits) globals0 in
  let b := bucket_at g (bucket_out g) in
  bucket_nrused g = 1 ∧ bucket_in g = 1 ∧
  state b = STATE_COLLECT ∧ bitcount b = Z.of_nat (length bits) ∧
  bits_from (data b) 0 (length bits) = bits.
Proof.
  intros Hlen g b.
  destruct (received v bits Hlen) as (R1 & R2 & R3 & R4 & R5 & R6 & _).
  fold g in R1, R2, R3, R4, R5, R6.
  assert (bucket_nrused g = 1 ∧ bucket_in g = 1 ∧ bucket_out g = 0) as (N1 & N2 & N3)
    by (unfold counters in R6; by simplify_eq).
  unfold b. rewrite N3. done.
Qed.

(** The dispatch on a bucket in [STATE_COLLECT] that the FS20 block
    accepts: the decoders before it refuse the bucket and leave the globals
    alone, those after it are skipped. *)
Lemma dispatch_fs20 g t g3 :
  state (bucket_at g (bucket_out g)) = STATE_COLLECT →
  try_fs20 (bucket_out g) (0, g) = (t, g3) → nz t = true →
  dispatch g = (t, g3).
Proof.
  intros Hs Hfs Ht. unfold dispatch. cbv zeta.
  assert (when HAS_IT (try_it (bucket_out g)) (0, g) = (0, g)) as ->.
  { change (try_it (bucket_out g) (0, g) = (0, g)). unfold try_it. by rewrite Hs. }
  assert (when HAS_TCM97001 (try_tcm97001 (bucket_out g)) (0, g) = (0, g)) as ->.
  { change (try_tcm97001 (bucket_out g) (0, g) = (0, g)).
    unfold try_tcm97001, analyze_tcm97001. rewrite Hs.
    change (negb (STATE_COLLECT =? STATE_TCM97001)) with true.
    by rewrite orb_true_r. }
  assert (when HAS_REVOLT (try_revolt (bucket_out g)) (0, g) = (0, g)) as ->.
  { change (try_revolt (bucket_out g) (0, g) = (0, g)).
    unfold try_revolt, analyze_revolt. rewrite Hs.
    change (negb (STATE_COLLECT =? STATE_REVOLT)) with true.
    by rewrite orb_true_r. }
  cbn [snd]. rewrite Hs.
  assert (when HAS_ESA (try_esa (bucket_out g)) (0, g) = (0, g)) as ->.
  { change (try_esa (bucket_out g) (0, g) = (0, g)).
    unfold try_esa, analyze_esa. by rewrite Hs. }
  change (LONG_PULSE && _) with false. cbv iota.
  rewrite Hfs.
  assert (try_em (bucket_out g) (t, g3) = (t, g3)) as ->
    by (unfold try_em; by rewrite Ht).
  assert (try_hms (bucket_out g) (t, g3) = (t, g3)) as ->
    by (unfold try_hms; by rewrite Ht).
  assert (when HAS_TX3 (try_tx3 (bucket_out g)) (t, g3) = (t, g3)) as ->
    by (change (try_tx3 (bucket_out g) (t, g3) = (t, g3)); unfold try_tx3; by rewrite Ht).
  assert (try_ks300 (bucket_out g) (t, g3) = (t, g3)) as ->
    by (unfold try_ks300; by rewrite Ht).
  change (try_hoermann (bucket_out g) (t, g3) = (t, g3)).
  unfold try_hoermann. by rewrite Ht.
Qed.

(** The decode task on a received FS20 telegram, with [tx_report = 01]. *)
Lemma task_prints_fs20 e g payload :
  let b := bucket_at g 0 in
  (4 <= length payload <= 16)%nat → Forall (λ x, 0 <= x < 256) payload →
  state b = STATE_COLLECT → 0 <= byteidx b → 0 <= bitidx b <= 7 →
  bitcount b = 9 * (Z.of_nat (length payload) + 1) →
  bits_from (data b) 0 (9 * length (payload ++ [fs20_sum payload]))
    = fs20_telegram payload →
  counters g = (1, 1, 0, 1, 4%nat) → output_frame g = output_frame globals0 →
  display (RfAnalyze_Task e g) = [DC TYPE_FS20] ++ map DH2 payload ++ [DNL].
Proof.
  intros b Hlen Hbytes Hst Hby Hbi Hn Hbits Hc Ho.
  assert (tx_report g = 1 ∧ bucket_out g = 0 ∧ bucket_nrused g = 1) as (T1 & T2 & T3)
    by (unfold counters in Hc; by simplify_eq).
  assert (display g = [] ∧ obuf g = replicate 20 0 ∧ roby g = 0 ∧
          robuf g = replicate 20 0) as (D1 & D2 & D3 & D4)
    by (unfold output_frame in Ho; vm_compute in Ho; by simplify_eq).
  clear Hc Ho.
  unfold RfAnalyze_Task. cbv zeta.
  rewrite monitor_off by (unfold report; rewrite T1; reflexivity).
  set (gm := if nz (g_lowtime g) then set_g_lowtime 0 g else g).
  assert (bucket_at gm 0 = b ∧ tx_report gm = 1 ∧ bucket_out gm = 0 ∧
          bucket_nrused gm = 1 ∧ display gm = [] ∧ obuf gm = replicate 20 0 ∧
          roby gm = 0 ∧ robuf gm = replicate 20 0)
    as (M0 & M1 & M2 & M3 & M4 & M5 & M6 & M7)
    by (unfold gm; destruct (nz (g_lowtime g)); done).
  clearbody gm. clearbody b. clear T1 T2 T3 D1 D2 D3 D4 g.
  rewrite M3. change (1 =? 0) with false. cbv iota.
  assert (TYPE_FS20 ≠ TYPE_EM ∧ TYPE_FS20 ≠ TYPE_KS300 ∧ TYPE_EM ≠ TYPE_KS300 ∧
          TYPE_FS20 ≠ TYPE_IT ∧ TYPE_FS20 ≠ TYPE_TCM97001 ∧ TYPE_FS20 ≠ TYPE_FHT)
    as (Hfe & Hfk & Hek & Hfi & Hft & Hfh) by (repeat split; discriminate).
  assert ((length payload + 2 < length (obuf gm))%nat) as Hob
    by (rewrite M5; simpl; lia).
  rewrite <- M0 in Hst, Hby, Hbi, Hn, Hbits.
  destruct (try_fs20_accepts 0 gm payload Hfe Hfk Hek Hby Hbi ltac:(lia) Hn Hob
              Hbytes Hbits) as (g3 & Efs & F1 & F2 & F3 & F4 & F5).
  rewrite (dispatch_fs20 gm TYPE_FS20 g3);
    [| by rewrite M2 | by rewrite M2 | reflexivity].
  apply scratch_frame_fields in F4 as S.
  destruct S as (S1 & S2 & S3 & S4 & S5 & S6 & S7 & S8).
  assert (roby g3 = 0 ∧ robuf g3 = replicate 20 0) as [R1 R2]
    by (unfold scratch_frame in F4; simplify_eq; split; congruence).
  assert (report g3 REP_KNOWN = true ∧ report g3 REP_RSSI = false) as [Hk Hr]
    by (unfold report; rewrite S7, M1; split; reflexivity).
  assert ((length payload <= length (obuf g3))%nat) as Hlo
    by (rewrite F5, M5; simpl; lia).
  assert ((length payload <= length (robuf g3))%nat) as Hlr
    by (rewrite R2; simpl; lia).
  assert (nz TYPE_FS20 = true) as Hnz by reflexivity.
  destruct (report_known_first e TYPE_FS20 g3 payload Hnz Hfi Hft Hfh Hk Hr F1 F2 F3
              ltac:(lia) Hlo R1 Hlr) as [P1 P2].
  set (g4 := report_known e TYPE_FS20 g3) in *. clearbody g4.
  assert (report_bits e (bucket_out gm) g4 = g4) as ->.
  { unfold report_bits, report. rewrite P2, S7, M1. reflexivity. }
  change (HAS_FHT_80b && (TYPE_FS20 =? TYPE_FHT)) with false. cbv iota.
  destruct (_ =? RCV_BUCKETS); simpl; rewrite P1, S5, M4; done.
Qed.

(** An FS20 telegram from the antenna to the display, on the CUL build,
    from start-up ([globals0]: nothing received yet, the ring empty) with
    [tx_report = 01]: sent after the sync as one pulse per bit, each byte
    followed by its parity bit and the telegram by its check sum, a payload
    of 4 to 16 bytes is printed by the run of the decode task that follows as
    the tag [F], the payload in hex and a newline. *)
Theorem fs20_round_trip e payload :
  (4 <= length payload <= 16)%nat → Forall (λ x, 0 <= x < 256) payload →
  display
    (run (Report 1 :: collect_events (fs20_telegram payload) ++ [Task e]) globals0)
  = [DC TYPE_FS20] ++ map DH2 payload ++ [DNL].
Proof.
  intros Hlen Hbytes.
  rewrite app_comm_cons, run_app.
  change (run [Task e] ?g) with (RfAnalyze_Task e g).
  assert (length (fs20_telegram payload) = (9 * length (payload ++ [fs20_sum payload]))%nat)
    as Hbl.
  { unfold fs20_telegram, fs20_bits.
    induction (payload ++ [fs20_sum payload]) as [|x l IH]; [done |].
    cbn [map concat length]. rewrite length_app, IH.
    change (length (bits_msb 8 x ++ [nz (parity_even_bit x)])) with 9%nat. lia. }
  assert (length (payload ++ [fs20_sum payload]) = S (length payload)) as Hpl
    by (rewrite length_app; simpl; lia).
  destruct (received 1 (fs20_telegram payload)) as (R1 & R2 & R3 & R4 & R5 & R6 & R7);
    [lia |].
  rewrite Hbl in R5.
  set (g := run (Report 1 :: collect_events (fs20_telegram payload)) globals0) in *.
  clearbody g.
  apply task_prints_fs20; try done.
  - rewrite R4, Hbl, Hpl. lia.
  - by apply R7.
Qed.

(** One bit in [STATE_HMS] or [STATE_ESA]: whatever the level of the line
    before it, its edges amount to one call of [addbit]; the edge after half
    a bit time is ignored. *)
Lemma edge_bit_collecting esa level bit g :
  collecting_edges esa g →
  run (edge_bits (edge_half esa) (edge_full esa) level [bit]) g =
  if bit
  then set_g_hightime (edge_full esa) (set_TCNT1 0 (addbit 0 1 g))
  else addbit 0 0
         (set_TCNT1 0 (set_g_lowtime (tw (edge_full esa - g_hightime g)) g)).
Proof.
  intros (H1 & H2 & H3 & H4 & H5).
  destruct g as [txr arr bin bout nr oby obuf nib roby robuf rept ht lt pcv t1 o1 m1 f1
                   fast rst disp].
  destruct arr as [|b arr]; [simpl in H4; lia |].
  destruct b as [st byi sy bii d z o].
  destruct esa; vm_compute in H1, H2, H3, H5; subst; destruct level, bit; reflexivity.
Qed.

Lemma edge_bit_bucket esa level bit g :
  let b := bucket_at g 0 in
  let g' := run (edge_bits (edge_half esa) (edge_full esa) level [bit]) g in
  let b' := bucket_at g' 0 in
  collecting_edges esa g → 0 <= byteidx b → 0 <= bitidx b <= 7 → bitcount b < 159 →
  collecting_edges esa g' ∧ b' = (addbit_body (b2z bit) b).1 ∧
  counters g' = counters g ∧ output_frame g' = output_frame g.
Proof.
  intros b g' b' Hc Hby Hbi Hn.
  assert (g' = run (edge_bits (edge_half esa) (edge_full esa) level [bit]) g) as Eg
    by reflexivity.
  rewrite (edge_bit_collecting esa level bit g Hc) in Eg. clearbody g'.
  destruct Hc as (H1 & H2 & H3 & H4 & H5). fold b in H5.
  assert (byteidx b < MAXMSG) as Hlt
    by (change MAXMSG with 20; unfold bitcount in Hn; lia).
  destruct (addbit_body_templates (b2z bit) b) as (T1 & _);
    [done | evaluate | change MAXMSG with 20; lia | done |].
  set (g1 := set_TCNT1 0 (set_g_lowtime (tw (edge_full esa - g_hightime g)) g)) in Eg.
  assert (bucket_at g1 0 = b ∧ fastrf_on g1 = 0 ∧ rf_router_status g1 = 0 ∧
          bucket_in g1 = 0 ∧ length (bucket_array g1) = length (bucket_array g) ∧
          counters g1 = counters g ∧ output_frame g1 = output_frame g)
    as (G0 & G1 & G2 & G3 & G4 & G5 & G6) by done.
  clearbody g1.
  assert (∀ g0, bucket_at g0 0 = b → fastrf_on g0 = 0 → rf_router_status g0 = 0 →
                bucket_in g0 = 0 → length (bucket_array g0) = length (bucket_array g) →
                let g2 := addbit 0 (b2z bit) g0 in
                bucket_at g2 0 = (addbit_body (b2z bit) b).1 ∧
                fastrf_on g2 = 0 ∧ rf_router_status g2 = 0 ∧ bucket_in g2 = 0 ∧
                (0 < length (bucket_array g2))%nat ∧
                counters g2 = counters g0 ∧ output_frame g2 = output_frame g0) as Hadd.
  { intros g0 E0 E1 E2 E3 E4 g2. unfold g2.
    rewrite addbit_small by (by rewrite E0).
    rewrite bucket_at_with_bucket by lia. rewrite E0, with_bucket_counters.
    unfold with_bucket. simpl. rewrite length_alter. repeat split; try done. lia. }
  destruct bit.
  - destruct (Hadd g eq_refl H1 H2 H3 eq_refl) as (A0 & A1 & A2 & A3 & A4 & A5 & A6).
    change (b2z true) with 1 in *.
    set (g2 := addbit 0 1 g) in *. clearbody g2. subst g'. unfold b'.
    split; [| split; [exact A0 | split; [exact A5 | exact A6]]].
    unfold collecting_edges.
    change (bucket_at (set_g_hightime (edge_full esa) (set_TCNT1 0 g2)) 0)
      with (bucket_at g2 0).
    rewrite A0, T1. done.
  - destruct (Hadd g1 G0 G1 G2 G3 G4) as (A0 & A1 & A2 & A3 & A4 & A5 & A6).
    change (b2z false) with 0 in *.
    set (g2 := addbit 0 0 g1) in *. clearbody g2. subst g'. unfold b'.
    split; [| split; [exact A0 | split; congruence]].
    unfold collecting_edges. rewrite A0, T1. done.
Qed.

(** The state after the sync: the cursor is on the first bit and the line
    is high. *)
Lemma edge_synced_state esa v :
  let g := run (Report v :: edge_sync esa) globals0 in
  let b := bucket_at g 0 in
  collecting_edges esa g ∧ byteidx b = 0 ∧ bitidx b = 7 ∧ data b = replicate 20 0 ∧
  counters g = (u8 v, 0, 0, 0, 4%nat) ∧ output_frame g = output_frame globals0.
Proof.
  unfold collecting_edges.
  destruct esa; (repeat split; try reflexivity; vm_compute; lia).
Qed.

(** A run of bits in [STATE_HMS] or [STATE_ESA], below the last bit of
    [data]: the bits are appended to the stream of the input bucket, and
    nothing else of the ring or of the state of the decode task changes. *)
Lemma edge_bits_collecting esa bits level g :
  let b := bucket_at g 0 in
  let g' := run (edge_bits (edge_half esa) (edge_full esa) level bits) g in
  let b' := bucket_at g' 0 in
  collecting_edges esa g → 0 <= byteidx b → 0 <= bitidx b <= 7 →
  length (data b) = 20%nat → clean_cursor b →
  bitcount b + Z.of_nat (length bits) <= 159 →
  collecting_edges esa g' ∧ 0 <= byteidx b' ∧ 0 <= bitidx b' <= 7 ∧
  bitcount b' = bitcount b + Z.of_nat (length bits) ∧
  bits_from (data b') (bitcount b) (length bits) = bits ∧
  (∀ p, 0 <= p < bitcount b → bit_at (data b') p = bit_at (data b) p) ∧
  counters g' = counters g ∧ output_frame g' = output_frame g.
Proof.
  revert level g.
  induction bits as [|bit bits IH]; intros level g b g' b' Hc Hby Hbi Hl Hcl Hn.
  - subst g' b'.
    change (run (edge_bits (edge_half esa) (edge_full esa) level []) g) with g. fold b.
    change (length (@nil bool)) with 0%nat. cbn [bits_from].
    split; [exact Hc |]. repeat split; try done; lia.
  - change (length (bit :: bits)) with (S (length bits)) in *.
    assert (g' = run (edge_bits (edge_half esa) (edge_full esa) (negb bit) bits)
                   (run (edge_bits (edge_half esa) (edge_full esa) level [bit]) g)) as Eg.
    { unfold g'. cbn [edge_bits]. rewrite app_nil_r. apply run_app. }
    assert (bitcount b < 159) as Hlt by lia.
    assert (0 <= bitcount b) as H0 by (unfold bitcount; lia).
    destruct (edge_bit_bucket esa level bit g Hc Hby Hbi Hlt) as (P1 & P2 & P3 & P4).
    fold b in P2.
    destruct (addbit_body_bits (b2z bit) b) as (S1 & S2 & S3 & S4 & S5 & S6 & S7);
      [unfold bitcount in Hn; change MAXMSG with 20; lia | evaluate | done | done | done |].
    rewrite <- P2 in S1, S2, S3, S4, S5, S6, S7. rewrite nz_b2z in S6.
    set (g1 := run (edge_bits (edge_half esa) (edge_full esa) level [bit]) g) in *.
    assert (bitcount (bucket_at g1 0) + Z.of_nat (length bits) <= 159) as Hn1 by lia.
    destruct (IH (negb bit) g1 P1 S2 S3 S4 S5 Hn1)
      as (I1 & I2 & I3 & I4 & I5 & I6 & I7 & I8).
    clearbody g1 g'. subst g'. subst b'.
    set (b2 := bucket_at (run (edge_bits (edge_half esa) (edge_full esa) (negb bit) bits)
                            g1) 0) in *.
    split; [done |]. split; [done |]. split; [done |].
    split; [lia |]. split; [| split; [| split]].
    + cbn [bits_from]. f_equal.
      * rewrite I6; [done |]. lia.
      * etransitivity; [| exact I5]. f_equal. lia.
    + intros p Hp. rewrite I6 by lia. by apply S7.
    + congruence.
    + congruence.
Qed.

(** The silence: a bucket of two bytes or more is handed to the decode
    task as it is. *)
Lemma silence_edges esa g :
  let g' := run [Silence] g in
  collecting_edges esa g → 2 <= byteidx (bucket_at g 0) → bucket_nrused g = 0 →
  bucket_array g' = bucket_array g ∧
  counters g' = (tx_report g, 1, bucket_out g, 1, length (bucket_array g)).
Proof.
  intros g' Hc Hby Hnr.
  assert (g' = TIMER1_COMPA_vect g) as Eg by reflexivity. clearbody g'.
  destruct Hc as (H1 & H2 & H3 & H4 & H5).
  destruct (TIMER1_COMPA_vect_cases g) as (g0 & C1 & C2 & E).
  rewrite H3, Hnr, H5 in E.
  destruct (Z.ltb_spec (byteidx (bucket_at g 0)) 2) as [? | _]; [lia |].
  assert (g' = set_bucket_in 1 (set_bucket_nrused 1 g0)) as E'
    by (rewrite Eg, E; by destruct esa).
  clear E.
  split.
  - rewrite E'. simpl. congruence.
  - rewrite E'. unfold counters in *. simpl. simplify_eq. congruence.
Qed.

(** On the CUL build, a stream of 16 to 159 bits that follows the HMS or
    the ESA sync as edges, a falling edge one bit time after the last edge
    for a 1 and a rising one for a 0, with an edge after half a bit time
    where the line has to change first, and ends in silence is received bit
    for bit: it is handed to the decode task as one bucket in [STATE_HMS] or
    [STATE_ESA] whose bit stream is the bits sent. *)
Theorem edge_coded_reception esa v bits :
  (16 <= length bits <= 159)%nat →
  let g := run (Report v :: edge_coded esa bits) globals0 in
  let b := bucket_at g (bucket_out g) in
  bucket_nrused g = 1 ∧ bucket_in g = 1 ∧
  state b = (if esa then STATE_ESA else STATE_HMS) ∧
  bitcount b = Z.of_nat (length bits) ∧
  bits_from (data b) 0 (length bits) = bits.
Proof.
  intros Hlen g b.
  set (g0 := run (Report v :: edge_sync esa) globals0).
  assert (g = run [Silence]
                (run (edge_bits (edge_half esa) (edge_full esa) true bits) g0)) as Eg.
  { unfold g, g0, edge_coded. rewrite app_comm_cons, !run_app. reflexivity. }
  clearbody g.
  destruct (edge_synced_state esa v) as (S1 & S2 & S3 & S4 & S5 & _).
  fold g0 in S1, S2, S3, S4, S5. clearbody g0.
  set (u := u8 v) in *. clearbody u.
  assert (bitcount (bucket_at g0 0) = 0) as B0
    by (unfold bitcount; rewrite S2, S3; lia).
  assert (clean_cursor (bucket_at g0 0)) as Hcl.
  { intros k _. rewrite S2, S4. apply Z.bits_0. }
  assert (length (data (bucket_at g0 0)) = 20%nat) as Hl by (by rewrite S4).
  assert (bitcount (bucket_at g0 0) + Z.of_nat (length bits) <= 159) as Hn by lia.
  assert (0 <= byteidx (bucket_at g0 0)) as Hby by lia.
  assert (0 <= bitidx (bucket_at g0 0) <= 7) as Hbi by lia.
  destruct (edge_bits_collecting esa bits true g0 S1 Hby Hbi Hl Hcl Hn)
    as (P1 & P2 & P3 & P4 & P5 & P6 & P7 & _).
  rewrite B0 in P4, P5. rewrite Z.add_0_l in P4.
  set (g1 := run (edge_bits (edge_half esa) (edge_full esa) true bits) g0) in *.
  clearbody g1.
  assert (bucket_out g1 = 0 ∧ bucket_nrused g1 = 0) as (T2 & T4).
  { rewrite S5 in P7. unfold counters in P7. clear -P7. by simplify_eq. }
  assert (2 <= byteidx (bucket_at g1 0)) as Hby2 by (unfold bitcount in P4; lia).
  destruct (silence_edges esa g1 P1 Hby2 T4) as (Q1 & Q2).
  rewrite <- Eg in Q1, Q2.
  assert (bucket_nrused g = 1 ∧ bucket_in g = 1 ∧ bucket_out g = 0) as (N1 & N2 & N3).
  { rewrite T2 in Q2. unfold counters in Q2. clear -Q2. by simplify_eq. }
  assert (b = bucket_at g1 0) as Eb by (unfold b, bucket_at; by rewrite N3, Q1).
  clearbody b. subst b. destruct P1 as (_ & _ & _ & _ & C5).
  split; [exact N1 |]. split; [exact N2 |]. split; [by destruct esa |].
  split; [exact P4 | exact P5].
Qed.

(** The FS20 telegram [12 34 56 78 1A] is received as 45 bits and printed
    with tag [F]; the EM telegram of 89 bits is printed with tag [E]. *)
Lemma fs20_em_received :
  reachable fs20_frame ∧ reachable em_frame ∧
  bitcount (bucket_at fs20_frame 0) = 45 ∧
  bitcount (bucket_at em_frame 0) = 89 ∧
  display (RfAnalyze_Task (quiet 5) fs20_frame)
    = [DC TYPE_FS20; DH2 0x12; DH2 0x34; DH2 0x56; DH2 0x78; DNL] ∧
  display (RfAnalyze_Task (quiet 5) em_frame)
    = DC TYPE_EM :: map DH2 [1; 2; 3; 4; 5; 6; 7; 8; 9] ++ [DNL].
Proof.
  split; [apply reachable_run, reachable_start |].
  split; [apply reachable_run, reachable_start |].
  repeat split; vm_compute; reflexivity.
Qed.

(** The KS300 telegram [12 34 34] is received as 29 bits, completed by the
    decode task with the last 1 bit, and printed with tag [K]. *)
Lemma ks300_received :
  reachable ks300_frame ∧
  bitcount (bucket_at ks300_frame 0) = 29 ∧
  bitcount (bucket_at (try_ks300 0 (0, ks300_frame)).2 0) = 30 ∧
  display (RfAnalyze_Task (quiet 5) ks300_frame)
    = [DC TYPE_KS300; DH2 0x12; DH2 0x34; DNL].
Proof.
  split; [apply reachable_run, reachable_start |].
  repeat split; vm_compute; reflexivity.
Qed.

Lemma cksum1_sum_witness :
  let buf := [0x12; 0x34; 0x56; 0x78; 0x1A] in
  (0 <= 6 < 256 ∧ (Z.to_nat 4 <= length buf)%nat) ∧
  cksum1 6 buf 4 = (6 + sum_bytes (take (Z.to_nat 4) buf)) mod 256 ∧
  cksum1 12 buf 4 = (cksum1 6 buf 4 + 6) mod 256 ∧
  cksum1 12 buf 4 ≠ cksum1 6 buf 4 ∧
  cksum1 12 buf 4 ≠ cksum1 6 buf 4 + 1.
Proof.
  split; [evaluate |].
  apply (cksum1_sum 6 [0x12; 0x34; 0x56; 0x78; 0x1A] 4); evaluate.
Defined.

Lemma cksum2_xor_witness :
  let buf := [1; 2; 3; 4; 5; 6; 7; 8; 9; 1] in
  (0 <= 9 ∧ (Z.to_nat 9 < length buf)%nat) ∧
  cksum2 buf 9 = xor_bytes (take (Z.to_nat 9) buf) ∧
  (cksum2 buf 9 = rd buf 9 ↔ cksum2 buf (9 + 1) = 0).
Proof.
  split; [evaluate |].
  apply (cksum2_xor [1; 2; 3; 4; 5; 6; 7; 8; 9; 1] 9); evaluate.
Defined.

Lemma cksum3_nibbles_witness :
  let g := set_nibble 1 globals0 in
  let buf := [0x12; 0x34] in
  (0 <= 2 <= 255 ∧ Forall (λ d, 0 <= d < 256) buf) ∧
  let ns := ks300_nibbles (nz (nibble g)) buf 2 in
  let x := xor_bytes ns in
  0 <= x < 16 ∧
  cksum3 g buf 2 = 16 * ((5 + sum_bytes ns + x) mod 16) + x.
Proof.
  split; [split; [lia | repeat constructor; lia] |].
  apply (cksum3_nibbles (set_nibble 1 globals0) [0x12; 0x34] 2);
    [lia | repeat constructor; lia].
Defined.

Lemma makeavg_between_witness :
  (0 <= 25 < 256 ∧ 0 <= 38 < 256) ∧
  Z.min 25 38 <= makeavg 25 38 <= Z.max 25 38 ∧
  0 <= makeavg 25 38 < 256 ∧
  makeavg 25 25 = 25.
Proof.
  split; [lia |].
  apply (makeavg_between 25 38); lia.
Defined.

Lemma wave_equals_tolerance_witness :
  let a := mk_wave 25 23 in
  (0 <= 26 < 256 ∧ 0 <= 24 < 256 ∧ 0 <= hightime a < 256 ∧ 0 <= lowtime a < 256) ∧
  (wave_equals a 26 24 STATE_COLLECT = 0 ∨ wave_equals a 26 24 STATE_COLLECT = 1) ∧
  (wave_equals a 26 24 STATE_COLLECT = 1 ↔ near (tolerance STATE_COLLECT) a 26 24) ∧
  wave_equals a 26 24 STATE_COLLECT
    = wave_equals (mk_wave 26 24) (hightime a) (lowtime a) STATE_COLLECT ∧
  wave_equals (mk_wave 26 24) 26 24 STATE_COLLECT = 1 ∧
  (wave_equals a 26 24 STATE_COLLECT = 1 → wave_equals a 26 24 STATE_IT = 1).
Proof.
  split; [evaluate |].
  apply (wave_equals_tolerance (mk_wave 25 23) 26 24 STATE_COLLECT); evaluate.
Defined.

Lemma getbits_reads_witness :
  let d := [0xA5; 0x0F] in
  (0 <= 4 ∧ 0 <= 8 <= 8 ∧ 4 + 8 <= 2040) ∧
  let bs := bits_from d 4 (Z.to_nat 8) in
  getbits (at_pos d 4) 8 1 =
    (if nz 1 then msb_first bs else lsb_first bs, at_pos d (4 + 8)) ∧
  0 <= (getbits (at_pos d 4) 8 1).1 < 2 ^ 8.
Proof.
  split; [lia |].
  apply (getbits_reads [0xA5; 0x0F] 4 8 1); lia.
Defined.

Lemma it_tcm97001_copy_witness :
  let g := it_second in
  let b := bucket_at g (bucket_out g) in
  (8 <= length (obuf g))%nat ∧
  let r := analyze_it b g in
  let r' := analyze_tcm97001 b g in
  (r.1 = 1 ↔ it_shape b) ∧ (r.1 = 1 → copied (byteidx b) b r.2) ∧
  (r.1 ≠ 1 → r = (0, g)) ∧
  (r'.1 = 1 ↔ tcm97001_shape b) ∧ (r'.1 = 1 → copied 3 b r'.2) ∧
  (r'.1 ≠ 1 → r' = (0, g)).
Proof.
  split; [evaluate |].
  apply (it_tcm97001_copy (bucket_at it_second (bucket_out it_second)) it_second).
  evaluate.
Defined.

Lemma revolt_decoder_witness :
  let g := revolt_frame in
  let b := bucket_at g 0 in
  ((11 <= length (obuf g))%nat ∧ (analyze_revolt b g).1 = 1) ∧
  let r := analyze_revolt b g in
  (r.1 = 0 ∨ r.1 = 1) ∧
  (r.1 = 1 ↔
   revolt_shape b ∧
   rd (data b) 11 = sum_bytes (map (rd (data b)) (seqZ 0 11)) mod 256) ∧
  (r.1 = 1 → copied 11 b r.2).
Proof.
  split; [evaluate |].
  apply (revolt_decoder (bucket_at revolt_frame 0) revolt_frame). evaluate.
Defined.

Lemma addbits_read_back_witness :
  let g := synced 0 in
  let bits := [1; 0; 1; 1; 0; 0; 1; 0; 1] in
  let b := bucket_at g 0 in
  let b' := bucket_at (addbits 0 bits g) 0 in
  (0 <= 0 ∧ (Z.to_nat 0 < length (bucket_array g))%nat ∧
   MAXMSG <= 255 ∧ length (data b) = Z.to_nat MAXMSG ∧
   0 <= byteidx b ∧ 0 <= bitidx b <= 7 ∧ clean_cursor b ∧
   bitcount b + Z.of_nat (length bits) <= 8 * MAXMSG) ∧
  bitcount b' = bitcount b + Z.of_nat (length bits) ∧
  bits_from (data b') (bitcount b) (length bits) = map nz bits ∧
  (∀ p, 0 <= p < bitcount b → bit_at (data b') p = bit_at (data b) p).
Proof.
  assert (clean_cursor (bucket_at (synced 0) 0)) as Hc.
  { intros k _.
    assert (rd (data (bucket_at (synced 0) 0)) (byteidx (bucket_at (synced 0) 0)) = 0) as ->
      by (vm_compute; reflexivity).
    apply Z.bits_0. }
  split; [repeat split; try exact Hc; evaluate |].
  apply (addbits_read_back 0 [1; 0; 1; 1; 0; 0; 1; 0; 1] (synced 0));
    try exact Hc; evaluate.
Defined.

Lemma ring_is_a_queue_witness :
  1 <= RCV_BUCKETS <= 255 ∧
  ∀ g, reachable g →
    fifo g ∧ ∀ m, 0 <= m < bucket_nrused g → waiting g m ≠ bucket_in g.
Proof.
  split; [evaluate |].
  apply ring_is_a_queue. evaluate.
Defined.

Lemma task_takes_tail_witness :
  let e := quiet 5 in
  let g := ring_full in
  (1 <= RCV_BUCKETS <= 255 ∧ fifo g ∧ bucket_nrused g ≠ 0) ∧
  let g' := RfAnalyze_Task e g in
  state (bucket_at g' (bucket_out g)) = STATE_RESET ∧
  bucket_out g' = (bucket_out g + 1) mod RCV_BUCKETS ∧
  bucket_nrused g' = bucket_nrused g - 1 ∧
  bucket_in g' = bucket_in g ∧
  (∀ m, waiting g' m = waiting g (m + 1)).
Proof.
  split; [evaluate |].
  apply (task_takes_tail (quiet 5) ring_full); evaluate.
Defined.

Lemma handlers_leave_waiting_buckets_witness :
  let e := mk_env 0 0 (16 * 25) false 0 0 0 in
  let g := ring_full in
  (1 <= RCV_BUCKETS <= 255 ∧ reachable g ∧ 0 <= 1 < bucket_nrused g) ∧
  bucket_at (CC1100_INTVECT e g) (waiting g 1) = bucket_at g (waiting g 1) ∧
  bucket_at (TIMER1_COMPA_vect g) (waiting g 1) = bucket_at g (waiting g 1).
Proof.
  assert (reachable ring_full) as Hr by apply reachable_run, reachable_start.
  split; [split; [evaluate | split; [exact Hr | evaluate]] |].
  apply (handlers_leave_waiting_buckets (mk_env 0 0 (16 * 25) false 0 0 0) ring_full 1);
    [evaluate | exact Hr | evaluate].
Defined.

Lemma repeats_are_suppressed_witness :
  let e := quiet 5 in
  let g := (dispatch fs20_frame).2 in
  (nz TYPE_FS20 = true ∧ TYPE_FS20 ≠ TYPE_IT ∧ TYPE_FS20 ≠ TYPE_TCM97001 ∧
   TYPE_FS20 ≠ TYPE_FHT ∧ report g REP_KNOWN = true ∧ 0 <= oby g <= 255 ∧
   (Z.to_nat (oby g) <= length (robuf g))%nat) ∧
  let g' := report_known e TYPE_FS20 g in
  let emitted := packageOK (packetCheckValues g') in
  (emitted = false ↔
   report g REP_REPEATED = false ∧ same_payload g ∧ within_reptime e g) ∧
  display g' = display g ++ (if emitted then frame_line e TYPE_FS20 g else []) ∧
  (report g REP_REPEATED = false →
   ∀ e2, u32 (ticks e2 - ticks e) < REPTIME →
         display (report_known e2 TYPE_FS20 (decoded_again g g')) = display g').
Proof.
  split; [evaluate |].
  apply (repeats_are_suppressed (quiet 5) TYPE_FS20 (dispatch fs20_frame).2); evaluate.
Defined.

Lemma analyze_framing_witness :
  let g := fs20_frame in
  let b := bucket_at g 0 in
  let t := TYPE_FS20 in
  ((t = TYPE_FS20 ∨ t = TYPE_EM) ∧
   TYPE_FS20 ≠ TYPE_EM ∧ TYPE_FS20 ≠ TYPE_KS300 ∧ TYPE_EM ≠ TYPE_KS300 ∧
   0 <= byteidx b ∧ 0 <= bitidx b <= 7 ∧ bitcount b <= 254 ∧
   (Z.to_nat (bitcount b / 9 + 1) < length (obuf g))%nat) ∧
  let r := analyze b t g in
  let n := bitcount b in
  (r.1 = 0 ∨ r.1 = 1) ∧
  (r.1 = 1 ↔
   1 <= framed_count t n ∧
   ∀ k, 0 <= k < n / 9 → framed_check t (data b) k = true) ∧
  (r.1 = 1 →
   oby r.2 = framed_count t n ∧ nibble r.2 = 0 ∧
   ∀ k, 0 <= k < framed_count t n → rd (obuf r.2) k = framed_byte t (data b) k).
Proof.
  split; [evaluate |].
  apply (analyze_framing (bucket_at fs20_frame 0) TYPE_FS20 fs20_frame); evaluate.
Defined.

Lemma fs20_decoder_witness :
  let g := fs20_frame in
  let b := bucket_at g 0 in
  let m := bitcount b / 9 - 1 in
  let sum := (6 + sum_bytes (framed_bytes TYPE_FS20 (data b) m)) mod 256 in
  let check := framed_byte TYPE_FS20 (data b) m in
  let s := try_fs20 0 (0, g) in
  (TYPE_FS20 ≠ TYPE_EM ∧ TYPE_FS20 ≠ TYPE_KS300 ∧ TYPE_EM ≠ TYPE_KS300 ∧
   0 <= byteidx b ∧ 0 <= bitidx b <= 7 ∧ bitcount b <= 254 ∧
   (Z.to_nat (bitcount b / 9 + 1) < length (obuf g))%nat) ∧
  (framed TYPE_FS20 b ∧ 4 <= m ∧ (check = sum ∨ check = sum + 1) →
   s.1 = TYPE_FS20 ∧ unframed TYPE_FS20 b m s.2 ∧ rd (obuf s.2) m = sum) ∧
  (framed TYPE_FS20 b ∧ 4 <= m ∧ check = (sum + 6) mod 256 →
   s.1 = TYPE_FHT ∧ unframed TYPE_FS20 b m s.2 ∧ rd (obuf s.2) m = check) ∧
  (¬ (framed TYPE_FS20 b ∧ 4 <= m ∧
      (check = sum ∨ check = sum + 1 ∨ check = (sum + 6) mod 256)) →
   s.1 = 0).
Proof.
  split; [evaluate |].
  apply (fs20_decoder 0 fs20_frame); evaluate.
Defined.

Lemma em_decoder_witness :
  let g := em_frame in
  let b := bucket_at g 0 in
  let check := framed_byte TYPE_EM (data b) 9 in
  let ok := framed TYPE_EM b ∧ 89 <= bitcount b <= 97 ∧
            check = xor_bytes (framed_bytes TYPE_EM (data b) 9) in
  let s := try_em 0 (0, g) in
  (TYPE_FS20 ≠ TYPE_EM ∧ TYPE_FS20 ≠ TYPE_KS300 ∧ TYPE_EM ≠ TYPE_KS300 ∧
   0 <= byteidx b ∧ 0 <= bitidx b <= 7 ∧ bitcount b <= 254 ∧
   (Z.to_nat (bitcount b / 9 + 1) < length (obuf g))%nat) ∧
  (ok → s.1 = TYPE_EM ∧ unframed TYPE_EM b 9 s.2 ∧ rd (obuf s.2) 9 = check) ∧
  (¬ ok → s.1 = 0).
Proof.
  split; [evaluate |].
  apply (em_decoder 0 em_frame); evaluate.
Defined.

Lemma reports_off_is_silent_witness :
  let e := quiet 5 in
  let g := zeros16 in
  (report g REP_KNOWN = false ∧ report g REP_BITS = false ∧
   report g REP_MONITOR = false ∧ report g REP_LCDMON = false) ∧
  display (TIMER1_COMPA_vect g) = display g ∧
  (display (RfAnalyze_Task e g) = display g ∨
   HAS_FHT_80b = true ∧
   ∃ buf, display (RfAnalyze_Task e g) = display g ++ [fht_hook buf]).
Proof.
  split; [evaluate |].
  apply (reports_off_is_silent (quiet 5) zeros16); evaluate.
Defined.

Lemma collect_reception_witness :
  let bits := fs20_telegram [0x12; 0x34; 0x56; 0x78] in
  (16 <= length bits <= 159)%nat ∧
  let g := run (Report 1 :: collect_events bits) globals0 in
  let b := bucket_at g (bucket_out g) in
  bucket_nrused g = 1 ∧ bucket_in g = 1 ∧
  state b = STATE_COLLECT ∧ bitcount b = Z.of_nat (length bits) ∧
  bits_from (data b) 0 (length bits) = bits.
Proof.
  split; [evaluate |].
  apply (collect_reception 1 (fs20_telegram [0x12; 0x34; 0x56; 0x78])). evaluate.
Defined.

Lemma fs20_round_trip_witness :
  let payload := [0x12; 0x34; 0x56; 0x78] in
  ((4 <= length payload <= 16)%nat ∧ Forall (λ x, 0 <= x < 256) payload) ∧
  display
    (run (Report 1 :: collect_events (fs20_telegram payload) ++ [Task (quiet 5)])
       globals0)
  = [DC TYPE_FS20] ++ map DH2 payload ++ [DNL].
Proof.
  split; [split; [simpl; lia | repeat constructor; lia] |].
  apply (fs20_round_trip (quiet 5) [0x12; 0x34; 0x56; 0x78]);
    [simpl; lia | repeat constructor; lia].
Defined.

Lemma fht_frames_filtered_witness :
  let e := quiet 5 in
  let g := (dispatch fht_frame).2 in
  (nz TYPE_FHT = true ∧ TYPE_FHT ≠ TYPE_IT ∧ TYPE_FHT ≠ TYPE_TCM97001 ∧
   report g REP_KNOWN = true ∧ 0 <= oby g <= 255 ∧
   (Z.to_nat (oby g) <= length (robuf g))%nat) ∧
  let g' := report_known e TYPE_FHT g in
  let emitted := packageOK (packetCheckValues g') in
  (emitted = false ↔
   (report g REP_REPEATED = false ∧ same_payload g ∧ within_reptime e g) ∨
   (report g REP_FHTPROTO = false ∧ fht_protocol_message g = true) ∨
   left_to_router e = true) ∧
  display g' = display g ++ (if emitted then frame_line e TYPE_FHT g else []).
Proof.
  split; [evaluate |].
  apply (fht_frames_filtered (quiet 5) (dispatch fht_frame).2); evaluate.
Defined.

Lemma analyze_ks300_framing_witness :
  let g := (try_ks300 0 (0, ks300_frame)).2 in
  let b := bucket_at g 0 in
  (TYPE_KS300 ≠ TYPE_FS20 ∧ TYPE_KS300 ≠ TYPE_EM ∧
   0 <= byteidx b ∧ 0 <= bitidx b <= 7 ∧ bitcount b <= 254 ∧
   (Z.to_nat (bitcount b / 10 + 1) < length (obuf g))%nat) ∧
  let r := analyze b TYPE_KS300 g in
  let n := bitcount b in
  (r.1 = 0 ∨ r.1 = 1) ∧
  (r.1 = 1 ↔ 1 <= ks300_count n ∧ ks300_framed (data b) n) ∧
  (r.1 = 1 →
   oby r.2 = ks300_count n ∧ nibble r.2 = b2z (n mod 10 =? 5) ∧
   (∀ k, 0 <= k < n / 10 → rd (obuf r.2) k = ks300_byte (data b) k) ∧
   (n mod 10 = 5 → rd (obuf r.2) (n / 10) = ks300_half (data b) (n / 10))).
Proof.
  split; [evaluate |].
  apply (analyze_ks300_framing (bucket_at (try_ks300 0 (0, ks300_frame)).2 0)
           (try_ks300 0 (0, ks300_frame)).2); evaluate.
Defined.

Lemma edge_coded_reception_witness :
  let bits := hms_01_bits in
  (16 <= length bits <= 159)%nat ∧
  let g := run (Report 1 :: edge_coded false bits) globals0 in
  let b := bucket_at g (bucket_out g) in
  bucket_nrused g = 1 ∧ bucket_in g = 1 ∧
  state b = STATE_HMS ∧
  bitcount b = Z.of_nat (length bits) ∧
  bits_from (data b) 0 (length bits) = bits.
Proof.
  split; [evaluate |].
  apply (edge_coded_reception false 1 hms_01_bits). evaluate.
Defined.

End CUL.
